(** * newserv: proxy command handlers and command framing

    A shallow embedding of the parts of [ProxyCommands.cc] and
    [SendCommands.cc] that rewrite, suppress or emit protocol frames,
    together with the properties the specification states about them.

    Conventions.
    - A [std::string] used as a byte buffer is a [list Z] ([bytes]); every
      stored byte is produced by [mod 256].
    - Fixed-width unsigned integers are [Z] with the wrap-around written out.
    - A C++ function that mutates its arguments and may throw becomes a
      function from the state to an [outcome] paired with the state reached
      (mutations made before a [throw] stay visible to the caller, as they do
      for objects passed by reference). *)

From Stdlib Require Import ZArith List Lia Bool String.
From stdpp Require Import base list gmap strings.

Open Scope Z_scope.

(** ** Byte buffers *)

Module Bytes.

Definition bytes := list Z.

(** Little-endian value of a run of bytes. *)
Fixpoint le_decode (bs : bytes) : Z :=
  match bs with
  | [] => 0
  | b :: r => b + 256 * le_decode r
  end.

(** The [n] low-order bytes of [v], least significant first. *)
Fixpoint le_encode (n : nat) (v : Z) : bytes :=
  match n with
  | O => []
  | S k => (v mod 256) :: le_encode k (v / 256)
  end.

(** Reading an [n]-byte little-endian field at byte offset [off]. *)
Definition load (n off : nat) (d : bytes) : Z :=
  le_decode (take n (drop off d)).

(** Writing an [n]-byte little-endian field at byte offset [off]; the callers
    have checked that the field lies inside the buffer. *)
Definition store (n off : nat) (v : Z) (d : bytes) : bytes :=
  take off d ++ le_encode n v ++ drop (off + n) d.

Definition get_u8 := load 1.
Definition get_u16l := load 2.
Definition get_u32l := load 4.
Definition put_u8 := store 1.
Definition put_u16l := store 2.
Definition put_u32l := store 4.

(** [std::string::resize(n, '\0')]. *)
Definition resize (n : nat) (d : bytes) : bytes :=
  take n d ++ replicate (n - length d) 0.

(** [htons] / [ntohs] on a little-endian host: swap the two bytes. *)
Definition bswap16 (v : Z) : Z := (v mod 256) * 256 + (v / 256) mod 256.

Definition is_byte (b : Z) : Prop := 0 <= b < 256.
Definition wf (d : bytes) : Prop := Forall is_byte d.

End Bytes.
Import Bytes.

(** ** Exceptions and stateful computations *)

(** The exception classes thrown by the handlers; all derive from
    [std::exception], which is what [process_proxy_command] catches. *)
Inductive exn :=
| logic_error (what : string)
| runtime_error (what : string)
| invalid_argument (what : string)
| out_of_range (what : string).

Inductive outcome (A : Type) :=
| Ret (a : A)
| Throw (e : exn).
Arguments Ret {A} a.
Arguments Throw {A} e.

(** A computation over a mutable state [St]: it returns or throws, and in both
    cases leaves the state it has reached. *)
Definition M (St A : Type) : Type := St -> outcome A * St.

Definition ret {St A} (a : A) : M St A := fun st => (Ret a, st).

Definition bind {St A B} (m : M St A) (k : A -> M St B) : M St B :=
  fun st =>
    match m st with
    | (Ret a, st') => k a st'
    | (Throw e, st') => (Throw e, st')
    end.

Definition throw {St A} (e : exn) : M St A := fun st => (Throw e, st).
Definition get {St} : M St St := fun st => (Ret st, st).
Definition modify {St} (f : St -> St) : M St unit := fun st => (Ret tt, f st).

(** [try { m } catch (const exception& e) { h }]. *)
Definition try_catch {St A} (m : M St A) (h : exn -> M St A) : M St A :=
  fun st =>
    match m st with
    | (Ret a, st') => (Ret a, st')
    | (Throw e, st') => h e st'
    end.

Declare Scope monad_scope.
Delimit Scope monad_scope with monad.
Notation "x <- m ;; k" := (bind m (fun x => k))
  (at level 100, m at next level, right associativity) : monad_scope.
Notation "m ;; k" := (bind m (fun _ => k))
  (at level 100, right associativity) : monad_scope.
Open Scope monad_scope.

Definition when {St} (b : bool) (m : M St unit) : M St unit :=
  if b then m else ret tt.

(** [for (size_t x = start; x < start + n; x++) body(x)], threading an
    accumulator (the handlers' local [modified] flag). *)
Fixpoint for_loop {St A} (n : nat) (start : nat) (body : nat -> A -> M St A) (acc : A) : M St A :=
  match n with
  | O => ret acc
  | S k => acc' <- body start acc ;; for_loop k (S start) body acc'
  end.

(** ** The data model

    The sources hold [ProxyCommands.cc], [SendCommands.cc], [Client.hh] and
    [Episode3/Tournament.hh].  The types their functions work on are declared
    in headers that are not among them ([Version.hh], [License.hh],
    [PSOEncryption.hh], [Channel.hh], [ProxyServer.hh], [ServerState.hh]); the
    records below hold the members the functions under [src/] read or write,
    with the types those uses require. *)

(** Modelled from the spec: [GameVersion] is declared in [Version.hh], which is
    not among the sources.  The spec has six variants; they are listed in the
    order of the enumerators, the order the tables [server_handlers],
    [client_handlers] and [version_to_port_name] rely on. *)
Inductive GameVersion := DC | PC | PATCH | GC | XB | BB.

Definition version_index (v : GameVersion) : nat :=
  match v with DC => 0 | PC => 1 | PATCH => 2 | GC => 3 | XB => 4 | BB => 5 end%nat.

Definition GameVersion_eqb (a b : GameVersion) : bool :=
  (version_index a =? version_index b)%nat.

(** Modelled from the spec: [License] is declared in [License.hh], which is
    not among the sources; the spec gives it as
    [{serial:u32, access_key:string, gc_password?:string}]. *)
Record License := {
  serial_number : Z;
  access_key : string;
  gc_password : string;
}.

(** [struct ClientConfig] of [Client.hh] (packed). *)
Record ClientConfig := {
  magic : Z;
  bb_game_state : Z;
  bb_player_index : Z;
  flags : Z;
  unused : list Z;
  unused_bb_only : list Z;
}.

(** The bytes of a [ClientConfig] in memory: [uint64_t], two [uint8_t],
    [uint16_t], then the [uint32_t] arrays, without padding. *)
Definition encode_ClientConfig (c : ClientConfig) : bytes :=
  le_encode 8 (magic c) ++ le_encode 1 (bb_game_state c) ++
  le_encode 1 (bb_player_index c) ++ le_encode 2 (flags c) ++
  concat (le_encode 4 <$> unused c) ++ concat (le_encode 4 <$> unused_bb_only c).

Definition set_flags (f : Z) (c : ClientConfig) : ClientConfig :=
  {| magic := magic c; bb_game_state := bb_game_state c;
     bb_player_index := bb_player_index c; flags := f;
     unused := unused c; unused_bb_only := unused_bb_only c |}.

(** The part of a [sockaddr_storage] the handlers look at, seen as a
    [sockaddr_in]: the family, the raw [s_addr] and the port in network byte
    order. *)
Record sockaddr_in := {
  sin_family : Z;
  sin_addr : Z;
  sin_port : Z;
}.

Definition AF_INET : Z := 2.

(** Modelled from the spec: the ciphers are declared in [PSOEncryption.hh],
    which is not among the sources; only their construction matters here.  A
    multi-key detector is made from a pool of candidate keys, an expected
    first plaintext and the key material of the server-init frame; it is an
    object shared between the session and the client channel and referred to
    by the imitators, so detectors live in a store and are named by their
    address in it. *)
Record Detector := {
  possible_keys : list bytes;
  expected_first_data : bytes;
  detector_seed : bytes;
}.

Inductive Crypt :=
| PSOV2Encryption (key : Z)
| PSOV3Encryption (key : Z)
| PSOBBMultiKeyDetectorEncryption (addr : nat)
| PSOBBMultiKeyImitatorEncryption (detector : nat) (seed : bytes) (flag : bool).

(** One frame handed to [Channel::send], with the outbound cipher the
    channel held at that moment ([None]: the frame leaves unencrypted). *)
Record Sent := {
  sent_command : Z;
  sent_flag : Z;
  sent_data : bytes;
  sent_crypt : option Crypt;
}.

(** Modelled from the spec: [Channel] is declared in [Channel.hh], which is
    not among the sources.  The spec's channel is a framed, encrypted byte
    stream bound to one endpoint that owns its in and out ciphers;
    [connected] is what [connected()] answers, and [outbox] the frames handed
    to [send], oldest first. *)
Record Channel := {
  connected : bool;
  is_virtual_connection : bool;
  crypt_in : option Crypt;
  crypt_out : option Crypt;
  local_addr : sockaddr_in;
  outbox : list Sent;
}.

Definition set_crypt_in (c : option Crypt) (ch : Channel) : Channel :=
  {| connected := connected ch; is_virtual_connection := is_virtual_connection ch;
     crypt_in := c; crypt_out := crypt_out ch;
     local_addr := local_addr ch; outbox := outbox ch |}.

Definition set_crypt_out (c : option Crypt) (ch : Channel) : Channel :=
  {| connected := connected ch; is_virtual_connection := is_virtual_connection ch;
     crypt_in := crypt_in ch; crypt_out := c;
     local_addr := local_addr ch; outbox := outbox ch |}.

Definition set_connected (b : bool) (ch : Channel) : Channel :=
  {| connected := b; is_virtual_connection := is_virtual_connection ch;
     crypt_in := crypt_in ch; crypt_out := crypt_out ch;
     local_addr := local_addr ch; outbox := outbox ch |}.

(** Modelled from the spec: [Channel::send] is declared in [Channel.hh] and
    defined in [Channel.cc], which are not among the sources.  The spec's
    Channel "frames, pads, encrypts, enqueues": the frame is queued behind the
    frames already sent, under the outbound cipher installed at that time. *)
Definition Channel_send (command flag : Z) (d : bytes) (ch : Channel) : Channel :=
  {| connected := connected ch; is_virtual_connection := is_virtual_connection ch;
     crypt_in := crypt_in ch; crypt_out := crypt_out ch;
     local_addr := local_addr ch;
     outbox := outbox ch ++
       [{| sent_command := command; sent_flag := flag; sent_data := d;
           sent_crypt := crypt_out ch |}] |}.

(** One slot of the proxy's mirror of the lobby it is in. *)
Record LobbyPlayer := {
  guild_card_number : Z;
  name : bytes;
}.

Definition empty_LobbyPlayer : LobbyPlayer := {| guild_card_number := 0; name := [] |}.

Inductive LogLevel := INFO | WARNING | ERROR.

(** A log line: the level and the format string of the call. *)
Definition LogLine : Type := LogLevel * string.

(** Modelled from the spec: [ProxyServer::LinkedSession] is declared in
    [ProxyServer.hh], which is not among the sources.  The record holds the
    members the modelled handlers read or write (the spec's proxy session:
    two channels, the license if linked, the remote guild card number, the
    captured login command, the saved client config, the lobby mirror, the
    override toggles).  [detectors] is the store of detector objects
    ([detector_crypt] and the ciphers name a detector by its index there);
    [connect_calls] records the calls of [connect()] with the destination
    each one used. *)
Record LinkedSession := {
  version : GameVersion;
  license : option License;
  remote_guild_card_number : Z;
  client_channel : Channel;
  server_channel : Channel;
  detectors : list Detector;
  detector_crypt : option nat;
  login_command_bb : bytes;
  enable_remote_ip_crc_patch : bool;
  remote_ip_crc : Z;
  prev_server_command_bytes : bytes;
  next_destination : sockaddr_in;
  local_port : Z;
  lobby_players : list LobbyPlayer;
  lobby_client_id : Z;
  leader_client_id : Z;
  newserv_client_config : ClientConfig;
  override_lobby_event : Z;
  override_lobby_number : Z;
  session_log : list LogLine;
  connect_calls : list sockaddr_in;
}.


Definition set_client_channel (x : Channel) (r : LinkedSession) : LinkedSession :=
  {| version := version r;
     license := license r;
     remote_guild_card_number := remote_guild_card_number r;
     client_channel := x;
     server_channel := server_channel r;
     detectors := detectors r;
     detector_crypt := detector_crypt r;
     login_command_bb := login_command_bb r;
     enable_remote_ip_crc_patch := enable_remote_ip_crc_patch r;
     remote_ip_crc := remote_ip_crc r;
     prev_server_command_bytes := prev_server_command_bytes r;
     next_destination := next_destination r;
     local_port := local_port r;
     lobby_players := lobby_players r;
     lobby_client_id := lobby_client_id r;
     leader_client_id := leader_client_id r;
     newserv_client_config := newserv_client_config r;
     override_lobby_event := override_lobby_event r;
     override_lobby_number := override_lobby_number r;
     session_log := session_log r;
     connect_calls := connect_calls r |}.

Definition set_server_channel (x : Channel) (r : LinkedSession) : LinkedSession :=
  {| version := version r;
     license := license r;
     remote_guild_card_number := remote_guild_card_number r;
     client_channel := client_channel r;
     server_channel := x;
     detectors := detectors r;
     detector_crypt := detector_crypt r;
     login_command_bb := login_command_bb r;
     enable_remote_ip_crc_patch := enable_remote_ip_crc_patch r;
     remote_ip_crc := remote_ip_crc r;
     prev_server_command_bytes := prev_server_command_bytes r;
     next_destination := next_destination r;
     local_port := local_port r;
     lobby_players := lobby_players r;
     lobby_client_id := lobby_client_id r;
     leader_client_id := leader_client_id r;
     newserv_client_config := newserv_client_config r;
     override_lobby_event := override_lobby_event r;
     override_lobby_number := override_lobby_number r;
     session_log := session_log r;
     connect_calls := connect_calls r |}.

Definition set_detectors (x : list Detector) (r : LinkedSession) : LinkedSession :=
  {| version := version r;
     license := license r;
     remote_guild_card_number := remote_guild_card_number r;
     client_channel := client_channel r;
     server_channel := server_channel r;
     detectors := x;
     detector_crypt := detector_crypt r;
     login_command_bb := login_command_bb r;
     enable_remote_ip_crc_patch := enable_remote_ip_crc_patch r;
     remote_ip_crc := remote_ip_crc r;
     prev_server_command_bytes := prev_server_command_bytes r;
     next_destination := next_destination r;
     local_port := local_port r;
     lobby_players := lobby_players r;
     lobby_client_id := lobby_client_id r;
     leader_client_id := leader_client_id r;
     newserv_client_config := newserv_client_config r;
     override_lobby_event := override_lobby_event r;
     override_lobby_number := override_lobby_number r;
     session_log := session_log r;
     connect_calls := connect_calls r |}.

Definition set_detector_crypt (x : option nat) (r : LinkedSession) : LinkedSession :=
  {| version := version r;
     license := license r;
     remote_guild_card_number := remote_guild_card_number r;
     client_channel := client_channel r;
     server_channel := server_channel r;
     detectors := detectors r;
     detector_crypt := x;
     login_command_bb := login_command_bb r;
     enable_remote_ip_crc_patch := enable_remote_ip_crc_patch r;
     remote_ip_crc := remote_ip_crc r;
     prev_server_command_bytes := prev_server_command_bytes r;
     next_destination := next_destination r;
     local_port := local_port r;
     lobby_players := lobby_players r;
     lobby_client_id := lobby_client_id r;
     leader_client_id := leader_client_id r;
     newserv_client_config := newserv_client_config r;
     override_lobby_event := override_lobby_event r;
     override_lobby_number := override_lobby_number r;
     session_log := session_log r;
     connect_calls := connect_calls r |}.

Definition set_login_command_bb (x : bytes) (r : LinkedSession) : LinkedSession :=
  {| version := version r;
     license := license r;
     remote_guild_card_number := remote_guild_card_number r;
     client_channel := client_channel r;
     server_channel := server_channel r;
     detectors := detectors r;
     detector_crypt := detector_crypt r;
     login_command_bb := x;
     enable_remote_ip_crc_patch := enable_remote_ip_crc_patch r;
     remote_ip_crc := remote_ip_crc r;
     prev_server_command_bytes := prev_server_command_bytes r;
     next_destination := next_destination r;
     local_port := local_port r;
     lobby_players := lobby_players r;
     lobby_client_id := lobby_client_id r;
     leader_client_id := leader_client_id r;
     newserv_client_config := newserv_client_config r;
     override_lobby_event := override_lobby_event r;
     override_lobby_number := override_lobby_number r;
     session_log := session_log r;
     connect_calls := connect_calls r |}.

Definition set_enable_remote_ip_crc_patch (x : bool) (r : LinkedSession) : LinkedSession :=
  {| version := version r;
     license := license r;
     remote_guild_card_number := remote_guild_card_number r;
     client_channel := client_channel r;
     server_channel := server_channel r;
     detectors := detectors r;
     detector_crypt := detector_crypt r;
     login_command_bb := login_command_bb r;
     enable_remote_ip_crc_patch := x;
     remote_ip_crc := remote_ip_crc r;
     prev_server_command_bytes := prev_server_command_bytes r;
     next_destination := next_destination r;
     local_port := local_port r;
     lobby_players := lobby_players r;
     lobby_client_id := lobby_client_id r;
     leader_client_id := leader_client_id r;
     newserv_client_config := newserv_client_config r;
     override_lobby_event := override_lobby_event r;
     override_lobby_number := override_lobby_number r;
     session_log := session_log r;
     connect_calls := connect_calls r |}.

Definition set_remote_ip_crc (x : Z) (r : LinkedSession) : LinkedSession :=
  {| version := version r;
     license := license r;
     remote_guild_card_number := remote_guild_card_number r;
     client_channel := client_channel r;
     server_channel := server_channel r;
     detectors := detectors r;
     detector_crypt := detector_crypt r;
     login_command_bb := login_command_bb r;
     enable_remote_ip_crc_patch := enable_remote_ip_crc_patch r;
     remote_ip_crc := x;
     prev_server_command_bytes := prev_server_command_bytes r;
     next_destination := next_destination r;
     local_port := local_port r;
     lobby_players := lobby_players r;
     lobby_client_id := lobby_client_id r;
     leader_client_id := leader_client_id r;
     newserv_client_config := newserv_client_config r;
     override_lobby_event := override_lobby_event r;
     override_lobby_number := override_lobby_number r;
     session_log := session_log r;
     connect_calls := connect_calls r |}.

Definition set_next_destination (x : sockaddr_in) (r : LinkedSession) : LinkedSession :=
  {| version := version r;
     license := license r;
     remote_guild_card_number := remote_guild_card_number r;
     client_channel := client_channel r;
     server_channel := server_channel r;
     detectors := detectors r;
     detector_crypt := detector_crypt r;
     login_command_bb := login_command_bb r;
     enable_remote_ip_crc_patch := enable_remote_ip_crc_patch r;
     remote_ip_crc := remote_ip_crc r;
     prev_server_command_bytes := prev_server_command_bytes r;
     next_destination := x;
     local_port := local_port r;
     lobby_players := lobby_players r;
     lobby_client_id := lobby_client_id r;
     leader_client_id := leader_client_id r;
     newserv_client_config := newserv_client_config r;
     override_lobby_event := override_lobby_event r;
     override_lobby_number := override_lobby_number r;
     session_log := session_log r;
     connect_calls := connect_calls r |}.

Definition set_lobby_players (x : list LobbyPlayer) (r : LinkedSession) : LinkedSession :=
  {| version := version r;
     license := license r;
     remote_guild_card_number := remote_guild_card_number r;
     client_channel := client_channel r;
     server_channel := server_channel r;
     detectors := detectors r;
     detector_crypt := detector_crypt r;
     login_command_bb := login_command_bb r;
     enable_remote_ip_crc_patch := enable_remote_ip_crc_patch r;
     remote_ip_crc := remote_ip_crc r;
     prev_server_command_bytes := prev_server_command_bytes r;
     next_destination := next_destination r;
     local_port := local_port r;
     lobby_players := x;
     lobby_client_id := lobby_client_id r;
     leader_client_id := leader_client_id r;
     newserv_client_config := newserv_client_config r;
     override_lobby_event := override_lobby_event r;
     override_lobby_number := override_lobby_number r;
     session_log := session_log r;
     connect_calls := connect_calls r |}.

Definition set_lobby_client_id (x : Z) (r : LinkedSession) : LinkedSession :=
  {| version := version r;
     license := license r;
     remote_guild_card_number := remote_guild_card_number r;
     client_channel := client_channel r;
     server_channel := server_channel r;
     detectors := detectors r;
     detector_crypt := detector_crypt r;
     login_command_bb := login_command_bb r;
     enable_remote_ip_crc_patch := enable_remote_ip_crc_patch r;
     remote_ip_crc := remote_ip_crc r;
     prev_server_command_bytes := prev_server_command_bytes r;
     next_destination := next_destination r;
     local_port := local_port r;
     lobby_players := lobby_players r;
     lobby_client_id := x;
     leader_client_id := leader_client_id r;
     newserv_client_config := newserv_client_config r;
     override_lobby_event := override_lobby_event r;
     override_lobby_number := override_lobby_number r;
     session_log := session_log r;
     connect_calls := connect_calls r |}.

Definition set_leader_client_id (x : Z) (r : LinkedSession) : LinkedSession :=
  {| version := version r;
     license := license r;
     remote_guild_card_number := remote_guild_card_number r;
     client_channel := client_channel r;
     server_channel := server_channel r;
     detectors := detectors r;
     detector_crypt := detector_crypt r;
     login_command_bb := login_command_bb r;
     enable_remote_ip_crc_patch := enable_remote_ip_crc_patch r;
     remote_ip_crc := remote_ip_crc r;
     prev_server_command_bytes := prev_server_command_bytes r;
     next_destination := next_destination r;
     local_port := local_port r;
     lobby_players := lobby_players r;
     lobby_client_id := lobby_client_id r;
     leader_client_id := x;
     newserv_client_config := newserv_client_config r;
     override_lobby_event := override_lobby_event r;
     override_lobby_number := override_lobby_number r;
     session_log := session_log r;
     connect_calls := connect_calls r |}.

Definition set_newserv_client_config (x : ClientConfig) (r : LinkedSession) : LinkedSession :=
  {| version := version r;
     license := license r;
     remote_guild_card_number := remote_guild_card_number r;
     client_channel := client_channel r;
     server_channel := server_channel r;
     detectors := detectors r;
     detector_crypt := detector_crypt r;
     login_command_bb := login_command_bb r;
     enable_remote_ip_crc_patch := enable_remote_ip_crc_patch r;
     remote_ip_crc := remote_ip_crc r;
     prev_server_command_bytes := prev_server_command_bytes r;
     next_destination := next_destination r;
     local_port := local_port r;
     lobby_players := lobby_players r;
     lobby_client_id := lobby_client_id r;
     leader_client_id := leader_client_id r;
     newserv_client_config := x;
     override_lobby_event := override_lobby_event r;
     override_lobby_number := override_lobby_number r;
     session_log := session_log r;
     connect_calls := connect_calls r |}.

Definition set_session_log (x : list LogLine) (r : LinkedSession) : LinkedSession :=
  {| version := version r;
     license := license r;
     remote_guild_card_number := remote_guild_card_number r;
     client_channel := client_channel r;
     server_channel := server_channel r;
     detectors := detectors r;
     detector_crypt := detector_crypt r;
     login_command_bb := login_command_bb r;
     enable_remote_ip_crc_patch := enable_remote_ip_crc_patch r;
     remote_ip_crc := remote_ip_crc r;
     prev_server_command_bytes := prev_server_command_bytes r;
     next_destination := next_destination r;
     local_port := local_port r;
     lobby_players := lobby_players r;
     lobby_client_id := lobby_client_id r;
     leader_client_id := leader_client_id r;
     newserv_client_config := newserv_client_config r;
     override_lobby_event := override_lobby_event r;
     override_lobby_number := override_lobby_number r;
     session_log := x;
     connect_calls := connect_calls r |}.

Definition set_connect_calls (x : list sockaddr_in) (r : LinkedSession) : LinkedSession :=
  {| version := version r;
     license := license r;
     remote_guild_card_number := remote_guild_card_number r;
     client_channel := client_channel r;
     server_channel := server_channel r;
     detectors := detectors r;
     detector_crypt := detector_crypt r;
     login_command_bb := login_command_bb r;
     enable_remote_ip_crc_patch := enable_remote_ip_crc_patch r;
     remote_ip_crc := remote_ip_crc r;
     prev_server_command_bytes := prev_server_command_bytes r;
     next_destination := next_destination r;
     local_port := local_port r;
     lobby_players := lobby_players r;
     lobby_client_id := lobby_client_id r;
     leader_client_id := leader_client_id r;
     newserv_client_config := newserv_client_config r;
     override_lobby_event := override_lobby_event r;
     override_lobby_number := override_lobby_number r;
     session_log := session_log r;
     connect_calls := x |}.

Definition set_version (x : GameVersion) (r : LinkedSession) : LinkedSession :=
  {| version := x;
     license := license r;
     remote_guild_card_number := remote_guild_card_number r;
     client_channel := client_channel r;
     server_channel := server_channel r;
     detectors := detectors r;
     detector_crypt := detector_crypt r;
     login_command_bb := login_command_bb r;
     enable_remote_ip_crc_patch := enable_remote_ip_crc_patch r;
     remote_ip_crc := remote_ip_crc r;
     prev_server_command_bytes := prev_server_command_bytes r;
     next_destination := next_destination r;
     local_port := local_port r;
     lobby_players := lobby_players r;
     lobby_client_id := lobby_client_id r;
     leader_client_id := leader_client_id r;
     newserv_client_config := newserv_client_config r;
     override_lobby_event := override_lobby_event r;
     override_lobby_number := override_lobby_number r;
     session_log := session_log r;
     connect_calls := connect_calls r |}.

Definition set_license (x : option License) (r : LinkedSession) : LinkedSession :=
  {| version := version r;
     license := x;
     remote_guild_card_number := remote_guild_card_number r;
     client_channel := client_channel r;
     server_channel := server_channel r;
     detectors := detectors r;
     detector_crypt := detector_crypt r;
     login_command_bb := login_command_bb r;
     enable_remote_ip_crc_patch := enable_remote_ip_crc_patch r;
     remote_ip_crc := remote_ip_crc r;
     prev_server_command_bytes := prev_server_command_bytes r;
     next_destination := next_destination r;
     local_port := local_port r;
     lobby_players := lobby_players r;
     lobby_client_id := lobby_client_id r;
     leader_client_id := leader_client_id r;
     newserv_client_config := newserv_client_config r;
     override_lobby_event := override_lobby_event r;
     override_lobby_number := override_lobby_number r;
     session_log := session_log r;
     connect_calls := connect_calls r |}.

Definition set_prev_server_command_bytes (x : bytes) (r : LinkedSession) : LinkedSession :=
  {| version := version r;
     license := license r;
     remote_guild_card_number := remote_guild_card_number r;
     client_channel := client_channel r;
     server_channel := server_channel r;
     detectors := detectors r;
     detector_crypt := detector_crypt r;
     login_command_bb := login_command_bb r;
     enable_remote_ip_crc_patch := enable_remote_ip_crc_patch r;
     remote_ip_crc := remote_ip_crc r;
     prev_server_command_bytes := x;
     next_destination := next_destination r;
     local_port := local_port r;
     lobby_players := lobby_players r;
     lobby_client_id := lobby_client_id r;
     leader_client_id := leader_client_id r;
     newserv_client_config := newserv_client_config r;
     override_lobby_event := override_lobby_event r;
     override_lobby_number := override_lobby_number r;
     session_log := session_log r;
     connect_calls := connect_calls r |}.

Definition set_local_port (x : Z) (r : LinkedSession) : LinkedSession :=
  {| version := version r;
     license := license r;
     remote_guild_card_number := remote_guild_card_number r;
     client_channel := client_channel r;
     server_channel := server_channel r;
     detectors := detectors r;
     detector_crypt := detector_crypt r;
     login_command_bb := login_command_bb r;
     enable_remote_ip_crc_patch := enable_remote_ip_crc_patch r;
     remote_ip_crc := remote_ip_crc r;
     prev_server_command_bytes := prev_server_command_bytes r;
     next_destination := next_destination r;
     local_port := x;
     lobby_players := lobby_players r;
     lobby_client_id := lobby_client_id r;
     leader_client_id := leader_client_id r;
     newserv_client_config := newserv_client_config r;
     override_lobby_event := override_lobby_event r;
     override_lobby_number := override_lobby_number r;
     session_log := session_log r;
     connect_calls := connect_calls r |}.

Definition set_override_lobby_event (x : Z) (r : LinkedSession) : LinkedSession :=
  {| version := version r;
     license := license r;
     remote_guild_card_number := remote_guild_card_number r;
     client_channel := client_channel r;
     server_channel := server_channel r;
     detectors := detectors r;
     detector_crypt := detector_crypt r;
     login_command_bb := login_command_bb r;
     enable_remote_ip_crc_patch := enable_remote_ip_crc_patch r;
     remote_ip_crc := remote_ip_crc r;
     prev_server_command_bytes := prev_server_command_bytes r;
     next_destination := next_destination r;
     local_port := local_port r;
     lobby_players := lobby_players r;
     lobby_client_id := lobby_client_id r;
     leader_client_id := leader_client_id r;
     newserv_client_config := newserv_client_config r;
     override_lobby_event := x;
     override_lobby_number := override_lobby_number r;
     session_log := session_log r;
     connect_calls := connect_calls r |}.

Definition set_override_lobby_number (x : Z) (r : LinkedSession) : LinkedSession :=
  {| version := version r;
     license := license r;
     remote_guild_card_number := remote_guild_card_number r;
     client_channel := client_channel r;
     server_channel := server_channel r;
     detectors := detectors r;
     detector_crypt := detector_crypt r;
     login_command_bb := login_command_bb r;
     enable_remote_ip_crc_patch := enable_remote_ip_crc_patch r;
     remote_ip_crc := remote_ip_crc r;
     prev_server_command_bytes := prev_server_command_bytes r;
     next_destination := next_destination r;
     local_port := local_port r;
     lobby_players := lobby_players r;
     lobby_client_id := lobby_client_id r;
     leader_client_id := leader_client_id r;
     newserv_client_config := newserv_client_config r;
     override_lobby_event := override_lobby_event r;
     override_lobby_number := x;
     session_log := session_log r;
     connect_calls := connect_calls r |}.

(** Modelled from the spec: [ServerState] is declared in [ServerState.hh],
    which is not among the sources; restricted likewise. *)
Record PortConfiguration := {
  port : Z;
}.

Record ServerState := {
  server_name : list Z;
  name_to_port_config : gmap string PortConfiguration;
  bb_private_keys : list bytes;
}.

(** Modelled from the spec: [LinkedSession::disconnect] is defined in
    [ProxyServer.cc], which is not among the sources.  The spec has the proxy
    disconnect both channels together. *)
Definition LinkedSession_disconnect (ss : LinkedSession) : LinkedSession :=
  set_server_channel (set_connected false (server_channel ss))
    (set_client_channel (set_connected false (client_channel ss)) ss).

(** Modelled from the spec: [LinkedSession::connect] is defined in
    [ProxyServer.cc], which is not among the sources.  The proxy opens its next
    upstream connection to the recorded destination; the call is recorded with
    the destination it reads. *)
Definition LinkedSession_connect (ss : LinkedSession) : LinkedSession :=
  set_connect_calls (connect_calls ss ++ [next_destination ss]) ss.

(** ** Handler state and results *)

(** What a handler can touch: the session and the command's payload, both
    passed by reference. *)
Record HState := {
  hs_session : LinkedSession;
  hs_data : bytes;
}.

Definition get_session : M HState LinkedSession := fun st => (Ret (hs_session st), st).
Definition get_data : M HState bytes := fun st => (Ret (hs_data st), st).
Definition modify_session (f : LinkedSession -> LinkedSession) : M HState unit :=
  modify (fun st => {| hs_session := f (hs_session st); hs_data := hs_data st |}).
Definition set_data (d : bytes) : M HState unit :=
  modify (fun st => {| hs_session := hs_session st; hs_data := d |}).

Definition write_log (lvl : LogLevel) (msg : string) : M HState unit :=
  modify_session (fun ss => set_session_log (session_log ss ++ [(lvl, msg)]) ss).

Definition client_send (command flag : Z) (d : bytes) : M HState unit :=
  modify_session (fun ss => set_client_channel (Channel_send command flag d (client_channel ss)) ss).
Definition server_send (command flag : Z) (d : bytes) : M HState unit :=
  modify_session (fun ss => set_server_channel (Channel_send command flag d (server_channel ss)) ss).

Module HandlerResult.
Inductive Type_ := FORWARD | SUPPRESS | MODIFIED.
(** [new_command] and [new_flag] are only used when the type is [MODIFIED];
    [-1] stands for the original command's value. *)
Record t := {
  type : Type_;
  new_command : Z;
  new_flag : Z;
}.
Definition of_type (ty : Type_) : t := {| type := ty; new_command := -1; new_flag := -1 |}.
Definition with_values (ty : Type_) (c f : Z) : t :=
  {| type := ty; new_command := c mod 2 ^ 16; new_flag := f mod 2 ^ 32 |}.
End HandlerResult.
Import HandlerResult(FORWARD, SUPPRESS, MODIFIED).

(** Modelled from the spec: [check_size_t] is defined in [PSOProtocol.hh],
    which is not among the sources.  It accepts a payload whose size lies
    between the two bounds and rejects any other (a protocol error); the
    one-argument form uses the record's size for both bounds. *)
Definition check_size_t (min_size max_size : Z) : M HState unit :=
  d <- get_data ;;
  if Z.of_nat (length d) <? min_size then throw (runtime_error "command too small")
  else if max_size <? Z.of_nat (length d) then throw (runtime_error "command too large")
  else ret tt.

(** The signature [process_command_t]: server state, command, flag; the
    session and the payload are the state. *)
Definition process_command_t : Type := ServerState -> Z -> Z -> M HState HandlerResult.t.

(** ** Library functions of phosg *)

(** Modelled from the spec: [fnv1a64] and [crc32] come from the phosg library
    ([phosg/Hash.hh]), which is not among the sources: the "64-bit content
    hash" is FNV-1a with the 64-bit offset basis and prime, the "CRC-32" is
    that of IEEE 802.3 (reflected polynomial [0xEDB88320], initial value and
    final XOR [0xFFFFFFFF]). *)
Definition fnv1a64 (d : bytes) : Z :=
  fold_left (fun h b => (Z.lxor h b * 0x100000001B3) mod 2 ^ 64) d 0xCBF29CE484222325.

Definition crc32_bit (c : Z) : Z :=
  if Z.testbit c 0 then Z.lxor (Z.shiftr c 1) 0xEDB88320 else Z.shiftr c 1.

Definition crc32_byte (c b : Z) : Z :=
  Nat.iter 8 crc32_bit (Z.lxor c b).

Definition crc32 (d : bytes) : Z :=
  Z.lxor (fold_left crc32_byte d 0xFFFFFFFF) 0xFFFFFFFF.

(** ** Wire records *)

(** Modelled from the spec: the wire records are declared in
    [CommandFormats.hh], which is not among the sources.  The spec has each
    of them as a packed, little-endian, fixed-offset layout; the sizes and
    offsets in this section are those layouts for the members the handlers
    use.

    [SC_TextHeader_01_06_11_B0_EE]: two [le_uint32_t], the second being
    [guild_card_number] (the writer in [send_text_message_to_client] puts
    [{0, 0}], and [process_client_06] finds the text 8 bytes in). *)
Definition sizeof_SC_TextHeader_01_06_11_B0_EE : nat := 8.
Definition SC_TextHeader_guild_card_number : nat := 4.

(** [C_GuildCardSearch_40]: [player_tag], [searcher_guild_card_number],
    [target_guild_card_number], each a [le_uint32_t]. *)
Definition sizeof_C_GuildCardSearch_40 : nat := 12.
Definition C_GuildCardSearch_40_searcher_guild_card_number : nat := 4.
Definition C_GuildCardSearch_40_target_guild_card_number : nat := 8.

(** [S_Reconnect_19]: [be_uint32_t address], [le_uint16_t port],
    [le_uint16_t unused]. *)
Definition sizeof_S_Reconnect_19 : nat := 8.
Definition S_Reconnect_19_address : nat := 0.
Definition S_Reconnect_19_port : nat := 4.

Definition encode_S_Reconnect_19 (address port_ unused_ : Z) : bytes :=
  le_encode 4 address ++ le_encode 2 port_ ++ le_encode 2 unused_.

(** [S_ServerInit_BB_03_9B]: [copyright] (0x60 bytes), [server_key] and
    [client_key] (0x30 bytes each), then [after_message]. *)
Definition S_ServerInit_BB_03_9B_server_key : nat := 0x60.
Definition S_ServerInit_BB_03_9B_client_key : nat := 0x90.
Definition S_ServerInit_BB_03_9B_after_message : nat := 0xC0.
Definition sizeof_bb_key : nat := 0x30.

Definition field_bytes (off n : nat) (d : bytes) : bytes := take n (drop off d).

(** [S_LeaveLobby_66_69_Ep3_E9]: [uint8_t client_id], [uint8_t leader_id],
    [le_uint16_t unused]. *)
Definition encode_S_LeaveLobby_66_69_Ep3_E9 (client_id leader_id unused_ : Z) : bytes :=
  le_encode 1 client_id ++ le_encode 1 leader_id ++ le_encode 2 unused_.

(** [S_UpdateClientConfig_DC_PC_V3_04]: [player_tag], [guild_card_number],
    then the client config. *)
Definition encode_S_UpdateClientConfig_DC_PC_V3_04
    (player_tag guild_card : Z) (cfg : ClientConfig) : bytes :=
  le_encode 4 player_tag ++ le_encode 4 guild_card ++ encode_ClientConfig cfg.

(** ** Handlers of [ProxyCommands.cc] *)

(** [forward_command].  Its warning goes to [proxy_server_log], the others to
    the session's own log; the model keeps them in one list. *)
Definition forward_command (to_server : bool) (command flag : Z) : M HState unit :=
  ss <- get_session ;;
  d <- get_data ;;
  let ch := if to_server then server_channel ss else client_channel ss in
  if negb (connected ch) then
    write_log WARNING "No endpoint is present; dropping command"
  else if to_server then server_send command flag d
  else client_send command flag d.

Definition process_default : process_command_t :=
  fun _ _ _ => ret (HandlerResult.of_type FORWARD).

Definition process_server_dc_pc_v3_06 : process_command_t :=
  fun _ _ _ =>
    ss <- get_session ;;
    match license ss with
    | Some lic =>
        check_size_t (Z.of_nat sizeof_SC_TextHeader_01_06_11_B0_EE) 0xFFFF ;;
        d <- get_data ;;
        if get_u32l SC_TextHeader_guild_card_number d =? remote_guild_card_number ss then
          set_data (put_u32l SC_TextHeader_guild_card_number (serial_number lic) d) ;;
          ret (HandlerResult.of_type MODIFIED)
        else ret (HandlerResult.of_type FORWARD)
    | None => ret (HandlerResult.of_type FORWARD)
    end.

Definition process_client_40 : process_command_t :=
  fun _ _ _ =>
    ss <- get_session ;;
    match license ss with
    | Some lic =>
        check_size_t (Z.of_nat sizeof_C_GuildCardSearch_40) (Z.of_nat sizeof_C_GuildCardSearch_40) ;;
        d <- get_data ;;
        modified1 <-
          (if get_u32l C_GuildCardSearch_40_searcher_guild_card_number d =? serial_number lic then
             set_data (put_u32l C_GuildCardSearch_40_searcher_guild_card_number
                         (remote_guild_card_number ss) d) ;;
             ret true
           else ret false) ;;
        d <- get_data ;;
        modified2 <-
          (if get_u32l C_GuildCardSearch_40_target_guild_card_number d =? serial_number lic then
             set_data (put_u32l C_GuildCardSearch_40_target_guild_card_number
                         (remote_guild_card_number ss) d) ;;
             ret true
           else ret modified1) ;;
        ret (HandlerResult.of_type (if modified2 then MODIFIED else FORWARD))
    | None => ret (HandlerResult.of_type FORWARD)
    end.

Definition process_server_bb_22 : process_command_t :=
  fun _ _ _ =>
    d <- get_data ;;
    when ((length d =? 0x2C)%nat && (fnv1a64 d =? 0x8AF8314316A27994))
      (write_log INFO "Enabling remote IP CRC patch" ;;
       modify_session (set_enable_remote_ip_crc_patch true)) ;;
    ret (HandlerResult.of_type FORWARD).

Definition process_server_game_19_patch_14 : process_command_t :=
  fun _ command _ =>
    (* Fill an undersize command from the previous server command's bytes. *)
    ss <- get_session ;;
    d <- get_data ;;
    when (length d <? length (prev_server_command_bytes ss))%nat
      (set_data (d ++ drop (length d) (prev_server_command_bytes ss))) ;;
    d <- get_data ;;
    when (length d <? sizeof_S_Reconnect_19)%nat
      (set_data (resize sizeof_S_Reconnect_19 d)) ;;
    d <- get_data ;;
    when (enable_remote_ip_crc_patch ss)
      (modify_session (set_remote_ip_crc (crc32 (take 4 d)))) ;;
    check_size_t (Z.of_nat sizeof_S_Reconnect_19) 0xB0 ;;
    modify_session (set_next_destination
      {| sin_family := AF_INET;
         sin_addr := get_u32l S_Reconnect_19_address d;
         sin_port := bswap16 (get_u16l S_Reconnect_19_port d) |}) ;;
    if negb (connected (client_channel ss)) then
      write_log WARNING "Received reconnect command with no destination present" ;;
      ret (HandlerResult.of_type SUPPRESS)
    else if command =? 0x14 then
      (* On the patch server, hide redirects from the client completely. *)
      modify_session (fun ss =>
        set_server_channel (set_crypt_out None (set_crypt_in None (server_channel ss))) ss) ;;
      modify_session (set_next_destination
        {| sin_family := AF_INET;
           sin_addr := get_u32l S_Reconnect_19_address d;
           sin_port := get_u16l S_Reconnect_19_port d |}) ;;
      modify_session LinkedSession_connect ;;
      ret (HandlerResult.of_type SUPPRESS)
    else
      (if is_virtual_connection (client_channel ss) then
         set_data (put_u16l S_Reconnect_19_port (local_port ss) d)
       else
         let sin := local_addr (client_channel ss) in
         if negb (sin_family sin =? AF_INET) then
           throw (logic_error "existing connection is not ipv4")
         else
           set_data (put_u16l S_Reconnect_19_port (bswap16 (sin_port sin))
                       (put_u32l S_Reconnect_19_address (sin_addr sin) d))) ;;
      ret (HandlerResult.of_type MODIFIED).

Definition expected_first_data_bb : bytes := [0xB4; 0x00; 0x93; 0x00; 0x00; 0x00; 0x00; 0x00].

Definition process_server_bb_03 : process_command_t :=
  fun s _ _ =>
    check_size_t (Z.of_nat S_ServerInit_BB_03_9B_after_message) 0xFFFF ;;
    ss <- get_session ;;
    d <- get_data ;;
    let server_key := field_bytes S_ServerInit_BB_03_9B_server_key sizeof_bb_key d in
    let client_key := field_bytes S_ServerInit_BB_03_9B_client_key sizeof_bb_key d in
    match detector_crypt ss with
    | Some det =>
        (* The session was resumed from an unlinked session, during which an
           03 command was already sent. *)
        match login_command_bb ss with
        | [] => throw (logic_error "linked BB session does not have a saved login command")
        | _ =>
            modify_session (fun ss => set_server_channel
              (set_crypt_in (Some (PSOBBMultiKeyImitatorEncryption det server_key false))
                 (server_channel ss)) ss) ;;
            modify_session (fun ss => set_server_channel
              (set_crypt_out (Some (PSOBBMultiKeyImitatorEncryption det client_key false))
                 (server_channel ss)) ss) ;;
            when (enable_remote_ip_crc_patch ss && (0x98 <=? Z.of_nat (length (login_command_bb ss))))
              (modify_session (fun ss => set_login_command_bb
                 (put_u32l 0x94 (Z.lxor (remote_ip_crc ss) (1309539928 + 1248334810))
                    (login_command_bb ss)) ss)) ;;
            ss <- get_session ;;
            server_send 0x93 0x00 (login_command_bb ss) ;;
            ret (HandlerResult.of_type SUPPRESS)
        end
    | None =>
        (* The session is new: forward the command to the client before
           setting up the crypts. *)
        client_send 0x03 0x00 d ;;
        let det := length (detectors ss) in
        modify_session (fun ss => set_detectors (detectors ss ++
          [{| possible_keys := bb_private_keys s;
              expected_first_data := expected_first_data_bb;
              detector_seed := client_key |}]) ss) ;;
        modify_session (set_detector_crypt (Some det)) ;;
        modify_session (fun ss => set_client_channel
          (set_crypt_in (Some (PSOBBMultiKeyDetectorEncryption det)) (client_channel ss)) ss) ;;
        modify_session (fun ss => set_client_channel
          (set_crypt_out (Some (PSOBBMultiKeyImitatorEncryption det server_key true))
             (client_channel ss)) ss) ;;
        modify_session (fun ss => set_server_channel
          (set_crypt_in (Some (PSOBBMultiKeyImitatorEncryption det server_key false))
             (server_channel ss)) ss) ;;
        modify_session (fun ss => set_server_channel
          (set_crypt_out (Some (PSOBBMultiKeyImitatorEncryption det client_key false))
             (server_channel ss)) ss) ;;
        ret (HandlerResult.of_type SUPPRESS)
    end.

(** *** Text, lobby joins and the return to the home server *)

Definition ascii_bytes (s : string) : bytes :=
  (fun a => Z.of_N (Ascii.N_of_ascii a)) <$> list_ascii_of_string s.

(** The bytes a [const char*] denotes: those before the first NUL. *)
Fixpoint c_str (d : bytes) : bytes :=
  match d with
  | [] => []
  | b :: r => if b =? 0 then [] else b :: c_str r
  end.

(** [while (w.size() & 3) w.put_u8(0)]. *)
Definition pad4 (d : bytes) : bytes :=
  d ++ replicate ((4 - length d mod 4) mod 4) 0.

(** The instantiations of [process_server_65_67_68]. *)
Inductive JoinLobbyCmdT :=
| S_JoinLobby_DC_GC_65_67_68
| S_JoinLobby_PC_65_67_68
| S_JoinLobby_XB_65_67_68
| S_JoinLobby_BB_65_67_68.

(** The declarations of the [S_JoinLobby] records are not among the sources
    either, and they differ from version to version, so the layout is a
    parameter.  What [process_server_65_67_68] uses of its command type
    [CmdT]: the offsets of the header members, the offset and size of [entries], and
    within an [Entry] the offsets of [lobby_data.client_id] and
    [lobby_data.guild_card] and the conversion of [disp.name] to the
    [ptext<char, 0x10>] stored in the mirror. *)
Record JoinLobbyLayout := {
  offsetof_client_id : nat;
  offsetof_leader_id : nat;
  offsetof_lobby_number : nat;
  sizeof_lobby_number : nat;
  offsetof_event : nat;
  sizeof_event : nat;
  offsetof_entries : nat;
  sizeof_Entry : nat;
  offsetof_lobby_data_client_id : nat;
  sizeof_lobby_data_client_id : nat;
  offsetof_lobby_data_guild_card : nat;
  disp_name : bytes -> bytes;
}.

Definition version_to_port_name : list string :=
  ["console-login"; "pc-login"; "bb-patch"; "console-login"; "console-login"; "bb-login"]%string.

(** The handlers the dispatch tables name. *)
Inductive HandlerName :=
| h_default
| h_server_dc_pc_v3_patch_02_17
| h_server_dc_pc_v3_04
| h_server_dc_pc_v3_06
| h_server_13_A7
| h_server_game_19_patch_14
| h_server_41_S_GuildCardSearchResult_DC_V3_41
| h_server_44_A6_S_OpenFile_DC_44_A6
| h_server_60_62_6C_6D_C9_CB
| h_server_64_S_JoinGame_DC_GC_64
| h_server_66_69
| h_server_88
| h_server_97
| h_server_41_S_GuildCardSearchResult_PC_41
| h_server_44_A6_S_OpenFile_PC_V3_44_A6
| h_server_64_S_JoinGame_PC_64
| h_server_v3_1A_D5
| h_server_81_SC_SimpleMail_DC_V3_81
| h_server_gc_9A
| h_server_B2
| h_server_gc_B8
| h_server_C4_S_ChoiceSearchResultEntry_V3_C4
| h_server_gc_E4
| h_server_64_S_JoinGame_XB_64
| h_server_bb_03
| h_server_bb_22
| h_server_41_S_GuildCardSearchResult_BB_41
| h_server_44_A6_S_OpenFile_BB_44_A6
| h_server_64_S_JoinGame_BB_64
| h_server_E7
| h_client_06
| h_client_40
| h_client_60_62_6C_6D_C9_CB_void
| h_client_dc_pc_v3_A0_A1
| h_client_60_62_6C_6D_C9_CB_G_SendGuildCard_V3_6x06
| h_client_81_SC_SimpleMail_DC_V3_81
| h_client_60_62_6C_6D_C9_CB_G_SendGuildCard_BB_6x06
| h_server_65_67_68 (CmdT : JoinLobbyCmdT).

Section Handlers.

(** Parts of the repository that are not among the sources and that the
    handlers below only pass values through: the text codecs of [Text.hh],
    the [Channel] overload of [send_text_message], two of the
    [Client::Flag] bits, the layouts of the [S_JoinLobby] records, and the
    handlers that are not modelled here. *)
Variable encode_sjis : list Z -> bytes.
Variable decode_sjis : bytes -> list Z.
Variable send_text_message : Channel -> list Z -> Channel.
Variable Flag_NO_MESSAGE_BOX_CLOSE_CONFIRMATION : Z.
Variable Flag_NO_MESSAGE_BOX_CLOSE_CONFIRMATION_AFTER_LOBBY_JOIN : Z.
Variable layout_of : JoinLobbyCmdT -> JoinLobbyLayout.
Variable other_handler : HandlerName -> process_command_t.

Definition send_text_message_to_client (command : Z) (message : bytes) : M HState unit :=
  ss <- get_session ;;
  let w := replicate sizeof_SC_TextHeader_01_06_11_B0_EE 0 in
  let w :=
    match version ss with
    | PC | BB => w ++ concat (le_encode 2 <$> decode_sjis message) ++ le_encode 2 0
    | _ => w ++ message ++ le_encode 1 0
    end in
  client_send command 0x00 (pad4 w).

Definition update_leader_id (leader_id : Z) : M HState unit :=
  ss <- get_session ;;
  when (negb (leader_client_id ss =? leader_id))
    (modify_session (set_leader_client_id leader_id) ;;
     write_log INFO "Changed room leader to %zu" ;;
     when (leader_id =? lobby_client_id ss)
       (modify_session (fun ss => set_client_channel
          (send_text_message (client_channel ss) (ascii_bytes "$C6You are now the leader")) ss))).

(** [cmd.entries[x].lobby_data.client_id], as the [size_t] the loop uses for
    an index. *)
Definition entry_index (L : JoinLobbyLayout) (d : bytes) (x : nat) : nat :=
  Z.to_nat (load (sizeof_lobby_data_client_id L)
              (offsetof_entries L + x * sizeof_Entry L + offsetof_lobby_data_client_id L) d).

(** The body of the loop over the entries of a join command. *)
Definition join_entry (L : JoinLobbyLayout) (x : nat) (modified : bool) : M HState bool :=
  ss <- get_session ;;
  d <- get_data ;;
  let base := (offsetof_entries L + x * sizeof_Entry L)%nat in
  let index := entry_index L d x in
  if (length (lobby_players ss) <=? index)%nat then
    write_log WARNING "Ignoring invalid player index %zu at position %zu" ;;
    ret modified
  else
    let gc_off := (base + offsetof_lobby_data_guild_card L)%nat in
    modified <-
      match license ss with
      | Some lic =>
          if get_u32l gc_off d =? remote_guild_card_number ss then
            set_data (put_u32l gc_off (serial_number lic) d) ;; ret true
          else ret modified
      | None => ret modified
      end ;;
    d <- get_data ;;
    modify_session (fun ss => set_lobby_players
      (<[index :=
           {| guild_card_number := get_u32l gc_off d;
              name := disp_name L (field_bytes base (sizeof_Entry L) d) |}]>
         (lobby_players ss)) ss) ;;
    write_log INFO "Added lobby player: (%zu) %u %s" ;;
    ret modified.

Definition process_server_65_67_68 (L : JoinLobbyLayout) : process_command_t :=
  fun _ command flag =>
    when (command =? 0x67)
      (modify_session (set_lobby_players (replicate 12 empty_LobbyPlayer)) ;;
       write_log INFO "Cleared lobby players" ;;
       modify_session (fun ss =>
         let cfg := newserv_client_config ss in
         if negb (Z.land (flags cfg) Flag_NO_MESSAGE_BOX_CLOSE_CONFIRMATION_AFTER_LOBBY_JOIN =? 0)
         then set_newserv_client_config
                (set_flags (Z.lor (flags cfg) Flag_NO_MESSAGE_BOX_CLOSE_CONFIRMATION) cfg) ss
         else ss)) ;;
    let expected_size := Z.of_nat (offsetof_entries L) + Z.of_nat (sizeof_Entry L) * flag in
    check_size_t expected_size expected_size ;;
    d <- get_data ;;
    modify_session (set_lobby_client_id (get_u8 (offsetof_client_id L) d)) ;;
    update_leader_id (get_u8 (offsetof_leader_id L) d) ;;
    modified <- for_loop (Z.to_nat flag) 0 (join_entry L) false ;;
    ss <- get_session ;;
    modified <-
      (if 0 <=? override_lobby_event ss then
         d <- get_data ;;
         set_data (store (sizeof_event L) (offsetof_event L) (override_lobby_event ss) d) ;;
         ret true
       else ret modified) ;;
    modified <-
      (if 0 <=? override_lobby_number ss then
         d <- get_data ;;
         set_data (store (sizeof_lobby_number L) (offsetof_lobby_number L)
                     (override_lobby_number ss) d) ;;
         ret true
       else ret modified) ;;
    ret (HandlerResult.of_type (if modified then MODIFIED else FORWARD)).

(** The body of the loop that deletes all the other players. *)
Definition send_leave (x : nat) (_ : unit) : M HState unit :=
  ss <- get_session ;;
  match lobby_players ss !! x with
  | Some p =>
      if guild_card_number p =? 0 then ret tt
      else
        let leaving_id := Z.of_nat x mod 256 in
        let leader_id := lobby_client_id ss mod 256 in
        client_send 0x69 leaving_id (encode_S_LeaveLobby_66_69_Ep3_E9 leaving_id leader_id 0)
  | None => ret tt
  end.

Definition process_client_dc_pc_v3_A0_A1 : process_command_t :=
  fun s _ _ =>
    ss <- get_session ;;
    match license ss with
    | None => ret (HandlerResult.of_type FORWARD)
    | Some lic =>
        for_loop (length (lobby_players ss)) 0 send_leave tt ;;
        send_text_message_to_client 0x11
          (ascii_bytes "You've returned to" ++ [10; 9] ++ ascii_bytes "C6"
             ++ c_str (encode_sjis (server_name s))) ;;
        (* Restore newserv_client_config, so the login server gets the client flags *)
        client_send 0x04 0x00
          (encode_S_UpdateClientConfig_DC_PC_V3_04 0x00010000 (serial_number lic)
             (newserv_client_config ss)) ;;
        match version_to_port_name !! version_index (version ss) with
        | None => throw (out_of_range "vector::at")
        | Some port_name =>
            match name_to_port_config s !! port_name with
            | None => throw (out_of_range "unordered_map::at")
            | Some pc =>
                address <-
                  (if is_virtual_connection (client_channel ss) then
                     if negb (sin_family (next_destination ss) =? AF_INET)
                     then throw (logic_error "ss not AF_INET")
                     else ret (sin_addr (next_destination ss))
                   else
                     if negb (sin_family (local_addr (client_channel ss)) =? AF_INET)
                     then throw (logic_error "existing connection is not ipv4")
                     else ret (sin_addr (local_addr (client_channel ss)))) ;;
                client_send 0x19 0x00 (encode_S_Reconnect_19 address (port pc) 0) ;;
                ret (HandlerResult.of_type SUPPRESS)
            end
        end
    end.

(** *** Dispatch *)

Definition dc_server_handlers (command : Z) : HandlerName :=
  match command with
  | 0x02 => h_server_dc_pc_v3_patch_02_17
  | 0x04 => h_server_dc_pc_v3_04
  | 0x06 => h_server_dc_pc_v3_06
  | 0x13 => h_server_13_A7
  | 0x17 => h_server_dc_pc_v3_patch_02_17
  | 0x19 => h_server_game_19_patch_14
  | 0x41 => h_server_41_S_GuildCardSearchResult_DC_V3_41
  | 0x44 => h_server_44_A6_S_OpenFile_DC_44_A6
  | 0x60 => h_server_60_62_6C_6D_C9_CB
  | 0x62 => h_server_60_62_6C_6D_C9_CB
  | 0x64 => h_server_64_S_JoinGame_DC_GC_64
  | 0x65 => (h_server_65_67_68 S_JoinLobby_DC_GC_65_67_68)
  | 0x66 => h_server_66_69
  | 0x67 => (h_server_65_67_68 S_JoinLobby_DC_GC_65_67_68)
  | 0x68 => (h_server_65_67_68 S_JoinLobby_DC_GC_65_67_68)
  | 0x69 => h_server_66_69
  | 0x6C => h_server_60_62_6C_6D_C9_CB
  | 0x6D => h_server_60_62_6C_6D_C9_CB
  | 0x88 => h_server_88
  | 0x97 => h_server_97
  | 0xA6 => h_server_44_A6_S_OpenFile_DC_44_A6
  | 0xA7 => h_server_13_A7
  | _ => h_default
  end.

Definition pc_server_handlers (command : Z) : HandlerName :=
  match command with
  | 0x02 => h_server_dc_pc_v3_patch_02_17
  | 0x04 => h_server_dc_pc_v3_04
  | 0x06 => h_server_dc_pc_v3_06
  | 0x13 => h_server_13_A7
  | 0x17 => h_server_dc_pc_v3_patch_02_17
  | 0x19 => h_server_game_19_patch_14
  | 0x41 => h_server_41_S_GuildCardSearchResult_PC_41
  | 0x44 => h_server_44_A6_S_OpenFile_PC_V3_44_A6
  | 0x60 => h_server_60_62_6C_6D_C9_CB
  | 0x62 => h_server_60_62_6C_6D_C9_CB
  | 0x64 => h_server_64_S_JoinGame_PC_64
  | 0x65 => (h_server_65_67_68 S_JoinLobby_PC_65_67_68)
  | 0x66 => h_server_66_69
  | 0x67 => (h_server_65_67_68 S_JoinLobby_PC_65_67_68)
  | 0x68 => (h_server_65_67_68 S_JoinLobby_PC_65_67_68)
  | 0x69 => h_server_66_69
  | 0x6C => h_server_60_62_6C_6D_C9_CB
  | 0x6D => h_server_60_62_6C_6D_C9_CB
  | 0x88 => h_server_88
  | 0x97 => h_server_97
  | 0xA6 => h_server_44_A6_S_OpenFile_PC_V3_44_A6
  | 0xA7 => h_server_13_A7
  | _ => h_default
  end.

Definition gc_server_handlers (command : Z) : HandlerName :=
  match command with
  | 0x02 => h_server_dc_pc_v3_patch_02_17
  | 0x04 => h_server_dc_pc_v3_04
  | 0x06 => h_server_dc_pc_v3_06
  | 0x13 => h_server_13_A7
  | 0x17 => h_server_dc_pc_v3_patch_02_17
  | 0x19 => h_server_game_19_patch_14
  | 0x1A => h_server_v3_1A_D5
  | 0x41 => h_server_41_S_GuildCardSearchResult_DC_V3_41
  | 0x44 => h_server_44_A6_S_OpenFile_PC_V3_44_A6
  | 0x60 => h_server_60_62_6C_6D_C9_CB
  | 0x62 => h_server_60_62_6C_6D_C9_CB
  | 0x64 => h_server_64_S_JoinGame_DC_GC_64
  | 0x65 => (h_server_65_67_68 S_JoinLobby_DC_GC_65_67_68)
  | 0x66 => h_server_66_69
  | 0x67 => (h_server_65_67_68 S_JoinLobby_DC_GC_65_67_68)
  | 0x68 => (h_server_65_67_68 S_JoinLobby_DC_GC_65_67_68)
  | 0x69 => h_server_66_69
  | 0x6C => h_server_60_62_6C_6D_C9_CB
  | 0x6D => h_server_60_62_6C_6D_C9_CB
  | 0x81 => h_server_81_SC_SimpleMail_DC_V3_81
  | 0x88 => h_server_88
  | 0x97 => h_server_97
  | 0x9A => h_server_gc_9A
  | 0xA6 => h_server_44_A6_S_OpenFile_PC_V3_44_A6
  | 0xA7 => h_server_13_A7
  | 0xB2 => h_server_B2
  | 0xB8 => h_server_gc_B8
  | 0xC4 => h_server_C4_S_ChoiceSearchResultEntry_V3_C4
  | 0xC9 => h_server_60_62_6C_6D_C9_CB
  | 0xCB => h_server_60_62_6C_6D_C9_CB
  | 0xD5 => h_server_v3_1A_D5
  | 0xE4 => h_server_gc_E4
  | _ => h_default
  end.

Definition xb_server_handlers (command : Z) : HandlerName :=
  match command with
  | 0x02 => h_server_dc_pc_v3_patch_02_17
  | 0x04 => h_server_dc_pc_v3_04
  | 0x06 => h_server_dc_pc_v3_06
  | 0x13 => h_server_13_A7
  | 0x17 => h_server_dc_pc_v3_patch_02_17
  | 0x19 => h_server_game_19_patch_14
  | 0x1A => h_server_v3_1A_D5
  | 0x41 => h_server_41_S_GuildCardSearchResult_DC_V3_41
  | 0x44 => h_server_44_A6_S_OpenFile_PC_V3_44_A6
  | 0x60 => h_server_60_62_6C_6D_C9_CB
  | 0x62 => h_server_60_62_6C_6D_C9_CB
  | 0x64 => h_server_64_S_JoinGame_XB_64
  | 0x65 => (h_server_65_67_68 S_JoinLobby_XB_65_67_68)
  | 0x66 => h_server_66_69
  | 0x67 => (h_server_65_67_68 S_JoinLobby_XB_65_67_68)
  | 0x68 => (h_server_65_67_68 S_JoinLobby_XB_65_67_68)
  | 0x69 => h_server_66_69
  | 0x6C => h_server_60_62_6C_6D_C9_CB
  | 0x6D => h_server_60_62_6C_6D_C9_CB
  | 0x81 => h_server_81_SC_SimpleMail_DC_V3_81
  | 0x88 => h_server_88
  | 0x97 => h_server_97
  | 0xA6 => h_server_44_A6_S_OpenFile_PC_V3_44_A6
  | 0xA7 => h_server_13_A7
  | 0xB2 => h_server_B2
  | 0xC4 => h_server_C4_S_ChoiceSearchResultEntry_V3_C4
  | 0xC9 => h_server_60_62_6C_6D_C9_CB
  | 0xCB => h_server_60_62_6C_6D_C9_CB
  | 0xD5 => h_server_v3_1A_D5
  | _ => h_default
  end.

Definition bb_server_handlers (command : Z) : HandlerName :=
  match command with
  | 0x03 => h_server_bb_03
  | 0x13 => h_server_13_A7
  | 0x19 => h_server_game_19_patch_14
  | 0x22 => h_server_bb_22
  | 0x41 => h_server_41_S_GuildCardSearchResult_BB_41
  | 0x44 => h_server_44_A6_S_OpenFile_BB_44_A6
  | 0x60 => h_server_60_62_6C_6D_C9_CB
  | 0x62 => h_server_60_62_6C_6D_C9_CB
  | 0x64 => h_server_64_S_JoinGame_BB_64
  | 0x65 => (h_server_65_67_68 S_JoinLobby_BB_65_67_68)
  | 0x66 => h_server_66_69
  | 0x67 => (h_server_65_67_68 S_JoinLobby_BB_65_67_68)
  | 0x68 => (h_server_65_67_68 S_JoinLobby_BB_65_67_68)
  | 0x69 => h_server_66_69
  | 0x6C => h_server_60_62_6C_6D_C9_CB
  | 0x6D => h_server_60_62_6C_6D_C9_CB
  | 0x88 => h_server_88
  | 0xA6 => h_server_44_A6_S_OpenFile_BB_44_A6
  | 0xA7 => h_server_13_A7
  | 0xB2 => h_server_B2
  | 0xE7 => h_server_E7
  | _ => h_default
  end.

Definition patch_server_handlers (command : Z) : HandlerName :=
  match command with
  | 0x02 => h_server_dc_pc_v3_patch_02_17
  | 0x14 => h_server_game_19_patch_14
  | _ => h_default
  end.

Definition dc_client_handlers (command : Z) : HandlerName :=
  match command with
  | 0x06 => h_client_06
  | 0x40 => h_client_40
  | 0x60 => h_client_60_62_6C_6D_C9_CB_void
  | 0x62 => h_client_60_62_6C_6D_C9_CB_void
  | 0x6C => h_client_60_62_6C_6D_C9_CB_void
  | 0x6D => h_client_60_62_6C_6D_C9_CB_void
  | 0xA0 => h_client_dc_pc_v3_A0_A1
  | 0xA1 => h_client_dc_pc_v3_A0_A1
  | _ => h_default
  end.

Definition pc_client_handlers (command : Z) : HandlerName :=
  match command with
  | 0x06 => h_client_06
  | 0x40 => h_client_40
  | 0x60 => h_client_60_62_6C_6D_C9_CB_void
  | 0x62 => h_client_60_62_6C_6D_C9_CB_void
  | 0x6C => h_client_60_62_6C_6D_C9_CB_void
  | 0x6D => h_client_60_62_6C_6D_C9_CB_void
  | 0xA0 => h_client_dc_pc_v3_A0_A1
  | 0xA1 => h_client_dc_pc_v3_A0_A1
  | _ => h_default
  end.

Definition gc_client_handlers (command : Z) : HandlerName :=
  match command with
  | 0x06 => h_client_06
  | 0x40 => h_client_40
  | 0x60 => h_client_60_62_6C_6D_C9_CB_G_SendGuildCard_V3_6x06
  | 0x62 => h_client_60_62_6C_6D_C9_CB_G_SendGuildCard_V3_6x06
  | 0x6C => h_client_60_62_6C_6D_C9_CB_G_SendGuildCard_V3_6x06
  | 0x6D => h_client_60_62_6C_6D_C9_CB_G_SendGuildCard_V3_6x06
  | 0x81 => h_client_81_SC_SimpleMail_DC_V3_81
  | 0xA0 => h_client_dc_pc_v3_A0_A1
  | 0xA1 => h_client_dc_pc_v3_A0_A1
  | _ => h_default
  end.

Definition xb_client_handlers (command : Z) : HandlerName :=
  match command with
  | 0x06 => h_client_06
  | 0x40 => h_client_40
  | 0x60 => h_client_60_62_6C_6D_C9_CB_G_SendGuildCard_V3_6x06
  | 0x62 => h_client_60_62_6C_6D_C9_CB_G_SendGuildCard_V3_6x06
  | 0x6C => h_client_60_62_6C_6D_C9_CB_G_SendGuildCard_V3_6x06
  | 0x6D => h_client_60_62_6C_6D_C9_CB_G_SendGuildCard_V3_6x06
  | 0x81 => h_client_81_SC_SimpleMail_DC_V3_81
  | 0xA0 => h_client_dc_pc_v3_A0_A1
  | 0xA1 => h_client_dc_pc_v3_A0_A1
  | _ => h_default
  end.

Definition bb_client_handlers (command : Z) : HandlerName :=
  match command with
  | 0x06 => h_client_06
  | 0x40 => h_client_40
  | 0x60 => h_client_60_62_6C_6D_C9_CB_G_SendGuildCard_BB_6x06
  | 0x62 => h_client_60_62_6C_6D_C9_CB_G_SendGuildCard_BB_6x06
  | 0x6C => h_client_60_62_6C_6D_C9_CB_G_SendGuildCard_BB_6x06
  | 0x6D => h_client_60_62_6C_6D_C9_CB_G_SendGuildCard_BB_6x06
  | _ => h_default
  end.

Definition patch_client_handlers (command : Z) : HandlerName :=
  match command with
  | _ => h_default
  end.

(** [get_handler] takes the command as a [uint8_t].  Its [logic_error] for a
    version index of 6 or more has no counterpart: [GameVersion] has six
    values. *)
Definition get_handler (v : GameVersion) (from_server : bool) (command : Z) : HandlerName :=
  let command := command mod 256 in
  if from_server then
    match v with
    | DC => dc_server_handlers command
    | PC => pc_server_handlers command
    | PATCH => patch_server_handlers command
    | GC => gc_server_handlers command
    | XB => xb_server_handlers command
    | BB => bb_server_handlers command
    end
  else
    match v with
    | DC => dc_client_handlers command
    | PC => pc_client_handlers command
    | PATCH => patch_client_handlers command
    | GC => gc_client_handlers command
    | XB => xb_client_handlers command
    | BB => bb_client_handlers command
    end.

(** The function a table entry stands for. *)
Definition handler_fn (h : HandlerName) : process_command_t :=
  match h with
  | h_default => process_default
  | h_server_dc_pc_v3_06 => process_server_dc_pc_v3_06
  | h_server_game_19_patch_14 => process_server_game_19_patch_14
  | h_server_bb_03 => process_server_bb_03
  | h_server_bb_22 => process_server_bb_22
  | h_server_65_67_68 CmdT => process_server_65_67_68 (layout_of CmdT)
  | h_client_40 => process_client_40
  | h_client_dc_pc_v3_A0_A1 => process_client_dc_pc_v3_A0_A1
  | h => other_handler h
  end.

(** [process_proxy_command].  The handler is selected outside the [try]
    block and runs inside it; the [logic_error] for a result type other than
    the three has no counterpart. *)
Definition process_proxy_command (s : ServerState) (from_server : bool)
    (command flag : Z) : M HState unit :=
  ss <- get_session ;;
  let fn := handler_fn (get_handler (version ss) from_server command) in
  try_catch
    (res <- fn s command flag ;;
     match HandlerResult.type res with
     | FORWARD => forward_command (negb from_server) command flag
     | MODIFIED =>
         write_log INFO "The preceding command from the %s was modified in transit" ;;
         forward_command (negb from_server)
           (if 0 <=? HandlerResult.new_command res then HandlerResult.new_command res else command)
           (if 0 <=? HandlerResult.new_flag res then HandlerResult.new_flag res else flag)
     | SUPPRESS =>
         write_log INFO "The preceding command from the %s was not forwarded"
     end)
    (fun e =>
       write_log ERROR "Failed to process command: %s" ;;
       modify_session LinkedSession_disconnect).

End Handlers.

(** ** [SendCommands.cc] *)

Module SendCommands.

(** Modelled from the spec: the command headers are declared in
    [PSOProtocol.hh], which is not among the sources.  The spec gives them as
    [{command:u8, flag:u8, size:u16-little}] for DC and GC,
    [{size:u16-little, command:u8, flag:u8}] for PC and the patch server, and
    [{size:u16-little, command:u16-little, flag:u32-little}] for BB.  An
    assignment to a member keeps the low-order bits that fit. *)
Definition PSOCommandHeaderDCGC (command flag size : Z) : bytes :=
  le_encode 1 command ++ le_encode 1 flag ++ le_encode 2 size.
Definition PSOCommandHeaderPC (command flag size : Z) : bytes :=
  le_encode 2 size ++ le_encode 1 command ++ le_encode 1 flag.
Definition PSOCommandHeaderBB (command flag size : Z) : bytes :=
  le_encode 2 size ++ le_encode 2 command ++ le_encode 4 flag.

(** [(n + k) & ~k] on [size_t]. *)
Definition round_up (n : nat) (k : Z) : nat :=
  Z.to_nat (Z.land (Z.of_nat n + k) (Z.lnot k)).

(** The bytes [send_command] builds in [send_data] before it encrypts them:
    the header with [size = sizeof(header) + size], and for a non-empty
    payload the payload and the resize to the next multiple of 4 (8 on BB). *)
Definition build_send_data (version : GameVersion) (command flag : Z) (data : bytes)
    : outcome bytes :=
  let size := length data in
  match version with
  | GC | DC =>
      let send_data := PSOCommandHeaderDCGC command flag (Z.of_nat (4 + size)) in
      Ret (if (size =? 0)%nat then send_data
           else let send_data := send_data ++ data in
                resize (round_up (length send_data) 3) send_data)
  | PC | PATCH =>
      let send_data := PSOCommandHeaderPC command flag (Z.of_nat (4 + size)) in
      Ret (if (size =? 0)%nat then send_data
           else let send_data := send_data ++ data in
                resize (round_up (length send_data) 3) send_data)
  | BB =>
      let send_data := PSOCommandHeaderBB command flag (Z.of_nat (8 + size)) in
      Ret (if (size =? 0)%nat then send_data
           else let send_data := send_data ++ data in
                resize (round_up (length send_data) 7) send_data)
  | _ => Throw (logic_error "unimplemented game version in send_command")
  end.

(** What [evbuffer_add] receives: the frame, and the cipher that was applied
    to it in place ([None] when [crypt] is null). *)
Record Output := {
  frame : bytes;
  cipher : option Crypt;
}.

(** [send_command(bev, version, crypt, command, flag, data, size, name_str)];
    the state is the output buffer of [bev]. *)
Definition send_command (version : GameVersion) (crypt : option Crypt)
    (command flag : Z) (data : bytes) : M (list Output) unit :=
  match build_send_data version command flag data with
  | Throw e => throw e
  | Ret send_data =>
      modify (fun buf => buf ++ [{| frame := send_data; cipher := crypt |}])
  end.

(** [struct Client] of [Client.hh], restricted to what the senders use. *)
Record Client := {
  version : GameVersion;
  crypt_out : option Crypt;
  bev : option (list Output);
}.

(** [send_command(shared_ptr<Client> c, command, flag, data, size)]. *)
Definition send_command_c (command flag : Z) (data : bytes) : M Client unit :=
  fun c =>
    match bev c with
    | None => (Ret tt, c)
    | Some buf =>
        let '(r, buf') := send_command (version c) (crypt_out c) command flag data buf in
        (r, {| version := version c; crypt_out := crypt_out c; bev := Some buf' |})
    end.

(** Modelled from the spec: [S_StreamFileIndexEntry_BB_01EB] and
    [S_StreamFileChunk_BB_02EB] are declared in [CommandFormats.hh], which is
    not among the sources.  The spec has the index as entries of (filename,
    size, checksum) and the chunks as 0x6800 bytes under a chunk index.  An
    entry is [le_uint32_t size], [checksum], [offset], then
    [ptext<char, 0x40> filename]. *)
Definition sizeof_S_StreamFileIndexEntry_BB_01EB : nat := 0x4C.
Definition S_StreamFileIndexEntry_size : nat := 0.
Definition S_StreamFileIndexEntry_filename : nat := 12.
Definition sizeof_filename : nat := 0x40.

(** [S_StreamFileChunk_BB_02EB]: [le_uint32_t chunk_index], then
    [uint8_t data[0x6800]]. *)
Definition chunk_size : nat := Z.to_nat 0x6800.

Record ChunkCmd := {
  chunk_index : Z;
  chunk_data : bytes;
}.

Definition ChunkCmd_bytes (cmd : ChunkCmd) : bytes :=
  le_encode 4 (chunk_index cmd) ++ chunk_data cmd.

(** [memcpy(&buf[off], src, n)] with [n = length src]. *)
Definition memcpy_at (off : nat) (src buf : bytes) : bytes :=
  take off buf ++ src ++ drop (off + length src) buf.

Section StreamFile.

(** [file_cache] (its class is declared in [FileContentsCache.hh], which is
    not among the sources) maps a path to the contents of the file, and
    [get] throws for a path it cannot open; [uninitialized] is what the chunk
    buffer on the stack holds before anything is copied into it, and
    [beyond] the memory that follows the chunk command, which the short
    send can reach. *)
Variable file_cache : gmap bytes bytes.
Variable uninitialized : bytes.
Variable beyond : bytes.

Definition file_cache_get (path : bytes) : M Client bytes :=
  match file_cache !! path with
  | Some contents => ret contents
  | None => throw (runtime_error "cannot open file")
  end.

(** The locals of [send_stream_file_bb] that live across iterations. *)
Record Locals := {
  chunk_cmd : ChunkCmd;
  buffer_offset : nat;
}.

(** The [while (file_data_remaining)] loop; [fuel] bounds the number of
    iterations (each one consumes at least one byte, so the number of
    remaining bytes is enough). *)
Fixpoint copy_file (fuel : nat) (file_data : bytes) (file_data_remaining : nat)
    (l : Locals) : M Client Locals :=
  match file_data_remaining, fuel with
  | O, _ => ret l
  | _, O => ret l
  | _, S fuel =>
      let read_size := (chunk_size - buffer_offset l)%nat in
      let read_size := if (file_data_remaining <? read_size)%nat
                       then file_data_remaining else read_size in
      let src := take read_size (drop (length file_data - file_data_remaining) file_data) in
      let data' := memcpy_at (buffer_offset l) src (chunk_data (chunk_cmd l)) in
      let cmd' := {| chunk_index := chunk_index (chunk_cmd l); chunk_data := data' |} in
      let buffer_offset' := (buffer_offset l + read_size)%nat in
      let file_data_remaining' := (file_data_remaining - read_size)%nat in
      if (buffer_offset' =? chunk_size)%nat then
        send_command_c 0x02EB 0x00000000 (ChunkCmd_bytes cmd') ;;
        copy_file fuel file_data file_data_remaining'
          {| chunk_cmd := {| chunk_index := (chunk_index cmd' + 1) mod 2 ^ 32;
                             chunk_data := data' |};
             buffer_offset := 0 |}
      else
        copy_file fuel file_data file_data_remaining'
          {| chunk_cmd := cmd'; buffer_offset := buffer_offset' |}
  end.

(** The body of the loop over the index entries. *)
Definition stream_entry (index_data : bytes) (x : nat) (l : Locals) : M Client Locals :=
  let entry := field_bytes (x * sizeof_S_StreamFileIndexEntry_BB_01EB)
                 sizeof_S_StreamFileIndexEntry_BB_01EB index_data in
  let filename := ascii_bytes "system/blueburst/" ++
                  c_str (field_bytes S_StreamFileIndexEntry_filename sizeof_filename entry) in
  file_data <- file_cache_get filename ;;
  if negb (Z.of_nat (length file_data) =? get_u32l S_StreamFileIndexEntry_size entry) then
    throw (invalid_argument "does not match size in stream file index")
  else
    l <- copy_file (length file_data) file_data (length file_data) l ;;
    when (0 <? buffer_offset l)%nat
      (send_command_c 0x02EB 0x00000000
         (take (Z.to_nat (Z.land (Z.of_nat (buffer_offset l) + 15) (Z.lnot 3)))
            (ChunkCmd_bytes (chunk_cmd l) ++ beyond))) ;;
    ret l.

Definition send_stream_file_bb : M Client unit :=
  index_data <- file_cache_get (ascii_bytes "system/blueburst/streamfile.ind") ;;
  if negb (length index_data mod sizeof_S_StreamFileIndexEntry_BB_01EB =? 0)%nat then
    throw (invalid_argument "stream file index not a multiple of entry size")
  else
    let entry_count := (length index_data / sizeof_S_StreamFileIndexEntry_BB_01EB)%nat in
    send_command_c 0x01EB (Z.of_nat entry_count) index_data ;;
    for_loop entry_count 0 (stream_entry index_data)
      {| chunk_cmd := {| chunk_index := 0; chunk_data := uninitialized |};
         buffer_offset := 0 |} ;;
    ret tt.

End StreamFile.

End SendCommands.

(** ** Notions used in the statements *)

(** The values of a [uint32_t]. *)
Definition is_u32 (v : Z) : Prop := 0 <= v < 2 ^ 32.

(** The rewriting [process_client_40] applies to one guild card field. *)
Definition rewrite_outbound (serial remote x : Z) : Z :=
  if x =? serial then remote else x.

(** The rewriting [process_server_dc_pc_v3_06] applies to the guild card
    field. *)
Definition rewrite_inbound (serial remote x : Z) : Z :=
  if x =? remote then serial else x.

(** The two keys of an [S_ServerInit_BB_03_9B]. *)
Definition server_key_of (d : bytes) : bytes :=
  field_bytes S_ServerInit_BB_03_9B_server_key sizeof_bb_key d.
Definition client_key_of (d : bytes) : bytes :=
  field_bytes S_ServerInit_BB_03_9B_client_key sizeof_bb_key d.

(** The login command replayed by a resumed session. *)
Definition replayed_login (ss : LinkedSession) : bytes :=
  if enable_remote_ip_crc_patch ss && (0x98 <=? Z.of_nat (length (login_command_bb ss)))
  then put_u32l 0x94 (Z.lxor (remote_ip_crc ss) (1309539928 + 1248334810)) (login_command_bb ss)
  else login_command_bb ss.

(** The payload of a reconnect command once [process_server_game_19_patch_14]
    has completed it from the previous server command's bytes and with
    zeros. *)
Definition fill_reconnect (prev d : bytes) : bytes :=
  let d1 := if (length d <? length prev)%nat then d ++ drop (length d) prev else d in
  if (length d1 <? sizeof_S_Reconnect_19)%nat then resize sizeof_S_Reconnect_19 d1 else d1.

(** What a client makes of a short command: the new bytes over the bytes the
    previous command left in its receive buffer. *)
Definition client_receive_buffer (prev d : bytes) : bytes :=
  d ++ drop (length d) prev.

(** The destination a reconnect payload names, as the handler records it for
    a command 19: the raw address and the port in network byte order. *)
Definition reconnect_destination (d : bytes) : sockaddr_in :=
  {| sin_family := AF_INET;
     sin_addr := get_u32l S_Reconnect_19_address d;
     sin_port := bswap16 (get_u16l S_Reconnect_19_port d) |}.

(** The same for the patch server's command 14, whose port member is taken
    as it is. *)
Definition reconnect_destination_patch (d : bytes) : sockaddr_in :=
  {| sin_family := AF_INET;
     sin_addr := get_u32l S_Reconnect_19_address d;
     sin_port := get_u16l S_Reconnect_19_port d |}.

(** The members of an [Entry] that the join handler reads as an index and
    rewrites as a guild card number lie inside the entry and do not overlap
    (they are distinct members of one packed record). *)
Definition layout_ok (L : JoinLobbyLayout) : Prop :=
  (offsetof_lobby_data_guild_card L + 4 <= sizeof_Entry L)%nat /\
  (offsetof_lobby_data_client_id L + sizeof_lobby_data_client_id L <= sizeof_Entry L)%nat /\
  ((offsetof_lobby_data_guild_card L + 4 <= offsetof_lobby_data_client_id L)%nat \/
   (offsetof_lobby_data_client_id L + sizeof_lobby_data_client_id L
      <= offsetof_lobby_data_guild_card L)%nat).

(** The session once the handler has recorded the CRC (when the patch is
    enabled) and the destination. *)
Definition reconnect_recorded (ss : LinkedSession) (d' : bytes) : LinkedSession :=
  set_next_destination (reconnect_destination d')
    (if enable_remote_ip_crc_patch ss then set_remote_ip_crc (crc32 (take 4 d')) ss else ss).

(** The session as the join handler leaves it before it looks at the
    payload: a 67 clears the mirror to twelve empty slots. *)
Definition join_cleared (F1 F2 : Z) (command : Z) (ss : LinkedSession) : LinkedSession :=
  if command =? 0x67 then
    let ss1 :=
      set_session_log (session_log ss ++ [(INFO, "Cleared lobby players"%string)])
        (set_lobby_players (replicate 12 empty_LobbyPlayer) ss) in
    if negb (Z.land (flags (newserv_client_config ss1)) F2 =? 0)
    then set_newserv_client_config
           (set_flags (Z.lor (flags (newserv_client_config ss1)) F1)
              (newserv_client_config ss1)) ss1
    else ss1
  else ss.

(** What the loop over the entries keeps true. *)
Definition join_invariant (L : JoinLobbyLayout) (d : list Z) (flag : Z)
    (before : list LobbyPlayer) (st : HState) : Prop :=
  length (hs_data st) = length d /\
  (forall y, entry_index L (hs_data st) y = entry_index L d y) /\
  length (lobby_players (hs_session st)) = length before /\
  (forall j, (forall x, (x < Z.to_nat flag)%nat -> entry_index L d x <> j) ->
     lobby_players (hs_session st) !! j = before !! j).

(** ** Reading a frame back

    The header length and the alignment of each version, and the size member
    of the header at the start of a frame. *)

Definition header_len (v : GameVersion) : nat :=
  match v with BB => 8 | _ => 4 end.

Definition alignment (v : GameVersion) : nat :=
  match v with BB => 8 | _ => 4 end.

Definition header_of (v : GameVersion) (command flag size : Z) : bytes :=
  match v with
  | DC | GC | XB => SendCommands.PSOCommandHeaderDCGC command flag size
  | PC | PATCH => SendCommands.PSOCommandHeaderPC command flag size
  | BB => SendCommands.PSOCommandHeaderBB command flag size
  end.

Definition size_field (v : GameVersion) (frame : bytes) : Z :=
  match v with
  | DC | GC | XB => get_u16l 2 frame
  | PC | PATCH | BB => get_u16l 0 frame
  end.

(** The 69 commands that tell the client every other player has left: one
    for each slot of the mirror, from [start] on, that holds a nonzero guild
    card number, sent under the cipher [c]. *)
Fixpoint leave_frames (players : list LobbyPlayer) (start : nat) (leader : Z)
    (c : option Crypt) : list Sent :=
  match players with
  | [] => []
  | p :: rest =>
      (if guild_card_number p =? 0 then []
       else [{| sent_command := 0x69;
                sent_flag := Z.of_nat start mod 256;
                sent_data := encode_S_LeaveLobby_66_69_Ep3_E9
                               (Z.of_nat start mod 256) (leader mod 256) 0;
                sent_crypt := c |}])
      ++ leave_frames rest (S start) leader c
  end.

(** The number of mirrored members with a nonzero guild card number. *)
Definition occupied (players : list LobbyPlayer) : nat :=
  length (filter (fun p => guild_card_number p <> 0) players).

(** Frames appended to a channel's queue. *)
Definition enqueue (frames : list Sent) (ch : Channel) : Channel :=
  {| connected := connected ch; is_virtual_connection := is_virtual_connection ch;
     crypt_in := crypt_in ch; crypt_out := crypt_out ch;
     local_addr := local_addr ch; outbox := outbox ch ++ frames |}.

(** Frames appended to the client channel's queue of a session. *)
Definition client_enqueue (frames : list Sent) (ss : LinkedSession) : LinkedSession :=
  set_client_channel (enqueue frames (client_channel ss)) ss.

(** The text message [send_text_message_to_client] builds. *)
Definition text_message_payload (decode_sjis : bytes -> list Z) (v : GameVersion)
    (message : bytes) : bytes :=
  pad4 (replicate sizeof_SC_TextHeader_01_06_11_B0_EE 0 ++
        match v with
        | PC | BB => concat (le_encode 2 <$> decode_sjis message) ++ le_encode 2 0
        | _ => message ++ le_encode 1 0
        end).

(** The address the return-to-home redirect names, if the socket address it
    is taken from is IPv4. *)
Definition return_address (ss : LinkedSession) : option Z :=
  let sa := if is_virtual_connection (client_channel ss)
            then next_destination ss else local_addr (client_channel ss) in
  if sin_family sa =? AF_INET then Some (sin_addr sa) else None.

(** The configured port the redirect names. *)
Definition return_port (s : ServerState) (v : GameVersion) : option Z :=
  match version_to_port_name !! version_index v with
  | Some port_name => port <$> (name_to_port_config s !! port_name)
  | None => None
  end.

(** The text of the message shown on the return to the home server. *)
Definition return_message (encode_sjis : list Z -> bytes) (s : ServerState) : bytes :=
  ascii_bytes "You've returned to" ++ [10; 9] ++ ascii_bytes "C6"
    ++ c_str (encode_sjis (server_name s)).

(** The frames the return-to-home handler sends before the redirect: the
    departures, the text message 11, and the 04 restoring the saved client
    config under the license's serial number. *)
Definition return_frames (encode_sjis : list Z -> bytes) (decode_sjis : bytes -> list Z)
    (s : ServerState) (ss : LinkedSession) (lic : License) : list Sent :=
  let c := crypt_out (client_channel ss) in
  leave_frames (lobby_players ss) 0 (lobby_client_id ss) c ++
  [ {| sent_command := 0x11; sent_flag := 0x00;
       sent_data := text_message_payload decode_sjis (version ss) (return_message encode_sjis s);
       sent_crypt := c |};
    {| sent_command := 0x04; sent_flag := 0x00;
       sent_data := encode_S_UpdateClientConfig_DC_PC_V3_04 0x00010000 (serial_number lic)
                      (newserv_client_config ss);
       sent_crypt := c |} ].

(** The redirect itself. *)
Definition return_redirect (ss : LinkedSession) (address port_ : Z) : Sent :=
  {| sent_command := 0x19; sent_flag := 0x00;
     sent_data := encode_S_Reconnect_19 address port_ 0;
     sent_crypt := crypt_out (client_channel ss) |}.

(** What [process_proxy_command] leaves of a session whose handler threw:
    the error is logged and the session is disconnected. *)
Definition torn_down (ss : LinkedSession) : LinkedSession :=
  LinkedSession_disconnect
    (set_session_log (session_log ss ++ [(ERROR, "Failed to process command: %s"%string)]) ss).

(** The versions whose client tables hold the return-to-home handler. *)
Definition has_return_handler (v : GameVersion) : bool :=
  match v with DC | PC | GC | XB => true | PATCH | BB => false end.

(** The members of a BB frame. *)
Definition bb_command (f : SendCommands.Output) : Z := get_u16l 2 (SendCommands.frame f).
Definition bb_flag (f : SendCommands.Output) : Z := get_u32l 4 (SendCommands.frame f).
Definition bb_payload (f : SendCommands.Output) : bytes :=
  take (Z.to_nat (size_field BB (SendCommands.frame f)) - 8) (drop 8 (SendCommands.frame f)).

(** ** Sample values

    A linked GC session with license serial 2000 to which the remote server
    has assigned the guild card number 55555, in a three-player lobby; and a
    server state that configures the login ports. *)

Definition sample_license : License :=
  {| serial_number := 2000; access_key := "accesskey"; gc_password := "password" |}.

Definition sample_channel : Channel :=
  {| connected := true; is_virtual_connection := false;
     crypt_in := Some (PSOV3Encryption 1); crypt_out := Some (PSOV3Encryption 2);
     local_addr := {| sin_family := AF_INET; sin_addr := 0x0100007F; sin_port := 0x2823 |};
     outbox := [] |}.

Definition sample_config : ClientConfig :=
  {| magic := 0x492A890E82AC9839; bb_game_state := 0; bb_player_index := 0;
     flags := 0; unused := [0; 0; 0; 0; 0]; unused_bb_only := [0; 0] |}.

Definition sample_session : LinkedSession :=
  {| version := GC;
     license := Some sample_license;
     remote_guild_card_number := 55555;
     client_channel := sample_channel;
     server_channel := sample_channel;
     detectors := [];
     detector_crypt := None;
     login_command_bb := [];
     enable_remote_ip_crc_patch := false;
     remote_ip_crc := 0;
     prev_server_command_bytes := [0xB1; 0x00; 0x28; 0x00; 0x34; 0x12];
     next_destination := {| sin_family := AF_INET; sin_addr := 0x0A00000A; sin_port := 0x2823 |};
     local_port := 9103;
     lobby_players :=
       [ {| guild_card_number := 2000; name := ascii_bytes "Alice" |};
         {| guild_card_number := 0; name := [] |};
         {| guild_card_number := 31337; name := ascii_bytes "Bob" |};
         {| guild_card_number := 4242; name := ascii_bytes "Carol" |} ]
       ++ replicate 8 empty_LobbyPlayer;
     lobby_client_id := 0;
     leader_client_id := 2;
     newserv_client_config := sample_config;
     override_lobby_event := -1;
     override_lobby_number := -1;
     session_log := [];
     connect_calls := [] |}.

Definition sample_state : ServerState :=
  {| server_name := [78; 101; 119];
     name_to_port_config :=
       <[ "console-login"%string := {| port := 9100 |} ]>
         (<[ "pc-login"%string := {| port := 9300 |} ]> ∅);
     bb_private_keys := [[1; 2; 3]; [4; 5; 6]] |}.

(** A personal-info command 06 from upstream naming the remote guild card
    number, and a guild card search 40 from the client in which searcher and
    target are the client's own serial number. *)
Definition sample_06 : bytes :=
  le_encode 4 0 ++ le_encode 4 55555 ++ ascii_bytes "hello" ++ [0; 0; 0].

Definition sample_40 : bytes :=
  le_encode 4 0x00010000 ++ le_encode 4 2000 ++ le_encode 4 2000.

(** A payload that no longer fits the 16-bit size member on DC. *)
Definition oversize_payload : bytes := replicate (Z.to_nat 65533) 0.

(** A BB server-init 03 whose server key is all [0xAA] and whose client key
    is all [0xBB]; a fresh linked BB session (no ciphers, no detector); and a
    session resumed from an unlinked one, with its detector at address 0, a
    saved login command of [0x98] bytes, and the remote IP CRC patch enabled. *)
Definition sample_bb_03 : bytes :=
  replicate 0x60 0x20 ++ replicate 0x30 0xAA ++ replicate 0x30 0xBB.

Definition sample_fresh_channel : Channel :=
  {| connected := true; is_virtual_connection := false;
     crypt_in := None; crypt_out := None;
     local_addr := {| sin_family := AF_INET; sin_addr := 0x0100007F; sin_port := 0x2823 |};
     outbox := [] |}.

Definition sample_bb_session : LinkedSession :=
  set_login_command_bb []
    (set_server_channel sample_fresh_channel
       (set_client_channel sample_fresh_channel (set_version BB sample_session))).

Definition sample_detector : Detector :=
  {| possible_keys := [[1; 2; 3]; [4; 5; 6]];
     expected_first_data := expected_first_data_bb;
     detector_seed := replicate 0x30 0x11 |}.

Definition sample_login_command_bb : bytes := replicate 0x98 0x55.

Definition sample_bb_resumed : LinkedSession :=
  set_remote_ip_crc 0x12345678
    (set_enable_remote_ip_crc_patch true
       (set_login_command_bb sample_login_command_bb
          (set_detector_crypt (Some 0%nat)
             (set_detectors [sample_detector]
                (set_client_channel
                   (set_crypt_out (Some (PSOBBMultiKeyImitatorEncryption 0 (replicate 0x30 0x22) true))
                      (set_crypt_in (Some (PSOBBMultiKeyDetectorEncryption 0)) sample_fresh_channel))
                   sample_bb_session))))).

(** A patch session whose client has gone away, while the server channel
    still holds its ciphers, and a reconnect payload naming 10.0.0.5, port
    [0x2EE0]; the same session with the client connected. *)
Definition sample_patch_channel : Channel :=
  {| connected := true; is_virtual_connection := false;
     crypt_in := Some (PSOV2Encryption 7); crypt_out := Some (PSOV2Encryption 8);
     local_addr := {| sin_family := AF_INET; sin_addr := 0x0100007F; sin_port := 0x2B2B |};
     outbox := [] |}.

Definition sample_patch_session : LinkedSession :=
  set_server_channel sample_patch_channel
    (set_client_channel sample_patch_channel (set_version PATCH sample_session)).

Definition sample_patch_session_no_client : LinkedSession :=
  set_client_channel (set_connected false sample_patch_channel) sample_patch_session.

Definition sample_reconnect : bytes := [10; 0; 0; 5; 0xE0; 0x2E; 0; 0].

(** A join layout with the members in the order of the DC/GC record and a
    shortened entry (the lobby data only: tag, guild card, address, client
    id, name), and a command 67 with two entries: client id 1 carrying the
    remote guild card number, and the out-of-range client id 200. *)
Definition sample_join_layout : JoinLobbyLayout :=
  {| offsetof_client_id := 0;
     offsetof_leader_id := 1;
     offsetof_lobby_number := 3;
     sizeof_lobby_number := 1;
     offsetof_event := 6;
     sizeof_event := 2;
     offsetof_entries := 12;
     sizeof_Entry := 32;
     offsetof_lobby_data_client_id := 12;
     sizeof_lobby_data_client_id := 4;
     offsetof_lobby_data_guild_card := 4;
     disp_name := fun entry => c_str (field_bytes 16 16 entry) |}.

Definition sample_join_entry (guild_card client_id : Z) (player_name : string) : bytes :=
  le_encode 4 0x00010000 ++ le_encode 4 guild_card ++ le_encode 4 0 ++
  le_encode 4 client_id ++ resize 16 (ascii_bytes player_name).

Definition sample_67 : bytes :=
  [0; 1; 0; 5; 1; 0; 0; 0; 0; 0; 0; 0] ++
  sample_join_entry 55555 1 "Alice" ++ sample_join_entry 777 200 "Mallory".

(** A stand-in for the [Channel] overload of [send_text_message]: a command
    B0 carrying the text after an empty header. *)
Definition sample_send_text_message (ch : Channel) (text : list Z) : Channel :=
  Channel_send 0xB0 0x00 (replicate 8 0 ++ text ++ [0]) ch.

(** Stand-ins for the parts of the repository the handlers are parametric
    in: text codecs that map code units to bytes one to one, two flag bits,
    the sample layout for every join command, and [process_default] for the
    handlers that are not modelled. *)
Definition sample_encode_sjis (text : list Z) : bytes := text.
Definition sample_decode_sjis (text : bytes) : list Z := text.
Definition sample_layout_of (_ : JoinLobbyCmdT) : JoinLobbyLayout := sample_join_layout.
Definition sample_other_handler (_ : HandlerName) : process_command_t := process_default.

Definition sample_proxy : ServerState -> bool -> Z -> Z -> M HState unit :=
  process_proxy_command sample_encode_sjis sample_decode_sjis sample_send_text_message
    0x10 0x20 sample_layout_of sample_other_handler.

Definition sample_handler_fn : HandlerName -> process_command_t :=
  handler_fn sample_encode_sjis sample_decode_sjis sample_send_text_message
    0x10 0x20 sample_layout_of sample_other_handler.

(** A stream file index of two entries, [a.dat] and [b.dat], each a file of
    four bytes; the cache that holds the index and both files; the bytes on
    the stack before the chunk buffer is written ([0xCC]) and after the chunk
    command ([0xEE]); and a BB client without a cipher. *)
Definition sample_index_entry (size offset : Z) (filename : string) : bytes :=
  le_encode 4 size ++ le_encode 4 0 ++ le_encode 4 offset ++
  resize SendCommands.sizeof_filename (ascii_bytes filename).

Definition sample_stream_index : bytes :=
  sample_index_entry 4 0 "a.dat" ++ sample_index_entry 4 4 "b.dat".

Definition sample_file_a : bytes := [0x41; 0x41; 0x41; 0x41].
Definition sample_file_b : bytes := [0x42; 0x42; 0x42; 0x42].

Definition sample_file_cache : gmap bytes bytes :=
  <[ ascii_bytes "system/blueburst/streamfile.ind" := sample_stream_index ]>
    (<[ ascii_bytes "system/blueburst/a.dat" := sample_file_a ]>
       (<[ ascii_bytes "system/blueburst/b.dat" := sample_file_b ]> ∅)).

Definition sample_uninitialized : bytes := replicate SendCommands.chunk_size 0xCC.
Definition sample_beyond : bytes := replicate 16 0xEE.

Definition sample_bb_client : SendCommands.Client :=
  {| SendCommands.version := BB; SendCommands.crypt_out := None;
     SendCommands.bev := Some [] |}.

(** ** Further handlers of [ProxyCommands.cc]

    The handlers below work on the same session record.  Their wire records
    are declared in [CommandFormats.hh], which is not among the sources, so
    each handler takes the layout of its record as a parameter: the size of
    the record and the offsets of the members the handler names. *)

(** [S_ServerInit_DC_PC_V3_02_17_91_9B]: the two [le_uint32_t] keys, and
    [after_message], whose offset is the least size the handler accepts. *)
Record ServerInitLayout := {
  offsetof_server_key : nat;
  offsetof_client_key : nat;
  offsetof_after_message : nat;
}.

(** A record with one [guild_card_number] member that the handlers of 88 and
    C4 see as an array of entries ([S_ArrowUpdateEntry_88],
    [S_ChoiceSearchResultEntry_V3_C4]). *)
Record GuildCardEntryLayout := {
  sizeof_guild_card_entry : nat;
  offsetof_guild_card_number : nat;
}.

(** The instantiations of [process_server_41]'s [CmdT]. *)
Record GuildCardSearchResultLayout := {
  sizeof_S_GuildCardSearchResult : nat;
  offsetof_searcher_guild_card_number : nat;
  offsetof_result_guild_card_number : nat;
}.

(** [SC_SimpleMail_DC_V3_81], the [CmdT] of [process_server_81] and
    [process_client_81]; [text] is a [ptext<char, N>] of [sizeof_text]
    bytes. *)
Record SimpleMailLayout := {
  sizeof_SC_SimpleMail : nat;
  offsetof_from_guild_card_number : nat;
  offsetof_to_guild_card_number : nat;
  offsetof_text : nat;
  sizeof_text : nat;
}.

(** Modelled from the spec: [ptext] is declared in [Text.hh], which is not
    among the sources.  The spec has a text field null-terminated within its
    capacity: [len()] is the number of characters before the terminator (the
    capacity if there is none), and [clear_after(n)] zeroes the field from
    position [n] on.  This is [text.clear_after(text.len())] for the field of
    [cap] bytes at [off]. *)
Definition ptext_clear_after_len (off cap : nat) (d : bytes) : bytes :=
  let text := field_bytes off cap d in
  let len := length (c_str text) in
  take off d ++ (take len text ++ replicate (length text - len) 0) ++ drop (off + cap) d.

(** The step every inbound identity rewriting repeats:
    [if (member == session.remote_guild_card_number) {
       member = session.license->serial_number; modified = true; }]
    for the [le_uint32_t] member at [off]. *)
Definition rewrite_guild_card (lic : License) (off : nat) (modified : bool) : M HState bool :=
  ss <- get_session ;;
  d <- get_data ;;
  if get_u32l off d =? remote_guild_card_number ss then
    set_data (put_u32l off (serial_number lic) d) ;; ret true
  else ret modified.

(** Its outbound counterpart in [process_client_81], which keeps no
    [modified] flag. *)
Definition rewrite_serial_number (lic : License) (off : nat) : M HState unit :=
  ss <- get_session ;;
  d <- get_data ;;
  when (get_u32l off d =? serial_number lic)
    (set_data (put_u32l off (remote_guild_card_number ss) d)).

Section MoreHandlers.

(** Parts of the repository that are not among the sources: the [Channel]
    overload of [send_text_message], three of the [Client::Flag] bits, the
    size of [C_Login_GC_9E], and the login records, each of which is built
    from the members computed in the handler (the player tag and guild card
    number, and [is_extended] for the 9E), the license, and session members
    the handlers only copy (sub-version, language, character name, hardware
    id, saved client config). *)
Variable send_text_message : Channel -> list Z -> Channel.
Variable Flag_SAVE_ENABLED : Z.
Variable Flag_NO_MESSAGE_BOX_CLOSE_CONFIRMATION : Z.
Variable Flag_DCV1 : Z.
Variable C_LoginV1_DC_93 : Z -> Z -> License -> bytes.
Variable C_Login_DC_PC_GC_9D : Z -> Z -> License -> bytes.
Variable C_VerifyLicense_V3_DB : License -> bytes.
Variable C_LoginExtended_GC_9E : Z -> Z -> Z -> License -> bytes.
Variable sizeof_C_Login_GC_9E : nat.

Definition process_server_97 : process_command_t :=
  fun _ _ flag =>
    (* Update the newserv client config so we'll know not to show the Programs
       menu if they return to newserv *)
    modify_session (fun ss =>
      let cfg := newserv_client_config ss in
      set_newserv_client_config (set_flags (Z.lor (flags cfg) Flag_SAVE_ENABLED) cfg) ss) ;;
    (* Trap any 97 command that would have triggered cheat protection *)
    if flag =? 0 then ret (HandlerResult.with_values MODIFIED 0x97 0x01)
    else ret (HandlerResult.of_type FORWARD).

(** The player tag and guild card number the synthesized logins carry. *)
Definition login_player_tag (ss : LinkedSession) : Z :=
  if remote_guild_card_number ss =? 0 then 0xFFFF0000 else 0x00010000.
Definition login_guild_card_number (ss : LinkedSession) : Z :=
  if remote_guild_card_number ss =? 0 then 0xFFFFFFFF else remote_guild_card_number ss.

Definition process_server_gc_9A : process_command_t :=
  fun _ _ _ =>
    ss <- get_session ;;
    match license ss with
    | None => ret (HandlerResult.of_type FORWARD)
    | Some lic =>
        let is_extended := if remote_guild_card_number ss =? 0 then 1 else 0 in
        let cmd := C_LoginExtended_GC_9E (login_player_tag ss) (login_guild_card_number ss)
                     is_extended lic in
        (* If there's a guild card number, a shorter 9E is sent that ends
           right after the client config data *)
        server_send 0x9E 0x01
          (if is_extended =? 0 then take sizeof_C_Login_GC_9E cmd else cmd) ;;
        ret (HandlerResult.of_type SUPPRESS)
    end.

(** [crypt_in.reset(new ...)] and [crypt_out.reset(new ...)] on a channel of
    the session. *)
Definition reset_server_crypts (c_in c_out : Crypt) : M HState unit :=
  modify_session (fun ss => set_server_channel
    (set_crypt_in (Some c_in) (server_channel ss)) ss) ;;
  modify_session (fun ss => set_server_channel
    (set_crypt_out (Some c_out) (server_channel ss)) ss).

Definition reset_client_crypts (c_in c_out : Crypt) : M HState unit :=
  modify_session (fun ss => set_client_channel
    (set_crypt_in (Some c_in) (client_channel ss)) ss) ;;
  modify_session (fun ss => set_client_channel
    (set_crypt_out (Some c_out) (client_channel ss)) ss).

Definition process_server_dc_pc_v3_patch_02_17 (L : ServerInitLayout) : process_command_t :=
  fun s command flag =>
    ss <- get_session ;;
    if GameVersion_eqb (version ss) PATCH && (command =? 0x17) then
      throw (invalid_argument "patch server sent 17 server init")
    else
      (* Most servers don't include after_message or have a shorter
         after_message than newserv does, so don't require it *)
      check_size_t (Z.of_nat (offsetof_after_message L)) 0xFFFF ;;
      d <- get_data ;;
      let server_key := get_u32l (offsetof_server_key L) d in
      let client_key := get_u32l (offsetof_client_key L) d in
      match license ss with
      | None =>
          write_log INFO "No license in linked session" ;;
          (* We have to forward the command before setting up encryption, so
             the client will be able to understand it. *)
          forward_command false command flag ;;
          match version ss with
          | GC | XB =>
              reset_server_crypts (PSOV3Encryption server_key) (PSOV3Encryption client_key) ;;
              reset_client_crypts (PSOV3Encryption client_key) (PSOV3Encryption server_key)
          | _ => (* DC, PC, or patch server (they all use V2 encryption) *)
              reset_server_crypts (PSOV2Encryption server_key) (PSOV2Encryption client_key) ;;
              reset_client_crypts (PSOV2Encryption client_key) (PSOV2Encryption server_key)
          end ;;
          ret (HandlerResult.of_type SUPPRESS)
      | Some lic =>
          write_log INFO "Existing license in linked session" ;;
          (* This isn't forwarded to the client, so don't recreate the
             client's crypts *)
          match version ss with
          | DC | PC | PATCH =>
              reset_server_crypts (PSOV2Encryption server_key) (PSOV2Encryption client_key)
          | GC | XB =>
              reset_server_crypts (PSOV3Encryption server_key) (PSOV3Encryption client_key)
          | BB => throw (logic_error "unsupported version")
          end ;;
          (* Respond with an appropriate login command. *)
          match version ss with
          | PATCH =>
              server_send 0x02 0x00 [] ;;
              ret (HandlerResult.of_type SUPPRESS)
          | DC | PC =>
              if negb (Z.land (flags (newserv_client_config ss)) Flag_DCV1 =? 0) then
                server_send 0x93 0x00
                  (C_LoginV1_DC_93 (login_player_tag ss) (login_guild_card_number ss) lic) ;;
                ret (HandlerResult.of_type SUPPRESS)
              else
                server_send 0x9D 0x00
                  (C_Login_DC_PC_GC_9D (login_player_tag ss) (login_guild_card_number ss) lic) ;;
                ret (HandlerResult.of_type SUPPRESS)
          | GC =>
              if command =? 0x17 then
                server_send 0xDB 0x00 (C_VerifyLicense_V3_DB lic) ;;
                ret (HandlerResult.of_type SUPPRESS)
              else
                (* For command 02, send the same as if we had received 9A from
                   the server *)
                process_server_gc_9A s command flag
          | XB => throw (runtime_error "xbox licenses are not implemented")
          | BB => throw (logic_error "invalid game version in server init handler")
          end
      end.

Definition process_server_41 (L : GuildCardSearchResultLayout) : process_command_t :=
  fun _ _ _ =>
    ss <- get_session ;;
    match license ss with
    | Some lic =>
        check_size_t (Z.of_nat (sizeof_S_GuildCardSearchResult L))
          (Z.of_nat (sizeof_S_GuildCardSearchResult L)) ;;
        modified <- rewrite_guild_card lic (offsetof_searcher_guild_card_number L) false ;;
        modified <- rewrite_guild_card lic (offsetof_result_guild_card_number L) modified ;;
        ret (HandlerResult.of_type (if modified then MODIFIED else FORWARD))
    | None => ret (HandlerResult.of_type FORWARD)
    end.

Definition process_server_81 (L : SimpleMailLayout) : process_command_t :=
  fun _ _ _ =>
    ss <- get_session ;;
    match license ss with
    | Some lic =>
        check_size_t (Z.of_nat (sizeof_SC_SimpleMail L)) (Z.of_nat (sizeof_SC_SimpleMail L)) ;;
        modified <- rewrite_guild_card lic (offsetof_from_guild_card_number L) false ;;
        modified <- rewrite_guild_card lic (offsetof_to_guild_card_number L) modified ;;
        ret (HandlerResult.of_type (if modified then MODIFIED else FORWARD))
    | None => ret (HandlerResult.of_type FORWARD)
    end.

Definition process_server_88 (L : GuildCardEntryLayout) : process_command_t :=
  fun _ _ flag =>
    ss <- get_session ;;
    match license ss with
    | Some lic =>
        let expected_size := Z.of_nat (sizeof_guild_card_entry L) * flag in
        check_size_t expected_size expected_size ;;
        modified <- for_loop (Z.to_nat flag) 0
          (fun x => rewrite_guild_card lic (x * sizeof_guild_card_entry L + offsetof_guild_card_number L))
          false ;;
        ret (HandlerResult.of_type (if modified then MODIFIED else FORWARD))
    | None => ret (HandlerResult.of_type FORWARD)
    end.

Definition process_server_C4 (L : GuildCardEntryLayout) : process_command_t :=
  fun _ _ flag =>
    ss <- get_session ;;
    match license ss with
    | Some lic =>
        let expected_size := Z.of_nat (sizeof_guild_card_entry L) * flag in
        (* Some servers (e.g. Schtserv) send extra data on the end of this
           command; the client ignores it so we can ignore it too *)
        check_size_t expected_size 0xFFFF ;;
        modified <- for_loop (Z.to_nat flag) 0
          (fun x => rewrite_guild_card lic (x * sizeof_guild_card_entry L + offsetof_guild_card_number L))
          false ;;
        ret (HandlerResult.of_type (if modified then MODIFIED else FORWARD))
    | None => ret (HandlerResult.of_type FORWARD)
    end.

(** [session.server_channel.send(0xD6)]: the command alone, with the flag and
    the payload the declaration in [Channel.hh] defaults to (zero and none). *)
Definition process_server_v3_1A_D5 : process_command_t :=
  fun _ _ _ =>
    ss <- get_session ;;
    (* If the client is a version that sends close confirmations and the
       client has the no-close-confirmation flag set in its newserv client
       config, send a fake confirmation to the remote server immediately. *)
    when (match version ss with GC | XB => true | _ => false end &&
          negb (Z.land (flags (newserv_client_config ss))
                  Flag_NO_MESSAGE_BOX_CLOSE_CONFIRMATION =? 0))
      (server_send 0xD6 0x00 []) ;;
    ret (HandlerResult.of_type FORWARD).

(** [sizeof(S_LeaveLobby_66_69_Ep3_E9)]: two [uint8_t] and a [le_uint16_t]. *)
Definition sizeof_S_LeaveLobby_66_69_Ep3_E9 : nat := 4.
Definition S_LeaveLobby_client_id : nat := 0.
Definition S_LeaveLobby_leader_id : nat := 1.

Definition process_server_66_69 : process_command_t :=
  fun _ _ _ =>
    check_size_t (Z.of_nat sizeof_S_LeaveLobby_66_69_Ep3_E9)
      (Z.of_nat sizeof_S_LeaveLobby_66_69_Ep3_E9) ;;
    ss <- get_session ;;
    d <- get_data ;;
    let index := Z.to_nat (get_u8 S_LeaveLobby_client_id d) in
    (if (length (lobby_players ss) <=? index)%nat then
       write_log WARNING "Lobby leave command references missing position"
     else
       modify_session (fun ss => set_lobby_players
         (<[index := {| guild_card_number := 0; name := [] |}]> (lobby_players ss)) ss) ;;
       write_log INFO "Removed lobby player (%zu)") ;;
    update_leader_id send_text_message (get_u8 S_LeaveLobby_leader_id d) ;;
    ret (HandlerResult.of_type FORWARD).

Definition process_client_81 (L : SimpleMailLayout) : process_command_t :=
  fun _ _ _ =>
    check_size_t (Z.of_nat (sizeof_SC_SimpleMail L)) (Z.of_nat (sizeof_SC_SimpleMail L)) ;;
    ss <- get_session ;;
    match license ss with
    | Some lic =>
        rewrite_serial_number lic (offsetof_from_guild_card_number L) ;;
        rewrite_serial_number lic (offsetof_to_guild_card_number L)
    | None => ret tt
    end ;;
    (* GC clients send uninitialized memory here; don't forward it *)
    d <- get_data ;;
    set_data (ptext_clear_after_len (offsetof_text L) (sizeof_text L) d) ;;
    ret (HandlerResult.of_type MODIFIED).

(** The layouts the table entries instantiate the templates with. *)
Variable S_ServerInit_DC_PC_V3_02_17_91_9B : ServerInitLayout.
Variable S_GuildCardSearchResult_DC_V3_41 : GuildCardSearchResultLayout.
Variable S_GuildCardSearchResult_PC_41 : GuildCardSearchResultLayout.
Variable S_GuildCardSearchResult_BB_41 : GuildCardSearchResultLayout.
Variable SC_SimpleMail_DC_V3_81 : SimpleMailLayout.
Variable S_ArrowUpdateEntry_88 : GuildCardEntryLayout.
Variable S_ChoiceSearchResultEntry_V3_C4 : GuildCardEntryLayout.

(** The functions these table entries stand for; [handler_fn] reaches them
    through its last argument, and [rest] stands for the handlers that are
    still not modelled. *)
Definition more_handlers (rest : HandlerName -> process_command_t) (h : HandlerName)
    : process_command_t :=
  match h with
  | h_server_dc_pc_v3_patch_02_17 =>
      process_server_dc_pc_v3_patch_02_17 S_ServerInit_DC_PC_V3_02_17_91_9B
  | h_server_41_S_GuildCardSearchResult_DC_V3_41 =>
      process_server_41 S_GuildCardSearchResult_DC_V3_41
  | h_server_41_S_GuildCardSearchResult_PC_41 =>
      process_server_41 S_GuildCardSearchResult_PC_41
  | h_server_41_S_GuildCardSearchResult_BB_41 =>
      process_server_41 S_GuildCardSearchResult_BB_41
  | h_server_66_69 => process_server_66_69
  | h_server_81_SC_SimpleMail_DC_V3_81 => process_server_81 SC_SimpleMail_DC_V3_81
  | h_server_88 => process_server_88 S_ArrowUpdateEntry_88
  | h_server_97 => process_server_97
  | h_server_v3_1A_D5 => process_server_v3_1A_D5
  | h_server_gc_9A => process_server_gc_9A
  | h_server_C4_S_ChoiceSearchResultEntry_V3_C4 =>
      process_server_C4 S_ChoiceSearchResultEntry_V3_C4
  | h_client_81_SC_SimpleMail_DC_V3_81 => process_client_81 SC_SimpleMail_DC_V3_81
  | h => rest h
  end.

End MoreHandlers.

(** The members of a mail record lie inside it, and neither guild card
    member overlaps the other or the text (they are distinct members of one
    packed record). *)
Definition mail_layout_ok (L : SimpleMailLayout) : Prop :=
  let from := offsetof_from_guild_card_number L in
  let to := offsetof_to_guild_card_number L in
  let text := offsetof_text L in
  (from + 4 <= sizeof_SC_SimpleMail L)%nat /\
  (to + 4 <= sizeof_SC_SimpleMail L)%nat /\
  (text + sizeof_text L <= sizeof_SC_SimpleMail L)%nat /\
  ((from + 4 <= to)%nat \/ (to + 4 <= from)%nat) /\
  ((from + 4 <= text)%nat \/ (text + sizeof_text L <= from)%nat) /\
  ((to + 4 <= text)%nat \/ (text + sizeof_text L <= to)%nat).

(** The text a mail record carries: the characters of its text member before
    the terminator. *)
Definition mail_text (L : SimpleMailLayout) (d : bytes) : bytes :=
  c_str (field_bytes (offsetof_text L) (sizeof_text L) d).

(** Two payloads that differ at most in what follows the terminator inside
    the text member. *)
Definition same_mail (L : SimpleMailLayout) (d1 d2 : bytes) : Prop :=
  length d1 = length d2 /\
  (forall p, ~ (offsetof_text L <= p < offsetof_text L + sizeof_text L)%nat ->
     (d1 : list Z) !! p = (d2 : list Z) !! p) /\
  mail_text L d1 = mail_text L d2.

(** The cipher the server-init handler makes from a key: V3 for GC and XB,
    V2 for every other version. *)
Definition init_cipher (v : GameVersion) (key : Z) : Crypt :=
  match v with
  | GC | XB => PSOV3Encryption key
  | _ => PSOV2Encryption key
  end.

(** ** Sending to lobbies ([SendCommands.cc]) *)

Module LobbySend.

Import SendCommands.

(** A non-null [shared_ptr<Client>]: the clients live in a table, and a
    pointer is a key of it. *)
Abbreviation ClientPtr := nat.

(** [struct Client] of [Client.hh] as the lobby senders use it: the members
    [send_command] uses, and the [uint8_t lobby_client_id]. *)
Record LobbyClient := {
  client : Client;
  lobby_client_id : Z;
}.

(** The clients that exist.  A lobby shares the ownership of its clients, so
    a pointer that a lobby holds always has an object; the table has no
    entry only for pointers that nothing holds. *)
Abbreviation Clients := (gmap nat LobbyClient).

(** [struct Lobby] is declared in [Lobby.hh], which is not among the
    sources; these are the members the senders below use: the array of
    client pointers (null for an empty slot), [leader_id], and what
    [is_game()] returns. *)
Record Lobby := {
  clients : list (option ClientPtr);
  leader_id : Z;
  is_game : bool;
}.

(** [send_command(shared_ptr<Client> c, ...)] on the object [c] points to. *)
Definition send_command_p (c : ClientPtr) (command flag : Z) (data : bytes)
    : M Clients unit :=
  fun h =>
    match h !! c with
    | Some o =>
        let '(r, o') := send_command_c command flag data (client o) in
        (r, <[c := {| client := o'; lobby_client_id := lobby_client_id o |}]> h)
    | None => (Ret tt, h)
    end.

(** [for (auto& x : xs) body(x)]. *)
Fixpoint for_each {St A} (xs : list A) (body : A -> M St unit) : M St unit :=
  match xs with
  | [] => ret tt
  | x :: xs => body x ;; for_each xs body
  end.

(** [c] may be null. *)
Definition send_command_excluding_client (l : Lobby) (c : option ClientPtr)
    (command flag : Z) (data : bytes) : M Clients unit :=
  for_each (clients l) (fun client =>
    match client with
    | None => ret tt
    | Some p =>
        if bool_decide (Some p = c) then ret tt
        else send_command_p p command flag data
    end).

(** [send_command(shared_ptr<Lobby> l, ...)]. *)
Definition send_command_l (l : Lobby) (command flag : Z) (data : bytes) : M Clients unit :=
  send_command_excluding_client l None command flag data.

(** [send_command(shared_ptr<ServerState> s, ...)]; [all_lobbies] is what
    [s->all_lobbies()] returns ([ServerState.hh] is not among the sources). *)
Definition send_command_s (all_lobbies : list Lobby) (command flag : Z) (data : bytes)
    : M Clients unit :=
  for_each all_lobbies (fun l => send_command_l l command flag data).

Definition send_player_leave_notification (l : Lobby) (leaving_client_id : Z)
    : M Clients unit :=
  let cmd := encode_S_LeaveLobby_66_69_Ep3_E9 leaving_client_id (leader_id l) 0 in
  send_command_l l (if is_game l then 0x66 else 0x69) leaving_client_id cmd.

(** tells the player that the joining player is done joining, and the game
    can resume; [data] is a [uint32_t] on a little-endian host. *)
Definition send_resume_game (l : Lobby) (ready_client : option ClientPtr) : M Clients unit :=
  send_command_excluding_client l ready_client 0x60 0x00 (le_encode 4 0x081C0372).

(** The [while (amount > 0)] loop of [send_player_stats_change], which
    appends two [PSOSubcommand]s (four bytes each) per round; [stat] is
    assigned to a [uint8_t].  Every round takes at least 1 off [amount], so
    [amount] rounds are enough. *)
Fixpoint stats_change_subs (fuel : nat) (lobby_client_id stat amount : Z) (subs : bytes)
    : bytes :=
  match fuel with
  | O => subs
  | S fuel =>
      if 0 <? amount then
        let subs := subs ++ [0x9A; 0x02; lobby_client_id; 0x00] in
        let byte3 := if 0xFF <? amount then 0xFF else amount in
        let subs := subs ++ [0x00; 0x00; stat mod 256; byte3] in
        stats_change_subs fuel lobby_client_id stat (amount - byte3) subs
      else subs
  end.

(** sends an HP/TP/Meseta modifying command; [c] is the client the pointer
    names, of which only [lobby_client_id] is read. *)
Definition send_player_stats_change (l : Lobby) (c : LobbyClient) (stat amount : Z)
    : M Clients unit :=
  if 2550 <? amount then
    throw (invalid_argument "amount cannot be larger than 2550")
  else
    let subs := stats_change_subs (Z.to_nat amount) (lobby_client_id c) stat amount [] in
    send_command_l l 0x60 0x00 subs.

End LobbySend.

(** What a lobby broadcast amounts to for one client: the frame of the
    client's own version, under the client's own cipher, once for every
    slot of the lobby that holds the client. *)
Definition frame_for (v : GameVersion) (command flag : Z) (data : bytes) : bytes :=
  match SendCommands.build_send_data v command flag data with
  | Ret send_data => send_data
  | Throw _ => []
  end.

Definition deliver (n : nat) (command flag : Z) (data : bytes) (o : LobbySend.LobbyClient)
    : LobbySend.LobbyClient :=
  let c := LobbySend.client o in
  {| LobbySend.client :=
       {| SendCommands.version := SendCommands.version c;
          SendCommands.crypt_out := SendCommands.crypt_out c;
          SendCommands.bev :=
            (fun buf => buf ++ replicate n
               {| SendCommands.frame := frame_for (SendCommands.version c) command flag data;
                  SendCommands.cipher := SendCommands.crypt_out c |})
            <$> SendCommands.bev c |};
     LobbySend.lobby_client_id := LobbySend.lobby_client_id o |}.

(** The slots among [slots] that hold the client [p], none if [p] is the
    excluded client. *)
Definition seats (c : option LobbySend.ClientPtr) (p : LobbySend.ClientPtr)
    (slots : list (option LobbySend.ClientPtr)) : nat :=
  if bool_decide (Some p = c) then 0%nat
  else length (filter (fun slot => slot = Some p) slots).

(** A client that would make a broadcast fail: one with an output buffer
    whose version [send_command] does not implement. *)
Definition unsendable (o : LobbySend.LobbyClient) : Prop :=
  SendCommands.bev (LobbySend.client o) <> None /\
  SendCommands.version (LobbySend.client o) = XB.

(** The amounts a stats change of [amount] is split into, and the two
    subcommands that carry one of them. *)
Definition stats_change_amounts (amount : Z) : list Z :=
  replicate (Z.to_nat (amount / 255)) 255 ++
  (if amount mod 255 =? 0 then [] else [amount mod 255]).

Definition stats_change_pair (lobby_client_id stat n : Z) : bytes :=
  [0x9A; 0x02; lobby_client_id; 0x00; 0x00; 0x00; stat mod 256; n].

(** ** Sending files ([SendCommands.cc]) *)

Module FileSend.

Import SendCommands.

(** The records of the quest file commands are declared in
    [CommandFormats.hh], which is not among the sources; the senders and the
    proxy's handlers name these members.  [file_size] and [data_size] take a
    [uint32_t] and are [le_uint32_t]; [data] is [uint8_t data[0x400]]; the
    two names are [ptext<char, N>]. *)
Record OpenFileLayout := {
  sizeof_S_OpenFile : nat;
  offsetof_name : nat;
  sizeof_name : nat;
  offsetof_flags : nat;
  sizeof_flags : nat;
  offsetof_filename : nat;
  sizeof_filename : nat;
  offsetof_file_size : nat;
}.

Record WriteFileLayout := {
  sizeof_S_WriteFile_13_A7 : nat;
  offsetof_write_filename : nat;
  sizeof_write_filename : nat;
  offsetof_data : nat;
  offsetof_data_size : nat;
}.

Section Senders.

(** [Text.hh] is not among the sources: [ptext_assign N s] stands for what a
    [ptext<char, N>] holds after the C string [s] has been assigned to it.
    [uninitialized_open] and [uninitialized_write] stand for what the
    command objects on the stack hold before their members are assigned. *)
Variable ptext_assign : nat -> bytes -> bytes.
Variable uninitialized_open : OpenFileLayout -> bytes.
Variable uninitialized_write : bytes.
Variable file_cache : gmap bytes bytes.

(** sends the (PRS-compressed) card list to the client *)
Definition send_ep3_card_list_update : M Client unit :=
  file_data <- file_cache_get file_cache (ascii_bytes "system/ep3/cardupdate.mnr") ;;
  let w := le_encode 4 (Z.of_nat (length file_data)) ++ file_data in
  send_command_c 0xB8 0x00 w.

(** The object [cmd] of [send_quest_open_file_t] after its assignments. *)
Definition open_file_cmd (L : OpenFileLayout) (filename : bytes) (file_size : Z)
    (is_ep3_quest : bool) : bytes :=
  let cmd := uninitialized_open L in
  let cmd := store (sizeof_flags L) (offsetof_flags L)
               (2 + (if is_ep3_quest then 1 else 0)) cmd in
  let cmd := store 4 (offsetof_file_size L) file_size cmd in
  let cmd := memcpy_at (offsetof_name L) (ptext_assign (sizeof_name L) (c_str filename)) cmd in
  memcpy_at (offsetof_filename L) (ptext_assign (sizeof_filename L) (c_str filename)) cmd.

Definition send_quest_open_file_t (L : OpenFileLayout) (filename : bytes) (file_size : Z)
    (is_download_quest is_ep3_quest : bool) : M Client unit :=
  send_command_c (if is_download_quest then 0xA6 else 0x44) 0x00
    (open_file_cmd L filename file_size is_ep3_quest).

(** The object [cmd] of [send_quest_file_chunk] after its assignments;
    [data] holds the [size] bytes at [data]. *)
Definition write_file_cmd (L : WriteFileLayout) (filename data : bytes) : bytes :=
  let size := length data in
  let cmd := uninitialized_write in
  let cmd := memcpy_at (offsetof_write_filename L)
               (ptext_assign (sizeof_write_filename L) (c_str filename)) cmd in
  let cmd := memcpy_at (offsetof_data L) data cmd in
  let cmd := if (size <? 0x400)%nat
             then memcpy_at (offsetof_data L + size) (replicate (0x400 - size) 0) cmd
             else cmd in
  store 4 (offsetof_data_size L) (Z.of_nat size) cmd.

Definition send_quest_file_chunk (L : WriteFileLayout) (filename : bytes) (chunk_index : nat)
    (data : bytes) (is_download_quest : bool) : M Client unit :=
  if (0x400 <? length data)%nat then
    throw (invalid_argument "quest file chunks must be 1KB or smaller")
  else
    send_command_c (if is_download_quest then 0xA7 else 0x13) (Z.of_nat chunk_index)
      (write_file_cmd L filename data).

(** The loop [for (size_t offset = 0; offset < contents.size(); offset +=
    0x400)] of [send_quest_file]; every round moves [offset] on, so
    [contents.size()] rounds are enough. *)
Fixpoint send_quest_file_chunks (fuel : nat) (L : WriteFileLayout) (basename contents : bytes)
    (is_download_quest : bool) (offset : nat) : M Client unit :=
  match fuel with
  | O => ret tt
  | S fuel =>
      if (offset <? length contents)%nat then
        let chunk_bytes := (length contents - offset)%nat in
        let chunk_bytes := if (0x400 <? chunk_bytes)%nat then 0x400%nat else chunk_bytes in
        send_quest_file_chunk L basename (offset / 0x400)
          (take chunk_bytes (drop offset contents)) is_download_quest ;;
        send_quest_file_chunks fuel L basename contents is_download_quest (offset + 0x400)
      else ret tt
  end.

Variable S_OpenFile_PC_GC_44_A6 : OpenFileLayout.
Variable S_OpenFile_BB_44_A6 : OpenFileLayout.
Variable S_WriteFile_13_A7 : WriteFileLayout.

Definition send_quest_file (basename contents : bytes)
    (is_download_quest is_ep3_quest : bool) : M Client unit :=
  c <- get ;;
  match version c with
  | PC | GC =>
      send_quest_open_file_t S_OpenFile_PC_GC_44_A6 basename
        (Z.of_nat (length contents)) is_download_quest is_ep3_quest
  | BB =>
      send_quest_open_file_t S_OpenFile_BB_44_A6 basename
        (Z.of_nat (length contents)) is_download_quest is_ep3_quest
  | _ => throw (invalid_argument "cannot send quest files to this version of client")
  end ;;
  send_quest_file_chunks (length contents) S_WriteFile_13_A7 basename contents
    is_download_quest 0.

End Senders.

End FileSend.

(** The commands of a quest file as a list: chunk [k] holds the [0x400]
    bytes of the file from [k * 0x400] on (fewer at the end of the file), and
    there is a chunk for every [k] that starts inside the file. *)
Definition quest_chunk (contents : bytes) (k : nat) : bytes :=
  take 0x400 (drop (k * 0x400) contents).

Definition quest_chunk_count (contents : bytes) : nat :=
  ((length contents + 0x3FF) / 0x400)%nat.

(** A command as the arguments of [send_command]: command, flag, payload. *)
Definition send_args (cmd : Z * Z * bytes) : M SendCommands.Client unit :=
  SendCommands.send_command_c cmd.1.1 cmd.1.2 cmd.2.

(** ** Saving files in the proxy ([ProxyCommands.cc])

    With [save_files] set, a linked session keeps what upstream sends of
    quest files, card lists and player data.  [ProxyServer.hh] is not among
    the sources; the members the handlers use are these. *)

(** [LinkedSession::SavingFile]: the three members its constructor is given,
    and [f], the stream it writes to, as the bytes written so far. *)
Record SavingFile := {
  basename : bytes;
  output_filename : bytes;
  remaining_bytes : Z;
  f : bytes;
}.

(** The session as the file handlers see it: the session and payload of the
    other handlers, [save_files] and [saving_files], and what has reached the
    file system: the [SavingFile]s that have been destroyed (their streams are
    closed then), and the calls of [save_file], each in order. *)
Record SavingState := {
  sv_state : HState;
  save_files : bool;
  saving_files : gmap bytes SavingFile;
  closed_files : list SavingFile;
  saved_files : list (bytes * bytes);
}.

Definition on_session {A} (m : M HState A) : M SavingState A :=
  fun st =>
    let '(r, h) := m (sv_state st) in
    (r, {| sv_state := h; save_files := save_files st; saving_files := saving_files st;
           closed_files := closed_files st; saved_files := saved_files st |}).

(** [session.saving_files.emplace(key, move(sf))]: nothing is inserted if the
    key is present, and the object that was to be inserted is destroyed. *)
Definition saving_files_emplace (key : bytes) (sf : SavingFile) : M SavingState unit :=
  modify (fun st =>
    match saving_files st !! key with
    | None =>
        {| sv_state := sv_state st; save_files := save_files st;
           saving_files := <[key := sf]> (saving_files st);
           closed_files := closed_files st; saved_files := saved_files st |}
    | Some _ =>
        {| sv_state := sv_state st; save_files := save_files st;
           saving_files := saving_files st;
           closed_files := closed_files st ++ [sf]; saved_files := saved_files st |}
    end).

(** An assignment through the pointer [sf] into [saving_files]. *)
Definition saving_files_update (key : bytes) (sf : SavingFile) : M SavingState unit :=
  modify (fun st =>
    {| sv_state := sv_state st; save_files := save_files st;
       saving_files := <[key := sf]> (saving_files st);
       closed_files := closed_files st; saved_files := saved_files st |}).

(** [session.saving_files.erase(key)]. *)
Definition saving_files_erase (key : bytes) : M SavingState unit :=
  modify (fun st =>
    {| sv_state := sv_state st; save_files := save_files st;
       saving_files := delete key (saving_files st);
       closed_files := closed_files st ++
                         match saving_files st !! key with Some sf => [sf] | None => [] end;
       saved_files := saved_files st |}).

(** [save_file(filename, data)] of phosg. *)
Definition save_file (filename data : bytes) : M SavingState unit :=
  modify (fun st =>
    {| sv_state := sv_state st; save_files := save_files st;
       saving_files := saving_files st; closed_files := closed_files st;
       saved_files := saved_files st ++ [(filename, data)] |}).

(** The loop over [output_filename] in [process_server_44_A6] and the test of
    its first character.  A [char] above [0x7E] is replaced whether [char] is
    signed (it is then below [0x20]) or not. *)
Definition sanitize_filename (output_filename : bytes) : bytes :=
  let replaced :=
    (fun ch => if (ch <? 0x20) || (0x7E <? ch) || (ch =? 0x2F) then 0x5F else ch)
      <$> output_filename in
  match replaced with
  | first :: rest => if first =? 0x2E then 0x5F :: rest else replaced
  | [] => replaced
  end.

Section SavingHandlers.

(** What [now()] returns, and the decimal digits [PRIu64] and [PRId64]
    print for it. *)
Variable now : Z.
Variable decimal : Z -> bytes.

(** The record [check_size_t] is instantiated with in [process_server_44_A6],
    whatever the template argument is. *)
Variable S_OpenFile_PC_V3_44_A6 : FileSend.OpenFileLayout.
Variable S_WriteFile_13_A7 : FileSend.WriteFileLayout.

Definition process_command_saving_t : Type :=
  ServerState -> Z -> Z -> M SavingState HandlerResult.t.

Definition process_server_44_A6 : process_command_saving_t :=
  fun _ command _ =>
    st <- get ;;
    when (save_files st)
      (let L := S_OpenFile_PC_V3_44_A6 in
       on_session (check_size_t (Z.of_nat (FileSend.sizeof_S_OpenFile L))
                     (Z.of_nat (FileSend.sizeof_S_OpenFile L))) ;;
       d <- on_session get_data ;;
       let is_download_quest := command =? 0xA6 in
       let filename :=
         c_str (field_bytes (FileSend.offsetof_filename L) (FileSend.sizeof_filename L) d) in
       let output_filename :=
         sanitize_filename
           (filename ++ ascii_bytes "." ++
            ascii_bytes (if is_download_quest then "download" else "online") ++
            ascii_bytes "." ++ decimal now) in
       let sf := {| basename := filename; output_filename := output_filename;
                    remaining_bytes := get_u32l (FileSend.offsetof_file_size L) d;
                    f := [] |} in
       saving_files_emplace filename sf ;;
       on_session (write_log INFO "Opened file %s")) ;;
    ret (HandlerResult.of_type FORWARD).

Definition process_server_13_A7 : process_command_saving_t :=
  fun _ _ _ =>
    st <- get ;;
    if save_files st then
      let L := S_WriteFile_13_A7 in
      on_session (check_size_t (Z.of_nat (FileSend.sizeof_S_WriteFile_13_A7 L))
                    (Z.of_nat (FileSend.sizeof_S_WriteFile_13_A7 L))) ;;
      d <- on_session get_data ;;
      let filename :=
        c_str (field_bytes (FileSend.offsetof_write_filename L)
                 (FileSend.sizeof_write_filename L) d) in
      match saving_files st !! filename with
      | None =>
          on_session (write_log WARNING "Received data for non-open file %s") ;;
          ret (HandlerResult.of_type FORWARD)
      | Some sf =>
          bytes_to_write <-
            (let bytes_to_write := get_u32l (FileSend.offsetof_data_size L) d in
             if 0x400 <? bytes_to_write then
               on_session (write_log WARNING
                             "Chunk data size is invalid; truncating to 0x400") ;;
               ret 0x400
             else ret bytes_to_write) ;;
          on_session (write_log INFO "Writing %zu bytes to %s") ;;
          let written :=
            take (Z.to_nat bytes_to_write) (field_bytes (FileSend.offsetof_data L) 0x400 d) in
          remaining <-
            (if remaining_bytes sf <? bytes_to_write then
               on_session (write_log WARNING
                 "Chunk size extends beyond original file size; file may be truncated") ;;
               ret 0
             else ret (remaining_bytes sf - bytes_to_write)) ;;
          saving_files_update filename
            {| basename := basename sf; output_filename := output_filename sf;
               remaining_bytes := remaining; f := f sf ++ written |} ;;
          when (remaining =? 0)
            (on_session (write_log INFO "File %s is complete") ;;
             saving_files_erase filename) ;;
          ret (HandlerResult.of_type FORWARD)
      end
    else ret (HandlerResult.of_type FORWARD).

Definition process_server_gc_B8 : process_command_saving_t :=
  fun _ _ _ =>
    st <- get ;;
    if save_files st then
      d <- on_session get_data ;;
      if (length d <? 4)%nat then
        on_session (write_log WARNING "Card list data size is too small; not saving file") ;;
        ret (HandlerResult.of_type FORWARD)
      else
        let size := get_u32l 0 d in
        if Z.of_nat (length d - 4) <? size then
          on_session (write_log WARNING
            "Card list data size extends beyond end of command; not saving file") ;;
          ret (HandlerResult.of_type FORWARD)
        else
          let output_filename := ascii_bytes "cardupdate." ++ decimal now ++ ascii_bytes ".mnr" in
          save_file output_filename (take (Z.to_nat size) (drop 4 d)) ;;
          on_session (write_log INFO "Wrote %zu bytes to %s") ;;
          ret (HandlerResult.of_type FORWARD)
    else ret (HandlerResult.of_type FORWARD).


End SavingHandlers.



(** A file name that cannot leave the directory it is created in: printable
    ASCII only, no [/], and not starting with a dot. *)
Definition safe_filename (name : bytes) : Prop :=
  Forall (fun ch => 0x20 <= ch <= 0x7E /\ ch <> 0x2F) name /\
  name <> [] /\ head name <> Some 0x2E.

(** The file commands among a sequence of commands from upstream, given to
    the handlers the tables name for them, each with its payload as the
    data. *)
Definition set_payload (d : bytes) : M SavingState unit :=
  on_session (set_data d).



(** ** Handlers that can leave defined behaviour ([ProxyCommands.cc])

    Two handlers go through [session.license] without testing it, and one of
    them indexes the mirror with a number taken from the command.  Where the
    C++ has no defined behaviour (a null pointer dereferenced, an index past
    the end of a vector) the computation has no result: [None]. *)
Definition MU (St A : Type) : Type := St -> option (outcome A * St).

Definition defined {St A} (m : M St A) : MU St A := fun st => Some (m st).

Definition undefined {St A} : MU St A := fun _ => None.

Definition bindU {St A B} (m : MU St A) (k : A -> MU St B) : MU St B :=
  fun st =>
    match m st with
    | Some (Ret a, st') => k a st'
    | Some (Throw e, st') => Some (Throw e, st')
    | None => None
    end.

Declare Scope undefined_scope.
Delimit Scope undefined_scope with U.
Notation "x <- m ;; k" := (bindU m (fun x => k))
  (at level 100, m at next level, right associativity) : undefined_scope.
Notation "m ;; k" := (bindU m (fun _ => k))
  (at level 100, right associativity) : undefined_scope.

Fixpoint for_loopU {St A} (n : nat) (start : nat) (body : nat -> A -> MU St A) (acc : A)
    : MU St A :=
  match n with
  | O => defined (ret acc)
  | S k => (acc' <- body start acc ;; for_loopU k (S start) body acc')%U
  end.

(** [session.license->serial_number]. *)
Definition license_serial_number : MU HState Z :=
  fun st =>
    match license (hs_session st) with
    | Some lic => Some (Ret (serial_number lic), st)
    | None => None
    end.

(** The step of [process_server_gc_E4] and [process_server_64] for the
    [le_uint32_t] member at [off]: the step of the other inbound rewritings,
    without their test of [session.license]. *)
Definition rewrite_guild_card_unchecked (off : nat) (modified : bool) : MU HState bool :=
  (ss <- defined get_session ;;
   d <- defined get_data ;;
   if get_u32l off d =? remote_guild_card_number ss then
     serial <- license_serial_number ;;
     defined (set_data (put_u32l off serial d)) ;;
     defined (ret true)
   else defined (ret modified))%U.

(** [S_CardLobbyGame_GC_Ep3_E4]: its four [entries], each with a
    [guild_card_number]. *)
Record CardLobbyGameLayout := {
  sizeof_S_CardLobbyGame_GC_Ep3_E4 : nat;
  offsetof_E4_entries : nat;
  sizeof_E4_entry : nat;
  offsetof_E4_guild_card_number : nat;
}.

Definition process_server_gc_E4 (L : CardLobbyGameLayout)
    : ServerState -> Z -> Z -> MU HState HandlerResult.t :=
  fun _ _ _ =>
    (defined (check_size_t (Z.of_nat (sizeof_S_CardLobbyGame_GC_Ep3_E4 L))
                (Z.of_nat (sizeof_S_CardLobbyGame_GC_Ep3_E4 L))) ;;
     modified <- for_loopU 4 0
       (fun x => rewrite_guild_card_unchecked
                   (offsetof_E4_entries L + x * sizeof_E4_entry L +
                    offsetof_E4_guild_card_number L))
       false ;;
     defined (ret (HandlerResult.of_type (if modified then MODIFIED else FORWARD))))%U.

(** ** Handlers that use more of the session

    The members of [LinkedSession] that [process_server_dc_pc_v3_04] and
    [process_server_64] use beside those above.  [remote_client_config_data]
    is an array of [0x20] bytes (the two texts copied to all of it have
    [0x20] characters). *)
Record MoreState := {
  ms_state : HState;
  sub_version : Z;
  remote_client_config_data : bytes;
  override_section_id : Z;
  override_random_seed : Z;
}.

Definition on_state {A} (m : M HState A) : M MoreState A :=
  fun st =>
    let '(r, h) := m (ms_state st) in
    (r, {| ms_state := h; sub_version := sub_version st;
           remote_client_config_data := remote_client_config_data st;
           override_section_id := override_section_id st;
           override_random_seed := override_random_seed st |}).

Definition on_stateU {A} (m : MU HState A) : MU MoreState A :=
  fun st =>
    match m (ms_state st) with
    | Some (r, h) =>
        Some (r, {| ms_state := h; sub_version := sub_version st;
                    remote_client_config_data := remote_client_config_data st;
                    override_section_id := override_section_id st;
                    override_random_seed := override_random_seed st |})
    | None => None
    end.



Section MoreSessionHandlers.

(** [decode_sjis] and the [Channel] overload of [send_text_message], as
    above; the digits [PRIu32] prints; the value [random_object<uint64_t>()]
    returns; and the memory that follows the payload, which the second
    [memcpy] of [process_server_dc_pc_v3_04] reads when the command is
    short. *)
Variable decode_sjis : bytes -> list Z.
Variable send_text_message : Channel -> list Z -> Channel.
Variable decimal : Z -> bytes.
Variable random_object : Z.
Variable beyond : bytes.


(** The [S_JoinGame] records differ from version to version, so their
    layout is a parameter: the members [process_server_64] names in its
    command type [CmdT] ([client_id] and [leader_id] are [uint8_t] and
    [guild_card] and [rare_seed] are [le_uint32_t], as in the lobby join
    records), and in [S_JoinGame_GC_Ep3_64] the [players_ep3] array with the
    conversion of an entry's [disp.name] to the [ptext<char, 0x10>] stored
    in the mirror. *)
Record JoinGameLayout := {
  sizeof_S_JoinGame : nat;
  offsetof_JoinGame_client_id : nat;
  offsetof_JoinGame_leader_id : nat;
  offsetof_JoinGame_lobby_data : nat;
  sizeof_JoinGame_lobby_data : nat;
  offsetof_JoinGame_guild_card : nat;
  offsetof_JoinGame_section_id : nat;
  sizeof_JoinGame_section_id : nat;
  offsetof_JoinGame_event : nat;
  sizeof_JoinGame_event : nat;
  offsetof_JoinGame_rare_seed : nat;
}.

Record JoinGameEp3Layout := {
  sizeof_S_JoinGame_GC_Ep3_64 : nat;
  offsetof_players_ep3 : nat;
  sizeof_players_ep3 : nat;
  players_ep3_disp_name : bytes -> bytes;
}.

(** [session.lobby_players.resize(4)]. *)
Definition resize_lobby_players (n : nat) (players : list LobbyPlayer) : list LobbyPlayer :=
  take n players ++ replicate (n - length players) empty_LobbyPlayer.

(** The member [guild_card] of [cmd->lobby_data[x]]. *)
Definition JoinGame_guild_card (L : JoinGameLayout) (x : nat) : nat :=
  offsetof_JoinGame_lobby_data L + x * sizeof_JoinGame_lobby_data L +
  offsetof_JoinGame_guild_card L.

(** The body of the loop of [process_server_64]; [session.lobby_players[x]]
    needs [x] to be inside the vector. *)
Definition join_game_entry (L : JoinGameLayout) (cmd_ep3 : option JoinGameEp3Layout)
    (x : nat) (modified : bool) : MU HState bool :=
  (ss <- defined get_session ;;
   if (length (lobby_players ss) <=? x)%nat then undefined
   else
     modified <- rewrite_guild_card_unchecked (JoinGame_guild_card L x) modified ;;
     d <- defined get_data ;;
     let player_name :=
       match cmd_ep3 with
       | Some E =>
           players_ep3_disp_name E
             (field_bytes (offsetof_players_ep3 E + x * sizeof_players_ep3 E)
                (sizeof_players_ep3 E) d)
       | None => []
       end in
     defined (modify_session (fun ss => set_lobby_players
       (<[x := {| guild_card_number := get_u32l (JoinGame_guild_card L x) d;
                  name := player_name |}]> (lobby_players ss)) ss)) ;;
     defined (write_log INFO "Added lobby player: (%zu) %u %s") ;;
     defined (ret modified))%U.

(** The end of [process_server_64]: the overrides of the session. *)
Definition join_game_overrides (L : JoinGameLayout) (modified : bool)
    : M MoreState HandlerResult.t :=
  st <- get ;;
  modified <-
    (if 0 <=? override_section_id st then
       d <- on_state get_data ;;
       on_state (set_data
         (store (sizeof_JoinGame_section_id L) (offsetof_JoinGame_section_id L)
            (override_section_id st) d)) ;;
       ret true
     else ret modified) ;;
  ss <- on_state get_session ;;
  modified <-
    (if 0 <=? override_lobby_event ss then
       d <- on_state get_data ;;
       on_state (set_data
         (store (sizeof_JoinGame_event L) (offsetof_JoinGame_event L)
            (override_lobby_event ss) d)) ;;
       ret true
     else ret modified) ;;
  modified <-
    (if 0 <=? override_random_seed st then
       d <- on_state get_data ;;
       on_state (set_data
         (store 4 (offsetof_JoinGame_rare_seed L) (override_random_seed st) d)) ;;
       ret true
     else ret modified) ;;
  ret (HandlerResult.of_type (if modified then MODIFIED else FORWARD)).

Definition process_server_64 (L : JoinGameLayout) (E : JoinGameEp3Layout)
    : ServerState -> Z -> Z -> MU MoreState HandlerResult.t :=
  fun _ _ flag =>
    ((* We don't need to clear lobby_players here because we always
        overwrite all 4 entries for this command *)
     defined (on_state (modify_session (fun ss =>
       set_lobby_players (resize_lobby_players 4 (lobby_players ss)) ss))) ;;
     defined (on_state (write_log INFO "Cleared lobby players")) ;;
     st <- defined get ;;
     let is_ep3 := 0x40 <=? sub_version st in
     defined (on_state
       (if is_ep3 then
          (check_size_t (Z.of_nat (sizeof_S_JoinGame_GC_Ep3_64 E))
             (Z.of_nat (sizeof_S_JoinGame_GC_Ep3_64 E)) ;;
           check_size_t (Z.of_nat (sizeof_S_JoinGame_GC_Ep3_64 E))
             (Z.of_nat (sizeof_S_JoinGame_GC_Ep3_64 E)))%monad
        else
          check_size_t (Z.of_nat (sizeof_S_JoinGame L)) (Z.of_nat (sizeof_S_JoinGame L)))) ;;
     d <- defined (on_state get_data) ;;
     defined (on_state (modify_session
       (set_lobby_client_id (get_u8 (offsetof_JoinGame_client_id L) d)))) ;;
     defined (on_state (update_leader_id send_text_message
                          (get_u8 (offsetof_JoinGame_leader_id L) d))) ;;
     modified <- for_loopU (Z.to_nat flag) 0
       (fun x modified =>
          on_stateU (join_game_entry L (if is_ep3 then Some E else None) x modified))
       false ;;
     defined (join_game_overrides L modified))%U.

End MoreSessionHandlers.

(** The name [join_game_entry] stores for the player at [x]. *)
Definition join_game_player_name (cmd_ep3 : option JoinGameEp3Layout) (x : nat) (d : bytes)
    : bytes :=
  match cmd_ep3 with
  | Some E =>
      players_ep3_disp_name E
        (field_bytes (offsetof_players_ep3 E + x * sizeof_players_ep3 E)
           (sizeof_players_ep3 E) d)
  | None => []
  end.

(** The session after [join_game_entry] has stored the player [p] at [x]. *)
Definition join_game_entered (x : nat) (p : LobbyPlayer) (ss : LinkedSession)
    : LinkedSession :=
  let ss1 := set_lobby_players (<[x := p]> (lobby_players ss)) ss in
  set_session_log (session_log ss1 ++ [(INFO, "Added lobby player: (%zu) %u %s"%string)]) ss1.

(** ** Subcommands from the client ([ProxyCommands.cc])

    The members of [LinkedSession] that [process_client_60_62_6C_6D_C9_CB]
    uses beside those above; [last_switch_enabled_command] is a
    [G_SwitchStateChanged_6x05]. *)
Record SubcommandState := {
  sc_state : HState;
  infinite_hp : bool;
  infinite_tp : bool;
  switch_assist : bool;
  last_switch_enabled_command : bytes;
}.

Definition on_subcommand {A} (m : M HState A) : M SubcommandState A :=
  fun st =>
    let '(r, h) := m (sc_state st) in
    (r, {| sc_state := h; infinite_hp := infinite_hp st; infinite_tp := infinite_tp st;
           switch_assist := switch_assist st;
           last_switch_enabled_command := last_switch_enabled_command st |}).

Definition set_last_switch_enabled_command (cmd : bytes) : M SubcommandState unit :=
  modify (fun st =>
    {| sc_state := sc_state st; infinite_hp := infinite_hp st;
       infinite_tp := infinite_tp st; switch_assist := switch_assist st;
       last_switch_enabled_command := cmd |}).

(** The [G_SendGuildCard] records differ from version to version; the handler
    names their [guild_card_number], a [le_uint32_t]. *)
Record SendGuildCardLayout := {
  sizeof_G_SendGuildCard : nat;
  offsetof_6x06_guild_card_number : nat;
}.

(** [G_SwitchStateChanged_6x05]: the members the handler names.
    [subcommand] is one byte, as the subcommand number [data[0]] is. *)
Record SwitchStateChangedLayout := {
  sizeof_G_SwitchStateChanged_6x05 : nat;
  offsetof_6x05_subcommand : nat;
  offsetof_6x05_enabled : nat;
  sizeof_6x05_enabled : nat;
  offsetof_6x05_switch_id : nat;
  sizeof_6x05_switch_id : nat;
}.

Section SubcommandHandlers.

(** [subcommand_is_implemented] and the enumerators of [PlayerStatsChange]
    are declared in headers that are not among the sources. *)
Variable subcommand_is_implemented : Z -> bool.
Variable ADD_HP : Z.
Variable ADD_TP : Z.

Definition check_implemented_subcommand : M HState unit :=
  d <- get_data ;;
  if (length d <? 4)%nat then
    write_log WARNING "Received broadcast/target command with no contents"
  else
    when (negb (subcommand_is_implemented (get_u8 0 d)))
      (write_log WARNING "Received subcommand %02hhX which is not implemented on the server").

Definition process_client_60_62_6C_6D_C9_CB_void (W : SwitchStateChangedLayout)
    : ServerState -> Z -> Z -> M SubcommandState HandlerResult.t :=
  fun _ _ _ =>
    on_subcommand check_implemented_subcommand ;;
    st <- get ;;
    d <- on_subcommand get_data ;;
    (if negb (length d =? 0)%nat && (get_u8 0 d =? 0x05) && switch_assist st then
       on_subcommand (check_size_t (Z.of_nat (sizeof_G_SwitchStateChanged_6x05 W))
                        (Z.of_nat (sizeof_G_SwitchStateChanged_6x05 W))) ;;
       let enabled := load (sizeof_6x05_enabled W) (offsetof_6x05_enabled W) d in
       let switch_id := load (sizeof_6x05_switch_id W) (offsetof_6x05_switch_id W) d in
       when (negb (enabled =? 0) && negb (switch_id =? 0xFFFF))
         (let last := last_switch_enabled_command st in
          when (load 1 (offsetof_6x05_subcommand W) last =? 0x05)
            (on_subcommand (write_log INFO "Switch assist: replaying previous enable command") ;;
             on_subcommand (server_send 0x60 0x00 last) ;;
             on_subcommand (client_send 0x60 0x00 last)) ;;
          set_last_switch_enabled_command d)
     else ret tt) ;;
    ret (HandlerResult.of_type FORWARD).

Definition process_client_60_62_6C_6D_C9_CB (G : SendGuildCardLayout)
    (W : SwitchStateChangedLayout)
    : ServerState -> Z -> Z -> M SubcommandState HandlerResult.t :=
  fun s command flag =>
    ss <- on_subcommand get_session ;;
    d <- on_subcommand get_data ;;
    match license ss with
    | Some lic =>
        if negb (length d =? 0)%nat && (get_u8 0 d =? 0x06) then
          on_subcommand (check_size_t (Z.of_nat (sizeof_G_SendGuildCard G))
                           (Z.of_nat (sizeof_G_SendGuildCard G))) ;;
          on_subcommand (rewrite_serial_number lic (offsetof_6x06_guild_card_number G))
        else ret tt
    | None => ret tt
    end ;;
    st <- get ;;
    d <- on_subcommand get_data ;;
    (if negb (length d =? 0)%nat then
       if (get_u8 0 d =? 0x2F) || (get_u8 0 d =? 0x4C) then
         when (infinite_hp st)
           (on_subcommand (client_send 0x60 0x00
              (LobbySend.stats_change_subs 1020 (lobby_client_id ss mod 256) ADD_HP 1020 [])))
       else if get_u8 0 d =? 0x48 then
         when (infinite_tp st)
           (on_subcommand (client_send 0x60 0x00
              ([0x9A; 0x02; lobby_client_id ss mod 256; 0x00] ++
               [0x00; 0x00; ADD_TP mod 256; 0xFF])))
       else ret tt
     else ret tt) ;;
    process_client_60_62_6C_6D_C9_CB_void W s command flag.

End SubcommandHandlers.

(** ** Sample values for the further handlers

    Shortened records with the members in the order of the wire records: a
    server init whose keys follow a copyright text of [0x40] bytes; an arrow
    entry (player tag, guild card number, colour); a search result (player
    tag, searcher, result, four more bytes); and a mail record (player tag,
    sender, sender's name, recipient, sixteen bytes of text). *)
Definition sample_server_init_layout : ServerInitLayout :=
  {| offsetof_server_key := 0x40; offsetof_client_key := 0x44;
     offsetof_after_message := 0x48 |}.

Definition sample_arrow_layout : GuildCardEntryLayout :=
  {| sizeof_guild_card_entry := 12; offsetof_guild_card_number := 4 |}.

Definition sample_search_layout : GuildCardSearchResultLayout :=
  {| sizeof_S_GuildCardSearchResult := 16;
     offsetof_searcher_guild_card_number := 4;
     offsetof_result_guild_card_number := 8 |}.

Definition sample_mail_layout : SimpleMailLayout :=
  {| sizeof_SC_SimpleMail := 44;
     offsetof_from_guild_card_number := 4;
     offsetof_to_guild_card_number := 24;
     offsetof_text := 28;
     sizeof_text := 16 |}.

(** Stand-ins for the login records: the members the handler computes and
    the serial number of the license, as [le_uint32_t] each. *)
Definition sample_login (player_tag guild_card_number : Z) (lic : License) : bytes :=
  le_encode 4 player_tag ++ le_encode 4 guild_card_number ++ le_encode 4 (serial_number lic).

Definition sample_verify_license (lic : License) : bytes :=
  le_encode 4 (serial_number lic).

Definition sample_login_extended (player_tag guild_card_number is_extended : Z)
    (lic : License) : bytes :=
  sample_login player_tag guild_card_number lic ++ le_encode 4 is_extended ++ replicate 8 0.

(** The handlers above behind the tables, with flag bits [0x01] for
    SAVE_ENABLED and [0x04] for DCV1, and a 9E of twelve bytes before its
    extension. *)
Definition sample_more_handlers : HandlerName -> process_command_t :=
  more_handlers sample_send_text_message 0x01 0x10 0x04
    sample_login sample_login sample_verify_license sample_login_extended 12
    sample_server_init_layout sample_search_layout sample_search_layout sample_search_layout
    sample_mail_layout sample_arrow_layout sample_arrow_layout sample_other_handler.

Definition sample_more_proxy : ServerState -> bool -> Z -> Z -> M HState unit :=
  process_proxy_command sample_encode_sjis sample_decode_sjis sample_send_text_message
    0x10 0x20 sample_layout_of sample_more_handlers.

(** A leave command for client id 2 that names client id 3 as the leader. *)
Definition sample_69 : bytes := [2; 3; 0; 0].

(** The sample session with the bit set that suppresses message box
    confirmations after the next lobby join. *)
Definition sample_session_after_join_flag : LinkedSession :=
  set_newserv_client_config (set_flags 0x20 sample_config) sample_session.

(** Two arrow entries, the first of which names the remote guild card
    number; a search result whose searcher is the remote guild card number;
    and two mails from serial 2000 to 31337 that differ only in what follows
    the terminator of the text. *)
Definition sample_88 : bytes :=
  le_encode 4 0x00010000 ++ le_encode 4 55555 ++ le_encode 4 1 ++
  le_encode 4 0x00010000 ++ le_encode 4 31337 ++ le_encode 4 2.

Definition sample_41 : bytes :=
  le_encode 4 0x00010000 ++ le_encode 4 55555 ++ le_encode 4 31337 ++ le_encode 4 0.

Definition sample_mail_header : bytes :=
  le_encode 4 0x00010000 ++ le_encode 4 2000 ++ resize 16 (ascii_bytes "Alice") ++
  le_encode 4 31337.

Definition sample_mail (garbage : Z) : bytes :=
  sample_mail_header ++ ascii_bytes "hi" ++ [0] ++ replicate 13 garbage.

(** A server init with server key [0x11111111] and client key [0x22222222],
    one that stops short of the keys, and a session without a license. *)
Definition sample_server_init : bytes :=
  replicate 0x40 0x20 ++ le_encode 4 0x11111111 ++ le_encode 4 0x22222222.

Definition sample_short_server_init : bytes := replicate 0x40 0x20.

Definition sample_unlicensed_session : LinkedSession := set_license None sample_session.

(** ** Sample values for the senders and the file handlers

    Three clients: a GC client (pointer 0), a BB client (pointer 1) and an
    XB client (pointer 2), each with an empty output buffer; a lobby that
    seats the first two, and one that seats the XB client between them. *)
Definition sample_lobby_client (v : GameVersion) (id : Z) : LobbySend.LobbyClient :=
  {| LobbySend.client :=
       {| SendCommands.version := v; SendCommands.crypt_out := None;
          SendCommands.bev := Some [] |};
     LobbySend.lobby_client_id := id |}.

Definition sample_clients : gmap nat LobbySend.LobbyClient :=
  <[0%nat := sample_lobby_client GC 0]>
    (<[1%nat := sample_lobby_client BB 2]>
       (<[2%nat := sample_lobby_client XB 1]> ∅)).

Definition sample_lobby : LobbySend.Lobby :=
  {| LobbySend.clients := [Some 0%nat; None; Some 1%nat];
     LobbySend.leader_id := 0; LobbySend.is_game := false |}.

Definition sample_lobby_xb : LobbySend.Lobby :=
  {| LobbySend.clients := [Some 0%nat; Some 2%nat; Some 1%nat];
     LobbySend.leader_id := 0; LobbySend.is_game := true |}.










(** ** Sample values for the card lobby and join game handlers

    A card lobby game command whose first entry names the remote guild card
    number, and a game of two players, the first of whom has the remote
    guild card number, announced to a session whose mirror still holds the
    four players of the lobby it left. *)
Definition sample_card_lobby_layout : CardLobbyGameLayout :=
  {| sizeof_S_CardLobbyGame_GC_Ep3_E4 := 36; offsetof_E4_entries := 4;
     sizeof_E4_entry := 8; offsetof_E4_guild_card_number := 4 |}.

Definition sample_E4 : bytes :=
  le_encode 2 1 ++ le_encode 2 0 ++
  le_encode 2 1 ++ le_encode 2 0 ++ le_encode 4 55555 ++
  le_encode 2 1 ++ le_encode 2 0 ++ le_encode 4 4242 ++
  replicate 16 0.

Definition sample_join_game_layout : JoinGameLayout :=
  {| sizeof_S_JoinGame := 0x110;
     offsetof_JoinGame_client_id := 0x100;
     offsetof_JoinGame_leader_id := 0x101;
     offsetof_JoinGame_lobby_data := 0x80;
     sizeof_JoinGame_lobby_data := 0x20;
     offsetof_JoinGame_guild_card := 4;
     offsetof_JoinGame_section_id := 0x106;
     sizeof_JoinGame_section_id := 1;
     offsetof_JoinGame_event := 0x105;
     sizeof_JoinGame_event := 1;
     offsetof_JoinGame_rare_seed := 0x108 |}.

Definition sample_join_game_ep3_layout : JoinGameEp3Layout :=
  {| sizeof_S_JoinGame_GC_Ep3_64 := 0x110 + 4 * 0x20;
     offsetof_players_ep3 := 0x110;
     sizeof_players_ep3 := 0x20;
     players_ep3_disp_name := take 0x10 |}.

Definition sample_join_game_entry (guild_card : Z) : bytes :=
  le_encode 4 0x00010000 ++ le_encode 4 guild_card ++ replicate 0x18 0.

Definition sample_64 : bytes :=
  replicate 0x80 0 ++
  sample_join_game_entry 55555 ++ sample_join_game_entry 777 ++
  sample_join_game_entry 0 ++ sample_join_game_entry 0 ++
  [1; 0] ++ replicate 14 0.

Definition sample_more_state (ss : LinkedSession) (d : bytes) : MoreState :=
  {| ms_state := {| hs_session := ss; hs_data := d |};
     sub_version := 0x30;
     remote_client_config_data := replicate 0x20 0;
     override_section_id := -1;
     override_random_seed := -1 |}.

(** ** Sample values for the subcommand handler

    A guild card the client sends under its serial number, a hit report, and
    two commands that enable the switches 3 and 4, for a session with
    infinite HP and switch assist. *)
Definition sample_subcommand_is_implemented (subcommand : Z) : bool := subcommand <? 0x80.

Definition sample_send_guild_card_layout : SendGuildCardLayout :=
  {| sizeof_G_SendGuildCard := 0x98; offsetof_6x06_guild_card_number := 8 |}.

Definition sample_switch_layout : SwitchStateChangedLayout :=
  {| sizeof_G_SwitchStateChanged_6x05 := 12;
     offsetof_6x05_subcommand := 0;
     offsetof_6x05_enabled := 11; sizeof_6x05_enabled := 1;
     offsetof_6x05_switch_id := 2; sizeof_6x05_switch_id := 2 |}.

Definition sample_6x06 : bytes :=
  [0x06; 0x26; 0; 0] ++ le_encode 4 0x00010000 ++ le_encode 4 2000 ++ replicate 0x8C 0.

Definition sample_6x2F : bytes := [0x2F; 0x01; 0; 0].

Definition sample_6x05 (switch_id : Z) : bytes :=
  [0x05; 0x03] ++ le_encode 2 switch_id ++ replicate 7 0 ++ [1].

Definition sample_subcommand_state (d : bytes) : SubcommandState :=
  {| sc_state := {| hs_session := sample_session; hs_data := d |};
     infinite_hp := true; infinite_tp := false; switch_assist := true;
     last_switch_enabled_command := replicate 12 0 |}.

(** * Properties *)

(** ** Byte buffers *)

Module BytesFacts.

Lemma length_le_encode n v : length (le_encode n v) = n.
Proof. revert v; induction n as [|n IH]; intros v; simpl; [done | by rewrite IH]. Qed.

Lemma le_decode_encode n v : le_decode (le_encode n v) = v mod 256 ^ Z.of_nat n.
Proof.
  revert v; induction n as [|n IH]; intros v.
  - simpl. by rewrite Z.mod_1_r.
  - cbn [le_encode le_decode]. rewrite IH.
    rewrite Nat2Z.inj_succ, Z.pow_succ_r by lia.
    rewrite (Z.mul_comm 256), Z.rem_mul_r by lia. lia.
Qed.

Lemma le_encode_wf n v : wf (le_encode n v).
Proof.
  revert v; induction n as [|n IH]; intros v; simpl; constructor.
  - unfold is_byte. apply Z.mod_pos_bound. lia.
  - apply IH.
Qed.

Lemma le_decode_range bs : wf bs -> 0 <= le_decode bs < 256 ^ Z.of_nat (length bs).
Proof.
  induction 1 as [|b r Hb _ IH]; [simpl; lia|].
  cbn [le_decode length]. rewrite Nat2Z.inj_succ, Z.pow_succ_r by lia.
  unfold is_byte in Hb. nia.
Qed.

Lemma length_store n off v d :
  (off + n <= length d)%nat -> length (store n off v d) = length d.
Proof.
  intros H. unfold store.
  rewrite !length_app, length_take, length_le_encode, length_drop. lia.
Qed.

Lemma load_store n off v d :
  (off + n <= length d)%nat -> load n off (store n off v d) = v mod 256 ^ Z.of_nat n.
Proof.
  intros H. unfold load, store.
  rewrite drop_app_length' by (rewrite length_take; lia).
  rewrite take_app_length' by (by rewrite length_le_encode).
  apply le_decode_encode.
Qed.

(** A store leaves every field that does not overlap it untouched. *)
Lemma load_store_before n off v d m o :
  (off + n <= length d)%nat -> (o + m <= off)%nat ->
  load m o (store n off v d) = load m o d.
Proof.
  intros H Hlt. unfold load, store.
  rewrite <- (take_drop off d) at 3.
  rewrite !drop_app_le by (rewrite length_take; lia).
  rewrite !take_app_le by (rewrite length_drop, length_take; lia).
  done.
Qed.

Lemma load_store_after n off v d m o :
  (off + n <= length d)%nat -> (off + n <= o)%nat ->
  load m o (store n off v d) = load m o d.
Proof.
  intros H Hlt. unfold load, store.
  rewrite app_assoc.
  rewrite drop_app_ge by (rewrite length_app, length_take, length_le_encode; lia).
  rewrite length_app, length_take, length_le_encode, drop_drop.
  do 2 f_equal. f_equal. lia.
Qed.

Lemma store_wf n off v d : wf d -> wf (store n off v d).
Proof.
  intros H. unfold store, wf in *.
  rewrite !Forall_app. repeat split.
  - by apply Forall_take.
  - apply le_encode_wf.
  - by apply Forall_drop.
Qed.

End BytesFacts.
Import BytesFacts.

(** ** Running handlers *)

Lemma bind_ret_eq {St A B} (m : M St A) (k : A -> M St B) st a st' :
  m st = (Ret a, st') -> bind m k st = k a st'.
Proof. intros E. unfold bind. by rewrite E. Qed.

Lemma bind_throw_eq {St A B} (m : M St A) (k : A -> M St B) st e st' :
  m st = (Throw e, st') -> bind m k st = (Throw e, st').
Proof. intros E. unfold bind. by rewrite E. Qed.

Lemma check_size_t_ok min_size max_size st :
  min_size <= Z.of_nat (length (hs_data st)) <= max_size ->
  check_size_t min_size max_size st = (Ret tt, st).
Proof.
  intros [Hlo Hhi]. unfold check_size_t, bind, get_data, throw, ret.
  destruct (Z.ltb_spec (Z.of_nat (length (hs_data st))) min_size); [lia|].
  destruct (Z.ltb_spec max_size (Z.of_nat (length (hs_data st)))); [lia|done].
Qed.

Lemma check_size_t_small min_size max_size st :
  Z.of_nat (length (hs_data st)) < min_size ->
  check_size_t min_size max_size st = (Throw (runtime_error "command too small"), st).
Proof.
  intros Hlo. unfold check_size_t, bind, get_data, throw, ret.
  destruct (Z.ltb_spec (Z.of_nat (length (hs_data st))) min_size); [done|lia].
Qed.

Lemma check_size_t_large min_size max_size st :
  min_size <= Z.of_nat (length (hs_data st)) -> max_size < Z.of_nat (length (hs_data st)) ->
  check_size_t min_size max_size st = (Throw (runtime_error "command too large"), st).
Proof.
  intros Hlo Hhi. unfold check_size_t, bind, get_data, throw, ret.
  destruct (Z.ltb_spec (Z.of_nat (length (hs_data st))) min_size); [lia|].
  destruct (Z.ltb_spec max_size (Z.of_nat (length (hs_data st)))); [done|lia].
Qed.

(** A size check never changes the state. *)
Lemma check_size_t_state min_size max_size st : (check_size_t min_size max_size st).2 = st.
Proof.
  unfold check_size_t, bind, get_data, throw, ret.
  destruct (_ <? _); [done|]. by destruct (_ <? _).
Qed.

Create HintDb layout.
#[local] Hint Unfold
  sizeof_SC_TextHeader_01_06_11_B0_EE SC_TextHeader_guild_card_number
  sizeof_C_GuildCardSearch_40 C_GuildCardSearch_40_searcher_guild_card_number
  C_GuildCardSearch_40_target_guild_card_number
  sizeof_S_Reconnect_19 S_Reconnect_19_address S_Reconnect_19_port
  S_ServerInit_BB_03_9B_server_key S_ServerInit_BB_03_9B_client_key
  S_ServerInit_BB_03_9B_after_message sizeof_bb_key : layout.

#[local] Arguments load : simpl never.
#[local] Arguments store : simpl never.
#[local] Arguments get_u8 : simpl never.
#[local] Arguments get_u16l : simpl never.
#[local] Arguments get_u32l : simpl never.
#[local] Arguments put_u8 : simpl never.
#[local] Arguments put_u16l : simpl never.
#[local] Arguments put_u32l : simpl never.
#[local] Arguments resize : simpl never.
#[local] Arguments bswap16 : simpl never.
#[local] Arguments crc32 : simpl never.
#[local] Arguments fnv1a64 : simpl never.
#[local] Arguments field_bytes : simpl never.

Ltac bytes_simpl :=
  repeat first
    [ rewrite length_store by (rewrite ?length_store; lia)
    | rewrite load_store by (rewrite ?length_store; lia)
    | rewrite load_store_before by (rewrite ?length_store; lia)
    | rewrite load_store_after by (rewrite ?length_store; lia) ].

Ltac run_monad :=
  unfold bind, ret, throw, get_session, get_data, set_data, modify_session, modify,
    when, write_log, client_send, server_send; cbn.

(** ** Identity rewriting (commands 06 and 40) *)

Lemma get_put_u32l off v d :
  (off + 4 <= length d)%nat -> is_u32 v -> get_u32l off (put_u32l off v d) = v.
Proof.
  intros Hlen Hv. unfold get_u32l, put_u32l. rewrite load_store by done.
  apply Z.mod_small. exact Hv.
Qed.

(** What [process_server_dc_pc_v3_06] does to a well-sized command in a
    licensed session. *)
Lemma process_server_dc_pc_v3_06_licensed s command flag ss lic d :
  license ss = Some lic ->
  8 <= Z.of_nat (length d) <= 0xFFFF ->
  process_server_dc_pc_v3_06 s command flag {| hs_session := ss; hs_data := d |} =
    if get_u32l 4 d =? remote_guild_card_number ss
    then (Ret (HandlerResult.of_type MODIFIED),
          {| hs_session := ss; hs_data := put_u32l 4 (serial_number lic) d |})
    else (Ret (HandlerResult.of_type FORWARD), {| hs_session := ss; hs_data := d |}).
Proof.
  intros Hlic Hlen. unfold process_server_dc_pc_v3_06.
  unfold bind at 1. unfold get_session at 1. cbn [hs_session]. rewrite Hlic.
  unfold bind at 1. rewrite check_size_t_ok by (autounfold with layout; cbn; lia).
  run_monad. unfold SC_TextHeader_guild_card_number.
  by destruct (_ =? _).
Qed.

Lemma process_client_40_licensed s command flag ss lic d :
  license ss = Some lic ->
  length d = 12%nat ->
  let d1 := if get_u32l 4 d =? serial_number lic
            then put_u32l 4 (remote_guild_card_number ss) d else d in
  let d2 := if get_u32l 8 d1 =? serial_number lic
            then put_u32l 8 (remote_guild_card_number ss) d1 else d1 in
  process_client_40 s command flag {| hs_session := ss; hs_data := d |} =
    (Ret (HandlerResult.of_type
            (if (get_u32l 4 d =? serial_number lic) || (get_u32l 8 d1 =? serial_number lic)
             then MODIFIED else FORWARD)),
     {| hs_session := ss; hs_data := d2 |}).
Proof.
  intros Hlic Hlen d1 d2. unfold process_client_40.
  unfold bind at 1. unfold get_session at 1. cbn [hs_session]. rewrite Hlic.
  unfold bind at 1. rewrite check_size_t_ok by (autounfold with layout; cbn; lia).
  subst d2 d1. run_monad.
  unfold C_GuildCardSearch_40_searcher_guild_card_number,
    C_GuildCardSearch_40_target_guild_card_number.
  destruct (get_u32l 4 d =? serial_number lic); cbn;
    by destruct (get_u32l 8 _ =? serial_number lic).
Qed.

Lemma rewrite_inbound_outbound serial remote :
  rewrite_inbound serial remote (rewrite_outbound serial remote serial) = serial.
Proof.
  unfold rewrite_inbound, rewrite_outbound. rewrite Z.eqb_refl, Z.eqb_refl. done.
Qed.

(** Away from the session's own identity the two rewritings are not inverse:
    a field that already holds the remote number goes out as it is and comes
    back as the serial number. *)
Remark rewrite_inbound_outbound_remote serial remote :
  rewrite_inbound serial remote (rewrite_outbound serial remote remote) = serial.
Proof.
  unfold rewrite_inbound, rewrite_outbound.
  destruct (remote =? serial) eqn:E; rewrite Z.eqb_refl; done.
Qed.

Lemma process_client_40_fields s command flag ss lic d :
  license ss = Some lic ->
  is_u32 (remote_guild_card_number ss) ->
  length d = 12%nat ->
  let d' := hs_data (process_client_40 s command flag {| hs_session := ss; hs_data := d |}).2 in
  get_u32l 0 d' = get_u32l 0 d /\
  get_u32l 4 d' = rewrite_outbound (serial_number lic) (remote_guild_card_number ss) (get_u32l 4 d) /\
  get_u32l 8 d' = rewrite_outbound (serial_number lic) (remote_guild_card_number ss) (get_u32l 8 d) /\
  length d' = length d.
Proof.
  intros Hlic Hrem Hlen d'. subst d'.
  rewrite (process_client_40_licensed _ _ _ _ lic) by done. cbn [snd hs_data].
  unfold rewrite_outbound, get_u32l, put_u32l.
  destruct (load 4 4 d =? serial_number lic) eqn:E4.
  - rewrite (load_store_after 4 4 _ d 4 8) by lia.
    destruct (load 4 8 d =? serial_number lic) eqn:E8; bytes_simpl;
      change (256 ^ Z.of_nat 4) with (2 ^ 32); rewrite Z.mod_small by exact Hrem; done.
  - destruct (load 4 8 d =? serial_number lic) eqn:E8; [|done].
    bytes_simpl.
    change (256 ^ Z.of_nat 4) with (2 ^ 32). rewrite Z.mod_small by exact Hrem.
    done.
Qed.

(** C1.  In a linked session (one that holds a license), a server-to-client
    command 06 whose guild card field equals the remote guild card number is
    forwarded modified, with that field set to the license's serial number
    and nothing else changed; a client-to-server command 40 has its searcher
    and target fields rewritten from the serial number to the remote guild
    card number, nothing else changed; and a serial number sent out in either
    field of a 40 comes back as the serial number when the value upstream saw
    returns in the guild card field of an 06. *)
Theorem C1_identity_rewriting s command flag ss lic d06 d40 :
  license ss = Some lic ->
  is_u32 (serial_number lic) ->
  is_u32 (remote_guild_card_number ss) ->
  8 <= Z.of_nat (length d06) <= 0xFFFF ->
  length d40 = 12%nat ->
  let serial := serial_number lic in
  let remote := remote_guild_card_number ss in
  let out40 := process_client_40 s command flag {| hs_session := ss; hs_data := d40 |} in
  let in06 := process_server_dc_pc_v3_06 s command flag {| hs_session := ss; hs_data := d06 |} in
  (get_u32l 4 d06 = remote ->
     in06 = (Ret (HandlerResult.of_type MODIFIED),
             {| hs_session := ss; hs_data := put_u32l 4 serial d06 |}) /\
     get_u32l 4 (put_u32l 4 serial d06) = serial /\
     get_u32l 0 (put_u32l 4 serial d06) = get_u32l 0 d06 /\
     drop 8 (put_u32l 4 serial d06) = drop 8 d06) /\
  (exists r, out40.1 = Ret r /\ hs_session out40.2 = ss /\
     (HandlerResult.type r = MODIFIED <->
        get_u32l 4 d40 = serial \/ get_u32l 8 d40 = serial) /\
     get_u32l 0 (hs_data out40.2) = get_u32l 0 d40 /\
     get_u32l 4 (hs_data out40.2) = rewrite_outbound serial remote (get_u32l 4 d40) /\
     get_u32l 8 (hs_data out40.2) = rewrite_outbound serial remote (get_u32l 8 d40) /\
     length (hs_data out40.2) = 12%nat) /\
  (forall off, (off = 4 \/ off = 8)%nat ->
     get_u32l off d40 = serial ->
     get_u32l off (hs_data out40.2) = remote /\
     (get_u32l 4 d06 = get_u32l off (hs_data out40.2) ->
      get_u32l 4 (hs_data in06.2) = get_u32l off d40)).
Proof.
  intros Hlic Hser Hrem Hlen06 Hlen40 serial remote out40 in06.
  assert (H06 : get_u32l 4 d06 = remote ->
                in06 = (Ret (HandlerResult.of_type MODIFIED),
                        {| hs_session := ss; hs_data := put_u32l 4 serial d06 |})).
  { intros E. subst in06.
    rewrite (process_server_dc_pc_v3_06_licensed _ _ _ _ lic) by done.
    fold remote. by rewrite E, Z.eqb_refl. }
  destruct (process_client_40_fields s command flag ss lic d40 Hlic Hrem Hlen40)
    as (F0 & F4 & F8 & FL).
  fold out40 serial remote in F0, F4, F8, FL.
  split; [|split].
  - intros E. split; [by apply H06|]. split; [|split].
    + apply get_put_u32l; [lia | done].
    + unfold get_u32l, put_u32l. apply load_store_before; lia.
    + unfold put_u32l, store. rewrite app_assoc.
      rewrite drop_app_length'; [done|].
      rewrite length_app, length_take, length_le_encode. lia.
  - pose proof (process_client_40_licensed s command flag ss lic d40 Hlic Hlen40) as Hrun.
    cbv zeta in Hrun. fold out40 serial remote in Hrun.
    eexists. split; [by rewrite Hrun|]. split; [by rewrite Hrun|].
    split; [|by rewrite FL].
    cbn [HandlerResult.type HandlerResult.of_type].
    destruct (get_u32l 4 d40 =? serial) eqn:E4.
    + apply Z.eqb_eq in E4. cbn. split; [by left|done].
    + apply Z.eqb_neq in E4. cbn [orb].
      destruct (get_u32l 8 d40 =? serial) eqn:E8.
      * apply Z.eqb_eq in E8. split; [by right|done].
      * apply Z.eqb_neq in E8. split; [done|]. intros [?|?]; congruence.
  - intros off Hoff E.
    assert (Hout : get_u32l off (hs_data out40.2) = remote).
    { destruct Hoff as [-> | ->]; [rewrite F4 | rewrite F8];
        unfold rewrite_outbound; by rewrite E, Z.eqb_refl. }
    split; [done|]. rewrite Hout. intros E06.
    rewrite (H06 E06). cbn [snd hs_data].
    rewrite get_put_u32l; [by rewrite E | lia | done].
Qed.

Lemma C1_identity_rewriting_witness :
  let st06 := {| hs_session := sample_session; hs_data := sample_06 |} in
  let st40 := {| hs_session := sample_session; hs_data := sample_40 |} in
  get_u32l 4 sample_06 = 55555 /\
  get_u32l 4 sample_40 = 2000 /\
  get_u32l 4 (hs_data (process_server_dc_pc_v3_06 sample_state 0x06 0 st06).2) = 2000 /\
  get_u32l 4 (hs_data (process_client_40 sample_state 0x40 0 st40).2) = 55555 /\
  get_u32l 8 (hs_data (process_client_40 sample_state 0x40 0 st40).2) = 55555.
Proof.
  intros st06 st40.
  assert (Hlic : license sample_session = Some sample_license) by reflexivity.
  assert (Hser : is_u32 (serial_number sample_license)) by (unfold is_u32; simpl; lia).
  assert (Hrem : is_u32 (remote_guild_card_number sample_session))
    by (unfold is_u32; simpl; lia).
  assert (Hlen06 : 8 <= Z.of_nat (length sample_06) <= 0xFFFF) by (simpl; lia).
  assert (Hlen40 : length sample_40 = 12%nat) by reflexivity.
  destruct (C1_identity_rewriting sample_state 0x06 0 sample_session sample_license
              sample_06 sample_40 Hlic Hser Hrem Hlen06 Hlen40) as (H06 & _ & Hrt).
  assert (E06 : get_u32l 4 sample_06 = 55555) by reflexivity.
  assert (E40 : get_u32l 4 sample_40 = 2000) by reflexivity.
  destruct (Hrt 4%nat (or_introl eq_refl) E40) as [Hout Hback].
  destruct (Hrt 8%nat (or_intror eq_refl) eq_refl) as [Hout8 _].
  split; [exact E06|]. split; [exact E40|].
  split; [|split].
  - exact (eq_trans (Hback (eq_trans E06 (eq_sym Hout))) E40).
  - exact Hout.
  - exact Hout8.
Defined.

(** ** Framing ([send_command]) *)

Lemma land_lnot_ones x k :
  0 <= k -> Z.land x (Z.lnot (2 ^ k - 1)) = 2 ^ k * (x / 2 ^ k).
Proof.
  intros Hk. rewrite <- Z.ldiff_land.
  replace (2 ^ k - 1) with (Z.ones k) by (rewrite Z.ones_equiv; lia).
  rewrite Z.ldiff_ones_r by done.
  rewrite Z.shiftl_mul_pow2, Z.shiftr_div_pow2 by done. lia.
Qed.

Lemma round_up_3 n :
  SendCommands.round_up n 3 = (4 * ((n + 3) / 4))%nat.
Proof.
  unfold SendCommands.round_up.
  change 3 with (2 ^ 2 - 1). rewrite land_lnot_ones by lia.
  change (2 ^ 2) with 4. change (4 - 1) with 3.
  apply Nat2Z.inj. rewrite Z2Nat.id.
  - rewrite Nat2Z.inj_mul, Nat2Z.inj_div, Nat2Z.inj_add. done.
  - apply Z.mul_nonneg_nonneg; [lia|]. apply Z.div_pos; lia.
Qed.

Lemma round_up_7 n :
  SendCommands.round_up n 7 = (8 * ((n + 7) / 8))%nat.
Proof.
  unfold SendCommands.round_up.
  change 7 with (2 ^ 3 - 1). rewrite land_lnot_ones by lia.
  change (2 ^ 3) with 8. change (8 - 1) with 7.
  apply Nat2Z.inj. rewrite Z2Nat.id.
  - rewrite Nat2Z.inj_mul, Nat2Z.inj_div, Nat2Z.inj_add. done.
  - apply Z.mul_nonneg_nonneg; [lia|]. apply Z.div_pos; lia.
Qed.

Lemma resize_ge n (d : bytes) :
  (length d <= n)%nat -> resize n d = d ++ replicate (n - length d) 0.
Proof. intros H. unfold resize. by rewrite take_ge. Qed.

Lemma load_app_l n off (d1 d2 : bytes) :
  (off + n <= length d1)%nat -> load n off (d1 ++ d2) = load n off d1.
Proof.
  intros H. unfold load.
  rewrite drop_app_le by lia. rewrite take_app_le by (rewrite length_drop; lia). done.
Qed.

Lemma pad_4 n :
  (4 * ((n + 3) / 4) - n = (4 - n mod 4) mod 4 /\ n <= 4 * ((n + 3) / 4))%nat.
Proof.
  pose proof (Nat.div_mod_eq (n + 3) 4).
  pose proof (Nat.mod_upper_bound (n + 3) 4 ltac:(lia)).
  pose proof (Nat.div_mod_eq n 4).
  pose proof (Nat.mod_upper_bound n 4 ltac:(lia)).
  pose proof (Nat.div_mod_eq (4 - n mod 4) 4).
  pose proof (Nat.mod_upper_bound (4 - n mod 4) 4 ltac:(lia)).
  lia.
Qed.

Lemma pad_8 n :
  (8 * ((n + 7) / 8) - n = (8 - n mod 8) mod 8 /\ n <= 8 * ((n + 7) / 8))%nat.
Proof.
  pose proof (Nat.div_mod_eq (n + 7) 8).
  pose proof (Nat.mod_upper_bound (n + 7) 8 ltac:(lia)).
  pose proof (Nat.div_mod_eq n 8).
  pose proof (Nat.mod_upper_bound n 8 ltac:(lia)).
  pose proof (Nat.div_mod_eq (8 - n mod 8) 8).
  pose proof (Nat.mod_upper_bound (8 - n mod 8) 8 ltac:(lia)).
  lia.
Qed.

Lemma length_header_of v command flag size :
  v <> XB -> length (header_of v command flag size) = header_len v.
Proof. by destruct v. Qed.

(** [resize((size + k) & ~k)] after the payload was appended. *)
Lemma resize_round_up_3 (h data : bytes) :
  length h = 4%nat ->
  resize (SendCommands.round_up (length (h ++ data)) 3) (h ++ data) =
    h ++ data ++ replicate ((4 - (4 + length data) mod 4) mod 4) 0.
Proof.
  intros Hh. rewrite round_up_3, length_app, Hh.
  destruct (pad_4 (4 + length data)) as [E L].
  rewrite resize_ge by (rewrite length_app, Hh; exact L).
  rewrite length_app, Hh, E. by rewrite <- app_assoc.
Qed.

Lemma resize_round_up_7 (h data : bytes) :
  length h = 8%nat ->
  resize (SendCommands.round_up (length (h ++ data)) 7) (h ++ data) =
    h ++ data ++ replicate ((8 - (8 + length data) mod 8) mod 8) 0.
Proof.
  intros Hh. rewrite round_up_7, length_app, Hh.
  destruct (pad_8 (8 + length data)) as [E L].
  rewrite resize_ge by (rewrite length_app, Hh; exact L).
  rewrite length_app, Hh, E. by rewrite <- app_assoc.
Qed.

(** The frame [send_command] builds: the header, the payload, and fewer
    zero bytes than the alignment. *)
Lemma build_send_data_shape v command flag data :
  v <> XB ->
  let n := (header_len v + length data)%nat in
  let a := alignment v in
  SendCommands.build_send_data v command flag data =
    Ret (header_of v command flag (Z.of_nat n) ++ data ++ replicate ((a - n mod a) mod a) 0).
Proof.
  intros Hv n a. subst n a.
  destruct v; try done; unfold SendCommands.build_send_data;
    cbn [header_len alignment header_of];
    (destruct data as [|b data];
     [ cbn [length Nat.eqb Nat.add]; f_equal; cbn; by rewrite app_nil_r |]);
    (replace (length (b :: data) =? 0)%nat with false by done);
    cbv zeta; f_equal;
    first [ apply resize_round_up_3 | apply resize_round_up_7 ]; done.
Qed.

Lemma pad_aligned a n :
  (a = 4 \/ a = 8)%nat ->
  ((a - n mod a) mod a < a /\ (n + (a - n mod a) mod a) mod a = 0)%nat.
Proof.
  intros Ha.
  assert (Hpos : (a <> 0)%nat) by lia.
  pose proof (Nat.div_mod_eq n a) as E1.
  pose proof (Nat.mod_upper_bound n a Hpos) as B1.
  pose proof (Nat.mod_upper_bound (a - n mod a) a Hpos) as B2.
  split; [exact B2|].
  destruct (Nat.eq_dec (n mod a)%nat 0%nat) as [Hz|Hnz].
  - rewrite Hz, Nat.sub_0_r, Nat.Div0.mod_same, Nat.add_0_r. exact Hz.
  - rewrite (Nat.mod_small (a - n mod a)%nat) by lia.
    rewrite E1 at 1.
    replace (a * (n / a) + n mod a + (a - n mod a))%nat with ((1 + n / a) * a)%nat by lia.
    apply Nat.Div0.mod_mul.
Qed.

Lemma size_field_header v command flag size rest :
  size_field v (header_of v command flag size ++ rest) = size mod 2 ^ 16.
Proof.
  destruct v; unfold size_field, get_u16l, header_of,
    SendCommands.PSOCommandHeaderDCGC, SendCommands.PSOCommandHeaderPC,
    SendCommands.PSOCommandHeaderBB;
    rewrite load_app_l by (rewrite ?length_app, ?length_le_encode; lia);
    unfold load; cbn [le_encode app drop take];
    rewrite ?take_app_length' by (by rewrite length_le_encode);
    try (change (?a :: ?b :: []) with (le_encode 2 size));
    try (change (size `mod` 256 :: (size `div` 256) `mod` 256 :: []) with (le_encode 2 size));
    apply (le_decode_encode 2).
Qed.

(** C2 (amended).  For each version [send_command] implements (DC, GC, PC,
    the patch server and BB), every command, flag and payload: the frame is
    the header, the payload and fewer zero bytes than the alignment (4, or 8
    on BB), its length is a multiple of the alignment, and the size member of
    the header holds the header length plus the unpadded payload length
    reduced modulo 2^16; it equals that sum whenever the sum fits the 16-bit
    member.  The frame is appended to the output buffer under the cipher
    given. *)
Theorem C2_send_command_frame v crypt command flag data buf :
  v <> XB ->
  exists frame pad,
    SendCommands.send_command v crypt command flag data buf =
      (Ret tt, buf ++ [{| SendCommands.frame := frame; SendCommands.cipher := crypt |}]) /\
    frame = header_of v command flag (Z.of_nat (header_len v + length data))
              ++ data ++ replicate pad 0 /\
    (pad < alignment v)%nat /\
    (length frame mod alignment v = 0)%nat /\
    size_field v frame = Z.of_nat (header_len v + length data) mod 2 ^ 16 /\
    (Z.of_nat (header_len v + length data) < 2 ^ 16 ->
     size_field v frame = Z.of_nat (header_len v + length data)).
Proof.
  intros Hv.
  pose proof (build_send_data_shape v command flag data Hv) as Hshape. cbv zeta in Hshape.
  assert (Ha : (alignment v = 4 \/ alignment v = 8)%nat) by (destruct v; cbn; auto).
  destruct (pad_aligned (alignment v) (header_len v + length data) Ha) as [Hpad Hal].
  eexists _, _. split; [|split; [reflexivity|]].
  - unfold SendCommands.send_command. rewrite Hshape. reflexivity.
  - split; [exact Hpad|]. split; [|split].
    + rewrite !length_app, length_header_of, length_replicate by done.
      rewrite Nat.add_assoc. exact Hal.
    + apply size_field_header.
    + intros Hfit. rewrite size_field_header. apply Z.mod_small. lia.
Qed.

Lemma C2_send_command_frame_witness :
  exists frame,
    SendCommands.send_command BB None 0x02EB 0 [1; 2; 3] [] =
      (Ret tt, [{| SendCommands.frame := frame; SendCommands.cipher := None |}]) /\
    length frame = 16%nat /\ size_field BB frame = 11.
Proof.
  assert (Hv : BB <> XB) by discriminate.
  destruct (C2_send_command_frame BB None 0x02EB 0 [1; 2; 3] [] Hv)
    as (frame & pad & Hrun & Hframe & Hpad & Hal & Hsize & Hfit).
  exists frame. split; [exact Hrun|].
  assert (Hlt : Z.of_nat (header_len BB + length [1; 2; 3]) < 2 ^ 16) by (simpl; lia).
  split; [|exact (Hfit Hlt)].
  revert Hrun. vm_compute. intros Hrun. injection Hrun as <-. reflexivity.
Defined.

(** C2, as stated, fails for a payload that does not fit the 16-bit size
    member: a DC command with 65533 payload bytes gets the size 1, not
    65537. *)
Lemma C2_size_field_counterexample :
  exists frame,
    SendCommands.build_send_data DC 0x60 0 oversize_payload = Ret frame /\
    Z.of_nat (header_len DC + length oversize_payload) = 65537 /\
    size_field DC frame = 1 /\
    size_field DC frame <> Z.of_nat (header_len DC + length oversize_payload).
Proof.
  eexists. split; [reflexivity|].
  split; [by vm_compute|]. split; by vm_compute.
Qed.

(** ** Latter-game encryption splicing (command 03 on BB) *)

Lemma process_server_bb_03_new s command flag ss d :
  detector_crypt ss = None ->
  0xC0 <= Z.of_nat (length d) <= 0xFFFF ->
  let det := length (detectors ss) in
  process_server_bb_03 s command flag {| hs_session := ss; hs_data := d |} =
    (Ret (HandlerResult.of_type SUPPRESS),
     {| hs_session :=
          set_server_channel
            (set_crypt_out (Some (PSOBBMultiKeyImitatorEncryption det (client_key_of d) false))
               (set_crypt_in (Some (PSOBBMultiKeyImitatorEncryption det (server_key_of d) false))
                  (server_channel ss)))
            (set_client_channel
               (set_crypt_out (Some (PSOBBMultiKeyImitatorEncryption det (server_key_of d) true))
                  (set_crypt_in (Some (PSOBBMultiKeyDetectorEncryption det))
                     (Channel_send 0x03 0x00 d (client_channel ss))))
               (set_detector_crypt (Some det)
                  (set_detectors
                     (detectors ss ++
                        [{| possible_keys := bb_private_keys s;
                            expected_first_data := expected_first_data_bb;
                            detector_seed := client_key_of d |}]) ss)));
        hs_data := d |}).
Proof.
  intros Hdet Hlen det. unfold process_server_bb_03.
  unfold bind at 1. rewrite check_size_t_ok by (autounfold with layout; cbn; lia).
  unfold bind at 1, get_session at 1. cbn [hs_session].
  unfold bind at 1, get_data at 1. cbn [hs_data]. rewrite Hdet.
  reflexivity.
Qed.

Lemma process_server_bb_03_resumed s command flag ss d det :
  detector_crypt ss = Some det ->
  login_command_bb ss <> [] ->
  0xC0 <= Z.of_nat (length d) <= 0xFFFF ->
  let server_channel' :=
    set_crypt_out (Some (PSOBBMultiKeyImitatorEncryption det (client_key_of d) false))
      (set_crypt_in (Some (PSOBBMultiKeyImitatorEncryption det (server_key_of d) false))
         (server_channel ss)) in
  process_server_bb_03 s command flag {| hs_session := ss; hs_data := d |} =
    (Ret (HandlerResult.of_type SUPPRESS),
     {| hs_session :=
          set_server_channel (Channel_send 0x93 0x00 (replayed_login ss) server_channel')
            (set_login_command_bb (replayed_login ss) ss);
        hs_data := d |}).
Proof.
  intros Hdet Hlogin Hlen ch'. subst ch'. unfold process_server_bb_03.
  unfold bind at 1. rewrite check_size_t_ok by (autounfold with layout; cbn; lia).
  unfold bind at 1, get_session at 1. cbn [hs_session].
  unfold bind at 1, get_data at 1. cbn [hs_data]. rewrite Hdet.
  unfold replayed_login.
  destruct ss as [? ? ? ? ? ? ? login patch ? ? ? ? ? ? ? ? ? ? ? ?]. cbn in Hlogin |- *.
  destruct login as [|b l]; [done|].
  destruct (patch && (0x98 <=? Z.of_nat (length (b :: l)))) eqn:E;
    run_monad; reflexivity.
Qed.

(** C3 (amended).  A BB session without a detector that processes a
    well-sized 03 sends it to the client under the outbound cipher the client
    channel had on entry (none in a freshly linked session), then makes a
    detector from the candidate key pool, the expected first plaintext
    [B4 00 93 00 00 00 00 00] and the frame's client key, installs it as the
    client channel's inbound cipher and imitators of it on the three other
    directions, and suppresses the frame.  With a detector and a saved login
    command, only the server channel's two ciphers are replaced with
    imitators and the login command is replayed to the server. *)
Theorem C3_bb_server_init s command flag ss d :
  0xC0 <= Z.of_nat (length d) <= 0xFFFF ->
  let r := process_server_bb_03 s command flag {| hs_session := ss; hs_data := d |} in
  let ss' := hs_session r.2 in
  (detector_crypt ss = None ->
     r.1 = Ret (HandlerResult.of_type SUPPRESS) /\ hs_data r.2 = d /\
     outbox (client_channel ss') =
       outbox (client_channel ss) ++
         [{| sent_command := 0x03; sent_flag := 0x00; sent_data := d;
             sent_crypt := crypt_out (client_channel ss) |}] /\
     outbox (server_channel ss') = outbox (server_channel ss) /\
     exists det,
       detectors ss !! det = None /\
       detectors ss' =
         detectors ss ++
           [{| possible_keys := bb_private_keys s;
               expected_first_data := [0xB4; 0x00; 0x93; 0x00; 0x00; 0x00; 0x00; 0x00];
               detector_seed := client_key_of d |}] /\
       detectors ss' !! det =
         Some {| possible_keys := bb_private_keys s;
                 expected_first_data := [0xB4; 0x00; 0x93; 0x00; 0x00; 0x00; 0x00; 0x00];
                 detector_seed := client_key_of d |} /\
       detector_crypt ss' = Some det /\
       crypt_in (client_channel ss') = Some (PSOBBMultiKeyDetectorEncryption det) /\
       crypt_out (client_channel ss') =
         Some (PSOBBMultiKeyImitatorEncryption det (server_key_of d) true) /\
       crypt_in (server_channel ss') =
         Some (PSOBBMultiKeyImitatorEncryption det (server_key_of d) false) /\
       crypt_out (server_channel ss') =
         Some (PSOBBMultiKeyImitatorEncryption det (client_key_of d) false)) /\
  (forall det, detector_crypt ss = Some det -> login_command_bb ss <> [] ->
     r.1 = Ret (HandlerResult.of_type SUPPRESS) /\ hs_data r.2 = d /\
     client_channel ss' = client_channel ss /\
     detectors ss' = detectors ss /\ detector_crypt ss' = Some det /\
     crypt_in (server_channel ss') =
       Some (PSOBBMultiKeyImitatorEncryption det (server_key_of d) false) /\
     crypt_out (server_channel ss') =
       Some (PSOBBMultiKeyImitatorEncryption det (client_key_of d) false) /\
     outbox (server_channel ss') =
       outbox (server_channel ss) ++
         [{| sent_command := 0x93; sent_flag := 0x00; sent_data := replayed_login ss;
             sent_crypt := Some (PSOBBMultiKeyImitatorEncryption det (client_key_of d) false) |}]).
Proof.
  intros Hlen r ss'. split.
  - intros Hdet. subst ss' r. rewrite process_server_bb_03_new by done.
    cbn [fst snd hs_session hs_data].
    split; [done|]. split; [done|]. split; [done|]. split; [done|].
    exists (length (detectors ss)).
    split; [by apply lookup_ge_None_2|].
    split; [done|].
    split; [|done].
    cbn. rewrite lookup_app_r by done. by rewrite Nat.sub_diag.
  - intros det Hdet Hlogin. subst ss' r.
    rewrite (process_server_bb_03_resumed _ _ _ _ _ det) by done.
    cbn [fst snd hs_session hs_data]. by destruct ss.
Qed.

Lemma C3_bb_server_init_witness :
  let r := process_server_bb_03 sample_state 0x03 0
             {| hs_session := sample_bb_session; hs_data := sample_bb_03 |} in
  let r' := process_server_bb_03 sample_state 0x03 0
              {| hs_session := sample_bb_resumed; hs_data := sample_bb_03 |} in
  crypt_in (client_channel (hs_session r.2)) = Some (PSOBBMultiKeyDetectorEncryption 0) /\
  (sent_crypt <$> outbox (client_channel (hs_session r.2))) = [None] /\
  (sent_command <$> outbox (server_channel (hs_session r'.2))) = [0x93].
Proof.
  intros r r'.
  assert (Hlen : 0xC0 <= Z.of_nat (length sample_bb_03) <= 0xFFFF) by (vm_compute; split; discriminate).
  destruct (C3_bb_server_init sample_state 0x03 0 sample_bb_session sample_bb_03 Hlen)
    as [Hnew _].
  destruct (C3_bb_server_init sample_state 0x03 0 sample_bb_resumed sample_bb_03 Hlen)
    as [_ Hres].
  destruct (Hnew eq_refl) as (_ & _ & Hsent & _ & det & Hfree & _ & _ & Hdc & Hin & _).
  assert (Hne : login_command_bb sample_bb_resumed <> []) by discriminate.
  destruct (Hres 0%nat eq_refl Hne) as (_ & _ & _ & _ & _ & _ & _ & Hout).
  assert (E : Some det = Some 0%nat) by (rewrite <- Hdc; reflexivity).
  injection E as ->.
  split; [exact Hin|]. split.
  - exact (f_equal (fmap sent_crypt) Hsent).
  - exact (f_equal (fmap sent_command) Hout).
Defined.

(** C3, as stated, fails: the detector is seeded with the frame's client
    key, not with its server key. *)
Lemma C3_detector_seed_counterexample :
  let r := process_server_bb_03 sample_state 0x03 0
             {| hs_session := sample_bb_session; hs_data := sample_bb_03 |} in
  detector_crypt sample_bb_session = None /\
  server_key_of sample_bb_03 = replicate 0x30 0xAA /\
  client_key_of sample_bb_03 = replicate 0x30 0xBB /\
  exists D,
    detector_crypt (hs_session r.2) = Some 0%nat /\
    detectors (hs_session r.2) !! 0%nat = Some D /\
    crypt_in (client_channel (hs_session r.2)) = Some (PSOBBMultiKeyDetectorEncryption 0) /\
    detector_seed D = client_key_of sample_bb_03 /\
    detector_seed D <> server_key_of sample_bb_03.
Proof.
  cbv zeta. split; [reflexivity|]. split; [by vm_compute|]. split; [by vm_compute|].
  eexists. split; [by vm_compute|]. split; [by vm_compute|]. split; [by vm_compute|].
  split; by vm_compute.
Qed.

(** ** Reconnect interception (commands 19 and 14) *)

Lemma process_server_game_19_patch_14_run s command flag ss d :
  let d' := fill_reconnect (prev_server_command_bytes ss) d in
  process_server_game_19_patch_14 s command flag {| hs_session := ss; hs_data := d |} =
    if 0xB0 <? Z.of_nat (length d') then
      (Throw (runtime_error "command too large"),
       {| hs_session :=
            if enable_remote_ip_crc_patch ss then set_remote_ip_crc (crc32 (take 4 d')) ss else ss;
          hs_data := d' |})
    else if negb (connected (client_channel ss)) then
      (Ret (HandlerResult.of_type SUPPRESS),
       {| hs_session :=
            set_session_log
              (session_log ss ++
                 [(WARNING, "Received reconnect command with no destination present"%string)])
              (reconnect_recorded ss d');
          hs_data := d' |})
    else if command =? 0x14 then
      (Ret (HandlerResult.of_type SUPPRESS),
       {| hs_session :=
            LinkedSession_connect
              (set_next_destination (reconnect_destination_patch d')
                 (set_server_channel
                    (set_crypt_out None (set_crypt_in None (server_channel ss)))
                    (reconnect_recorded ss d')));
          hs_data := d' |})
    else if is_virtual_connection (client_channel ss) then
      (Ret (HandlerResult.of_type MODIFIED),
       {| hs_session := reconnect_recorded ss d';
          hs_data := put_u16l 4 (local_port ss) d' |})
    else if negb (sin_family (local_addr (client_channel ss)) =? AF_INET) then
      (Throw (logic_error "existing connection is not ipv4"),
       {| hs_session := reconnect_recorded ss d'; hs_data := d' |})
    else
      (Ret (HandlerResult.of_type MODIFIED),
       {| hs_session := reconnect_recorded ss d';
          hs_data := put_u16l 4 (bswap16 (sin_port (local_addr (client_channel ss))))
                       (put_u32l 0 (sin_addr (local_addr (client_channel ss))) d') |}).
Proof.
  intros d'. subst d'. unfold fill_reconnect, reconnect_recorded, process_server_game_19_patch_14.
  assert (Hlen8 : forall x : bytes,
            8 <= Z.of_nat (length (if (length x <? 8)%nat then resize 8 x else x))).
  { intros x. destruct (Nat.ltb_spec (length x) 8); [|lia].
    unfold resize. rewrite length_app, length_take, length_replicate. lia. }
  destruct ss as [? ? ? cch sch ? ? ? patch ? prev ? ? ? ? ? ? ? ? ? ?].
  cbn [prev_server_command_bytes enable_remote_ip_crc_patch client_channel session_log
       server_channel local_port].
  autounfold with layout.
  set (d1 := if (length d <? length prev)%nat then d ++ drop (length d) prev else d).
  specialize (Hlen8 d1).
  set (d2 := if (length d1 <? 8)%nat then resize 8 d1 else d1) in *.
  change (8 <= Z.of_nat (length d2)) in Hlen8.
  unfold bind at 1, get_session at 1. cbn [hs_session].
  unfold bind at 1, get_data at 1. cbn [hs_data prev_server_command_bytes].
  assert (E1 : forall ssx (k : unit -> M HState HandlerResult.t),
    bind (when (length d <? length prev)%nat (set_data (d ++ drop (length d) prev))) k
      {| hs_session := ssx; hs_data := d |} = k tt {| hs_session := ssx; hs_data := d1 |}).
  { intros ssx k. subst d1. by destruct (length d <? length prev)%nat. }
  rewrite E1.
  unfold bind at 1, get_data at 1. cbn [hs_data].
  assert (E2 : forall ssx (k : unit -> M HState HandlerResult.t),
    bind (when (length d1 <? 8)%nat (set_data (resize 8 d1))) k
      {| hs_session := ssx; hs_data := d1 |} = k tt {| hs_session := ssx; hs_data := d2 |}).
  { intros ssx k. subst d2. by destruct (length d1 <? 8)%nat. }
  rewrite E2.
  unfold bind at 1, get_data at 1. cbn [hs_data enable_remote_ip_crc_patch].
  set (ss0 := {| version := version0; license := license0;
                 remote_guild_card_number := remote_guild_card_number0;
                 client_channel := cch; server_channel := sch; detectors := detectors0;
                 detector_crypt := detector_crypt0; login_command_bb := login_command_bb0;
                 enable_remote_ip_crc_patch := patch; remote_ip_crc := remote_ip_crc0;
                 prev_server_command_bytes := prev; next_destination := next_destination0;
                 local_port := local_port0; lobby_players := lobby_players0;
                 lobby_client_id := lobby_client_id0; leader_client_id := leader_client_id0;
                 newserv_client_config := newserv_client_config0;
                 override_lobby_event := override_lobby_event0;
                 override_lobby_number := override_lobby_number0;
                 session_log := session_log0; connect_calls := connect_calls0 |}).
  assert (E3 : forall (k : unit -> M HState HandlerResult.t),
    bind (when patch (modify_session (set_remote_ip_crc (crc32 (take 4 d2))))) k
      {| hs_session := ss0; hs_data := d2 |} =
    k tt {| hs_session := if patch then set_remote_ip_crc (crc32 (take 4 d2)) ss0 else ss0;
            hs_data := d2 |}).
  { intros k. by destruct patch. }
  rewrite E3. clear E1 E2 E3. clearbody d2.
  unfold bind at 1.
  destruct (Z.ltb_spec 0xB0 (Z.of_nat (length d2))) as [Hbig|Hfit].
  - rewrite check_size_t_large by (cbn; lia). reflexivity.
  - rewrite check_size_t_ok by (cbn; lia).
    run_monad. subst ss0.
    destruct patch; destruct (connected cch); cbn; try reflexivity;
      destruct (command =? 20); cbn; try reflexivity;
      destruct (is_virtual_connection cch); cbn; try reflexivity;
      destruct (sin_family (local_addr cch) =? AF_INET); reflexivity.
Qed.

Lemma drop_store n off v d k :
  (off + n <= length d)%nat -> (off + n <= k)%nat -> drop k (store n off v d) = drop k d.
Proof.
  intros H Hk. unfold store. rewrite app_assoc.
  rewrite drop_app_ge by (rewrite length_app, length_take, length_le_encode; lia).
  rewrite length_app, length_take, length_le_encode, drop_drop. f_equal. lia.
Qed.

Lemma length_fill_reconnect prev d : (8 <= length (fill_reconnect prev d))%nat.
Proof.
  unfold fill_reconnect, sizeof_S_Reconnect_19.
  set (d1 := if (length d <? length prev)%nat then _ else _).
  destruct (Nat.ltb_spec (length d1) 8); [|lia].
  unfold resize. rewrite length_app, length_take, length_replicate. lia.
Qed.

(** C4 (amended).  With the client channel connected and the completed
    payload within the size check: a game reconnect 19 records the payload's
    address and port as the next destination, and is forwarded modified, with
    only the port member rewritten (to the session's local port) on a virtual
    connection, and with address and port rewritten to the client channel's
    locally bound IPv4 address and port on a real socket; the patch server's
    14 resets the server channel's ciphers, connects to the destination and
    is suppressed.  With the client channel not connected the destination is
    recorded and the command is suppressed, and nothing else happens. *)
Theorem C4_reconnect_interception s command flag ss d :
  let d' := fill_reconnect (prev_server_command_bytes ss) d in
  let r := process_server_game_19_patch_14 s command flag {| hs_session := ss; hs_data := d |} in
  let ss' := hs_session r.2 in
  Z.of_nat (length d') <= 0xB0 ->
  (connected (client_channel ss) = true -> command <> 0x14 ->
     next_destination ss' = reconnect_destination d' /\
     (is_virtual_connection (client_channel ss) = true ->
        r.1 = Ret (HandlerResult.of_type MODIFIED) /\
        hs_data r.2 = put_u16l 4 (local_port ss) d' /\
        get_u16l 4 (hs_data r.2) = local_port ss mod 2 ^ 16 /\
        get_u32l 0 (hs_data r.2) = get_u32l 0 d' /\
        drop 6 (hs_data r.2) = drop 6 d') /\
     (is_virtual_connection (client_channel ss) = false ->
      sin_family (local_addr (client_channel ss)) = AF_INET ->
        r.1 = Ret (HandlerResult.of_type MODIFIED) /\
        get_u32l 0 (hs_data r.2) = sin_addr (local_addr (client_channel ss)) mod 2 ^ 32 /\
        get_u16l 4 (hs_data r.2) =
          bswap16 (sin_port (local_addr (client_channel ss))) mod 2 ^ 16 /\
        drop 6 (hs_data r.2) = drop 6 d')) /\
  (connected (client_channel ss) = true -> command = 0x14 ->
     r.1 = Ret (HandlerResult.of_type SUPPRESS) /\
     crypt_in (server_channel ss') = None /\
     crypt_out (server_channel ss') = None /\
     next_destination ss' = reconnect_destination_patch d' /\
     connect_calls ss' = connect_calls ss ++ [reconnect_destination_patch d'] /\
     client_channel ss' = client_channel ss /\
     outbox (server_channel ss') = outbox (server_channel ss) /\
     hs_data r.2 = d') /\
  (connected (client_channel ss) = false ->
     r.1 = Ret (HandlerResult.of_type SUPPRESS) /\
     next_destination ss' = reconnect_destination d' /\
     server_channel ss' = server_channel ss /\
     client_channel ss' = client_channel ss /\
     connect_calls ss' = connect_calls ss /\
     hs_data r.2 = d').
Proof.
  intros d' r ss' Hfit.
  pose proof (process_server_game_19_patch_14_run s command flag ss d) as Hrun.
  cbv zeta in Hrun. fold d' r in Hrun.
  pose proof (length_fill_reconnect (prev_server_command_bytes ss) d) as Hlen. fold d' in Hlen.
  destruct (Z.ltb_spec 0xB0 (Z.of_nat (length d'))) as [?|_]; [lia|].
  split; [|split].
  - intros Hconn Hcmd. rewrite Hconn in Hrun. cbn [negb] in Hrun.
    destruct (Z.eqb_spec command 0x14) as [?|_]; [done|].
    assert (Hdest : next_destination ss' = reconnect_destination d').
    { subst ss'. destruct (is_virtual_connection (client_channel ss));
        [|destruct (sin_family (local_addr (client_channel ss)) =? AF_INET)];
        rewrite Hrun; unfold reconnect_recorded;
        by destruct ss, enable_remote_ip_crc_patch0. }
    split; [exact Hdest|]. split.
    + intros Hvirt. rewrite Hvirt in Hrun. rewrite Hrun. cbn [fst snd hs_data].
      split; [done|]. split; [done|]. unfold get_u16l, get_u32l, put_u16l.
      split; [by rewrite load_store by lia|].
      split; [by rewrite load_store_before by lia|].
      by rewrite drop_store by lia.
    + intros Hvirt Hfam. rewrite Hvirt in Hrun.
      rewrite Hfam, Z.eqb_refl in Hrun. cbn [negb] in Hrun.
      rewrite Hrun. cbn [fst snd hs_data].
      split; [done|]. unfold get_u16l, get_u32l, put_u16l, put_u32l.
      split; [|split].
      * rewrite load_store_before by (rewrite ?length_store; lia).
        by rewrite load_store by lia.
      * by rewrite load_store by (rewrite ?length_store; lia).
      * rewrite !drop_store by (rewrite ?length_store; lia). done.
  - intros Hconn ->. rewrite Hconn in Hrun. cbn [negb] in Hrun.
    change (0x14 =? 0x14) with true in Hrun. cbv iota in Hrun.
    subst ss'. rewrite Hrun. unfold reconnect_recorded.
    by destruct ss, enable_remote_ip_crc_patch0.
  - intros Hconn. rewrite Hconn in Hrun. cbn [negb] in Hrun.
    subst ss'. rewrite Hrun. unfold reconnect_recorded.
    by destruct ss, enable_remote_ip_crc_patch0.
Qed.

Lemma C4_reconnect_interception_witness :
  let r := process_server_game_19_patch_14 sample_state 0x19 0
             {| hs_session := sample_session; hs_data := sample_reconnect |} in
  let r14 := process_server_game_19_patch_14 sample_state 0x14 0
               {| hs_session := sample_patch_session; hs_data := sample_reconnect |} in
  next_destination (hs_session r.2) =
    {| sin_family := AF_INET; sin_addr := 0x0500000A; sin_port := 0xE02E |} /\
  get_u32l 0 (hs_data r.2) = 0x0100007F /\
  get_u16l 4 (hs_data r.2) = 0x2328 /\
  crypt_in (server_channel (hs_session r14.2)) = None /\
  connect_calls (hs_session r14.2) =
    [{| sin_family := AF_INET; sin_addr := 0x0500000A; sin_port := 0x2EE0 |}].
Proof.
  intros r r14.
  assert (Hfit : Z.of_nat (length (fill_reconnect (prev_server_command_bytes sample_session)
                                     sample_reconnect)) <= 0xB0)
    by (vm_compute; discriminate).
  assert (Hfit14 : Z.of_nat (length (fill_reconnect
                                       (prev_server_command_bytes sample_patch_session)
                                       sample_reconnect)) <= 0xB0)
    by (vm_compute; discriminate).
  destruct (C4_reconnect_interception sample_state 0x19 0 sample_session sample_reconnect Hfit)
    as (Hgame & _ & _).
  destruct (C4_reconnect_interception sample_state 0x14 0 sample_patch_session sample_reconnect
              Hfit14) as (_ & Hpatch & _).
  assert (Hne : 0x19 <> 0x14) by lia.
  destruct (Hgame eq_refl Hne) as (Hdest & _ & Hreal).
  destruct (Hreal eq_refl eq_refl) as (_ & Haddr & Hport & _).
  destruct (Hpatch eq_refl eq_refl) as (_ & Hin & _ & _ & Hconn & _).
  split; [exact Hdest|]. split; [exact Haddr|]. split; [exact Hport|].
  split; [exact Hin|exact Hconn].
Defined.

(** C4, as stated, fails when the client channel is not connected: a patch
    server's 14 is suppressed without resetting the server channel's ciphers
    and without following the redirect. *)
Lemma C4_no_client_counterexample :
  let r := process_server_game_19_patch_14 sample_state 0x14 0
             {| hs_session := sample_patch_session_no_client; hs_data := sample_reconnect |} in
  connected (client_channel sample_patch_session_no_client) = false /\
  r.1 = Ret (HandlerResult.of_type SUPPRESS) /\
  crypt_in (server_channel (hs_session r.2)) = Some (PSOV2Encryption 7) /\
  crypt_out (server_channel (hs_session r.2)) = Some (PSOV2Encryption 8) /\
  crypt_in (server_channel (hs_session r.2)) <> None /\
  connect_calls (hs_session r.2) = [].
Proof.
  cbv zeta. split; [reflexivity|]. split; [by vm_compute|]. split; [by vm_compute|].
  split; [by vm_compute|]. split; by vm_compute.
Qed.

(** ** Short reconnect fill *)

Lemma fill_reconnect_short prev d :
  (length d < length prev)%nat ->
  fill_reconnect prev d =
    d ++ drop (length d) prev ++ replicate (8 - length prev) 0.
Proof.
  intros Hlt. unfold fill_reconnect, sizeof_S_Reconnect_19.
  destruct (Nat.ltb_spec (length d) (length prev)) as [_|?]; [|lia].
  assert (Hlen : length (d ++ drop (length d) prev) = length prev)
    by (rewrite length_app, length_drop; lia).
  rewrite Hlen.
  destruct (Nat.ltb_spec (length prev) 8) as [Hs|Hs].
  - rewrite resize_ge by lia. rewrite Hlen. by rewrite <- app_assoc.
  - replace (8 - length prev)%nat with 0%nat by lia. cbn. by rewrite app_nil_r.
Qed.

(** C6.  When a reconnect payload is shorter than the remembered bytes of
    the previous server command, the handler completes it before parsing:
    the bytes received stay, the offsets up to the remembered buffer's size
    are taken from the previous command at the same offsets, and the rest up
    to the size of the reconnect record is zero.  The destination recorded
    (for a 19, and for a 14 while the client is connected) is parsed from the
    completed payload, and it is the destination read
    from the client's receive buffer (the new bytes over the previous
    command's).  A 4-byte payload with 6 remembered bytes becomes the 4
    bytes, the remembered bytes 4 and 5, and two zeros. *)
Theorem C6_short_reconnect_fill s command flag ss (d : list Z) :
  let prev : list Z := prev_server_command_bytes ss in
  let d' : list Z := fill_reconnect prev d in
  let r := process_server_game_19_patch_14 s command flag {| hs_session := ss; hs_data := d |} in
  (length d < length prev)%nat ->
  (forall i, (i < length d)%nat -> d' !! i = d !! i) /\
  (forall i, (length d <= i < length prev)%nat -> d' !! i = prev !! i) /\
  (forall i, (length prev <= i < 8)%nat -> d' !! i = Some 0) /\
  length d' = (length prev `max` 8)%nat /\
  (Z.of_nat (length d') <= 0xB0 -> command <> 0x14 ->
     next_destination (hs_session r.2) = reconnect_destination d') /\
  (Z.of_nat (length d') <= 0xB0 -> command = 0x14 ->
   connected (client_channel ss) = true ->
     next_destination (hs_session r.2) = reconnect_destination_patch d') /\
  ((6 <= length prev)%nat ->
     reconnect_destination d' = reconnect_destination (client_receive_buffer prev d)) /\
  (length d = 4%nat -> length prev = 6%nat -> d' = d ++ drop 4 prev ++ [0; 0]).
Proof.
  intros prev d' r Hlt.
  assert (Hd' : d' = d ++ drop (length d) prev ++ replicate (8 - length prev) 0)
    by (by apply fill_reconnect_short).
  split; [|split; [|split; [|split; [|split; [|split; [|split]]]]]].
  - intros i Hi. rewrite Hd'. by rewrite lookup_app_l.
  - intros i Hi. rewrite Hd'. rewrite lookup_app_r by lia.
    rewrite lookup_app_l by (rewrite length_drop; lia).
    rewrite lookup_drop. f_equal. lia.
  - intros i Hi. rewrite Hd'. rewrite lookup_app_r by lia.
    rewrite lookup_app_r by (rewrite length_drop; lia).
    rewrite length_drop. apply lookup_replicate_2. lia.
  - rewrite Hd'. rewrite !length_app, length_drop, length_replicate. lia.
  - intros Hfit Hcmd.
    pose proof (process_server_game_19_patch_14_run s command flag ss d) as Hrun.
    cbv zeta in Hrun. fold prev d' r in Hrun.
    destruct (Z.ltb_spec 0xB0 (Z.of_nat (length d'))) as [?|_]; [lia|].
    destruct (Z.eqb_spec command 0x14) as [?|_]; [done|].
    rewrite Hrun. unfold reconnect_recorded.
    destruct (connected (client_channel ss)); cbn [negb];
      [destruct (is_virtual_connection (client_channel ss));
         [|destruct (sin_family (local_addr (client_channel ss)) =? AF_INET)]|];
      by destruct ss, enable_remote_ip_crc_patch0.
  - intros Hfit -> Hconn.
    pose proof (process_server_game_19_patch_14_run s 0x14 flag ss d) as Hrun.
    cbv zeta in Hrun. fold prev d' r in Hrun.
    destruct (Z.ltb_spec 0xB0 (Z.of_nat (length d'))) as [?|_]; [lia|].
    rewrite Hconn in Hrun. cbn [negb] in Hrun.
    change (0x14 =? 0x14) with true in Hrun. cbv iota in Hrun.
    rewrite Hrun. unfold reconnect_recorded.
    by destruct ss, enable_remote_ip_crc_patch0.
  - intros H6. rewrite Hd'. unfold client_receive_buffer, reconnect_destination.
    autounfold with layout. unfold get_u32l, get_u16l.
    rewrite (app_assoc d).
    rewrite !(load_app_l _ _ (d ++ drop (length d) prev))
      by (rewrite length_app, length_drop; lia).
    done.
  - intros H4 Hp. rewrite Hd', H4, Hp. done.
Qed.

Lemma C6_short_reconnect_fill_witness :
  let r := process_server_game_19_patch_14 sample_state 0x19 0
             {| hs_session := sample_session; hs_data := [10; 0; 0; 5] |} in
  fill_reconnect (prev_server_command_bytes sample_session) [10; 0; 0; 5] =
    [10; 0; 0; 5; 0x34; 0x12; 0; 0] /\
  next_destination (hs_session r.2) =
    {| sin_family := AF_INET; sin_addr := 0x0500000A; sin_port := 0x3412 |}.
Proof.
  intros r.
  assert (Hlt : (length [10; 0; 0; 5] < length (prev_server_command_bytes sample_session))%nat)
    by (simpl; lia).
  destruct (C6_short_reconnect_fill sample_state 0x19 0 sample_session [10; 0; 0; 5] Hlt)
    as (_ & _ & _ & _ & Hdest & _ & _ & Hfour).
  assert (Hfit : Z.of_nat (length (fill_reconnect (prev_server_command_bytes sample_session)
                                     [10; 0; 0; 5])) <= 0xB0)
    by (vm_compute; discriminate).
  assert (Hne : 0x19 <> 0x14) by lia.
  split; [exact (Hfour eq_refl eq_refl)|exact (Hdest Hfit Hne)].
Defined.

(** ** Remote IP CRC patch (commands 22, 19 and 03 on BB) *)

Lemma lxor_u32 a b : is_u32 a -> is_u32 b -> is_u32 (Z.lxor a b).
Proof.
  unfold is_u32. intros Ha Hb. split.
  - apply Z.lxor_nonneg. lia.
  - destruct (Z.eq_dec (Z.lxor a b) 0) as [->|Hnz]; [lia|].
    assert (Hpos : 0 < Z.lxor a b) by (pose proof (proj2 (Z.lxor_nonneg a b)); lia).
    apply Z.log2_lt_pow2; [done|].
    pose proof (Z.log2_lxor a b ltac:(lia) ltac:(lia)) as Hl.
    assert (Hla : Z.log2 a < 32).
    { destruct (Z.eq_dec a 0) as [->|?]; [by cbn|]. apply Z.log2_lt_pow2; lia. }
    assert (Hlb : Z.log2 b < 32).
    { destruct (Z.eq_dec b 0) as [->|?]; [by cbn|]. apply Z.log2_lt_pow2; lia. }
    lia.
Qed.

Lemma process_server_bb_22_run s command flag ss d :
  process_server_bb_22 s command flag {| hs_session := ss; hs_data := d |} =
    (Ret (HandlerResult.of_type FORWARD),
     {| hs_session :=
          if (length d =? 0x2C)%nat && (fnv1a64 d =? 0x8AF8314316A27994)
          then set_enable_remote_ip_crc_patch true
                 (set_session_log
                    (session_log ss ++ [(INFO, "Enabling remote IP CRC patch"%string)]) ss)
          else ss;
        hs_data := d |}).
Proof.
  unfold process_server_bb_22. run_monad.
  by destruct (_ && _).
Qed.

(** C7.  A command 22 of exactly [0x2C] bytes whose [fnv1a64] hash is
    [0x8AF8314316A27994] sets the remote IP CRC patch flag (and no other 22
    changes it); while the flag is set, a reconnect records the CRC-32 of the
    first four bytes of its completed payload; and a resumed session with the
    flag set and a saved login command of at least [0x98] bytes replays that
    command with the little-endian 32-bit member at offset [0x94] set to the
    recorded CRC XOR (1309539928 + 1248334810), the rest unchanged. *)
Theorem C7_remote_ip_crc_patch s command flag ss (d : list Z) :
  let r22 := process_server_bb_22 s command flag {| hs_session := ss; hs_data := d |} in
  let r19 := process_server_game_19_patch_14 s command flag {| hs_session := ss; hs_data := d |} in
  let r03 := process_server_bb_03 s command flag {| hs_session := ss; hs_data := d |} in
  (r22.1 = Ret (HandlerResult.of_type FORWARD) /\ hs_data r22.2 = d /\
   enable_remote_ip_crc_patch (hs_session r22.2) =
     enable_remote_ip_crc_patch ss ||
       ((length d =? 0x2C)%nat && (fnv1a64 d =? 0x8AF8314316A27994)) /\
   (length d = 0x2C%nat -> fnv1a64 d = 0x8AF8314316A27994 ->
    enable_remote_ip_crc_patch (hs_session r22.2) = true)) /\
  (enable_remote_ip_crc_patch ss = true ->
   remote_ip_crc (hs_session r19.2) =
     crc32 (take 4 (fill_reconnect (prev_server_command_bytes ss) d)) /\
   enable_remote_ip_crc_patch (hs_session r19.2) = true) /\
  (forall det,
   enable_remote_ip_crc_patch ss = true ->
   detector_crypt ss = Some det ->
   0x98 <= Z.of_nat (length (login_command_bb ss)) ->
   is_u32 (remote_ip_crc ss) ->
   0xC0 <= Z.of_nat (length d) <= 0xFFFF ->
   exists login cipher,
     outbox (server_channel (hs_session r03.2)) =
       outbox (server_channel ss) ++
         [{| sent_command := 0x93; sent_flag := 0x00; sent_data := login;
             sent_crypt := cipher |}] /\
     get_u32l 0x94 login = Z.lxor (remote_ip_crc ss) (1309539928 + 1248334810) /\
     length login = length (login_command_bb ss) /\
     take 0x94 login = take 0x94 (login_command_bb ss) /\
     drop 0x98 login = drop 0x98 (login_command_bb ss)).
Proof.
  intros r22 r19 r03. split; [|split].
  - subst r22. rewrite process_server_bb_22_run. cbn [fst snd hs_data hs_session].
    split; [done|]. split; [done|].
    assert (E : forall b : bool,
      enable_remote_ip_crc_patch
        (if b then set_enable_remote_ip_crc_patch true
                     (set_session_log
                        (session_log ss ++ [(INFO, "Enabling remote IP CRC patch"%string)]) ss)
         else ss) = enable_remote_ip_crc_patch ss || b).
    { intros [|]; cbn; [by rewrite orb_true_r | by rewrite orb_false_r]. }
    split; [apply E|].
    intros Hlen Hhash. rewrite E, Hlen, Hhash, Nat.eqb_refl, Z.eqb_refl.
    apply orb_true_r.
  - intros Hen. subst r19. rewrite process_server_game_19_patch_14_run.
    unfold reconnect_recorded. rewrite Hen.
    destruct (0xB0 <? _); [by destruct ss|].
    destruct (negb (connected (client_channel ss))); [by destruct ss|].
    destruct (command =? 0x14); [by destruct ss|].
    destruct (is_virtual_connection (client_channel ss)); [by destruct ss|].
    destruct (negb _); by destruct ss.
  - intros det Hen Hdet Hlogin Hcrc Hlen. subst r03.
    assert (Hne : login_command_bb ss <> []).
    { intros E. rewrite E in Hlogin. cbn in Hlogin. lia. }
    rewrite (process_server_bb_03_resumed _ _ _ _ _ det) by done.
    cbn [fst snd hs_session hs_data]. unfold replayed_login. rewrite Hen.
    destruct (Z.leb_spec 0x98 (Z.of_nat (length (login_command_bb ss)))) as [_|?]; [|lia].
    cbn [andb]. eexists _, _. split; [by destruct ss|].
    unfold get_u32l, put_u32l.
    split; [|split; [|split]].
    + rewrite load_store by lia. apply Z.mod_small.
      apply (lxor_u32 _ _ Hcrc). unfold is_u32. lia.
    + apply length_store. lia.
    + unfold store. rewrite take_app_length'; [done|]. rewrite length_take. lia.
    + apply drop_store; lia.
Qed.

Lemma C7_remote_ip_crc_patch_witness :
  let r19 := process_server_game_19_patch_14 sample_state 0x19 0
               {| hs_session := sample_bb_resumed; hs_data := sample_reconnect |} in
  let r03 := process_server_bb_03 sample_state 0x03 0
               {| hs_session := sample_bb_resumed; hs_data := sample_bb_03 |} in
  remote_ip_crc (hs_session r19.2) = crc32 [10; 0; 0; 5] /\
  exists login,
    (sent_data <$> outbox (server_channel (hs_session r03.2))) = [login] /\
    get_u32l 0x94 login = Z.lxor 0x12345678 2557874738.
Proof.
  intros r19 r03.
  destruct (C7_remote_ip_crc_patch sample_state 0x19 0 sample_bb_resumed sample_reconnect)
    as (_ & H19 & _).
  destruct (C7_remote_ip_crc_patch sample_state 0x03 0 sample_bb_resumed sample_bb_03)
    as (_ & _ & H03).
  destruct (H19 eq_refl) as [Hcrc _].
  assert (Hlogin : 0x98 <= Z.of_nat (length (login_command_bb sample_bb_resumed)))
    by (vm_compute; discriminate).
  assert (Hu32 : is_u32 (remote_ip_crc sample_bb_resumed))
    by (unfold is_u32; simpl; lia).
  assert (Hlen : 0xC0 <= Z.of_nat (length sample_bb_03) <= 0xFFFF)
    by (vm_compute; split; discriminate).
  destruct (H03 0%nat eq_refl eq_refl Hlogin Hu32 Hlen)
    as (login & cipher & Hout & Hfield & _).
  split; [exact Hcrc|].
  exists login. split; [exact (f_equal (fmap sent_data) Hout)|exact Hfield].
Defined.

(** ** The lobby mirror (commands 65, 67 and 68) *)

Lemma for_loop_invariant {St A} (P : St -> Prop) (body : nat -> A -> M St A) n :
  forall start acc st,
  (forall x a st', (start <= x < start + n)%nat -> P st' ->
     (exists a', (body x a st').1 = Ret a') /\ P (body x a st').2) ->
  P st ->
  (exists a', (for_loop n start body acc st).1 = Ret a') /\
  P (for_loop n start body acc st).2.
Proof.
  induction n as [|n IH]; intros start acc st Hbody HP.
  - cbn. eauto.
  - cbn [for_loop]. unfold bind.
    destruct (Hbody start acc st ltac:(lia) HP) as [[a' Ha'] HP'].
    destruct (body start acc st) as [o st'] eqn:E. cbn [fst snd] in Ha', HP'. subst o.
    apply IH; [|done].
    intros x a st'' Hx. apply Hbody. lia.
Qed.

(** An entry whose index is out of range is skipped: a warning is logged,
    and neither the mirror nor the payload changes. *)
Lemma join_entry_out_of_range L x modified st :
  (length (lobby_players (hs_session st)) <= entry_index L (hs_data st) x)%nat ->
  join_entry L x modified st =
    (Ret modified,
     {| hs_session :=
          set_session_log
            (session_log (hs_session st) ++
               [(WARNING, "Ignoring invalid player index %zu at position %zu"%string)])
            (hs_session st);
        hs_data := hs_data st |}).
Proof.
  intros Hge. unfold join_entry. run_monad.
  by destruct (Nat.leb_spec (length (lobby_players (hs_session st)))
                 (entry_index L (hs_data st) x)); [|lia].
Qed.

(** An entry whose index is in range writes that slot of the mirror and no
    other; the payload is left alone or has the entry's guild card member
    rewritten. *)
Lemma join_entry_in_range L x modified st :
  (entry_index L (hs_data st) x < length (lobby_players (hs_session st)))%nat ->
  exists modified' p d',
    join_entry L x modified st =
      (Ret modified',
       {| hs_session :=
            set_session_log
              (session_log (hs_session st) ++
                 [(INFO, "Added lobby player: (%zu) %u %s"%string)])
              (set_lobby_players
                 (<[entry_index L (hs_data st) x := p]> (lobby_players (hs_session st)))
                 (hs_session st));
          hs_data := d' |}) /\
    (d' = hs_data st \/
     exists v, d' = put_u32l (offsetof_entries L + x * sizeof_Entry L
                               + offsetof_lobby_data_guild_card L) v (hs_data st)).
Proof.
  intros Hlt. unfold join_entry. run_monad.
  destruct (Nat.leb_spec (length (lobby_players (hs_session st)))
              (entry_index L (hs_data st) x)); [lia|].
  destruct (license (hs_session st)) as [lic|]; cbn.
  - destruct (_ =? _); cbn; eexists _, _, _; (split; [reflexivity|]); eauto.
  - eexists _, _, _. split; [reflexivity|]. eauto.
Qed.

Lemma entry_index_put_guild_card L d x y v :
  layout_ok L ->
  (offsetof_entries L + x * sizeof_Entry L + sizeof_Entry L <= length d)%nat ->
  entry_index L
    (put_u32l (offsetof_entries L + x * sizeof_Entry L + offsetof_lobby_data_guild_card L) v d) y
  = entry_index L d y.
Proof.
  intros (Hg & Hc & Hdisj) Hin. unfold entry_index, put_u32l. f_equal.
  destruct (Nat.lt_trichotomy x y) as [Hxy|[->|Hxy]].
  - apply load_store_after; [lia | nia].
  - destruct Hdisj; [apply load_store_after | apply load_store_before]; lia.
  - apply load_store_before; [lia | nia].
Qed.

Lemma update_leader_id_run stm leader_id st :
  exists ss',
    update_leader_id stm leader_id st = (Ret tt, {| hs_session := ss'; hs_data := hs_data st |}) /\
    lobby_players ss' = lobby_players (hs_session st).
Proof.
  unfold update_leader_id. run_monad.
  destruct (leader_client_id (hs_session st) =? leader_id); cbn.
  - exists (hs_session st). by destruct st.
  - destruct (leader_id =? lobby_client_id (hs_session st)); cbn;
      eexists; (split; [reflexivity|]); by destruct st as [[]].
Qed.

Lemma lobby_players_join_cleared F1 F2 command ss :
  lobby_players (join_cleared F1 F2 command ss) =
    if command =? 0x67 then replicate 12 empty_LobbyPlayer else lobby_players ss.
Proof.
  unfold join_cleared. destruct (command =? 0x67); [|done].
  by destruct (negb _).
Qed.

(** The steps of the join handler after the loop never throw and leave the
    mirror alone. *)
Lemma join_tail_run (L : JoinLobbyLayout) (modified : bool) st :
  let tail : M HState HandlerResult.t :=
    (ss <- get_session ;;
     modified <-
       (if 0 <=? override_lobby_event ss then
          d <- get_data ;;
          set_data (store (sizeof_event L) (offsetof_event L) (override_lobby_event ss) d) ;;
          ret true
        else ret modified) ;;
     modified <-
       (if 0 <=? override_lobby_number ss then
          d <- get_data ;;
          set_data (store (sizeof_lobby_number L) (offsetof_lobby_number L)
                      (override_lobby_number ss) d) ;;
          ret true
        else ret modified) ;;
     ret (HandlerResult.of_type (if modified then MODIFIED else FORWARD))) in
  (exists res, (tail st).1 = Ret res) /\ hs_session (tail st).2 = hs_session st.
Proof.
  cbv zeta. run_monad.
  destruct (0 <=? override_lobby_event (hs_session st)); cbn;
    destruct (0 <=? override_lobby_number (hs_session st)); cbn; eauto.
Qed.

Lemma join_entry_invariant L (d : list Z) flag before x modified st :
  layout_ok L ->
  Z.of_nat (length d) = Z.of_nat (offsetof_entries L) + Z.of_nat (sizeof_Entry L) * flag ->
  (x < Z.to_nat flag)%nat ->
  join_invariant L d flag before st ->
  (exists a', (join_entry L x modified st).1 = Ret a') /\
  join_invariant L d flag before (join_entry L x modified st).2.
Proof.
  intros Hok Hsize Hx (Hlen & Hidx & Hplen & Hslots).
  destruct (Nat.le_gt_cases (length (lobby_players (hs_session st)))
              (entry_index L (hs_data st) x)) as [Hout|Hin].
  - rewrite join_entry_out_of_range by done. cbn [fst snd].
    split; [eauto|]. unfold join_invariant. cbn [hs_data hs_session].
    by destruct st as [[]].
  - destruct (join_entry_in_range L x modified st Hin) as (m' & p & d' & Hrun & Hd').
    rewrite Hrun. cbn [fst snd]. split; [eauto|].
    assert (Hbound : (offsetof_entries L + x * sizeof_Entry L + sizeof_Entry L
                      <= length (hs_data st))%nat) by (rewrite Hlen; nia).
    unfold join_invariant. cbn [hs_data hs_session].
    assert (Hplayers :
      lobby_players
        (set_session_log
           (session_log (hs_session st) ++ [(INFO, "Added lobby player: (%zu) %u %s"%string)])
           (set_lobby_players
              (<[entry_index L (hs_data st) x := p]> (lobby_players (hs_session st)))
              (hs_session st)))
      = <[entry_index L (hs_data st) x := p]> (lobby_players (hs_session st)))
      by (by destruct st as [[]]).
    rewrite Hplayers.
    split; [|split; [|split]].
    + destruct Hd' as [->|[v ->]]; [done|].
      destruct Hok as (Hg & _). unfold put_u32l. rewrite length_store by lia. done.
    + intros y. destruct Hd' as [->|[v ->]]; [done|].
      rewrite entry_index_put_guild_card by done. apply Hidx.
    + by rewrite length_insert.
    + intros j Hj. rewrite list_lookup_insert_ne; [by apply Hslots|].
      rewrite Hidx. by apply Hj.
Qed.

(** C10.  An update of the lobby mirror by a 65, 67 or 68 keeps the number
    of slots (twelve cleared slots after a 67), changes no slot other than
    those named by the client id of an entry, skips an entry whose client id
    is not below the mirror's size (a warning is logged, the mirror and the
    payload stay as they are, nothing is thrown), and returns normally
    whenever the payload passes the size check. *)
Theorem C10_lobby_mirror stm F1 F2 L s command flag ss (d : list Z) :
  layout_ok L ->
  let r := process_server_65_67_68 stm F1 F2 L s command flag
             {| hs_session := ss; hs_data := d |} in
  let before : list LobbyPlayer :=
    if command =? 0x67 then replicate 12 empty_LobbyPlayer else lobby_players ss in
  let after : list LobbyPlayer := lobby_players (hs_session r.2) in
  length after = length before /\
  (command = 0x67 -> length after = 12%nat) /\
  (forall j, (forall x, (x < Z.to_nat flag)%nat -> entry_index L d x <> j) ->
     after !! j = before !! j) /\
  (Z.of_nat (length d) = Z.of_nat (offsetof_entries L) + Z.of_nat (sizeof_Entry L) * flag ->
   exists res, r.1 = Ret res) /\
  (forall x modified st,
     (length (lobby_players (hs_session st)) <= entry_index L (hs_data st) x)%nat ->
     join_entry L x modified st =
       (Ret modified,
        {| hs_session :=
             set_session_log
               (session_log (hs_session st) ++
                  [(WARNING, "Ignoring invalid player index %zu at position %zu"%string)])
               (hs_session st);
           hs_data := hs_data st |})).
Proof.
  intros Hok r before after.
  set (expected := Z.of_nat (offsetof_entries L) + Z.of_nat (sizeof_Entry L) * flag).
  assert (Hbefore : lobby_players (join_cleared F1 F2 command ss) = before)
    by apply lobby_players_join_cleared.
  (* the handler, step by step *)
  assert (Hmain :
    length after = length before /\
    (forall j, (forall x, (x < Z.to_nat flag)%nat -> entry_index L d x <> j) ->
       after !! j = before !! j) /\
    (Z.of_nat (length d) = expected -> exists res, r.1 = Ret res)).
  { subst after. generalize (eq_refl r). generalize r at 1 3 4 5. intros res E.
    subst r. unfold process_server_65_67_68 in E. fold expected in E.
    assert (Hclear :
      when (command =? 0x67)
        (modify_session (set_lobby_players (replicate 12 empty_LobbyPlayer)) ;;
         write_log INFO "Cleared lobby players" ;;
         modify_session (fun ss =>
           let cfg := newserv_client_config ss in
           if negb (Z.land (flags cfg) F2 =? 0)
           then set_newserv_client_config (set_flags (Z.lor (flags cfg) F1) cfg) ss
           else ss))
        {| hs_session := ss; hs_data := d |} =
      (Ret tt, {| hs_session := join_cleared F1 F2 command ss; hs_data := d |})).
    { unfold join_cleared. destruct (command =? 0x67); [|done]. run_monad. done. }
    rewrite (bind_ret_eq _ _ _ _ _ Hclear) in E. clear Hclear.
    set (ss0 := join_cleared F1 F2 command ss) in *.
    destruct (Z.lt_trichotomy (Z.of_nat (length d)) expected) as [Hs|[He|Hl]].
    - rewrite (bind_throw_eq _ _ _ _ _
                 (check_size_t_small expected expected
                    {| hs_session := ss0; hs_data := d |} Hs)) in E.
      subst res. cbn [fst snd hs_session].
      rewrite Hbefore. split; [done|]. split; [done|]. intros ?; lia.
    - rewrite (bind_ret_eq _ _ _ _ _
                 (check_size_t_ok expected expected {| hs_session := ss0; hs_data := d |}
                    ltac:(cbn; lia))) in E.
      unfold bind at 1, get_data at 1 in E. cbn [hs_data] in E.
      unfold bind at 1, modify_session at 1, modify at 1 in E. cbn [hs_session hs_data] in E.
      destruct (update_leader_id_run stm (get_u8 (offsetof_leader_id L) d)
                  {| hs_session := set_lobby_client_id (get_u8 (offsetof_client_id L) d) ss0;
                     hs_data := d |}) as (ss1 & Hupd & Hpl1).
      rewrite (bind_ret_eq _ _ _ _ _ Hupd) in E. cbn [hs_data hs_session] in Hpl1, E.
      assert (Hpl0 : lobby_players ss1 = before).
      { rewrite Hpl1, <- Hbefore. subst ss0. by destruct (join_cleared F1 F2 command ss). }
      assert (Hinv0 : join_invariant L d flag before {| hs_session := ss1; hs_data := d |}).
      { unfold join_invariant. cbn [hs_data hs_session]. rewrite Hpl0. done. }
      destruct (for_loop_invariant (join_invariant L d flag before) (join_entry L)
                  (Z.to_nat flag) 0%nat false {| hs_session := ss1; hs_data := d |})
        as [[m Hm] Hinv]; [|exact Hinv0|].
      { intros x a st' Hx Hst'. apply join_entry_invariant; [done|done|lia|done]. }
      destruct (for_loop (Z.to_nat flag) 0 (join_entry L) false
                  {| hs_session := ss1; hs_data := d |}) as [o st2] eqn:Eloop.
      cbn [fst snd] in Hm, Hinv. subst o.
      rewrite (bind_ret_eq _ _ _ _ _ Eloop) in E.
      destruct (join_tail_run L m st2) as [[res' Hres] Hsess]. cbv zeta in Hres, Hsess.
      destruct Hinv as (_ & _ & Hplen & Hslots).
      subst res. rewrite Hsess. split; [done|]. split; [done|]. intros _. eauto.
    - rewrite (bind_throw_eq _ _ _ _ _
                 (check_size_t_large expected expected
                    {| hs_session := ss0; hs_data := d |} ltac:(cbn; lia) Hl)) in E.
      subst res. cbn [fst snd hs_session].
      rewrite Hbefore. split; [done|]. split; [done|]. intros ?; lia. }
  destruct Hmain as (Hlen & Hslots & Hret).
  split; [exact Hlen|]. split.
  - intros ->. rewrite Hlen. subst before. cbn. done.
  - split; [exact Hslots|]. split; [exact Hret|].
    intros x modified st. apply join_entry_out_of_range.
Qed.

Lemma C10_lobby_mirror_witness :
  let r := process_server_65_67_68 sample_send_text_message 0x10 0x20 sample_join_layout
             sample_state 0x67 2 {| hs_session := sample_session; hs_data := sample_67 |} in
  layout_ok sample_join_layout /\
  entry_index sample_join_layout sample_67 0 = 1%nat /\
  entry_index sample_join_layout sample_67 1 = 200%nat /\
  length (lobby_players (hs_session r.2)) = 12%nat /\
  lobby_players (hs_session r.2) !! 0%nat = Some empty_LobbyPlayer /\
  (exists res, r.1 = Ret res).
Proof.
  intros r.
  assert (Hok : layout_ok sample_join_layout) by (unfold layout_ok; simpl; lia).
  destruct (C10_lobby_mirror sample_send_text_message 0x10 0x20 sample_join_layout
              sample_state 0x67 2 sample_session sample_67 Hok)
    as (_ & Hlen & Hslots & Hret & _).
  assert (E0 : entry_index sample_join_layout sample_67 0 = 1%nat) by reflexivity.
  assert (E1 : entry_index sample_join_layout sample_67 1 = 200%nat) by reflexivity.
  assert (Hfree : forall x, (x < Z.to_nat 2)%nat ->
                    entry_index sample_join_layout sample_67 x <> 0%nat).
  { intros x Hx. destruct x as [|[|x]]; [rewrite E0; lia | rewrite E1; lia | simpl in Hx; lia]. }
  split; [exact Hok|]. split; [exact E0|]. split; [exact E1|].
  split; [exact (Hlen eq_refl)|].
  split; [exact (Hslots 0%nat Hfree)|].
  apply Hret. reflexivity.
Defined.

(** ** Return to the home server (commands A0 and A1) *)

Lemma client_send_run command flag d st :
  client_send command flag d st =
    (Ret tt,
     {| hs_session :=
          client_enqueue
            [{| sent_command := command; sent_flag := flag; sent_data := d;
                sent_crypt := crypt_out (client_channel (hs_session st)) |}]
            (hs_session st);
        hs_data := hs_data st |}).
Proof. reflexivity. Qed.

Lemma client_enqueue_nil ss : client_enqueue [] ss = ss.
Proof. unfold client_enqueue, enqueue. rewrite app_nil_r. by destruct ss as [? ? ? []]. Qed.

Lemma client_enqueue_app f1 f2 ss :
  client_enqueue f2 (client_enqueue f1 ss) = client_enqueue (f1 ++ f2) ss.
Proof. unfold client_enqueue, enqueue. destruct ss. cbn. by rewrite app_assoc. Qed.

(** Queueing frames for the client changes nothing else of the session. *)
Lemma client_enqueue_fields f ss :
  let ss' := client_enqueue f ss in
  version ss' = version ss /\ license ss' = license ss /\
  crypt_out (client_channel ss') = crypt_out (client_channel ss) /\
  is_virtual_connection (client_channel ss') = is_virtual_connection (client_channel ss) /\
  local_addr (client_channel ss') = local_addr (client_channel ss) /\
  next_destination ss' = next_destination ss /\
  lobby_players ss' = lobby_players ss /\
  lobby_client_id ss' = lobby_client_id ss /\
  newserv_client_config ss' = newserv_client_config ss /\
  server_channel ss' = server_channel ss /\
  outbox (client_channel ss') = outbox (client_channel ss) ++ f.
Proof. by destruct ss. Qed.

(** The loop over the mirror sends exactly the frames of [leave_frames]. *)
Lemma send_leave_loop players :
  forall start ss d,
  drop start (lobby_players ss) = players ->
  for_loop (length players) start send_leave tt {| hs_session := ss; hs_data := d |} =
    (Ret tt,
     {| hs_session :=
          client_enqueue
            (leave_frames players start (lobby_client_id ss) (crypt_out (client_channel ss))) ss;
        hs_data := d |}).
Proof.
  induction players as [|p rest IH]; intros start ss d Hdrop.
  - cbn. by rewrite client_enqueue_nil.
  - cbn [length for_loop leave_frames].
    assert (Hp : lobby_players ss !! start = Some p).
    { rewrite <- (Nat.add_0_r start), <- lookup_drop, Hdrop. done. }
    assert (Hrest : drop (S start) (lobby_players ss) = rest).
    { replace (S start) with (start + 1)%nat by lia.
      rewrite <- (drop_drop _ 1 start), Hdrop. done. }
    unfold bind at 1. unfold send_leave at 1.
    unfold bind at 1, get_session at 1. cbn [hs_session]. rewrite Hp.
    destruct (guild_card_number p =? 0).
    + cbn [ret app]. by apply IH.
    + rewrite client_send_run. cbn [hs_session hs_data].
      set (f := {| sent_command := 105; sent_flag := _; sent_data := _; sent_crypt := _ |}).
      destruct (client_enqueue_fields [f] ss) as (_ & _ & Hc & _ & _ & _ & Hpl & Hid & _).
      cbv zeta in Hc, Hpl, Hid.
      rewrite IH by (by rewrite Hpl).
      by rewrite Hid, Hc, client_enqueue_app.
Qed.

Lemma length_leave_frames players start leader c :
  length (leave_frames players start leader c) = occupied players.
Proof.
  unfold occupied. revert start. induction players as [|p rest IH]; intros start; [done|].
  cbn [leave_frames]. rewrite length_app, IH, filter_cons.
  destruct (Z.eqb_spec (guild_card_number p) 0) as [E|E].
  - by rewrite decide_False by (intros ?; done).
  - by rewrite decide_True by done.
Qed.

Lemma leave_frames_commands players start leader c :
  Forall (fun f => sent_command f = 0x69) (leave_frames players start leader c).
Proof.
  revert start. induction players as [|p rest IH]; intros start; [constructor|].
  cbn [leave_frames]. apply Forall_app. split; [|apply IH].
  destruct (_ =? _); repeat constructor.
Qed.


Lemma version_to_port_name_total v : is_Some (version_to_port_name !! version_index v).
Proof. destruct v; cbn; eauto. Qed.

Lemma send_text_message_to_client_run dec command message st :
  send_text_message_to_client dec command message st =
    (Ret tt,
     {| hs_session :=
          client_enqueue
            [{| sent_command := command; sent_flag := 0x00;
                sent_data := text_message_payload dec (version (hs_session st)) message;
                sent_crypt := crypt_out (client_channel (hs_session st)) |}]
            (hs_session st);
        hs_data := hs_data st |}).
Proof.
  unfold send_text_message_to_client, text_message_payload.
  unfold bind at 1, get_session at 1. rewrite client_send_run.
  by destruct (version (hs_session st)).
Qed.

Lemma process_client_dc_pc_v3_A0_A1_linked enc dec s command flag ss lic d :
  license ss = Some lic ->
  exists o tail,
    process_client_dc_pc_v3_A0_A1 enc dec s command flag {| hs_session := ss; hs_data := d |} =
      (o, {| hs_session := client_enqueue (return_frames enc dec s ss lic ++ tail) ss;
             hs_data := d |}) /\
    match return_port s (version ss), return_address ss with
    | Some port_, Some address =>
        o = Ret (HandlerResult.of_type SUPPRESS) /\ tail = [return_redirect ss address port_]
    | _, _ => (exists e, o = Throw e) /\ tail = []
    end.
Proof.
  intros Hlic. unfold process_client_dc_pc_v3_A0_A1.
  unfold bind at 1, get_session at 1. cbn [hs_session]. rewrite Hlic.
  rewrite (bind_ret_eq _ _ _ _ _ (send_leave_loop (lobby_players ss) 0 ss d eq_refl)).
  set (c := crypt_out (client_channel ss)).
  set (f1 := leave_frames (lobby_players ss) 0 (lobby_client_id ss) c).
  rewrite (bind_ret_eq _ _ _ _ _ (send_text_message_to_client_run dec _ _ _)).
  cbn [hs_session hs_data].
  destruct (client_enqueue_fields f1 ss) as (Hv & _ & Hc & _). cbv zeta in Hv, Hc.
  rewrite Hv, Hc, client_enqueue_app. fold c.
  set (f2 := [{| sent_command := 17; sent_flag := 0; sent_data := _; sent_crypt := c |}]).
  rewrite (bind_ret_eq _ _ _ _ _ (client_send_run _ _ _ _)).
  cbn [hs_session hs_data].
  destruct (client_enqueue_fields (f1 ++ f2) ss) as (_ & _ & Hc2 & _). cbv zeta in Hc2.
  rewrite Hc2, client_enqueue_app. fold c.
  set (f3 := [{| sent_command := 4; sent_flag := 0; sent_data := _; sent_crypt := c |}]).
  assert (Hframes : return_frames enc dec s ss lic = (f1 ++ f2) ++ f3).
  { unfold return_frames. fold c f1. subst f2 f3. by rewrite <- app_assoc. }
  rewrite Hframes. clear Hframes.
  unfold return_port, return_address, return_redirect. fold c.
  destruct (version_to_port_name_total (version ss)) as [port_name Hname]. rewrite Hname.
  destruct (name_to_port_config s !! port_name) as [pc|] eqn:Hport;
    cbn [fmap option_fmap option_map].
  - set (sa := if is_virtual_connection (client_channel ss)
               then next_destination ss else local_addr (client_channel ss)).
    assert (Haddr :
      (if is_virtual_connection (client_channel ss)
       then if negb (sin_family (next_destination ss) =? AF_INET)
            then throw (logic_error "ss not AF_INET")
            else ret (sin_addr (next_destination ss))
       else if negb (sin_family (local_addr (client_channel ss)) =? AF_INET)
            then throw (logic_error "existing connection is not ipv4")
            else ret (sin_addr (local_addr (client_channel ss))))
        {| hs_session := client_enqueue ((f1 ++ f2) ++ f3) ss; hs_data := d |} =
      ((if sin_family sa =? AF_INET then Ret (sin_addr sa)
        else Throw (logic_error (if is_virtual_connection (client_channel ss)
                                 then "ss not AF_INET"
                                 else "existing connection is not ipv4"))),
       {| hs_session := client_enqueue ((f1 ++ f2) ++ f3) ss; hs_data := d |})).
    { subst sa. destruct (is_virtual_connection (client_channel ss));
        by destruct (_ =? AF_INET). }
    destruct (sin_family sa =? AF_INET).
    + rewrite (bind_ret_eq _ _ _ _ _ Haddr).
      rewrite (bind_ret_eq _ _ _ _ _ (client_send_run _ _ _ _)).
      cbn [hs_session hs_data].
      destruct (client_enqueue_fields ((f1 ++ f2) ++ f3) ss) as (_ & _ & Hc3 & _).
      cbv zeta in Hc3. rewrite Hc3, client_enqueue_app. fold c.
      eexists _, _. split; [reflexivity|]. done.
    + rewrite (bind_throw_eq _ _ _ _ _ Haddr).
      eexists _, []. rewrite app_nil_r. split; [reflexivity|]. split; [eauto|done].
  - eexists _, []. rewrite app_nil_r. split; [reflexivity|]. split; [eauto|done].
Qed.


(** ** Dispatch ([process_proxy_command]) *)

Section ProxyFacts.

Variable encode_sjis : list Z -> bytes.
Variable decode_sjis : bytes -> list Z.
Variable send_text_message : Channel -> list Z -> Channel.
Variable F1 F2 : Z.
Variable layout_of : JoinLobbyCmdT -> JoinLobbyLayout.
Variable other_handler : HandlerName -> process_command_t.

Let handler_of := handler_fn encode_sjis decode_sjis send_text_message F1 F2 layout_of other_handler.
Let proxy := process_proxy_command encode_sjis decode_sjis send_text_message F1 F2 layout_of
               other_handler.

Lemma torn_down_fields ss :
  connected (client_channel (torn_down ss)) = false /\
  connected (server_channel (torn_down ss)) = false /\
  outbox (client_channel (torn_down ss)) = outbox (client_channel ss) /\
  outbox (server_channel (torn_down ss)) = outbox (server_channel ss).
Proof. by destruct ss. Qed.

Lemma forward_command_run to_server command flag st :
  exists ss',
    forward_command to_server command flag st =
      (Ret tt, {| hs_session := ss'; hs_data := hs_data st |}) /\
    let frame := {| sent_command := command; sent_flag := flag; sent_data := hs_data st;
                    sent_crypt := crypt_out (if to_server then server_channel (hs_session st)
                                             else client_channel (hs_session st)) |} in
    outbox (server_channel ss') =
      outbox (server_channel (hs_session st)) ++
        (if to_server && connected (server_channel (hs_session st)) then [frame] else []) /\
    outbox (client_channel ss') =
      outbox (client_channel (hs_session st)) ++
        (if negb to_server && connected (client_channel (hs_session st)) then [frame] else []).
Proof.
  unfold forward_command. run_monad. destruct st as [ss d]. cbn.
  destruct to_server; cbn.
  - destruct (connected (server_channel ss)); cbn; eexists; (split; [reflexivity|]);
      destruct ss; cbn; by rewrite ?app_nil_r.
  - destruct (connected (client_channel ss)); cbn; eexists; (split; [reflexivity|]);
      destruct ss; cbn; by rewrite ?app_nil_r.
Qed.

Lemma process_proxy_command_throw s from_server command flag st e st' :
  handler_of (get_handler (version (hs_session st)) from_server command) s command flag st
    = (Throw e, st') ->
  proxy s from_server command flag st =
    (Ret tt, {| hs_session := torn_down (hs_session st'); hs_data := hs_data st' |}).
Proof.
  intros Hthrow. subst proxy handler_of. unfold process_proxy_command.
  unfold bind at 1, get_session at 1. unfold try_catch.
  rewrite (bind_throw_eq _ _ _ _ _ Hthrow). reflexivity.
Qed.

Lemma process_proxy_command_ret s from_server command flag st res st' :
  handler_of (get_handler (version (hs_session st)) from_server command) s command flag st
    = (Ret res, st') ->
  proxy s from_server command flag st =
    match HandlerResult.type res with
    | FORWARD => forward_command (negb from_server) command flag st'
    | MODIFIED =>
        (write_log INFO "The preceding command from the %s was modified in transit" ;;
         forward_command (negb from_server)
           (if 0 <=? HandlerResult.new_command res then HandlerResult.new_command res else command)
           (if 0 <=? HandlerResult.new_flag res then HandlerResult.new_flag res else flag)) st'
    | SUPPRESS =>
        write_log INFO "The preceding command from the %s was not forwarded" st'
    end.
Proof.
  intros Hret. subst proxy handler_of. unfold process_proxy_command.
  unfold bind at 1, get_session at 1. unfold try_catch.
  rewrite (bind_ret_eq _ _ _ _ _ Hret).
  destruct (HandlerResult.type res).
  - destruct (forward_command_run (negb from_server) command flag st') as (ss' & -> & _). done.
  - reflexivity.
  - set (c := if 0 <=? HandlerResult.new_command res then _ else _).
    set (f := if 0 <=? HandlerResult.new_flag res then _ else _).
    set (msg := "The preceding command from the %s was modified in transit"%string).
    assert (Hlog : write_log INFO msg st' = (Ret tt, (write_log INFO msg st').2))
      by reflexivity.
    rewrite (bind_ret_eq _ _ _ _ _ Hlog).
    destruct (forward_command_run (negb from_server) c f (write_log INFO msg st').2)
      as (ss' & -> & _).
    done.
Qed.

(** Where the tables send the commands the properties are about. *)
Lemma get_handler_entries :
  (forall v, has_return_handler v = true ->
     get_handler v true 0x06 = h_server_dc_pc_v3_06) /\
  (forall v, v <> PATCH ->
     get_handler v false 0x40 = h_client_40 /\
     get_handler v true 0x19 = h_server_game_19_patch_14) /\
  get_handler PATCH true 0x14 = h_server_game_19_patch_14 /\
  get_handler BB true 0x03 = h_server_bb_03 /\
  get_handler BB true 0x22 = h_server_bb_22 /\
  (forall command, In command [0x65; 0x67; 0x68] ->
     get_handler DC true command = h_server_65_67_68 S_JoinLobby_DC_GC_65_67_68 /\
     get_handler GC true command = h_server_65_67_68 S_JoinLobby_DC_GC_65_67_68 /\
     get_handler PC true command = h_server_65_67_68 S_JoinLobby_PC_65_67_68 /\
     get_handler XB true command = h_server_65_67_68 S_JoinLobby_XB_65_67_68 /\
     get_handler BB true command = h_server_65_67_68 S_JoinLobby_BB_65_67_68) /\
  (forall v from_server command,
     v = PATCH /\ ~ (from_server = true /\ In (command mod 256) [0x02; 0x14]) ->
     get_handler v from_server command = h_default).
Proof.
  split; [by intros []|]. split; [by intros []|].
  split; [done|]. split; [done|]. split; [done|]. split.
  - intros command Hin. cbn in Hin.
    destruct Hin as [<-|[<-|[<-|[]]]]; by repeat split.
  - intros v from_server command [-> Hn]. unfold get_handler. cbv zeta.
    destruct from_server; [|unfold patch_client_handlers; by destruct (command mod 256)].
    unfold patch_server_handlers.
    destruct (Z.eq_dec (command mod 256) 0x02) as [E|E2];
      [exfalso; apply Hn; split; [done|]; rewrite E; by left|].
    destruct (Z.eq_dec (command mod 256) 0x14) as [E|E14];
      [exfalso; apply Hn; split; [done|]; rewrite E; right; by left|].
    destruct (command mod 256) as [|q|q]; try done.
    repeat (destruct q as [q|q|]; try done).
Qed.

(** A command the handler lets through goes to the other side as the handler
    left it: under the command and flag received when the result is FORWARD
    or carries no replacement, and only if that side is connected. *)
Lemma process_proxy_command_forwards s from_server command flag st res st' :
  handler_of (get_handler (version (hs_session st)) from_server command) s command flag st
    = (Ret res, st') ->
  HandlerResult.type res <> SUPPRESS ->
  HandlerResult.new_command res = -1 -> HandlerResult.new_flag res = -1 ->
  let r := proxy s from_server command flag st in
  let frame (ch : Channel) :=
    {| sent_command := command; sent_flag := flag; sent_data := hs_data st';
       sent_crypt := crypt_out ch |} in
  r.1 = Ret tt /\ hs_data r.2 = hs_data st' /\
  outbox (client_channel (hs_session r.2)) =
    outbox (client_channel (hs_session st')) ++
      (if from_server && connected (client_channel (hs_session st'))
       then [frame (client_channel (hs_session st'))] else []) /\
  outbox (server_channel (hs_session r.2)) =
    outbox (server_channel (hs_session st')) ++
      (if negb from_server && connected (server_channel (hs_session st'))
       then [frame (server_channel (hs_session st'))] else []).
Proof.
  intros Hret Htype Hc Hf r frame. subst r frame.
  rewrite (process_proxy_command_ret _ _ _ _ _ _ _ Hret).
  destruct (HandlerResult.type res) eqn:Et; [|done|].
  - destruct (forward_command_run (negb from_server) command flag st')
      as (ss' & -> & Hs & Hcl). cbn [fst snd hs_session hs_data].
    rewrite Hs, Hcl, negb_involutive. by destruct from_server.
  - rewrite Hc, Hf. cbn [Z.leb Z.compare].
    set (msg := "The preceding command from the %s was modified in transit"%string).
    assert (Hlog : write_log INFO msg st' = (Ret tt, (write_log INFO msg st').2))
      by reflexivity.
    rewrite (bind_ret_eq _ _ _ _ _ Hlog).
    destruct (forward_command_run (negb from_server) command flag (write_log INFO msg st').2)
      as (ss' & -> & Hs & Hcl). cbn [fst snd hs_session hs_data].
    rewrite Hs, Hcl, negb_involutive.
    destruct st' as [[] ?]. by destruct from_server.
Qed.

(** C9.  If the handler selected for a command (from either side) throws,
    [process_proxy_command] catches the exception, logs it and disconnects the
    session: both channels end up disconnected, and neither channel's queue
    holds anything beyond what the handler itself had sent, so the command is
    not forwarded.  The outcome does not depend on the exception. *)
Theorem C9_handler_exception s from_server command flag st e st' :
  handler_of (get_handler (version (hs_session st)) from_server command) s command flag st
    = (Throw e, st') ->
  let r := proxy s from_server command flag st in
  r = (Ret tt, {| hs_session := torn_down (hs_session st'); hs_data := hs_data st' |}) /\
  connected (client_channel (hs_session r.2)) = false /\
  connected (server_channel (hs_session r.2)) = false /\
  outbox (client_channel (hs_session r.2)) = outbox (client_channel (hs_session st')) /\
  outbox (server_channel (hs_session r.2)) = outbox (server_channel (hs_session st')).
Proof.
  intros Hthrow r. subst r.
  rewrite (process_proxy_command_throw _ _ _ _ _ _ _ Hthrow). cbn [fst snd hs_session].
  split; [done|]. apply torn_down_fields.
Qed.

Lemma get_handler_return v command :
  has_return_handler v = true ->
  command mod 256 = 0xA0 \/ command mod 256 = 0xA1 ->
  get_handler v false command = h_client_dc_pc_v3_A0_A1.
Proof.
  intros Hv Hc. unfold get_handler. cbv zeta.
  destruct Hc as [-> | ->]; by destruct v.
Qed.

Lemma return_frames_commands s ss lic :
  sent_command <$> return_frames encode_sjis decode_sjis s ss lic =
    replicate (occupied (lobby_players ss)) 0x69 ++ [0x11; 0x04].
Proof.
  unfold return_frames. rewrite fmap_app. f_equal.
  rewrite <- (length_leave_frames (lobby_players ss) 0 (lobby_client_id ss)
                (crypt_out (client_channel ss))).
  generalize (leave_frames_commands (lobby_players ss) 0 (lobby_client_id ss)
                (crypt_out (client_channel ss))).
  generalize (leave_frames (lobby_players ss) 0 (lobby_client_id ss)
                (crypt_out (client_channel ss))).
  induction 1 as [|f l Hf _ IH]; [done|]. cbn. by rewrite Hf, IH.
Qed.

(** C5.  For an unlinked session the A0/A1 handler returns FORWARD and
    touches nothing, and dispatch forwards the command upstream as it is.
    For a linked session the handler sends the client one 69 for every
    mirrored member with a nonzero guild card number, then one 11 text
    message and one 04 carrying the saved newserv client config under the
    license's serial number, and, when the login port of the session's
    version is configured and the address to hand out is IPv4, one 19 naming
    that port, returning SUPPRESS; it sends nothing upstream, and dispatch
    never forwards the command upstream. *)
Theorem C5_return_to_home s command flag ss (d : list Z) :
  let st := {| hs_session := ss; hs_data := d |} in
  let r := process_client_dc_pc_v3_A0_A1 encode_sjis decode_sjis s command flag st in
  let p := proxy s false command flag st in
  (license ss = None ->
     r = (Ret (HandlerResult.of_type FORWARD), st) /\
     (has_return_handler (version ss) = true ->
      command mod 256 = 0xA0 \/ command mod 256 = 0xA1 ->
      connected (server_channel ss) = true ->
      hs_data p.2 = d /\
      outbox (client_channel (hs_session p.2)) = outbox (client_channel ss) /\
      outbox (server_channel (hs_session p.2)) =
        outbox (server_channel ss) ++
          [{| sent_command := command; sent_flag := flag; sent_data := d;
              sent_crypt := crypt_out (server_channel ss) |}])) /\
  (forall lic, license ss = Some lic ->
     let frames := return_frames encode_sjis decode_sjis s ss lic in
     hs_data r.2 = d /\
     server_channel (hs_session r.2) = server_channel ss /\
     sent_command <$> frames = replicate (occupied (lobby_players ss)) 0x69 ++ [0x11; 0x04] /\
     (exists tail,
        outbox (client_channel (hs_session r.2)) = outbox (client_channel ss) ++ frames ++ tail /\
        (tail = [] \/ exists address port_, tail = [return_redirect ss address port_]) /\
        (forall port_ address,
           return_port s (version ss) = Some port_ ->
           return_address ss = Some address ->
           r.1 = Ret (HandlerResult.of_type SUPPRESS) /\
           tail = [return_redirect ss address port_])) /\
     (has_return_handler (version ss) = true ->
      command mod 256 = 0xA0 \/ command mod 256 = 0xA1 ->
      outbox (server_channel (hs_session p.2)) = outbox (server_channel ss))).
Proof.
  intros st r p. split.
  - intros Hnone.
    assert (Hr : r = (Ret (HandlerResult.of_type FORWARD), st)).
    { subst r st. unfold process_client_dc_pc_v3_A0_A1.
      unfold bind at 1, get_session at 1. cbn [hs_session]. by rewrite Hnone. }
    split; [exact Hr|]. intros Hv Hc Hconn.
    assert (Hh : handler_of (get_handler (version (hs_session st)) false command) s command flag st
                 = (Ret (HandlerResult.of_type FORWARD), st)).
    { subst handler_of. cbn [hs_session st]. rewrite get_handler_return by done. exact Hr. }
    subst p. rewrite (process_proxy_command_ret _ _ _ _ _ _ _ Hh).
    cbn [HandlerResult.type HandlerResult.of_type negb].
    destruct (forward_command_run true command flag st) as (ss' & -> & Hs & Hc').
    cbn [fst snd hs_session hs_data st] in *. rewrite Hconn in Hs. cbn in Hs, Hc'.
    rewrite app_nil_r in Hc'. done.
  - intros lic Hlic frames.
    destruct (process_client_dc_pc_v3_A0_A1_linked encode_sjis decode_sjis s command flag ss
                lic d Hlic) as (o & tail & Hrun & Hcase).
    fold st r in Hrun. fold frames in Hrun.
    destruct (client_enqueue_fields (frames ++ tail) ss)
      as (_ & _ & _ & _ & _ & _ & _ & _ & _ & Hserver & Hout). cbv zeta in Hserver, Hout.
    split; [by rewrite Hrun|]. split; [by rewrite Hrun|].
    split; [apply return_frames_commands|]. split.
    + exists tail. split; [by rewrite Hrun|]. split.
      * destruct (return_port s (version ss)) as [port_|]; [|by left; apply Hcase].
        destruct (return_address ss) as [address|]; [|by left; apply Hcase].
        right. exists address, port_. apply Hcase.
      * intros port_ address Hp Ha. rewrite Hp, Ha in Hcase. rewrite Hrun. exact Hcase.
    + intros Hv Hc.
      assert (Hh : handler_of (get_handler (version (hs_session st)) false command) s
                     command flag st = r).
      { subst handler_of. cbn [hs_session st]. by rewrite get_handler_return. }
      rewrite Hrun in Hh. subst p.
      destruct o as [res|e].
      * assert (Hres : res = HandlerResult.of_type SUPPRESS).
        { destruct (return_port s (version ss)) as [port_|];
            [destruct (return_address ss) as [address|]|].
          - destruct Hcase as [E _]. by injection E.
          - destruct Hcase as [[e E] _]. discriminate.
          - destruct Hcase as [[e E] _]. discriminate. }
        subst res. rewrite (process_proxy_command_ret _ _ _ _ _ _ _ Hh).
        cbn [HandlerResult.type HandlerResult.of_type].
        cbn [fst snd]. rewrite <- Hserver. by destruct (client_enqueue (frames ++ tail) ss).
      * rewrite (process_proxy_command_throw _ _ _ _ _ _ _ Hh).
        cbn [fst snd hs_session].
        destruct (torn_down_fields (client_enqueue (frames ++ tail) ss)) as (_ & _ & _ & ->).
        by rewrite Hserver.
Qed.

End ProxyFacts.

Lemma C9_handler_exception_witness :
  let st := {| hs_session := sample_session; hs_data := [1; 2; 3; 4] |} in
  let r := sample_proxy sample_state true 0x06 0 st in
  sample_handler_fn (get_handler GC true 0x06) sample_state 0x06 0 st =
    (Throw (runtime_error "command too small"), st) /\
  r.1 = Ret tt /\
  connected (client_channel (hs_session r.2)) = false /\
  connected (server_channel (hs_session r.2)) = false /\
  outbox (client_channel (hs_session r.2)) = [] /\
  outbox (server_channel (hs_session r.2)) = [].
Proof.
  intros st r.
  assert (Hthrow :
    sample_handler_fn (get_handler (version (hs_session st)) true 0x06) sample_state 0x06 0 st =
      (Throw (runtime_error "command too small"), st)) by reflexivity.
  destruct (C9_handler_exception sample_encode_sjis sample_decode_sjis
              sample_send_text_message 0x10 0x20 sample_layout_of sample_other_handler
              sample_state true 0x06 0 st _ _ Hthrow) as (Hrun & Hc & Hs & Hoc & Hos).
  split; [exact Hthrow|]. split; [exact (f_equal fst Hrun)|].
  split; [exact Hc|]. split; [exact Hs|]. split; [exact Hoc|exact Hos].
Defined.

Lemma C5_return_to_home_witness :
  let st := {| hs_session := sample_session; hs_data := [] |} in
  let r := process_client_dc_pc_v3_A0_A1 sample_encode_sjis sample_decode_sjis
             sample_state 0xA0 0 st in
  let p := sample_proxy sample_state false 0xA0 0 st in
  occupied (lobby_players sample_session) = 3%nat /\
  r.1 = Ret (HandlerResult.of_type SUPPRESS) /\
  (exists frames last,
     outbox (client_channel (hs_session r.2)) = frames ++ [last] /\
     sent_command <$> frames = [0x69; 0x69; 0x69; 0x11; 0x04] /\
     sent_command last = 0x19 /\
     get_u16l 4 (sent_data last) = 9100) /\
  outbox (server_channel (hs_session p.2)) = [].
Proof.
  intros st r p.
  destruct (C5_return_to_home sample_encode_sjis sample_decode_sjis
              sample_send_text_message 0x10 0x20 sample_layout_of sample_other_handler
              sample_state 0xA0 0 sample_session []) as [_ Hlinked].
  destruct (Hlinked sample_license eq_refl) as (_ & _ & Hcmds & (tail & Hout & _ & Hlast) & Hup).
  destruct (Hlast 9100 0x0100007F eq_refl eq_refl) as [Hret ->].
  assert (Hocc : occupied (lobby_players sample_session) = 3%nat) by reflexivity.
  split; [exact Hocc|]. split; [exact Hret|]. split.
  - eexists _, _. split; [exact Hout|]. split; [|split; reflexivity].
    rewrite Hcmds, Hocc. reflexivity.
  - apply Hup; [reflexivity | left; reflexivity].
Defined.

(** ** The stream file ([send_stream_file_bb]) *)

(** C8.  For an index of two files of four bytes each, [send_stream_file_bb]
    sends the 01EB with flag 2 and then two short 02EB chunks, one after each
    file, both with chunk index 0: the first carries the first file's bytes,
    the second carries them again followed by the second file's; and each
    carries, after the chunk index, eight bytes more than the buffered bytes
    rounded up to a multiple of four (payloads of 16 and 20 bytes, where a
    single trailing chunk of the eight buffered bytes was due). *)
Theorem C8_stream_file_short_chunks :
  let r := SendCommands.send_stream_file_bb sample_file_cache sample_uninitialized
             sample_beyond sample_bb_client in
  r.1 = Ret tt /\
  exists f1 f2 f3,
    SendCommands.bev r.2 = Some [f1; f2; f3] /\
    bb_command f1 = 0x01EB /\ bb_flag f1 = 2 /\ bb_payload f1 = sample_stream_index /\
    bb_command f2 = 0x02EB /\
    bb_payload f2 = le_encode 4 0 ++ sample_file_a ++ replicate 8 0xCC /\
    bb_command f3 = 0x02EB /\
    bb_payload f3 = le_encode 4 0 ++ sample_file_a ++ sample_file_b ++ replicate 8 0xCC.
Proof.
  cbv zeta. split; [by vm_compute|].
  eexists _, _, _. split; [by vm_compute|].
  repeat split; by vm_compute.
Qed.

(** ** The identity scenario, end to end

    A linked session with serial 2000 to which upstream has assigned 55555.
    Upstream's 06 naming 55555 reaches the client naming 2000, and the
    client's 40 with searcher and target 2000 reaches upstream with both
    rewritten to 55555. *)

Example identity_hide_inbound :
  let r := sample_proxy sample_state true 0x06 0
             {| hs_session := sample_session; hs_data := sample_06 |} in
  outbox (client_channel (hs_session r.2)) =
    [{| sent_command := 0x06; sent_flag := 0;
        sent_data := le_encode 4 0 ++ le_encode 4 2000 ++ ascii_bytes "hello" ++ [0; 0; 0];
        sent_crypt := Some (PSOV3Encryption 2) |}] /\
  outbox (server_channel (hs_session r.2)) = [].
Proof. by vm_compute. Qed.

Example identity_hide_outbound :
  let r := sample_proxy sample_state false 0x40 0
             {| hs_session := sample_session; hs_data := sample_40 |} in
  outbox (server_channel (hs_session r.2)) =
    [{| sent_command := 0x40; sent_flag := 0;
        sent_data := le_encode 4 0x00010000 ++ le_encode 4 55555 ++ le_encode 4 55555;
        sent_crypt := Some (PSOV3Encryption 2) |}] /\
  outbox (client_channel (hs_session r.2)) = [].
Proof. by vm_compute. Qed.

(** * Further properties *)

(** ** Loops and byte positions *)

(** An invariant that may mention the index reached and the accumulator. *)
Lemma for_loop_ind {St A} (P : nat -> A -> St -> Prop) (body : nat -> A -> M St A) n :
  forall start acc st,
  P start acc st ->
  (forall x a s, (start <= x < start + n)%nat -> P x a s ->
     exists a' s', body x a s = (Ret a', s') /\ P (S x) a' s') ->
  exists a' s', for_loop n start body acc st = (Ret a', s') /\ P (start + n)%nat a' s'.
Proof.
  induction n as [|n IH]; intros start acc st HP Hbody.
  - exists acc, st. rewrite Nat.add_0_r. done.
  - destruct (Hbody start acc st ltac:(lia) HP) as (a1 & s1 & E1 & HP1).
    destruct (IH (S start) a1 s1 HP1) as (a' & s' & E & HP').
    { intros x a s Hx. apply Hbody. lia. }
    exists a', s'. cbn [for_loop]. rewrite (bind_ret_eq _ _ _ _ _ E1), E.
    split; [done|]. by replace (start + S n)%nat with (S start + n)%nat by lia.
Qed.

(** A store changes no byte outside the field it writes. *)
Lemma lookup_store_other n off v (d : list Z) p :
  (off + n <= length d)%nat -> ~ (off <= p < off + n)%nat ->
  (store n off v d : list Z) !! p = d !! p.
Proof.
  intros Hlen Hp. unfold store.
  destruct (Nat.lt_ge_cases p off) as [Hlt|Hge].
  - rewrite lookup_app_l by (rewrite length_take; lia).
    by rewrite lookup_take_lt by lia.
  - rewrite lookup_app_r by (rewrite length_take; lia).
    rewrite lookup_app_r by (rewrite length_take, length_le_encode; lia).
    rewrite length_take, length_le_encode, lookup_drop. f_equal. lia.
Qed.

(** Inside the field a store writes, the bytes are those of the value. *)
Lemma lookup_store_inside n off v (d : list Z) p :
  (off + n <= length d)%nat -> (off <= p < off + n)%nat ->
  (store n off v d : list Z) !! p = le_encode n v !! (p - off)%nat.
Proof.
  intros Hlen Hp. unfold store.
  rewrite lookup_app_r by (rewrite length_take; lia).
  rewrite length_take, lookup_app_l by (rewrite length_le_encode; lia).
  f_equal. lia.
Qed.

(** A field depends on the bytes it covers only. *)
Lemma load_ext n off (d1 d2 : list Z) :
  (forall p, (off <= p < off + n)%nat -> d1 !! p = d2 !! p) ->
  load n off d1 = load n off d2.
Proof.
  intros H. unfold load. f_equal. apply list_eq. intros i.
  destruct (Nat.lt_ge_cases i n) as [Hi|Hi].
  - rewrite !lookup_take_lt, !lookup_drop by done. apply H. lia.
  - by rewrite !lookup_take_ge.
Qed.

(** ** Further handlers behind [process_proxy_command] *)

Section MoreProxyFacts.

Variable encode_sjis : list Z -> bytes.
Variable decode_sjis : bytes -> list Z.
Variable send_text_message : Channel -> list Z -> Channel.
Variable Flag_SAVE_ENABLED : Z.
Variable Flag_NO_MESSAGE_BOX_CLOSE_CONFIRMATION : Z.
Variable Flag_NO_MESSAGE_BOX_CLOSE_CONFIRMATION_AFTER_LOBBY_JOIN : Z.
Variable Flag_DCV1 : Z.
Variable C_LoginV1_DC_93 : Z -> Z -> License -> bytes.
Variable C_Login_DC_PC_GC_9D : Z -> Z -> License -> bytes.
Variable C_VerifyLicense_V3_DB : License -> bytes.
Variable C_LoginExtended_GC_9E : Z -> Z -> Z -> License -> bytes.
Variable sizeof_C_Login_GC_9E : nat.
Variable S_ServerInit_DC_PC_V3_02_17_91_9B : ServerInitLayout.
Variable S_GuildCardSearchResult_DC_V3_41 : GuildCardSearchResultLayout.
Variable S_GuildCardSearchResult_PC_41 : GuildCardSearchResultLayout.
Variable S_GuildCardSearchResult_BB_41 : GuildCardSearchResultLayout.
Variable SC_SimpleMail_DC_V3_81 : SimpleMailLayout.
Variable S_ArrowUpdateEntry_88 : GuildCardEntryLayout.
Variable S_ChoiceSearchResultEntry_V3_C4 : GuildCardEntryLayout.
Variable layout_of : JoinLobbyCmdT -> JoinLobbyLayout.
Variable rest : HandlerName -> process_command_t.

Let handlers :=
  more_handlers send_text_message Flag_SAVE_ENABLED Flag_NO_MESSAGE_BOX_CLOSE_CONFIRMATION
    Flag_DCV1 C_LoginV1_DC_93 C_Login_DC_PC_GC_9D C_VerifyLicense_V3_DB C_LoginExtended_GC_9E
    sizeof_C_Login_GC_9E S_ServerInit_DC_PC_V3_02_17_91_9B S_GuildCardSearchResult_DC_V3_41
    S_GuildCardSearchResult_PC_41 S_GuildCardSearchResult_BB_41 SC_SimpleMail_DC_V3_81
    S_ArrowUpdateEntry_88 S_ChoiceSearchResultEntry_V3_C4 rest.

Let proxy :=
  process_proxy_command encode_sjis decode_sjis send_text_message
    Flag_NO_MESSAGE_BOX_CLOSE_CONFIRMATION Flag_NO_MESSAGE_BOX_CLOSE_CONFIRMATION_AFTER_LOBBY_JOIN
    layout_of handlers.

(** What [forward_command] leaves of the session. *)
Lemma forward_command_session to_server command flag ss d :
  forward_command to_server command flag {| hs_session := ss; hs_data := d |} =
    (Ret tt,
     {| hs_session :=
          (if to_server then
             if connected (server_channel ss)
             then set_server_channel (Channel_send command flag d (server_channel ss)) ss
             else set_session_log
                    (session_log ss ++ [(WARNING, "No endpoint is present; dropping command"%string)])
                    ss
           else
             if connected (client_channel ss)
             then set_client_channel (Channel_send command flag d (client_channel ss)) ss
             else set_session_log
                    (session_log ss ++ [(WARNING, "No endpoint is present; dropping command"%string)])
                    ss);
        hs_data := d |}).
Proof.
  unfold forward_command. run_monad.
  destruct to_server; [by destruct (connected (server_channel ss))|
                       by destruct (connected (client_channel ss))].
Qed.

(** The versions whose server tables hold the handler of 97. *)
Lemma get_handler_97 v command :
  v <> BB -> v <> PATCH -> command mod 256 = 0x97 ->
  get_handler v true command = h_server_97.
Proof. intros Hbb Hp Hc. unfold get_handler. cbv zeta. rewrite Hc. by destruct v. Qed.

(** X1.  A 97 from the server of a DC, PC, GC or XB session always records
    SAVE_ENABLED in the saved client config.  When its flag is zero it
    reaches the client as command 97 with flag 1 (the command that would have
    triggered the client's cheat protection never arrives); otherwise it is
    forwarded as received.  The payload is untouched and nothing goes back to
    the server. *)
Theorem process_server_97_forwarded s command flag ss (d : list Z) :
  version ss <> BB -> version ss <> PATCH -> command mod 256 = 0x97 ->
  let r := proxy s true command flag {| hs_session := ss; hs_data := d |} in
  let cfg := newserv_client_config ss in
  r.1 = Ret tt /\ hs_data r.2 = d /\
  newserv_client_config (hs_session r.2) =
    set_flags (Z.lor (flags cfg) Flag_SAVE_ENABLED) cfg /\
  outbox (server_channel (hs_session r.2)) = outbox (server_channel ss) /\
  outbox (client_channel (hs_session r.2)) =
    outbox (client_channel ss) ++
      (if connected (client_channel ss)
       then [{| sent_command := if flag =? 0 then 0x97 else command;
                sent_flag := if flag =? 0 then 0x01 else flag;
                sent_data := d;
                sent_crypt := crypt_out (client_channel ss) |}]
       else []).
Proof.
  intros Hbb Hp Hc r cfg.
  set (st := {| hs_session := ss; hs_data := d |}) in *.
  set (st1 := {| hs_session :=
                   set_newserv_client_config
                     (set_flags (Z.lor (flags cfg) Flag_SAVE_ENABLED) cfg) ss;
                 hs_data := d |}).
  set (res := if flag =? 0 then HandlerResult.with_values MODIFIED 0x97 0x01
              else HandlerResult.of_type FORWARD).
  assert (Hh : handler_fn encode_sjis decode_sjis send_text_message
                 Flag_NO_MESSAGE_BOX_CLOSE_CONFIRMATION
                 Flag_NO_MESSAGE_BOX_CLOSE_CONFIRMATION_AFTER_LOBBY_JOIN layout_of handlers
                 (get_handler (version (hs_session st)) true command) s command flag st
               = (Ret res, st1)).
  { cbn [hs_session st]. rewrite get_handler_97 by done.
    subst res st1 st cfg. cbn. unfold process_server_97. run_monad. by destruct (flag =? 0). }
  subst r proxy.
  rewrite (process_proxy_command_ret _ _ _ _ _ _ _ _ _ _ _ _ _ _ Hh).
  subst res st1 st cfg. destruct (flag =? 0).
  - cbn [HandlerResult.type HandlerResult.with_values HandlerResult.new_command
      HandlerResult.new_flag].
    change (0 <=? 151 mod 2 ^ 16) with true. change (0 <=? 1 mod 2 ^ 32) with true.
    change (151 mod 2 ^ 16) with 151. change (1 mod 2 ^ 32) with 1. cbv iota.
    unfold bind, write_log, modify_session, modify. cbn [hs_session hs_data negb].
    rewrite forward_command_session.
    destruct ss as [? ? ? [] [] ? ? ? ? ? ? ? ? ? ? ? [] ? ? ? ?]. cbn.
    by destruct connected0; cbn; rewrite ?app_nil_r.
  - cbn [HandlerResult.type HandlerResult.of_type negb].
    rewrite forward_command_session.
    destruct ss as [? ? ? [] [] ? ? ? ? ? ? ? ? ? ? ? [] ? ? ? ?]. cbn.
    by destruct connected0; cbn; rewrite ?app_nil_r.
Qed.

(** ** Departures (commands 66 and 69) *)

(** [update_leader_id] records the leader it is given and touches neither the
    mirror nor the server channel; the client channel changes only through
    [send_text_message]. *)
Lemma update_leader_id_fields leader_id ss d :
  exists ss',
    update_leader_id send_text_message leader_id {| hs_session := ss; hs_data := d |} =
      (Ret tt, {| hs_session := ss'; hs_data := d |}) /\
    leader_client_id ss' = leader_id /\
    lobby_players ss' = lobby_players ss /\
    lobby_client_id ss' = lobby_client_id ss /\
    license ss' = license ss /\
    version ss' = version ss /\
    newserv_client_config ss' = newserv_client_config ss /\
    server_channel ss' = server_channel ss /\
    (client_channel ss' = client_channel ss \/
     client_channel ss' =
       send_text_message (client_channel ss) (ascii_bytes "$C6You are now the leader")).
Proof.
  unfold update_leader_id. run_monad.
  destruct (Z.eqb_spec (leader_client_id ss) leader_id) as [E|E]; cbn.
  - exists ss. repeat split; auto.
  - destruct (leader_id =? lobby_client_id ss); cbn;
      eexists; (split; [reflexivity|]); destruct ss; cbn; repeat split; auto.
Qed.

(** Clearing a slot of the mirror never adds an occupied one. *)
Lemma occupied_insert_empty players i :
  (occupied (<[i := empty_LobbyPlayer]> players) <= occupied players)%nat.
Proof.
  unfold occupied. revert i. induction players as [|p tl IH]; intros i; [done|].
  destruct i as [|i].
  - change (<[0%nat := empty_LobbyPlayer]> (p :: tl)) with (empty_LobbyPlayer :: tl).
    rewrite !filter_cons. cbn [guild_card_number empty_LobbyPlayer].
    rewrite decide_False by (intros H; by apply H).
    destruct (decide (guild_card_number p <> 0)); cbn [length]; lia.
  - change (<[S i := empty_LobbyPlayer]> (p :: tl))
      with (p :: <[i := empty_LobbyPlayer]> tl).
    rewrite !filter_cons. specialize (IH i).
    destruct (decide (guild_card_number p <> 0)); cbn [length]; lia.
Qed.

(** What a well-sized 66 or 69 leaves of the session. *)
Lemma process_server_66_69_run s command flag ss (d : list Z) :
  length d = 4%nat ->
  let index := Z.to_nat (get_u8 S_LeaveLobby_client_id d) in
  exists ss',
    process_server_66_69 send_text_message s command flag
      {| hs_session := ss; hs_data := d |} =
      (Ret (HandlerResult.of_type FORWARD), {| hs_session := ss'; hs_data := d |}) /\
    lobby_players ss' =
      (if (length (lobby_players ss) <=? index)%nat then lobby_players ss
       else <[index := empty_LobbyPlayer]> (lobby_players ss)) /\
    leader_client_id ss' = get_u8 S_LeaveLobby_leader_id d /\
    lobby_client_id ss' = lobby_client_id ss /\
    license ss' = license ss /\
    version ss' = version ss /\
    newserv_client_config ss' = newserv_client_config ss /\
    server_channel ss' = server_channel ss.
Proof.
  intros Hlen index.
  set (before := lobby_players ss).
  set (ss1 := if (length before <=? index)%nat
              then set_session_log
                     (session_log ss ++
                        [(WARNING, "Lobby leave command references missing position"%string)]) ss
              else set_session_log
                     (session_log ss ++ [(INFO, "Removed lobby player (%zu)"%string)])
                     (set_lobby_players (<[index := empty_LobbyPlayer]> before) ss)).
  destruct (update_leader_id_fields (get_u8 S_LeaveLobby_leader_id d) ss1 d)
    as (ss' & Hupd & Hlead & Hpl & Hid & Hlic & Hv & Hcfg & Hsrv & _).
  exists ss'. split.
  { unfold process_server_66_69.
    rewrite (bind_ret_eq _ _ _ _ _
               (check_size_t_ok 4 4 {| hs_session := ss; hs_data := d |}
                  ltac:(cbn; lia))).
    unfold bind at 1, get_session at 1. unfold bind at 1, get_data at 1.
    cbn [hs_session hs_data]. fold index before.
    assert (Hstep :
      (if (length before <=? index)%nat
       then write_log WARNING "Lobby leave command references missing position"
       else modify_session (fun ss0 => set_lobby_players
              (<[index := {| guild_card_number := 0; name := [] |}]> (lobby_players ss0)) ss0) ;;
            write_log INFO "Removed lobby player (%zu)")
        {| hs_session := ss; hs_data := d |} =
      (Ret tt, {| hs_session := ss1; hs_data := d |})).
    { subst ss1. destruct (length before <=? index)%nat; [done|]. run_monad.
      subst before. by destruct ss. }
    rewrite (bind_ret_eq _ _ _ _ _ Hstep).
    rewrite (bind_ret_eq _ _ _ _ _ Hupd). done. }
  rewrite Hpl, Hid, Hlic, Hv, Hcfg, Hsrv. subst ss1.
  split; [|split; [done|]];
    destruct (length before <=? index)%nat; subst before; by destruct ss.
Qed.

(** X2.  A 66 or 69 whose payload is not the four bytes of the leave record
    is rejected with nothing changed.  Otherwise it is forwarded untouched,
    and in the mirror exactly the slot it names is cleared: the mirror keeps
    its size, every other slot keeps its member, a slot beyond the mirror
    changes nothing, and the number of occupied slots never grows.  The
    leader recorded afterwards is the one the command names, and nothing is
    sent upstream. *)
Theorem process_server_66_69_mirror s command flag ss (d : list Z) :
  let r := process_server_66_69 send_text_message s command flag
             {| hs_session := ss; hs_data := d |} in
  let index := Z.to_nat (get_u8 S_LeaveLobby_client_id d) in
  let before := lobby_players ss in
  let after := lobby_players (hs_session r.2) in
  (length d <> 4%nat ->
     exists e, r = (Throw e, {| hs_session := ss; hs_data := d |})) /\
  (length d = 4%nat ->
     r.1 = Ret (HandlerResult.of_type FORWARD) /\
     hs_data r.2 = d /\
     length after = length before /\
     (forall j, j <> index -> after !! j = before !! j) /\
     ((index < length before)%nat -> after !! index = Some empty_LobbyPlayer) /\
     ((length before <= index)%nat -> after = before) /\
     (occupied after <= occupied before)%nat /\
     leader_client_id (hs_session r.2) = get_u8 S_LeaveLobby_leader_id d /\
     server_channel (hs_session r.2) = server_channel ss).
Proof.
  intros r index before after. split.
  - intros Hlen. subst r. unfold process_server_66_69.
    destruct (Nat.lt_ge_cases (length d) 4) as [Hs|Hl].
    + rewrite (bind_throw_eq _ _ _ _ _
                 (check_size_t_small 4 4 {| hs_session := ss; hs_data := d |}
                    ltac:(cbn; lia))). eauto.
    + rewrite (bind_throw_eq _ _ _ _ _
                 (check_size_t_large 4 4 {| hs_session := ss; hs_data := d |}
                    ltac:(cbn; lia) ltac:(cbn; lia))). eauto.
  - intros Hlen.
    destruct (process_server_66_69_run s command flag ss d Hlen)
      as (ss' & Hr & Hpl & Hlead & _ & _ & _ & _ & Hsrv).
    cbv zeta in Hpl. fold index before in Hpl.
    subst after r. rewrite Hr. cbn [fst snd hs_data hs_session].
    split; [done|]. split; [done|]. rewrite Hpl.
    destruct (Nat.leb_spec (length before) index) as [Hout|Hin].
    + split; [done|]. split; [done|]. split; [intros ?; lia|]. split; [done|].
      split; [done|]. split; done.
    + split; [by rewrite length_insert|].
      split; [intros j Hj; by rewrite list_lookup_insert_ne|].
      split; [intros _; rewrite list_lookup_insert; by rewrite decide_True by (split; [done|lia])|].
      split; [intros ?; lia|].
      split; [apply occupied_insert_empty|].
      split; done.
Qed.

(** Every 69 of [leave_frames] carries the slot it stands for in its flag. *)
Lemma leave_frames_flags players :
  forall start leader c,
  (start + length players <= 256)%nat ->
  Forall (fun f => Z.of_nat start <= sent_flag f < Z.of_nat (start + length players))
    (leave_frames players start leader c).
Proof.
  induction players as [|p tl IH]; intros start leader c Hlen; [constructor|].
  cbn [leave_frames length] in *. apply Forall_app. split.
  - destruct (guild_card_number p =? 0); constructor; [|constructor].
    cbn [sent_flag]. rewrite Z.mod_small by lia. lia.
  - eapply Forall_impl; [apply IH; lia|]. cbn beta. intros f Hf. lia.
Qed.

Lemma filter_Forall_id {A} (P : A -> Prop) `{forall x, Decision (P x)} (l : list A) :
  Forall P l -> filter P l = l.
Proof.
  induction 1 as [|x l Hx _ IH]; [done|].
  rewrite filter_cons, decide_True by done. by rewrite IH.
Qed.

(** Clearing a slot of the mirror removes its 69 from the departures and
    keeps the others as they were. *)
Lemma leave_frames_insert_empty players :
  forall i start leader c,
  (i < length players)%nat -> (start + length players <= 256)%nat ->
  leave_frames (<[i := empty_LobbyPlayer]> players) start leader c =
    filter (fun f => sent_flag f <> Z.of_nat (start + i))
      (leave_frames players start leader c).
Proof.
  induction players as [|p tl IH]; intros i start leader c Hi Hlen; [cbn in Hi; lia|].
  cbn [length] in Hi, Hlen. destruct i as [|i].
  - change (<[0%nat := empty_LobbyPlayer]> (p :: tl)) with (empty_LobbyPlayer :: tl).
    cbn [leave_frames guild_card_number empty_LobbyPlayer]. rewrite Z.eqb_refl.
    cbn [app]. rewrite filter_app, Nat.add_0_r.
    rewrite (filter_Forall_id _ (leave_frames tl (S start) leader c)).
    2:{ eapply Forall_impl; [apply (leave_frames_flags tl (S start) leader c); lia|].
        cbn beta. intros f Hf. lia. }
    destruct (guild_card_number p =? 0); [done|].
    rewrite filter_cons, decide_False; [done|].
    cbn [sent_flag]. rewrite Z.mod_small by lia. intros H. by apply H.
  - change (<[S i := empty_LobbyPlayer]> (p :: tl))
      with (p :: <[i := empty_LobbyPlayer]> tl).
    cbn [leave_frames]. rewrite filter_app, (IH i (S start)) by lia.
    replace (S start + i)%nat with (start + S i)%nat by lia. f_equal.
    destruct (guild_card_number p =? 0); [done|].
    rewrite filter_cons, decide_True; [done|].
    cbn [sent_flag]. rewrite Z.mod_small by lia. lia.
Qed.

(** X3.  Departures compose with the return to the home server: once a 66
    or 69 has cleared a slot of the mirror, the A0/A1 handler of a linked
    session announces to the client the departure of every member it would
    have announced before, in the same order, except the one for that slot;
    whatever else it sends is no 69. *)
Theorem leave_then_return_home s command1 flag1 command2 flag2 ss lic (d d2 : list Z) :
  license ss = Some lic ->
  length d = 4%nat ->
  let index := Z.to_nat (get_u8 S_LeaveLobby_client_id d) in
  (index < length (lobby_players ss))%nat ->
  (length (lobby_players ss) <= 256)%nat ->
  let st1 := (process_server_66_69 send_text_message s command1 flag1
                {| hs_session := ss; hs_data := d |}).2 in
  let r := process_client_dc_pc_v3_A0_A1 encode_sjis decode_sjis s command2 flag2
             {| hs_session := hs_session st1; hs_data := d2 |} in
  let c := crypt_out (client_channel (hs_session st1)) in
  exists tail,
    outbox (client_channel (hs_session r.2)) =
      outbox (client_channel (hs_session st1)) ++
      filter (fun f => sent_flag f <> Z.of_nat index)
        (leave_frames (lobby_players ss) 0 (lobby_client_id ss) c) ++ tail /\
    Forall (fun f => sent_command f <> 0x69) tail.
Proof.
  intros Hlic Hlen index Hin H256 st1 r c.
  destruct (process_server_66_69_run s command1 flag1 ss d Hlen)
    as (ss' & Hr & Hpl & _ & Hid & Hlic' & _). cbv zeta in Hpl. fold index in Hpl.
  destruct (Nat.leb_spec (length (lobby_players ss)) index) as [?|_]; [lia|].
  subst r c st1. rewrite Hr. cbn [snd hs_session].
  set (c := crypt_out (client_channel ss')).
  rewrite Hlic in Hlic'.
  destruct (process_client_dc_pc_v3_A0_A1_linked encode_sjis decode_sjis s command2 flag2
              ss' lic d2 Hlic') as (o & tail & Hrun & Hcase).
  rewrite Hrun. cbn [snd hs_session].
  destruct (client_enqueue_fields (return_frames encode_sjis decode_sjis s ss' lic ++ tail) ss')
    as (_ & _ & _ & _ & _ & _ & _ & _ & _ & _ & Hout). cbv zeta in Hout. rewrite Hout.
  unfold return_frames. fold c. rewrite Hpl, Hid.
  rewrite (leave_frames_insert_empty (lobby_players ss) index 0) by (done || lia).
  cbn [Nat.add]. rewrite <- !app_assoc.
  eexists. split; [reflexivity|].
  apply Forall_app. split; [repeat constructor; cbn; lia|].
  destruct (return_port s (version ss')) as [port_|]; [|destruct Hcase as [_ ->]; constructor].
  destruct (return_address ss') as [address|]; [|destruct Hcase as [_ ->]; constructor].
  destruct Hcase as [_ ->]. repeat constructor; cbn; lia.
Qed.

(** ** Message boxes after a lobby join (commands 1A, D5 and 67) *)

Lemma join_cleared_upstream F1 F2 command ss :
  version (join_cleared F1 F2 command ss) = version ss /\
  server_channel (join_cleared F1 F2 command ss) = server_channel ss.
Proof.
  unfold join_cleared. destruct (command =? 0x67); [|done].
  destruct (negb _); by destruct ss.
Qed.

(** The join handler never touches the version, the server channel or,
    after the clearing step of a 67, the saved client config. *)
Lemma process_server_65_67_68_upstream L s command flag ss (d : list Z) :
  let F1 := Flag_NO_MESSAGE_BOX_CLOSE_CONFIRMATION in
  let F2 := Flag_NO_MESSAGE_BOX_CLOSE_CONFIRMATION_AFTER_LOBBY_JOIN in
  let r := process_server_65_67_68 send_text_message F1 F2 L s command flag
             {| hs_session := ss; hs_data := d |} in
  version (hs_session r.2) = version ss /\
  server_channel (hs_session r.2) = server_channel ss /\
  newserv_client_config (hs_session r.2) =
    newserv_client_config (join_cleared F1 F2 command ss).
Proof.
  intros F1 F2 r.
  set (expected := Z.of_nat (offsetof_entries L) + Z.of_nat (sizeof_Entry L) * flag).
  destruct (join_cleared_upstream F1 F2 command ss) as [Hv0 Hs0].
  set (ss0 := join_cleared F1 F2 command ss) in *.
  set (P := fun st : HState =>
              version (hs_session st) = version ss /\
              server_channel (hs_session st) = server_channel ss /\
              newserv_client_config (hs_session st) = newserv_client_config ss0).
  change (P r.2).
  generalize (eq_refl r). generalize r at 1 3. intros res E.
  subst r. unfold process_server_65_67_68 in E. fold expected in E.
  assert (Hclear :
    when (command =? 0x67)
      (modify_session (set_lobby_players (replicate 12 empty_LobbyPlayer)) ;;
       write_log INFO "Cleared lobby players" ;;
       modify_session (fun ss =>
         let cfg := newserv_client_config ss in
         if negb (Z.land (flags cfg) F2 =? 0)
         then set_newserv_client_config (set_flags (Z.lor (flags cfg) F1) cfg) ss
         else ss))
      {| hs_session := ss; hs_data := d |} =
    (Ret tt, {| hs_session := ss0; hs_data := d |})).
  { subst ss0. unfold join_cleared. destruct (command =? 0x67); [|done]. run_monad. done. }
  rewrite (bind_ret_eq _ _ _ _ _ Hclear) in E. clear Hclear.
  destruct (Z.lt_trichotomy (Z.of_nat (length d)) expected) as [Hs|[He|Hl]].
  - rewrite (bind_throw_eq _ _ _ _ _
               (check_size_t_small expected expected
                  {| hs_session := ss0; hs_data := d |} Hs)) in E.
    subst res. by unfold P.
  - rewrite (bind_ret_eq _ _ _ _ _
               (check_size_t_ok expected expected {| hs_session := ss0; hs_data := d |}
                  ltac:(cbn; lia))) in E.
    unfold bind at 1, get_data at 1 in E. cbn [hs_data] in E.
    unfold bind at 1, modify_session at 1, modify at 1 in E. cbn [hs_session hs_data] in E.
    destruct (update_leader_id_fields (get_u8 (offsetof_leader_id L) d)
                (set_lobby_client_id (get_u8 (offsetof_client_id L) d) ss0) d)
      as (ss1 & Hupd & _ & _ & _ & _ & Hv1 & Hc1 & Hs1 & _).
    rewrite (bind_ret_eq _ _ _ _ _ Hupd) in E.
    assert (HP1 : P {| hs_session := ss1; hs_data := d |}).
    { unfold P. cbn [hs_session]. rewrite Hv1, Hc1, Hs1, <- Hv0, <- Hs0.
      by destruct ss0. }
    destruct (for_loop_invariant P (join_entry L) (Z.to_nat flag) 0%nat false
                {| hs_session := ss1; hs_data := d |}) as [[m Hm] HP2]; [|exact HP1|].
    { intros x a st' _ (Hv & Hs' & Hc).
      destruct (Nat.le_gt_cases (length (lobby_players (hs_session st')))
                  (entry_index L (hs_data st') x)) as [Hout|Hin].
      - rewrite join_entry_out_of_range by done. cbn [fst snd]. split; [eauto|].
        unfold P. cbn [hs_session]. rewrite <- Hv, <- Hs', <- Hc.
        by destruct st' as [[] ?].
      - destruct (join_entry_in_range L x a st' Hin) as (m' & p & d' & Hrun & _).
        rewrite Hrun. cbn [fst snd]. split; [eauto|].
        unfold P. cbn [hs_session]. rewrite <- Hv, <- Hs', <- Hc.
        by destruct st' as [[] ?]. }
    destruct (for_loop (Z.to_nat flag) 0 (join_entry L) false
                {| hs_session := ss1; hs_data := d |}) as [o st2] eqn:Eloop.
    cbn [fst snd] in Hm, HP2. subst o.
    rewrite (bind_ret_eq _ _ _ _ _ Eloop) in E.
    destruct (join_tail_run L m st2) as [_ Hsess]. cbv zeta in Hsess.
    subst res. unfold P. rewrite Hsess. exact HP2.
  - rewrite (bind_throw_eq _ _ _ _ _
               (check_size_t_large expected expected
                  {| hs_session := ss0; hs_data := d |} ltac:(cbn; lia) Hl)) in E.
    subst res. by unfold P.
Qed.

Lemma land_lor_same a b : Z.land (Z.lor a b) b = b.
Proof.
  apply Z.bits_inj'. intros n Hn. rewrite Z.land_spec, Z.lor_spec.
  by destruct (Z.testbit a n), (Z.testbit b n).
Qed.

(** X4.  Joins compose with message boxes.  In a GC or XB session whose
    saved client config says that the client stops confirming message boxes
    after a lobby join, the handler of a 67 records that confirmations have
    stopped, so that for a 1A or D5 that follows the proxy itself sends the
    confirmation D6 (flag 0, no payload) to the server, once, under the
    server channel's cipher; the message box is forwarded untouched. *)
Theorem join_then_message_box L s flag ss (d : list Z) command2 flag2 (d2 : list Z) :
  let F1 := Flag_NO_MESSAGE_BOX_CLOSE_CONFIRMATION in
  let F2 := Flag_NO_MESSAGE_BOX_CLOSE_CONFIRMATION_AFTER_LOBBY_JOIN in
  version ss = GC \/ version ss = XB ->
  Z.land (flags (newserv_client_config ss)) F2 <> 0 ->
  F1 <> 0 ->
  let st1 := (process_server_65_67_68 send_text_message F1 F2 L s 0x67 flag
                {| hs_session := ss; hs_data := d |}).2 in
  let r := process_server_v3_1A_D5 F1 s command2 flag2
             {| hs_session := hs_session st1; hs_data := d2 |} in
  r.1 = Ret (HandlerResult.of_type FORWARD) /\
  hs_data r.2 = d2 /\
  outbox (server_channel (hs_session r.2)) =
    outbox (server_channel ss) ++
      [{| sent_command := 0xD6; sent_flag := 0; sent_data := [];
          sent_crypt := crypt_out (server_channel ss) |}] /\
  client_channel (hs_session r.2) = client_channel (hs_session st1).
Proof.
  intros F1 F2 Hv Hafter HF1 st1 r.
  destruct (process_server_65_67_68_upstream L s 0x67 flag ss d) as (Hv1 & Hs1 & Hc1).
  cbv zeta in Hv1, Hs1, Hc1. fold F1 F2 st1 in Hv1, Hs1, Hc1.
  assert (Hflags : Z.land (flags (newserv_client_config (hs_session st1))) F1 = F1).
  { rewrite Hc1. unfold join_cleared. cbn [Z.eqb Pos.eqb].
    replace (flags (newserv_client_config
               (set_session_log (session_log ss ++ [(INFO, "Cleared lobby players"%string)])
                  (set_lobby_players (replicate 12 empty_LobbyPlayer) ss))))
      with (flags (newserv_client_config ss)) by (by destruct ss).
    destruct (Z.eqb_spec (Z.land (flags (newserv_client_config ss)) F2) 0) as [?|_]; [done|].
    cbn [negb]. destruct ss as [? ? ? ? ? ? ? ? ? ? ? ? ? ? ? ? [] ? ? ? ?]. cbn.
    apply land_lor_same. }
  subst r. unfold process_server_v3_1A_D5. run_monad.
  rewrite Hv1, Hflags.
  destruct (Z.eqb_spec F1 0) as [?|_]; [done|].
  assert (Hgc : match version ss with GC | XB => true | _ => false end = true)
    by (by destruct Hv as [-> | ->]).
  rewrite Hgc. cbn. rewrite <- Hs1.
  by destruct (hs_session st1) as [? ? ? ? [] ? ? ? ? ? ? ? ? ? ? ? ? ? ? ? ?].
Qed.

(** ** Lists of guild card entries (commands 88 and C4) *)

Lemma rewrite_guild_card_run lic off modified ss (d : list Z) :
  rewrite_guild_card lic off modified {| hs_session := ss; hs_data := d |} =
    if get_u32l off d =? remote_guild_card_number ss
    then (Ret true, {| hs_session := ss; hs_data := put_u32l off (serial_number lic) d |})
    else (Ret modified, {| hs_session := ss; hs_data := d |}).
Proof. unfold rewrite_guild_card. run_monad. by destruct (_ =? _). Qed.

(** The loop over the entries: every guild card member goes through
    [rewrite_inbound], no other byte changes, and the flag it returns says
    whether some member held the remote number. *)
Lemma rewrite_entries_loop (L : GuildCardEntryLayout) lic ss (d : list Z) n :
  let field x := (x * sizeof_guild_card_entry L + offsetof_guild_card_number L)%nat in
  let serial := serial_number lic in
  let remote := remote_guild_card_number ss in
  is_u32 serial ->
  (offsetof_guild_card_number L + 4 <= sizeof_guild_card_entry L)%nat ->
  (n * sizeof_guild_card_entry L <= length d)%nat ->
  exists d' : list Z,
    for_loop n 0 (fun x => rewrite_guild_card lic (field x)) false
      {| hs_session := ss; hs_data := d |} =
      (Ret (existsb (fun x => get_u32l (field x) d =? remote) (seq 0 n)),
       {| hs_session := ss; hs_data := d' |}) /\
    length d' = length d /\
    (forall x, (x < n)%nat ->
       get_u32l (field x) d' = rewrite_inbound serial remote (get_u32l (field x) d)) /\
    (forall p, (forall x, (x < n)%nat -> ~ (field x <= p < field x + 4)%nat) ->
       d' !! p = d !! p).
Proof.
  intros field serial remote Hserial Hoff Hlen.
  set (sz := sizeof_guild_card_entry L) in *.
  set (P := fun (k : nat) (acc : bool) (st : HState) =>
    hs_session st = ss /\
    length (hs_data st) = length d /\
    acc = existsb (fun x => get_u32l (field x) d =? remote) (seq 0 k) /\
    (forall x, (x < k)%nat ->
       get_u32l (field x) (hs_data st) = rewrite_inbound serial remote (get_u32l (field x) d)) /\
    (forall p, (forall x, (x < k)%nat -> ~ (field x <= p < field x + 4)%nat) ->
       (hs_data st : list Z) !! p = d !! p)).
  destruct (for_loop_ind P (fun x => rewrite_guild_card lic (field x)) n 0%nat false
              {| hs_session := ss; hs_data := d |}) as (a' & s' & Hrun & HP).
  { unfold P. cbn. repeat split; try done. intros x Hx. lia. }
  { intros k a [ss0 dk] Hk (Hss & Hl & Ha & Hdone & Hrest). cbn [hs_session hs_data] in *.
    subst ss0. cbn [Nat.add] in Hk.
    assert (Hbound : (field k + 4 <= length d)%nat) by (subst field; cbn beta; nia).
    assert (Hk_orig : get_u32l (field k) dk = get_u32l (field k) d).
    { unfold get_u32l. apply load_ext. intros p Hp. apply Hrest.
      intros x Hx. subst field. cbn beta in *. nia. }
    rewrite rewrite_guild_card_run. fold remote. rewrite Hk_orig.
    assert (Hseq : existsb (fun x => get_u32l (field x) d =? remote) (seq 0 (S k)) =
                   existsb (fun x => get_u32l (field x) d =? remote) (seq 0 k)
                   || (get_u32l (field k) d =? remote)).
    { rewrite seq_S, existsb_app. cbn. by rewrite orb_false_r. }
    destruct (Z.eqb_spec (get_u32l (field k) d) remote) as [E|E].
    - eexists _, _. split; [reflexivity|]. unfold P. cbn [hs_session hs_data].
      split; [done|]. split; [unfold put_u32l; rewrite length_store; lia|].
      split; [by rewrite Hseq, orb_true_r|]. split.
      + intros x Hx. destruct (Nat.eq_dec x k) as [->|Hne].
        * rewrite get_put_u32l by (done || lia).
          unfold rewrite_inbound. by rewrite E, Z.eqb_refl.
        * unfold get_u32l, put_u32l.
          rewrite load_store_before by (subst field; cbn beta; nia || lia).
          apply Hdone. lia.
      + intros p Hp. unfold put_u32l. rewrite lookup_store_other.
        * apply Hrest. intros x Hx. apply Hp. lia.
        * lia.
        * apply Hp. lia.
    - eexists _, _. split; [reflexivity|]. unfold P. cbn [hs_session hs_data].
      split; [done|]. split; [done|].
      split; [by rewrite Hseq, Ha, orb_false_r|]. split.
      + intros x Hx. destruct (Nat.eq_dec x k) as [->|Hne].
        * rewrite Hk_orig. unfold rewrite_inbound.
          by destruct (Z.eqb_spec (get_u32l (field k) d) remote).
        * apply Hdone. lia.
      + intros p Hp. apply Hrest. intros x Hx. apply Hp. lia. }
  destruct s' as [ss' d']. destruct HP as (Hss & Hl & Ha & Hdone & Hrest).
  cbn [hs_session hs_data Nat.add] in *. subst ss' a'.
  exists d'. by repeat split.
Qed.

(** X5.  In a licensed session an arrow list 88 must be exactly [flag]
    entries long (any other size is rejected with nothing changed), and a
    choice search result C4 at least that long.  Then the guild card member
    of each of the [flag] entries goes through the inbound rewriting (the
    remote number becomes the license's serial number), no other byte of the
    payload changes (in particular what a C4 carries after its entries), the
    session is untouched, and the result is MODIFIED exactly when some entry
    held the remote number. *)
Theorem process_server_88_C4_entries (L : GuildCardEntryLayout) s command flag ss lic
    (d : list Z) :
  let sz := sizeof_guild_card_entry L in
  let field x := (x * sz + offsetof_guild_card_number L)%nat in
  let serial := serial_number lic in
  let remote := remote_guild_card_number ss in
  let st := {| hs_session := ss; hs_data := d |} in
  let rewritten (r : outcome HandlerResult.t * HState) :=
    hs_session r.2 = ss /\
    length (hs_data r.2) = length d /\
    (forall x, (x < Z.to_nat flag)%nat ->
       get_u32l (field x) (hs_data r.2) =
         rewrite_inbound serial remote (get_u32l (field x) d)) /\
    (forall p, (forall x, (x < Z.to_nat flag)%nat -> ~ (field x <= p < field x + 4)%nat) ->
       (hs_data r.2 : list Z) !! p = d !! p) /\
    r.1 = Ret (HandlerResult.of_type
                 (if existsb (fun x => get_u32l (field x) d =? remote) (seq 0 (Z.to_nat flag))
                  then MODIFIED else FORWARD)) in
  license ss = Some lic ->
  is_u32 serial ->
  (offsetof_guild_card_number L + 4 <= sz)%nat ->
  0 <= flag ->
  (Z.of_nat (length d) <> Z.of_nat sz * flag ->
     exists e, process_server_88 L s command flag st = (Throw e, st)) /\
  (Z.of_nat (length d) = Z.of_nat sz * flag ->
     rewritten (process_server_88 L s command flag st)) /\
  (Z.of_nat sz * flag <= Z.of_nat (length d) <= 0xFFFF ->
     rewritten (process_server_C4 L s command flag st)).
Proof.
  intros sz field serial remote st rewritten Hlic Hserial Hoff Hflag. subst st.
  assert (Hloop : (Z.of_nat sz * flag <= Z.of_nat (length d)) ->
    exists d' : list Z,
      for_loop (Z.to_nat flag) 0 (fun x => rewrite_guild_card lic (field x)) false
        {| hs_session := ss; hs_data := d |} =
        (Ret (existsb (fun x => get_u32l (field x) d =? remote) (seq 0 (Z.to_nat flag))),
         {| hs_session := ss; hs_data := d' |}) /\
      length d' = length d /\
      (forall x, (x < Z.to_nat flag)%nat ->
         get_u32l (field x) d' = rewrite_inbound serial remote (get_u32l (field x) d)) /\
      (forall p, (forall x, (x < Z.to_nat flag)%nat -> ~ (field x <= p < field x + 4)%nat) ->
         d' !! p = d !! p)).
  { intros Hsize. apply (rewrite_entries_loop L lic ss d (Z.to_nat flag)); [done|done|].
    fold sz. nia. }
  split; [|split].
  - intros Hne. unfold process_server_88.
    unfold bind at 1, get_session at 1. cbn [hs_session]. rewrite Hlic. fold sz.
    destruct (Z.lt_ge_cases (Z.of_nat (length d)) (Z.of_nat sz * flag)) as [Hs|Hl].
    + rewrite (bind_throw_eq _ _ _ _ _ (check_size_t_small (Z.of_nat sz * flag) (Z.of_nat sz * flag)
                    {| hs_session := ss; hs_data := d |} Hs)). eauto.
    + rewrite (bind_throw_eq _ _ _ _ _
                 (check_size_t_large (Z.of_nat sz * flag) (Z.of_nat sz * flag)
                    {| hs_session := ss; hs_data := d |} ltac:(cbn; lia) ltac:(cbn; lia))). eauto.
  - intros Hsize. destruct (Hloop ltac:(lia)) as (d' & Hrun & Hl & Hf & Hp).
    assert (Hr : process_server_88 L s command flag {| hs_session := ss; hs_data := d |} =
      (Ret (HandlerResult.of_type
              (if existsb (fun x => get_u32l (field x) d =? remote) (seq 0 (Z.to_nat flag))
               then MODIFIED else FORWARD)),
       {| hs_session := ss; hs_data := d' |})).
    { unfold process_server_88.
      unfold bind at 1, get_session at 1. cbn [hs_session]. rewrite Hlic. fold sz.
      rewrite (bind_ret_eq _ _ _ _ _
                 (check_size_t_ok (Z.of_nat sz * flag) (Z.of_nat sz * flag) {| hs_session := ss; hs_data := d |} ltac:(cbn; lia))).
      fold field. rewrite (bind_ret_eq _ _ _ _ _ Hrun). done. }
    subst rewritten. cbv beta. rewrite Hr. cbn [fst snd hs_session hs_data]. done.
  - intros Hsize. destruct (Hloop ltac:(lia)) as (d' & Hrun & Hl & Hf & Hp).
    assert (Hr : process_server_C4 L s command flag {| hs_session := ss; hs_data := d |} =
      (Ret (HandlerResult.of_type
              (if existsb (fun x => get_u32l (field x) d =? remote) (seq 0 (Z.to_nat flag))
               then MODIFIED else FORWARD)),
       {| hs_session := ss; hs_data := d' |})).
    { unfold process_server_C4.
      unfold bind at 1, get_session at 1. cbn [hs_session]. rewrite Hlic. fold sz.
      rewrite (bind_ret_eq _ _ _ _ _
                 (check_size_t_ok (Z.of_nat sz * flag) 0xFFFF {| hs_session := ss; hs_data := d |} ltac:(cbn; lia))).
      fold field. rewrite (bind_ret_eq _ _ _ _ _ Hrun). done. }
    subst rewritten. cbv beta. rewrite Hr. cbn [fst snd hs_session hs_data]. done.
Qed.

(** ** Guild card search results (command 41) *)

(** Two members rewritten one after the other, as the handlers of 41 and 81
    do. *)
Lemma rewrite_two_cards lic o1 o2 ss (d : list Z) :
  let serial := serial_number lic in
  let remote := remote_guild_card_number ss in
  is_u32 serial ->
  (o1 + 4 <= length d)%nat -> (o2 + 4 <= length d)%nat ->
  (o1 + 4 <= o2)%nat \/ (o2 + 4 <= o1)%nat ->
  exists d' : list Z,
    (modified <- rewrite_guild_card lic o1 false ;;
     modified <- rewrite_guild_card lic o2 modified ;;
     ret (HandlerResult.of_type (if modified then MODIFIED else FORWARD)))
      {| hs_session := ss; hs_data := d |} =
      (Ret (HandlerResult.of_type
              (if (get_u32l o1 d =? remote) || (get_u32l o2 d =? remote)
               then MODIFIED else FORWARD)),
       {| hs_session := ss; hs_data := d' |}) /\
    length d' = length d /\
    get_u32l o1 d' = rewrite_inbound serial remote (get_u32l o1 d) /\
    get_u32l o2 d' = rewrite_inbound serial remote (get_u32l o2 d) /\
    (forall p, ~ (o1 <= p < o1 + 4)%nat -> ~ (o2 <= p < o2 + 4)%nat -> d' !! p = d !! p).
Proof.
  intros serial remote Hserial H1 H2 Hdisj.
  assert (Hput1 : get_u32l o2 (put_u32l o1 serial d) = get_u32l o2 d).
  { unfold get_u32l, put_u32l.
    destruct Hdisj; [apply load_store_after | apply load_store_before]; lia. }
  assert (Hput2 : forall d0 : list Z, (o2 + 4 <= length d0)%nat ->
            get_u32l o1 (put_u32l o2 serial d0) = get_u32l o1 d0).
  { intros d0 Hd0. unfold get_u32l, put_u32l.
    destruct Hdisj; [apply load_store_before | apply load_store_after]; lia. }
  assert (Hl1 : length (put_u32l o1 serial d) = length d)
    by (unfold put_u32l; by rewrite length_store).
  unfold bind at 1. rewrite rewrite_guild_card_run. fold remote serial.
  unfold rewrite_inbound.
  destruct (Z.eqb_spec (get_u32l o1 d) remote) as [E1|E1]; cbv beta iota;
    unfold bind at 1; rewrite rewrite_guild_card_run; fold remote serial;
    rewrite ?Hput1;
    destruct (Z.eqb_spec (get_u32l o2 d) remote) as [E2|E2]; cbv beta iota;
    unfold ret; cbn [orb].
  - eexists. split; [reflexivity|].
    split; [unfold put_u32l at 1; rewrite length_store; lia|].
    split; [rewrite Hput2 by lia; by apply get_put_u32l|].
    split; [apply get_put_u32l; [lia|done]|].
    intros p Hp1 Hp2. unfold put_u32l. rewrite !lookup_store_other; try done.
    rewrite length_store; lia.
  - eexists. split; [reflexivity|]. split; [done|].
    split; [by apply get_put_u32l|]. split; [done|].
    intros p Hp1 Hp2. unfold put_u32l. by rewrite lookup_store_other.
  - eexists. split; [reflexivity|].
    split; [unfold put_u32l; by rewrite length_store|].
    split; [by rewrite Hput2|]. split; [by apply get_put_u32l|].
    intros p Hp1 Hp2. unfold put_u32l. by rewrite lookup_store_other.
  - eexists. split; [reflexivity|]. done.
Qed.

(** X6.  A guild card search result 41 passes an unlicensed session as it
    is, whatever its size.  In a licensed session it must have the size of
    its record (any other size is rejected with nothing changed); then the
    searcher and the result member each go through the inbound rewriting, no
    other byte changes, the session is untouched, and the result is MODIFIED
    exactly when one of the two held the remote number. *)
Theorem process_server_41_rewrites (L : GuildCardSearchResultLayout) s command flag ss
    (d : list Z) :
  let sz := sizeof_S_GuildCardSearchResult L in
  let o1 := offsetof_searcher_guild_card_number L in
  let o2 := offsetof_result_guild_card_number L in
  let st := {| hs_session := ss; hs_data := d |} in
  let r := process_server_41 L s command flag st in
  (o1 + 4 <= sz)%nat -> (o2 + 4 <= sz)%nat ->
  (o1 + 4 <= o2)%nat \/ (o2 + 4 <= o1)%nat ->
  (license ss = None -> r = (Ret (HandlerResult.of_type FORWARD), st)) /\
  (forall lic, license ss = Some lic -> is_u32 (serial_number lic) ->
     let serial := serial_number lic in
     let remote := remote_guild_card_number ss in
     (length d <> sz -> exists e, r = (Throw e, st)) /\
     (length d = sz ->
        r.1 = Ret (HandlerResult.of_type
                     (if (get_u32l o1 d =? remote) || (get_u32l o2 d =? remote)
                      then MODIFIED else FORWARD)) /\
        hs_session r.2 = ss /\
        length (hs_data r.2) = length d /\
        get_u32l o1 (hs_data r.2) = rewrite_inbound serial remote (get_u32l o1 d) /\
        get_u32l o2 (hs_data r.2) = rewrite_inbound serial remote (get_u32l o2 d) /\
        (forall p, ~ (o1 <= p < o1 + 4)%nat -> ~ (o2 <= p < o2 + 4)%nat ->
           (hs_data r.2 : list Z) !! p = d !! p))).
Proof.
  intros sz o1 o2 st r H1 H2 Hdisj. subst r st. split.
  - intros Hnone. unfold process_server_41.
    unfold bind at 1, get_session at 1. cbn [hs_session]. by rewrite Hnone.
  - intros lic Hlic Hserial serial remote.
    assert (Hstep : process_server_41 L s command flag {| hs_session := ss; hs_data := d |} =
      (check_size_t (Z.of_nat sz) (Z.of_nat sz) ;;
       modified <- rewrite_guild_card lic o1 false ;;
       modified <- rewrite_guild_card lic o2 modified ;;
       ret (HandlerResult.of_type (if modified then MODIFIED else FORWARD)))
        {| hs_session := ss; hs_data := d |}).
    { unfold process_server_41.
      unfold bind at 1, get_session at 1. cbn [hs_session]. by rewrite Hlic. }
    rewrite Hstep. clear Hstep. split.
    + intros Hne.
      destruct (Nat.lt_ge_cases (length d) sz) as [Hs|Hl].
      * rewrite (bind_throw_eq _ _ _ _ _
                   (check_size_t_small (Z.of_nat sz) (Z.of_nat sz)
                      {| hs_session := ss; hs_data := d |} ltac:(cbn; lia))). eauto.
      * rewrite (bind_throw_eq _ _ _ _ _
                   (check_size_t_large (Z.of_nat sz) (Z.of_nat sz)
                      {| hs_session := ss; hs_data := d |} ltac:(cbn; lia) ltac:(cbn; lia))).
        eauto.
    + intros Hlen.
      rewrite (bind_ret_eq _ _ _ _ _
                 (check_size_t_ok (Z.of_nat sz) (Z.of_nat sz)
                    {| hs_session := ss; hs_data := d |} ltac:(cbn; lia))).
      destruct (rewrite_two_cards lic o1 o2 ss d Hserial ltac:(lia) ltac:(lia) Hdisj)
        as (d' & Hrun & Hl & Hf1 & Hf2 & Hp).
      rewrite Hrun. cbn [fst snd hs_session hs_data]. done.
Qed.

(** ** Simple mail (command 81) *)

Lemma c_str_take (t : list Z) : take (length (c_str t)) t = c_str t.
Proof.
  induction t as [|b t IH]; [done|]. cbn [c_str].
  destruct (b =? 0); [done|]. cbn [length take]. by rewrite IH.
Qed.

Lemma lookup_field_bytes off n (d : list Z) i :
  (i < n)%nat -> (field_bytes off n d : list Z) !! i = d !! (off + i)%nat.
Proof.
  intros Hi. unfold field_bytes. by rewrite lookup_take_lt, lookup_drop.
Qed.

Lemma length_field_bytes off n (d : list Z) :
  (off + n <= length d)%nat -> length (field_bytes off n d) = n.
Proof. intros H. unfold field_bytes. rewrite length_take, length_drop. lia. Qed.

(** Two buffers of one length with the same bytes in a field have the same
    field. *)
Lemma field_bytes_ext off n (d1 d2 : list Z) :
  length d1 = length d2 ->
  (forall p, (off <= p < off + n)%nat -> d1 !! p = d2 !! p) ->
  field_bytes off n d1 = field_bytes off n d2.
Proof.
  intros Hlen H. unfold field_bytes. apply list_eq. intros i.
  destruct (Nat.lt_ge_cases i n) as [Hi|Hi].
  - rewrite !lookup_take_lt, !lookup_drop by done. apply H. lia.
  - by rewrite !lookup_take_ge.
Qed.

(** One outbound rewriting step of [process_client_81]. *)
Lemma rewrite_serial_number_run lic off ss (d : list Z) :
  rewrite_serial_number lic off {| hs_session := ss; hs_data := d |} =
    (Ret tt,
     {| hs_session := ss;
        hs_data := if get_u32l off d =? serial_number lic
                   then put_u32l off (remote_guild_card_number ss) d else d |}).
Proof. unfold rewrite_serial_number. run_monad. by destruct (_ =? _). Qed.

(** What the handler does to a well-sized mail. *)
Lemma process_client_81_run (L : SimpleMailLayout) s command flag ss (d : list Z) :
  length d = sizeof_SC_SimpleMail L ->
  let step (lic : License) off (d : bytes) :=
    if get_u32l off d =? serial_number lic
    then put_u32l off (remote_guild_card_number ss) d else d in
  process_client_81 L s command flag {| hs_session := ss; hs_data := d |} =
    (Ret (HandlerResult.of_type MODIFIED),
     {| hs_session := ss;
        hs_data :=
          ptext_clear_after_len (offsetof_text L) (sizeof_text L)
            match license ss with
            | Some lic =>
                step lic (offsetof_to_guild_card_number L)
                  (step lic (offsetof_from_guild_card_number L) d)
            | None => d
            end |}).
Proof.
  intros Hlen step. unfold process_client_81.
  rewrite (bind_ret_eq _ _ _ _ _
             (check_size_t_ok (Z.of_nat (sizeof_SC_SimpleMail L))
                (Z.of_nat (sizeof_SC_SimpleMail L))
                {| hs_session := ss; hs_data := d |} ltac:(cbn; lia))).
  unfold bind at 1, get_session at 1. cbn [hs_session].
  destruct (license ss) as [lic|].
  - unfold bind. rewrite rewrite_serial_number_run. cbv beta iota.
    rewrite rewrite_serial_number_run. done.
  - done.
Qed.

Lemma same_mail_step (L : SimpleMailLayout) serial remote off (d1 d2 : list Z) :
  let step (d : bytes) := if get_u32l off d =? serial then put_u32l off remote d else d in
  (off + 4 <= length d1)%nat ->
  (off + 4 <= offsetof_text L)%nat \/ (offsetof_text L + sizeof_text L <= off)%nat ->
  same_mail L d1 d2 -> same_mail L (step d1) (step d2).
Proof.
  intros step Hin Hout (Hlen & Hsame & Htext).
  assert (Hget : get_u32l off d1 = get_u32l off d2).
  { unfold get_u32l. apply load_ext. intros p Hp. apply Hsame. lia. }
  subst step. cbv beta. rewrite Hget.
  destruct (get_u32l off d2 =? serial); [|done].
  unfold same_mail, put_u32l. rewrite !length_store by lia.
  split; [done|]. split.
  - intros p Hp. destruct (decide (off <= p < off + 4)%nat) as [Hp'|Hp'].
    + by rewrite !lookup_store_inside by (done || lia).
    + rewrite !lookup_store_other by (done || lia). by apply Hsame.
  - unfold mail_text in *.
    rewrite (field_bytes_ext _ _ (store 4 off remote d1) d1);
      [rewrite (field_bytes_ext _ _ (store 4 off remote d2) d2)|..]; try done.
    + by rewrite length_store by lia.
    + intros p Hp. apply lookup_store_other; lia.
    + by rewrite length_store by lia.
    + intros p Hp. apply lookup_store_other; lia.
Qed.

Lemma ptext_clear_after_len_same (L : SimpleMailLayout) (d1 d2 : list Z) :
  (offsetof_text L + sizeof_text L <= length d1)%nat ->
  same_mail L d1 d2 ->
  ptext_clear_after_len (offsetof_text L) (sizeof_text L) d1 =
  ptext_clear_after_len (offsetof_text L) (sizeof_text L) d2.
Proof.
  intros Hin (Hlen & Hsame & Htext). unfold ptext_clear_after_len, mail_text in *.
  rewrite !c_str_take, !length_field_bytes by lia. rewrite Htext. f_equal; [|f_equal].
  - apply list_eq. intros i. destruct (Nat.lt_ge_cases i (offsetof_text L)) as [Hi|Hi].
    + rewrite !lookup_take_lt by done. apply Hsame. lia.
    + by rewrite !lookup_take_ge.
  - apply list_eq. intros i. rewrite !lookup_drop. apply Hsame. lia.
Qed.

(** X7.  Whatever a mail carries in its text member behind the terminator
    (GC clients leave uninitialized memory there) does not reach the server:
    two well-sized mails that differ only there are forwarded as the same
    bytes.  The mail is always forwarded as MODIFIED with the session
    untouched, and in the forwarded text member the text is followed by
    zeros only. *)
Theorem process_client_81_clears_text (L : SimpleMailLayout) s command flag ss
    (d1 d2 : list Z) :
  mail_layout_ok L ->
  length d1 = sizeof_SC_SimpleMail L ->
  same_mail L d1 d2 ->
  let r1 := process_client_81 L s command flag {| hs_session := ss; hs_data := d1 |} in
  let r2 := process_client_81 L s command flag {| hs_session := ss; hs_data := d2 |} in
  r1 = r2 /\
  r1.1 = Ret (HandlerResult.of_type MODIFIED) /\
  hs_session r1.2 = ss /\
  field_bytes (offsetof_text L) (sizeof_text L) (hs_data r1.2) =
    mail_text L d1 ++ replicate (sizeof_text L - length (mail_text L d1)) 0.
Proof.
  intros (Hf & Ht & Hx & Hft & Hfx & Htx) Hlen1 Hsame r1 r2.
  assert (Hlen2 : length d2 = sizeof_SC_SimpleMail L) by (destruct Hsame as [<- _]; done).
  subst r1 r2.
  set (step := fun (lic : License) off (d : bytes) =>
                 if get_u32l off d =? serial_number lic
                 then put_u32l off (remote_guild_card_number ss) d else d).
  set (out := fun d : bytes =>
                match license ss with
                | Some lic => step lic (offsetof_to_guild_card_number L)
                                (step lic (offsetof_from_guild_card_number L) d)
                | None => d
                end).
  assert (Hlen_step : forall lic off (d : list Z), (off + 4 <= length d)%nat ->
            length (step lic off d) = length d).
  { intros lic off d Hd. subst step. cbv beta.
    destruct (_ =? _); [|done]. unfold put_u32l. by rewrite length_store. }
  assert (Hout_same : same_mail L (out d1) (out d2)).
  { subst out. cbv beta. destruct (license ss) as [lic|]; [|done].
    apply (same_mail_step L (serial_number lic) (remote_guild_card_number ss)).
    - rewrite Hlen_step; lia.
    - done.
    - apply (same_mail_step L (serial_number lic) (remote_guild_card_number ss));
        [lia|done|done]. }
  assert (Hout_len : length (out d1) = sizeof_SC_SimpleMail L).
  { subst out. cbv beta. destruct (license ss) as [lic|]; [|done].
    rewrite !Hlen_step; rewrite ?Hlen_step; lia. }
  assert (Hout_text : mail_text L (out d1) = mail_text L d1).
  { subst out. cbv beta. destruct (license ss) as [lic|]; [|done].
    unfold mail_text. f_equal.
    assert (Hfield : forall off (d : list Z), (off + 4 <= length d)%nat ->
              (off + 4 <= offsetof_text L)%nat \/ (offsetof_text L + sizeof_text L <= off)%nat ->
              field_bytes (offsetof_text L) (sizeof_text L) (step lic off d) =
              field_bytes (offsetof_text L) (sizeof_text L) d).
    { intros off d Hd Ho. subst step. cbv beta. destruct (_ =? _); [|done].
      apply field_bytes_ext; [unfold put_u32l; by rewrite length_store|].
      intros p Hp. unfold put_u32l. apply lookup_store_other; lia. }
    rewrite Hfield by (rewrite ?Hlen_step; (lia || done)).
    apply Hfield; (lia || done). }
  assert (Hrun : forall d : list Z, length d = sizeof_SC_SimpleMail L ->
            process_client_81 L s command flag {| hs_session := ss; hs_data := d |} =
              (Ret (HandlerResult.of_type MODIFIED),
               {| hs_session := ss;
                  hs_data := ptext_clear_after_len (offsetof_text L) (sizeof_text L) (out d) |})).
  { intros d Hd. by rewrite process_client_81_run. }
  rewrite !Hrun by done.
  rewrite (ptext_clear_after_len_same L (out d1) (out d2)) by (done || lia).
  split; [done|]. split; [done|]. split; [done|].
  cbn [snd hs_data].
  assert (Htext2 : mail_text L (out d2) = mail_text L d1).
  { rewrite <- Hout_text. symmetry. apply Hout_same. }
  destruct Hout_same as (Hl12 & _ & _).
  unfold ptext_clear_after_len.
  rewrite c_str_take. fold (mail_text L (out d2)). rewrite Htext2.
  rewrite length_field_bytes by lia.
  unfold field_bytes at 1.
  rewrite drop_app_length' by (rewrite length_take; lia).
  rewrite take_app_length'; [done|].
  rewrite length_app, length_replicate.
  assert (length (mail_text L d1) <= sizeof_text L)%nat; [|lia].
  rewrite <- Htext2. unfold mail_text.
  rewrite <- (length_field_bytes (offsetof_text L) (sizeof_text L) (out d2)) at 2 by lia.
  rewrite <- (c_str_take (field_bytes _ _ (out d2))) at 1.
  rewrite length_take. lia.
Qed.

Lemma c_str_app_zeros (t : list Z) n : c_str (c_str t ++ replicate n 0) = c_str t.
Proof.
  induction t as [|b t IH]; cbn [c_str].
  - destruct n; done.
  - destruct (b =? 0) eqn:E; cbn [c_str app].
    + destruct n; done.
    + by rewrite E, IH.
Qed.

Lemma length_c_str (t : list Z) : (length (c_str t) <= length t)%nat.
Proof.
  induction t as [|b t IH]; [done|]. cbn [c_str].
  destruct (b =? 0); cbn [length]; lia.
Qed.

(** Clearing the text member behind the terminator keeps the size, every
    byte outside the member, and the text. *)
Lemma ptext_clear_after_len_frame (L : SimpleMailLayout) (d : list Z) :
  (offsetof_text L + sizeof_text L <= length d)%nat ->
  let d' := ptext_clear_after_len (offsetof_text L) (sizeof_text L) d in
  length d' = length d /\
  (forall p, ~ (offsetof_text L <= p < offsetof_text L + sizeof_text L)%nat ->
     (d' : list Z) !! p = d !! p) /\
  mail_text L d' = mail_text L d.
Proof.
  intros Hin d'. subst d'. unfold ptext_clear_after_len.
  set (t := field_bytes (offsetof_text L) (sizeof_text L) d).
  assert (Ht : length t = sizeof_text L) by (by apply length_field_bytes).
  pose proof (length_c_str t) as Hc.
  rewrite c_str_take.
  assert (Hmid : length (c_str t ++ replicate (length t - length (c_str t)) 0) = sizeof_text L)
    by (rewrite length_app, length_replicate; lia).
  split; [|split].
  - rewrite !length_app, length_take, length_drop, length_replicate. lia.
  - intros p Hp. destruct (Nat.lt_ge_cases p (offsetof_text L)) as [Hlt|Hge].
    + rewrite lookup_app_l by (rewrite length_take; lia). by rewrite lookup_take_lt.
    + rewrite lookup_app_r by (rewrite length_take; lia).
      rewrite lookup_app_r by (rewrite length_take, Hmid; lia).
      rewrite length_take, Hmid, lookup_drop. f_equal. lia.
  - unfold mail_text, field_bytes at 1.
    rewrite drop_app_length' by (rewrite length_take; lia).
    rewrite take_app_length' by done.
    fold t. apply c_str_app_zeros.
Qed.

(** X8.  A mail round trip.  In a licensed session the client's 81 goes out
    with its sender and addressee members rewritten from the license's
    serial number to the remote guild card number and with its text kept;
    when the server sends those bytes back, its 81 reaches the client with
    both members rewritten inbound and the same text.  So a member that held
    the client's own serial number holds it again. *)
Theorem mail_round_trip (L : SimpleMailLayout) s command flag ss lic (d : list Z) :
  let serial := serial_number lic in
  let remote := remote_guild_card_number ss in
  let from := offsetof_from_guild_card_number L in
  let to := offsetof_to_guild_card_number L in
  mail_layout_ok L ->
  license ss = Some lic ->
  is_u32 serial -> is_u32 remote ->
  length d = sizeof_SC_SimpleMail L ->
  let out := hs_data (process_client_81 L s command flag
                        {| hs_session := ss; hs_data := d |}).2 in
  let back := hs_data (process_server_81 L s command flag
                         {| hs_session := ss; hs_data := out |}).2 in
  get_u32l from out = rewrite_outbound serial remote (get_u32l from d) /\
  get_u32l to out = rewrite_outbound serial remote (get_u32l to d) /\
  mail_text L out = mail_text L d /\
  get_u32l from back = rewrite_inbound serial remote (get_u32l from out) /\
  get_u32l to back = rewrite_inbound serial remote (get_u32l to out) /\
  mail_text L back = mail_text L d /\
  length back = length d /\
  (get_u32l from d = serial -> get_u32l from back = serial) /\
  (get_u32l to d = serial -> get_u32l to back = serial).
Proof.
  intros serial remote from to (Hf & Ht & Hx & Hft & Hfx & Htx) Hlic Hserial Hremote Hlen
    out back.
  set (step := fun off (d : bytes) =>
                 if get_u32l off d =? serial then put_u32l off remote d else d).
  set (d2 := step to (step from d)).
  assert (Hlen_step : forall off (d : list Z), (off + 4 <= length d)%nat ->
            length (step off d) = length d).
  { intros off d0 Hd. subst step. cbv beta.
    destruct (_ =? _); [|done]. unfold put_u32l. by rewrite length_store. }
  assert (Hlen_d2 : length d2 = length d).
  { subst d2. rewrite !Hlen_step; rewrite ?Hlen_step; lia. }
  assert (Hout : out = ptext_clear_after_len (offsetof_text L) (sizeof_text L) d2).
  { subst out. rewrite process_client_81_run by done. cbv zeta. by rewrite Hlic. }
  destruct (ptext_clear_after_len_frame L d2 ltac:(lia)) as (Hlo & Hpo & Hto).
  cbv zeta in Hlo, Hpo, Hto. rewrite <- Hout in Hlo, Hpo, Hto.
  (* the members after the two outbound steps *)
  assert (Hfrom2 : get_u32l from d2 = rewrite_outbound serial remote (get_u32l from d)).
  { subst d2. unfold step at 1.
    assert (Hkeep : get_u32l from (step to (step from d)) = get_u32l from (step from d)).
    { unfold step at 1. destruct (_ =? _); [|done]. unfold get_u32l, put_u32l.
      destruct Hft; [apply load_store_before | apply load_store_after];
        rewrite ?Hlen_step; lia. }
    fold (step to (step from d)). rewrite Hkeep. unfold step, rewrite_outbound.
    destruct (get_u32l from d =? serial); [|done].
    apply get_put_u32l; [lia|done]. }
  assert (Hto2 : get_u32l to d2 = rewrite_outbound serial remote (get_u32l to d)).
  { subst d2.
    assert (Hkeep : get_u32l to (step from d) = get_u32l to d).
    { unfold step. destruct (_ =? _); [|done]. unfold get_u32l, put_u32l.
      destruct Hft; [apply load_store_after | apply load_store_before]; lia. }
    unfold step at 1, rewrite_outbound. rewrite Hkeep.
    destruct (get_u32l to d =? serial); [|done].
    apply get_put_u32l; [rewrite Hlen_step; lia|done]. }
  assert (Htext2 : mail_text L d2 = mail_text L d).
  { assert (Hfield : forall off (d0 : list Z), (off + 4 <= length d0)%nat ->
              (off + 4 <= offsetof_text L)%nat \/ (offsetof_text L + sizeof_text L <= off)%nat ->
              mail_text L (step off d0) = mail_text L d0).
    { intros off d0 Hd Ho. unfold mail_text. f_equal. subst step. cbv beta.
      destruct (_ =? _); [|done].
      apply field_bytes_ext; [unfold put_u32l; by rewrite length_store|].
      intros p Hp. unfold put_u32l. apply lookup_store_other; lia. }
    subst d2. rewrite Hfield by (rewrite ?Hlen_step; (lia || done)).
    apply Hfield; (lia || done). }
  assert (Hfrom_out : get_u32l from out = get_u32l from d2).
  { unfold get_u32l. apply load_ext. intros p Hp. apply Hpo. subst from. lia. }
  assert (Hto_out : get_u32l to out = get_u32l to d2).
  { unfold get_u32l. apply load_ext. intros p Hp. apply Hpo. subst to. lia. }
  (* the way back *)
  destruct (rewrite_two_cards lic from to ss out Hserial ltac:(lia) ltac:(lia) Hft)
    as (b' & Hrun & Hlb & Hfb & Htb & Hpb). fold serial remote in Hrun, Hfb, Htb.
  assert (Hback : back = b').
  { subst back. unfold process_server_81.
    unfold bind at 1, get_session at 1. cbn [hs_session]. rewrite Hlic.
    rewrite (bind_ret_eq _ _ _ _ _
               (check_size_t_ok (Z.of_nat (sizeof_SC_SimpleMail L))
                  (Z.of_nat (sizeof_SC_SimpleMail L))
                  {| hs_session := ss; hs_data := out |} ltac:(cbn; lia))).
    fold from to. by rewrite Hrun. }
  assert (Htext_back : mail_text L back = mail_text L d).
  { rewrite Hback, <- Htext2, <- Hto. unfold mail_text. f_equal.
    apply field_bytes_ext; [done|]. intros p Hp. apply Hpb; subst from to; lia. }
  rewrite Hback, Hfb, Htb, <- Hback, Hfrom_out, Hto_out, Hfrom2, Hto2, Hto, Htext2.
  split; [done|]. split; [done|]. split; [done|]. split; [done|]. split; [done|].
  split; [done|]. split; [rewrite Hback; lia|].
  split; intros ->; apply rewrite_inbound_outbound.
Qed.

(** ** Encryption splicing (commands 02 and 17) *)

Let server_init := process_server_dc_pc_v3_patch_02_17 Flag_DCV1 C_LoginV1_DC_93
  C_Login_DC_PC_GC_9D C_VerifyLicense_V3_DB C_LoginExtended_GC_9E sizeof_C_Login_GC_9E.

(** Where the tables send a server init. *)
Lemma get_handler_server_init v command :
  v <> BB ->
  command mod 256 = 0x02 \/ (command mod 256 = 0x17 /\ v <> PATCH) ->
  get_handler v true command = h_server_dc_pc_v3_patch_02_17.
Proof.
  intros Hbb Hc. unfold get_handler. cbv zeta.
  destruct Hc as [-> | [-> Hp]]; by destruct v.
Qed.

(** X9.  Splicing for a session without a license.  A well-sized server
    init (02 or 17) is handed to the client first, under the cipher the
    client channel had until then, and only then are the four ciphers made
    from the two keys of the command, crosswise: what the server channel
    decrypts with, the client channel encrypts with (the server key), and
    the other way round (the client key), V3 ciphers on GC and XB and V2
    ciphers elsewhere.  The handler suppresses the command, so dispatch does
    not forward a second copy, and nothing is sent upstream. *)
Theorem server_init_unlinked (L : ServerInitLayout) s command flag ss (d : list Z) :
  license ss = None ->
  ~ (version ss = PATCH /\ command = 0x17) ->
  Z.of_nat (offsetof_after_message L) <= Z.of_nat (length d) <= 0xFFFF ->
  let r := server_init L s command flag {| hs_session := ss; hs_data := d |} in
  let ss' := hs_session r.2 in
  let server_key := get_u32l (offsetof_server_key L) d in
  let client_key := get_u32l (offsetof_client_key L) d in
  let forwarded :=
    if connected (client_channel ss)
    then [{| sent_command := command; sent_flag := flag; sent_data := d;
             sent_crypt := crypt_out (client_channel ss) |}]
    else [] in
  r.1 = Ret (HandlerResult.of_type SUPPRESS) /\
  hs_data r.2 = d /\
  crypt_in (server_channel ss') = Some (init_cipher (version ss) server_key) /\
  crypt_out (client_channel ss') = Some (init_cipher (version ss) server_key) /\
  crypt_out (server_channel ss') = Some (init_cipher (version ss) client_key) /\
  crypt_in (client_channel ss') = Some (init_cipher (version ss) client_key) /\
  outbox (client_channel ss') = outbox (client_channel ss) ++ forwarded /\
  outbox (server_channel ss') = outbox (server_channel ss) /\
  (S_ServerInit_DC_PC_V3_02_17_91_9B = L ->
   version ss <> BB ->
   command mod 256 = 0x02 \/ (command mod 256 = 0x17 /\ version ss <> PATCH) ->
   let p := proxy s true command flag {| hs_session := ss; hs_data := d |} in
   p.1 = Ret tt /\
   outbox (client_channel (hs_session p.2)) = outbox (client_channel ss) ++ forwarded /\
   outbox (server_channel (hs_session p.2)) = outbox (server_channel ss)).
Proof.
  intros Hlic Hpatch Hsize r ss' server_key client_key forwarded.
  assert (Hguard : GameVersion_eqb (version ss) PATCH && (command =? 0x17) = false).
  { destruct (Z.eqb_spec command 0x17) as [->|?]; [|by rewrite andb_false_r].
    rewrite andb_true_r. destruct (version ss) eqn:Ev; try done.
    exfalso. by apply Hpatch. }
  set (log1 := session_log ss ++ [(INFO, "No license in linked session"%string)]).
  set (ss1 := set_session_log log1 ss).
  assert (Hrun : exists ss2,
    r = (Ret (HandlerResult.of_type SUPPRESS), {| hs_session := ss2; hs_data := d |}) /\
    crypt_in (server_channel ss2) = Some (init_cipher (version ss) server_key) /\
    crypt_out (client_channel ss2) = Some (init_cipher (version ss) server_key) /\
    crypt_out (server_channel ss2) = Some (init_cipher (version ss) client_key) /\
    crypt_in (client_channel ss2) = Some (init_cipher (version ss) client_key) /\
    outbox (client_channel ss2) = outbox (client_channel ss) ++ forwarded /\
    outbox (server_channel ss2) = outbox (server_channel ss)).
  { subst r server_init. unfold process_server_dc_pc_v3_patch_02_17.
    unfold bind at 1, get_session at 1. cbn [hs_session]. rewrite Hguard.
    rewrite (bind_ret_eq _ _ _ _ _
               (check_size_t_ok (Z.of_nat (offsetof_after_message L)) 0xFFFF
                  {| hs_session := ss; hs_data := d |} Hsize)).
    unfold bind at 1, get_data at 1. cbn [hs_data]. rewrite Hlic.
    fold server_key client_key.
    unfold bind at 1, write_log at 1, modify_session at 1, modify at 1.
    cbn [hs_session hs_data]. fold log1 ss1.
    rewrite (bind_ret_eq _ _ _ _ _ (forward_command_session false command flag ss1 d)).
    subst forwarded ss1 log1.
    unfold reset_server_crypts, reset_client_crypts. run_monad.
    destruct ss as [v ? ? [conn ? ? ? ? ?] [] ? ? ? ? ? ? ? ? ? ? ? ? ? ? ? ?].
    cbn. destruct v, conn; cbn; eexists; (split; [reflexivity|]); cbn;
      rewrite ?app_nil_r; done. }
  destruct Hrun as (ss2 & Hr & H1 & H2 & H3 & H4 & H5 & H6).
  subst ss'. rewrite Hr. cbn [fst snd hs_session hs_data].
  split; [done|]. split; [done|]. split; [done|]. split; [done|]. split; [done|].
  split; [done|]. split; [done|]. split; [done|].
  intros HL Hbb Hc.
  assert (Hh : handler_fn encode_sjis decode_sjis send_text_message
                 Flag_NO_MESSAGE_BOX_CLOSE_CONFIRMATION
                 Flag_NO_MESSAGE_BOX_CLOSE_CONFIRMATION_AFTER_LOBBY_JOIN layout_of handlers
                 (get_handler (version (hs_session {| hs_session := ss; hs_data := d |}))
                    true command) s command flag {| hs_session := ss; hs_data := d |}
               = (Ret (HandlerResult.of_type SUPPRESS),
                  {| hs_session := ss2; hs_data := d |})).
  { cbn [hs_session]. rewrite get_handler_server_init by done.
    cbn [handler_fn]. unfold handlers, more_handlers. rewrite HL. exact Hr. }
  subst proxy. rewrite (process_proxy_command_ret _ _ _ _ _ _ _ _ _ _ _ _ _ _ Hh).
  cbn [HandlerResult.type HandlerResult.of_type].
  unfold write_log, modify_session, modify. cbn [fst snd hs_session].
  rewrite <- H5, <- H6. by destruct ss2.
Qed.

(** X10.  Splicing for a licensed session.  The client never sees the
    server init: its channel is left exactly as it was.  The server channel
    gets its two ciphers from the keys of the command (none on BB, which the
    handler rejects), and on DC, PC, GC and the patch server the proxy then
    answers in the client's stead with exactly one login command, sent under
    the new outbound cipher: 02 on the patch server, 93 or 9D on DC and PC
    (93 when the saved client config has the DCV1 flag), DB on GC for a 17
    and otherwise the 9E that a 9A would be answered with.  The command is
    suppressed.  On XB the handler throws once the ciphers are installed,
    without having sent anything. *)
Theorem server_init_linked (L : ServerInitLayout) s command flag ss lic (d : list Z) :
  license ss = Some lic ->
  ~ (version ss = PATCH /\ command = 0x17) ->
  Z.of_nat (offsetof_after_message L) <= Z.of_nat (length d) <= 0xFFFF ->
  let r := server_init L s command flag {| hs_session := ss; hs_data := d |} in
  let ss' := hs_session r.2 in
  let v := version ss in
  let server_key := get_u32l (offsetof_server_key L) d in
  let client_key := get_u32l (offsetof_client_key L) d in
  let r9A := process_server_gc_9A C_LoginExtended_GC_9E sizeof_C_Login_GC_9E s command flag
               {| hs_session := ss; hs_data := d |} in
  client_channel ss' = client_channel ss /\
  hs_data r.2 = d /\
  (v = BB -> (exists e, r.1 = Throw e) /\ server_channel ss' = server_channel ss) /\
  (v <> BB ->
     crypt_in (server_channel ss') = Some (init_cipher v server_key) /\
     crypt_out (server_channel ss') = Some (init_cipher v client_key)) /\
  (v = XB ->
     (exists e, r.1 = Throw e) /\ outbox (server_channel ss') = outbox (server_channel ss)) /\
  (v <> BB -> v <> XB ->
     r.1 = Ret (HandlerResult.of_type SUPPRESS) /\
     exists login,
       outbox (server_channel ss') = outbox (server_channel ss) ++ [login] /\
       sent_crypt login = Some (init_cipher v client_key) /\
       sent_command login =
         match v with
         | PATCH => 0x02
         | GC => if command =? 0x17 then 0xDB else 0x9E
         | _ => if Z.land (flags (newserv_client_config ss)) Flag_DCV1 =? 0
                then 0x9D else 0x93
         end /\
       (v = GC -> command <> 0x17 ->
        exists login9A,
          outbox (server_channel (hs_session r9A.2)) =
            outbox (server_channel ss) ++ [login9A] /\
          sent_command login = sent_command login9A /\
          sent_flag login = sent_flag login9A /\
          sent_data login = sent_data login9A)).
Proof.
  intros Hlic Hpatch Hsize r ss' v server_key client_key r9A.
  assert (Hguard : GameVersion_eqb (version ss) PATCH && (command =? 0x17) = false).
  { destruct (Z.eqb_spec command 0x17) as [->|?]; [|by rewrite andb_false_r].
    rewrite andb_true_r. destruct (version ss) eqn:Ev; try done.
    exfalso. by apply Hpatch. }
  set (P := fun (o : outcome HandlerResult.t) (ss2 : LinkedSession) =>
    client_channel ss2 = client_channel ss /\
    (v = BB -> (exists e, o = Throw e) /\ server_channel ss2 = server_channel ss) /\
    (v <> BB ->
       crypt_in (server_channel ss2) = Some (init_cipher v server_key) /\
       crypt_out (server_channel ss2) = Some (init_cipher v client_key)) /\
    (v = XB ->
       (exists e, o = Throw e) /\ outbox (server_channel ss2) = outbox (server_channel ss)) /\
    (v <> BB -> v <> XB ->
       o = Ret (HandlerResult.of_type SUPPRESS) /\
       exists login,
         outbox (server_channel ss2) = outbox (server_channel ss) ++ [login] /\
         sent_crypt login = Some (init_cipher v client_key) /\
         sent_command login =
           match v with
           | PATCH => 0x02
           | GC => if command =? 0x17 then 0xDB else 0x9E
           | _ => if Z.land (flags (newserv_client_config ss)) Flag_DCV1 =? 0
                  then 0x9D else 0x93
           end /\
         (v = GC -> command <> 0x17 ->
          exists login9A,
            outbox (server_channel (hs_session r9A.2)) =
              outbox (server_channel ss) ++ [login9A] /\
            sent_command login = sent_command login9A /\
            sent_flag login = sent_flag login9A /\
            sent_data login = sent_data login9A))).
  assert (Hrun : exists o ss2,
    r = (o, {| hs_session := ss2; hs_data := d |}) /\ P o ss2).
  { subst r server_init. unfold process_server_dc_pc_v3_patch_02_17.
    unfold bind at 1, get_session at 1. cbn [hs_session]. rewrite Hguard.
    rewrite (bind_ret_eq _ _ _ _ _
               (check_size_t_ok (Z.of_nat (offsetof_after_message L)) 0xFFFF
                  {| hs_session := ss; hs_data := d |} Hsize)).
    unfold bind at 1, get_data at 1. cbn [hs_data]. rewrite Hlic.
    fold server_key client_key.
    subst P r9A v. cbv beta. clear Hguard Hpatch.
    unfold reset_server_crypts, process_server_gc_9A. run_monad. rewrite Hlic.
    destruct ss as [v ? rgc ? [] ? ? ? ? ? ? ? ? ? ? ? [? ? ? fl ? ?] ? ? ? ?].
    cbn in Hlic. subst. cbn. destruct v; cbn.
    - (* DC *)
      destruct (Z.land fl Flag_DCV1 =? 0); cbn; eexists _, _; (split; [reflexivity|]); cbn;
        (split; [done|]); (split; [done|]); (split; [done|]); (split; [done|]);
        intros _ _; (split; [done|]); eexists; done.
    - (* PC *)
      destruct (Z.land fl Flag_DCV1 =? 0); cbn; eexists _, _; (split; [reflexivity|]); cbn;
        (split; [done|]); (split; [done|]); (split; [done|]); (split; [done|]);
        intros _ _; (split; [done|]); eexists; done.
    - (* PATCH *)
      eexists _, _; (split; [reflexivity|]); cbn.
      (split; [done|]); (split; [done|]); (split; [done|]); (split; [done|]);
        intros _ _; (split; [done|]); eexists; done.
    - (* GC *)
      destruct (Z.eqb_spec command 0x17) as [Ec|Ec]; cbn;
        eexists _, _; (split; [reflexivity|]); cbn;
        (split; [done|]); (split; [done|]); (split; [done|]); (split; [done|]);
        intros _ _; (split; [done|]); eexists;
        (split; [done|]); (split; [done|]); (split; [done|]); intros _ Hn; [done|].
      eexists. done.
    - (* XB *)
      eexists _, _; (split; [reflexivity|]); cbn.
      (split; [done|]); (split; [done|]); (split; [done|]).
      split; [intros _; split; [eauto|done]|]. intros _ Hn. done.
    - (* BB *)
      eexists _, _; (split; [reflexivity|]); cbn.
      (split; [done|]). split; [intros _; split; [eauto|done]|].
      split; [intros Hn; done|]. split; [done|]. intros Hn. done. }
  destruct Hrun as (o & ss2 & Hr & HP).
  subst ss'. rewrite Hr. cbn [fst snd hs_session hs_data].
  destruct HP as (H1 & H2 & H3 & H4 & H5). done.
Qed.

(** X11.  A server init that fails takes the session down.  When dispatch
    hands the handler a payload shorter than the record up to its after
    message, or longer than [0xFFFF] bytes, or when the session is a licensed
    XB session, the handler throws; dispatch then disconnects both channels,
    and neither side is sent anything (the client never receives the init,
    the server no login). *)
Theorem server_init_failure s command flag ss (d : list Z) :
  let L := S_ServerInit_DC_PC_V3_02_17_91_9B in
  version ss <> BB ->
  command mod 256 = 0x02 \/ (command mod 256 = 0x17 /\ version ss <> PATCH) ->
  Z.of_nat (length d) < Z.of_nat (offsetof_after_message L) \/
  0xFFFF < Z.of_nat (length d) \/
  (version ss = XB /\ license ss <> None) ->
  let p := proxy s true command flag {| hs_session := ss; hs_data := d |} in
  p.1 = Ret tt /\
  connected (client_channel (hs_session p.2)) = false /\
  connected (server_channel (hs_session p.2)) = false /\
  outbox (client_channel (hs_session p.2)) = outbox (client_channel ss) /\
  outbox (server_channel (hs_session p.2)) = outbox (server_channel ss).
Proof.
  intros L Hbb Hc Hfail p.
  assert (Hguard : GameVersion_eqb (version ss) PATCH && (command =? 0x17) = false).
  { destruct (Z.eqb_spec command 0x17) as [->|?]; [|by rewrite andb_false_r].
    rewrite andb_true_r. destruct Hc as [Hc|[_ Hp]]; [done|]. by destruct (version ss). }
  assert (Hthrow : exists e st',
    server_init L s command flag {| hs_session := ss; hs_data := d |} = (Throw e, st') /\
    outbox (client_channel (hs_session st')) = outbox (client_channel ss) /\
    outbox (server_channel (hs_session st')) = outbox (server_channel ss)).
  { subst server_init. unfold process_server_dc_pc_v3_patch_02_17.
    unfold bind at 1, get_session at 1. cbn [hs_session]. rewrite Hguard.
    destruct (Z.lt_ge_cases (Z.of_nat (length d)) (Z.of_nat (offsetof_after_message L)))
      as [Hs|Hge].
    { rewrite (bind_throw_eq _ _ _ _ _
                 (check_size_t_small (Z.of_nat (offsetof_after_message L)) 0xFFFF
                    {| hs_session := ss; hs_data := d |} Hs)). eauto. }
    destruct (Z.lt_ge_cases 0xFFFF (Z.of_nat (length d))) as [Hl|Hle].
    { rewrite (bind_throw_eq _ _ _ _ _
                 (check_size_t_large (Z.of_nat (offsetof_after_message L)) 0xFFFF
                    {| hs_session := ss; hs_data := d |} Hge Hl)). eauto. }
    destruct Hfail as [?|[?|[Hxb Hlic]]]; [lia|lia|].
    rewrite (bind_ret_eq _ _ _ _ _
               (check_size_t_ok (Z.of_nat (offsetof_after_message L)) 0xFFFF
                  {| hs_session := ss; hs_data := d |} ltac:(cbn; lia))).
    unfold bind at 1, get_data at 1. cbn [hs_data].
    destruct (license ss) as [lic|] eqn:El; [|done].
    unfold reset_server_crypts. run_monad. rewrite Hxb. cbn.
    eexists _, _. split; [reflexivity|]. by destruct ss as [? ? ? ? []]. }
  destruct Hthrow as (e & st' & Hthrow & Hoc & Hos).
  assert (Hh : handler_fn encode_sjis decode_sjis send_text_message
                 Flag_NO_MESSAGE_BOX_CLOSE_CONFIRMATION
                 Flag_NO_MESSAGE_BOX_CLOSE_CONFIRMATION_AFTER_LOBBY_JOIN layout_of handlers
                 (get_handler (version (hs_session {| hs_session := ss; hs_data := d |}))
                    true command) s command flag {| hs_session := ss; hs_data := d |}
               = (Throw e, st')).
  { cbn [hs_session]. rewrite get_handler_server_init by done. exact Hthrow. }
  subst p proxy. rewrite (process_proxy_command_throw _ _ _ _ _ _ _ _ _ _ _ _ _ _ Hh).
  cbn [fst snd hs_session].
  destruct (torn_down_fields (hs_session st')) as (H1 & H2 & H3 & H4).
  rewrite H1, H2, H3, H4. done.
Qed.

(** X12.  The server-init handler rejects a 17 in a patch session, but
    dispatch never hands it one: the patch table has no entry for 17, so a 17
    from a patch server goes to the default handler and reaches the client
    as it came, with no cipher touched and nothing sent upstream. *)
Theorem patch_17_is_forwarded (L : ServerInitLayout) s command flag ss (d : list Z) :
  version ss = PATCH ->
  command mod 256 = 0x17 ->
  let st := {| hs_session := ss; hs_data := d |} in
  let p := proxy s true command flag st in
  server_init L s 0x17 flag st =
    (Throw (invalid_argument "patch server sent 17 server init"), st) /\
  p.1 = Ret tt /\
  hs_data p.2 = d /\
  server_channel (hs_session p.2) = server_channel ss /\
  crypt_in (client_channel (hs_session p.2)) = crypt_in (client_channel ss) /\
  crypt_out (client_channel (hs_session p.2)) = crypt_out (client_channel ss) /\
  connected (client_channel (hs_session p.2)) = connected (client_channel ss) /\
  outbox (client_channel (hs_session p.2)) =
    outbox (client_channel ss) ++
      (if connected (client_channel ss)
       then [{| sent_command := command; sent_flag := flag; sent_data := d;
                sent_crypt := crypt_out (client_channel ss) |}]
       else []).
Proof.
  intros Hv Hc st p. split.
  { subst server_init st. unfold process_server_dc_pc_v3_patch_02_17.
    unfold bind at 1, get_session at 1. cbn [hs_session]. by rewrite Hv. }
  assert (Hh : handler_fn encode_sjis decode_sjis send_text_message
                 Flag_NO_MESSAGE_BOX_CLOSE_CONFIRMATION
                 Flag_NO_MESSAGE_BOX_CLOSE_CONFIRMATION_AFTER_LOBBY_JOIN layout_of handlers
                 (get_handler (version (hs_session st)) true command) s command flag st
               = (Ret (HandlerResult.of_type FORWARD), st)).
  { cbn [hs_session st]. rewrite Hv. unfold get_handler. cbv zeta. by rewrite Hc. }
  subst p proxy. rewrite (process_proxy_command_ret _ _ _ _ _ _ _ _ _ _ _ _ _ _ Hh).
  cbn [HandlerResult.type HandlerResult.of_type negb]. subst st.
  rewrite forward_command_session. cbn [fst snd hs_session hs_data].
  destruct ss as [? ? ? [conn ? ? ? ? ?] [] ? ? ? ? ? ? ? ? ? ? ? ? ? ? ? ?].
  cbn. destruct conn; cbn; rewrite ?app_nil_r; done.
Qed.

End MoreProxyFacts.

(** * Sending to lobbies *)

Section LobbySendFacts.

Import SendCommands LobbySend.

Lemma for_each_app {St A} (xs ys : list A) (body : A -> M St unit) st :
  for_each (xs ++ ys) body st = (for_each xs body ;; for_each ys body) st.
Proof.
  revert st. induction xs as [|x xs IH]; intros st; cbn [app for_each].
  - reflexivity.
  - unfold bind. destruct (body x st) as [[[]|e] st']; [apply IH|done].
Qed.

Lemma deliver_0 command flag data o : deliver 0 command flag data o = o.
Proof.
  destruct o as [[v c [buf|]] id]; unfold deliver; cbn; [|done].
  by rewrite app_nil_r.
Qed.

Lemma deliver_S n command flag data o :
  deliver n command flag data (deliver 1 command flag data o) =
  deliver (S n) command flag data o.
Proof.
  destruct o as [[v c [buf|]] id]; unfold deliver; cbn; [|done].
  by rewrite <- app_assoc.
Qed.

(** One [send_command] to a client that can be sent to. *)
Lemma send_command_p_deliver p command flag data (h : Clients) o :
  h !! p = Some o -> ~ unsendable o ->
  send_command_p p command flag data h =
    (Ret tt, <[p := deliver 1 command flag data o]> h).
Proof.
  intros Hp Hok. unfold send_command_p. rewrite Hp.
  destruct o as [[v c [buf|]] id]; unfold send_command_c, deliver; cbn.
  - assert (Hv : v <> XB) by (intros ->; apply Hok; by split).
    unfold send_command, frame_for.
    destruct v; try done; cbn; done.
  - done.
Qed.

Lemma send_command_p_unsendable p command flag data (h : Clients) o :
  h !! p = Some o -> unsendable o ->
  send_command_p p command flag data h =
    (Throw (logic_error "unimplemented game version in send_command"), <[p := o]> h).
Proof.
  intros Hp [Hbev Hv]. unfold send_command_p. rewrite Hp.
  destruct o as [[v c [buf|]] id]; cbn in *; [|done]. subst v.
  unfold send_command_c. cbn. done.
Qed.

Lemma unsendable_deliver n command flag data o :
  unsendable (deliver n command flag data o) <-> unsendable o.
Proof. destruct o as [[v c [buf|]] id]; unfold unsendable, deliver; cbn;
    (split; intros [? ?]; split; done). Qed.

Lemma seats_cons_other c p slot slots :
  slot <> Some p -> seats c p (slot :: slots) = seats c p slots.
Proof.
  intros Hne. unfold seats. destruct (bool_decide (Some p = c)); [done|].
  by rewrite filter_cons, decide_False.
Qed.

Lemma seats_cons_excluded c p slots :
  Some p = c -> seats c p slots = 0%nat.
Proof. intros E. unfold seats. by rewrite bool_decide_eq_true_2. Qed.

Lemma seats_cons_same c p slots :
  Some p <> c -> seats c p (Some p :: slots) = S (seats c p slots).
Proof.
  intros Hne. unfold seats. rewrite bool_decide_eq_false_2 by done.
  by rewrite filter_cons, decide_True.
Qed.

Lemma seats_nil c p : seats c p [] = 0%nat.
Proof. unfold seats. by destruct (bool_decide _). Qed.

Lemma seats_not_in c p slots : Some p ∉ slots -> seats c p slots = 0%nat.
Proof.
  induction slots as [|slot slots IH]; intros Hp; [apply seats_nil|].
  rewrite seats_cons_other.
  - apply IH. intros Hin. apply Hp. by right.
  - intros ->. apply Hp. by left.
Qed.

(** The loop of [send_command_excluding_client] over slots none of which
    holds an unsendable client. *)
Lemma fan_out c command flag data slots : forall h : Clients,
  (forall p o, Some p ∈ slots -> Some p <> c -> h !! p = Some o -> ~ unsendable o) ->
  exists h' : Clients,
    for_each slots (fun client =>
      match client with
      | None => ret tt
      | Some p => if bool_decide (Some p = c) then ret tt
                  else send_command_p p command flag data
      end) h = (Ret tt, h') /\
    forall p, h' !! p = deliver (seats c p slots) command flag data <$> h !! p.
Proof.
  induction slots as [|slot slots IH]; intros h Hok.
  - exists h. split; [done|]. intros p.
    replace (seats c p []) with 0%nat by (unfold seats; by destruct (bool_decide _)).
    destruct (h !! p) as [o|]; cbn; [by rewrite deliver_0|done].
  - cbn [for_each].
    destruct slot as [q|].
    + destruct (decide (Some q = c)) as [E|Hne].
      * rewrite bool_decide_eq_true_2 by done.
        destruct (IH h) as (h' & Hrun & Hget).
        { intros p o Hin. apply Hok. by right. }
        exists h'. split; [by rewrite (bind_ret_eq (ret tt) _ h tt h eq_refl)|].
        intros p. rewrite Hget. destruct (decide (p = q)) as [->|Hpq].
        -- by rewrite !seats_cons_excluded.
        -- rewrite seats_cons_other; [done|congruence].
      * rewrite bool_decide_eq_false_2 by done.
        destruct (h !! q) as [o|] eqn:Hq.
        -- assert (Hsend : ~ unsendable o) by (apply (Hok q); [by left|done|done]).
           destruct (IH (<[q := deliver 1 command flag data o]> h)) as (h' & Hrun & Hget).
           { intros p o1 Hin Hpc. destruct (decide (p = q)) as [->|Hpq].
             - rewrite lookup_insert_eq. intros [= <-]. by rewrite unsendable_deliver.
             - rewrite lookup_insert_ne by done. apply Hok; [by right|done]. }
           exists h'. split.
           { by rewrite (bind_ret_eq _ _ _ _ _
                           (send_command_p_deliver q command flag data h o Hq Hsend)). }
           intros p. rewrite Hget. destruct (decide (p = q)) as [->|Hpq].
           ++ rewrite lookup_insert_eq, Hq. cbn. rewrite seats_cons_same by done.
              by rewrite deliver_S.
           ++ rewrite lookup_insert_ne by done.
              rewrite (seats_cons_other c p (Some q)); [done|congruence].
        -- destruct (IH h) as (h' & Hrun & Hget).
           { intros p o Hin. apply Hok. by right. }
           exists h'. split.
           { assert (Hnone : send_command_p q command flag data h = (Ret tt, h))
               by (unfold send_command_p; by rewrite Hq).
             by rewrite (bind_ret_eq _ _ _ _ _ Hnone). }
           intros p. rewrite Hget. destruct (decide (p = q)) as [->|Hpq].
           ++ by rewrite Hq.
           ++ rewrite (seats_cons_other c p (Some q)); [done|congruence].
    + destruct (IH h) as (h' & Hrun & Hget).
      { intros p o Hin. apply Hok. by right. }
      exists h'. split; [by rewrite (bind_ret_eq (ret tt) _ h tt h eq_refl)|].
      intros p. rewrite Hget. by rewrite seats_cons_other.
Qed.

(** X13.  A lobby broadcast that excludes [c], in a lobby none of whose other
    members is an XB client with an output buffer, returns normally, and
    every client then holds what it held before followed by one frame for
    each slot of the lobby that holds it: the frame of its own version under
    its own cipher.  The excluded client, the clients that are not in the
    lobby and the clients without an output buffer are left as they were,
    and so are the versions and ciphers of all. *)
Theorem send_command_excluding_client_delivers l c command flag data
    (h : gmap nat LobbyClient) :
  (forall p o, Some p ∈ clients l -> Some p <> c -> h !! p = Some o -> ~ unsendable o) ->
  let r := send_command_excluding_client l c command flag data h in
  r.1 = Ret tt /\
  (forall p, r.2 !! p = deliver (seats c p (clients l)) command flag data <$> h !! p) /\
  (forall p, Some p = c \/ Some p ∉ clients l -> r.2 !! p = h !! p) /\
  (forall p o, h !! p = Some o -> bev (client o) = None -> r.2 !! p = Some o).
Proof.
  intros Hok r. subst r. unfold send_command_excluding_client.
  destruct (fan_out c command flag data (clients l) h Hok) as (h' & -> & Hget).
  cbn [fst snd]. split; [done|]. split; [exact Hget|]. split.
  - intros p Hp. rewrite Hget.
    assert (E : seats c p (clients l) = 0%nat).
    { destruct Hp as [Hp|Hp]; [by apply seats_cons_excluded|].
      by apply seats_not_in. }
    rewrite E. destruct (h !! p) as [o|]; cbn; [by rewrite deliver_0|done].
  - intros p o Hp Hbev. rewrite Hget, Hp. cbn. f_equal.
    destruct o as [[v k b] id]. cbn in Hbev. subst b. done.
Qed.

(** X14.  If slot [i] of the lobby holds an XB client with an output buffer
    (and is not the excluded client), while the slots before it hold none,
    the broadcast throws [logic_error] when it reaches that slot: the clients
    in the slots before [i] have received the command, and nobody else has,
    whatever the slots after [i] hold. *)
Theorem send_command_excluding_client_stops l c command flag data
    (h : gmap nat LobbyClient) i q o :
  clients l !! i = Some (Some q) -> Some q <> c ->
  h !! q = Some o -> unsendable o ->
  (forall p o', Some p ∈ take i (clients l) -> Some p <> c -> h !! p = Some o' ->
     ~ unsendable o') ->
  let r := send_command_excluding_client l c command flag data h in
  r.1 = Throw (logic_error "unimplemented game version in send_command") /\
  (forall p, r.2 !! p =
     deliver (seats c p (take i (clients l))) command flag data <$> h !! p) /\
  (forall p, Some p ∉ take i (clients l) -> r.2 !! p = h !! p).
Proof.
  intros Hi Hqc Hq Hbad Hok r.
  destruct (fan_out c command flag data (take i (clients l)) h Hok) as (h1 & Hrun & Hget).
  set (o1 := deliver (seats c q (take i (clients l))) command flag data o).
  assert (Hr : r = (Throw (logic_error "unimplemented game version in send_command"),
                    <[q := o1]> h1)).
  { subst r. unfold send_command_excluding_client.
    rewrite <- (take_drop_middle (clients l) i (Some q) Hi) at 1.
    rewrite for_each_app, (bind_ret_eq _ _ _ _ _ Hrun).
    cbn [for_each]. rewrite bool_decide_eq_false_2 by done.
    apply bind_throw_eq, send_command_p_unsendable.
    - by rewrite Hget, Hq.
    - by apply unsendable_deliver. }
  assert (Hlook : forall p, (<[q := o1]> h1) !! p =
            deliver (seats c p (take i (clients l))) command flag data <$> h !! p).
  { intros p. destruct (decide (p = q)) as [->|Hpq].
    - by rewrite lookup_insert_eq, Hq.
    - by rewrite lookup_insert_ne, Hget. }
  rewrite Hr. cbn [fst snd]. split; [done|]. split; [exact Hlook|].
  intros p Hp. rewrite Hlook, seats_not_in by done.
  destruct (h !! p) as [o'|]; cbn; [by rewrite deliver_0|done].
Qed.

Lemma deliver_add n m command flag data o :
  deliver m command flag data (deliver n command flag data o) =
  deliver (n + m) command flag data o.
Proof.
  destruct o as [[v k [buf|]] id]; unfold deliver; cbn; [|done].
  by rewrite <- app_assoc, replicate_add.
Qed.

(** X15.  A broadcast to every lobby of the server, when no lobby holds an
    XB client with an output buffer, returns normally and gives each client
    one frame for each slot of each lobby that holds it; a client that is in
    no lobby receives nothing. *)
Theorem send_command_s_delivers all_lobbies command flag data (h : gmap nat LobbyClient) :
  (forall l p o, l ∈ all_lobbies -> Some p ∈ clients l -> h !! p = Some o ->
     ~ unsendable o) ->
  let r := send_command_s all_lobbies command flag data h in
  let copies p := sum_list ((fun l => seats None p (clients l)) <$> all_lobbies) in
  r.1 = Ret tt /\
  (forall p, r.2 !! p = deliver (copies p) command flag data <$> h !! p) /\
  (forall p, (forall l, l ∈ all_lobbies -> Some p ∉ clients l) -> r.2 !! p = h !! p).
Proof.
  intros Hok r copies.
  assert (Hrun : exists h' : gmap nat LobbyClient,
            r = (Ret tt, h') /\
            forall p, h' !! p = deliver (copies p) command flag data <$> h !! p).
  { subst r copies. unfold send_command_s. revert h Hok.
    induction all_lobbies as [|l ls IH]; intros h Hok.
    - exists h. split; [done|]. intros p. cbn.
      destruct (h !! p) as [o|]; cbn; [by rewrite deliver_0|done].
    - cbn [for_each].
      destruct (fan_out None command flag data (clients l) h) as (h1 & Hl & Hget1).
      { intros p o Hin _. apply (Hok l); [by left|done]. }
      destruct (IH h1) as (h' & Hls & Hget).
      { intros l' p o1 Hl' Hin. rewrite Hget1.
        destruct (h !! p) as [o|] eqn:Hp; [|done]. cbn. intros [= <-].
        rewrite unsendable_deliver. apply (Hok l' p); [by right|done|done]. }
      exists h'. split.
      { unfold send_command_l at 1, send_command_excluding_client.
        by rewrite (bind_ret_eq _ _ _ _ _ Hl). }
      intros p. rewrite Hget, Hget1. cbn [fmap list_fmap sum_list].
      destruct (h !! p) as [o|]; cbn; [by rewrite deliver_add|done]. }
  destruct Hrun as (h' & -> & Hget). cbn [fst snd].
  split; [done|]. split; [exact Hget|].
  intros p Hp. rewrite Hget.
  assert (E : copies p = 0%nat).
  { subst copies. cbn beta. clear -Hp.
    induction all_lobbies as [|l ls IH]; [done|]. cbn.
    rewrite seats_not_in by (apply Hp; by left).
    rewrite IH; [done|]. intros l' Hl'. apply Hp. by right. }
  rewrite E. destruct (h !! p) as [o|]; cbn; [by rewrite deliver_0|done].
Qed.

(** The loop of [send_player_stats_change], with fuel to spare. *)
Lemma stats_change_subs_amounts id stat fuel : forall amount subs,
  0 <= amount -> (Z.to_nat amount <= fuel)%nat ->
  stats_change_subs fuel id stat amount subs =
    subs ++ flat_map (stats_change_pair id stat) (stats_change_amounts amount).
Proof.
  induction fuel as [|fuel IH]; intros amount subs H0 Hfuel.
  - assert (amount = 0) as -> by lia. cbn. by rewrite app_nil_r.
  - cbn [stats_change_subs]. destruct (Z.ltb_spec 0 amount) as [Hpos|Hz].
    + destruct (Z.ltb_spec 0xFF amount) as [Hbig|Hsmall].
      * rewrite IH by lia. rewrite <- !app_assoc. f_equal.
        unfold stats_change_amounts.
        replace (amount / 255) with ((amount - 255) / 255 + 1)
          by (replace amount with ((amount - 255) + 1 * 255) at 2 by lia;
              by rewrite Z.div_add).
        replace (amount mod 255) with ((amount - 255) mod 255)
          by (replace amount with ((amount - 255) + 1 * 255) at 2 by lia;
              by rewrite Z.mod_add).
        assert (0 <= (amount - 255) / 255) by (apply Z.div_pos; lia).
        rewrite Z2Nat.inj_add by lia.
        rewrite Nat.add_comm. cbn [Z.to_nat Pos.to_nat Pos.iter_op Nat.add replicate app flat_map].
        reflexivity.
      * rewrite IH by lia. rewrite <- !app_assoc. f_equal.
        replace (amount - amount) with 0 by lia.
        unfold stats_change_amounts.
        destruct (Z.eq_dec amount 255) as [->|Hne]; [reflexivity|].
        rewrite (Z.div_small amount 255), (Z.mod_small amount 255) by lia.
        destruct (Z.eqb_spec amount 0); [lia|]. reflexivity.
    + assert (amount = 0) as -> by lia. cbn. by rewrite app_nil_r.
Qed.

Lemma sum_stats_change_amounts amount :
  0 <= amount -> foldr Z.add 0 (stats_change_amounts amount) = amount.
Proof.
  intros H0. unfold stats_change_amounts.
  rewrite foldr_app.
  assert (Hrep : forall n acc, foldr Z.add acc (replicate n 255) = 255 * Z.of_nat n + acc).
  { induction n as [|n IH]; intros acc; [cbn; lia|].
    cbn [replicate foldr]. rewrite IH. lia. }
  rewrite Hrep, Z2Nat.id by (apply Z.div_pos; lia).
  pose proof (Z.div_mod amount 255 ltac:(lia)).
  destruct (Z.eqb_spec (amount mod 255) 0); cbn [foldr]; lia.
Qed.

(** X16.  [send_player_stats_change] refuses an amount above 2550 with
    [invalid_argument] before anything is sent.  Otherwise it broadcasts to
    the lobby one command 60 whose payload is a pair of subcommands for each
    of the amounts [stats_change_amounts], eight bytes a pair: as many 255s
    as fit and then the remainder, so that the amounts are all between 1 and
    255, add up to [amount], and number at most ten; for the amount 0 the
    command is still sent, with no payload. *)
Theorem send_player_stats_change_amounts l c stat amount (h : gmap nat LobbyClient) :
  let amounts := stats_change_amounts amount in
  (2550 < amount ->
     send_player_stats_change l c stat amount h =
       (Throw (invalid_argument "amount cannot be larger than 2550"), h)) /\
  (0 <= amount <= 2550 ->
     send_player_stats_change l c stat amount h =
       send_command_l l 0x60 0x00
         (flat_map (stats_change_pair (lobby_client_id c) stat) amounts) h /\
     foldr Z.add 0 amounts = amount /\
     Forall (fun n => 1 <= n <= 255) amounts /\
     (length amounts <= 10)%nat /\
     length (flat_map (stats_change_pair (lobby_client_id c) stat) amounts) =
       (8 * length amounts)%nat /\
     (amount = 0 -> amounts = [])).
Proof.
  intros amounts. unfold send_player_stats_change. split.
  - intros Hbig. by rewrite (proj2 (Z.ltb_lt _ _) Hbig).
  - intros [H0 Hmax]. rewrite (proj2 (Z.ltb_ge _ _) Hmax).
    rewrite stats_change_subs_amounts by lia. cbn [app].
    split; [done|]. split; [by apply sum_stats_change_amounts|].
    pose proof (Z.mod_pos_bound amount 255 ltac:(lia)) as Hmod.
    assert (Hdiv : 0 <= amount / 255 <= 10).
    { split; [apply Z.div_pos; lia|]. apply Z.div_le_upper_bound; lia. }
    split; [|split; [|split]].
    + subst amounts. unfold stats_change_amounts. apply Forall_app. split.
      * apply Forall_replicate. lia.
      * destruct (Z.eqb_spec (amount mod 255) 0); [done|].
        apply Forall_singleton. lia.
    + subst amounts. unfold stats_change_amounts.
      rewrite length_app, length_replicate.
      destruct (Z.eqb_spec (amount mod 255) 0) as [E|E]; cbn [length]; [lia|].
      assert (amount / 255 <> 10); [|lia].
      intros E10. pose proof (Z.div_mod amount 255 ltac:(lia)). lia.
    + generalize amounts. intros xs. induction xs as [|x xs IH]; [done|].
      cbn [flat_map length stats_change_pair app]. rewrite IH. lia.
    + intros ->. reflexivity.
Qed.

Variable send_text_message : Channel -> list Z -> Channel.

(** X17.  What [send_player_leave_notification] broadcasts is what the
    proxy's handler of 66 and 69 expects: the payload has the four bytes of
    the leave record, so the handler never rejects it, and a proxy that
    receives it clears the slot of the client that left in its mirror of
    the lobby (if the mirror has that slot) and records the lobby's leader
    as the leader. *)
Theorem send_player_leave_notification_mirrored l leaving_client_id s command flag ss
    (h : gmap nat LobbyClient) :
  0 <= leaving_client_id < 256 ->
  let cmd := encode_S_LeaveLobby_66_69_Ep3_E9 leaving_client_id (leader_id l) 0 in
  let index := Z.to_nat leaving_client_id in
  let mirror := lobby_players ss in
  let r := process_server_66_69 send_text_message s command flag
             {| hs_session := ss; hs_data := cmd |} in
  send_player_leave_notification l leaving_client_id h =
    send_command_l l (if is_game l then 0x66 else 0x69) leaving_client_id cmd h /\
  length cmd = 4%nat /\
  r.1 = Ret (HandlerResult.of_type FORWARD) /\
  hs_data r.2 = cmd /\
  lobby_players (hs_session r.2) =
    (if (length mirror <=? index)%nat then mirror
     else <[index := empty_LobbyPlayer]> mirror) /\
  leader_client_id (hs_session r.2) = leader_id l mod 256.
Proof.
  intros Hid cmd index mirror r.
  assert (Hcmd : cmd = [leaving_client_id; leader_id l mod 256; 0; 0]).
  { subst cmd. unfold encode_S_LeaveLobby_66_69_Ep3_E9. cbn.
    by rewrite (Z.mod_small leaving_client_id 256). }
  split; [done|]. split; [by rewrite Hcmd|].
  destruct (process_server_66_69_run send_text_message s command flag ss cmd
              ltac:(by rewrite Hcmd)) as (ss' & Hr & Hpl & Hlead & _).
  subst r. rewrite Hr. cbn [fst snd hs_session hs_data].
  split; [done|]. split; [done|]. split.
  - rewrite Hpl. subst index mirror. rewrite Hcmd.
    replace (get_u8 S_LeaveLobby_client_id
               [leaving_client_id; leader_id l mod 256; 0; 0]) with leaving_client_id
      by (unfold get_u8, load, S_LeaveLobby_client_id; cbn [drop take le_decode]; lia).
    done.
  - rewrite Hlead, Hcmd.
    unfold get_u8, load, S_LeaveLobby_leader_id. cbn [drop take le_decode]. lia.
Qed.

End LobbySendFacts.

(** * Sending files *)

Section FileSendFacts.

Import SendCommands FileSend.

Variable ptext_assign : nat -> bytes -> bytes.
Variable uninitialized_open : OpenFileLayout -> bytes.
Variable uninitialized_write : bytes.
Variable S_OpenFile_PC_GC_44_A6 : OpenFileLayout.
Variable S_OpenFile_BB_44_A6 : OpenFileLayout.
Variable S_WriteFile_13_A7 : WriteFileLayout.

(** The write command of chunk [k]. *)
Let write_command (basename contents : bytes) (is_download_quest : bool) (k : nat)
    : Z * Z * bytes :=
  (if is_download_quest then 0xA7 else 0x13, Z.of_nat k,
   write_file_cmd ptext_assign uninitialized_write S_WriteFile_13_A7 basename
     (quest_chunk contents k)).

Lemma chunk_count_bound contents k :
  (k * 0x400 < length contents)%nat <-> (k < quest_chunk_count contents)%nat.
Proof.
  unfold quest_chunk_count.
  pose proof (Nat.div_mod_eq (length contents + 0x3FF) 0x400) as E.
  pose proof (Nat.mod_upper_bound (length contents + 0x3FF) 0x400 ltac:(lia)) as B.
  lia.
Qed.

(** The loop of [send_quest_file] from chunk [k] on, with fuel to spare. *)
Lemma send_quest_file_chunks_from basename contents is_download_quest fuel : forall k c,
  (length contents <= fuel + k * 0x400)%nat ->
  send_quest_file_chunks ptext_assign uninitialized_write fuel S_WriteFile_13_A7 basename
    contents is_download_quest (k * 0x400) c =
  LobbySend.for_each
    (write_command basename contents is_download_quest <$>
       seq k (quest_chunk_count contents - k)) send_args c.
Proof.
  induction fuel as [|fuel IH]; intros k c Hfuel.
  - assert (Hk : ~ (k < quest_chunk_count contents)%nat)
      by (rewrite <- chunk_count_bound; lia).
    replace (quest_chunk_count contents - k)%nat with 0%nat by lia. reflexivity.
  - cbn [send_quest_file_chunks].
    destruct (Nat.ltb_spec (k * 0x400) (length contents)) as [Hin|Hout].
    + assert (Hk : (k < quest_chunk_count contents)%nat) by by apply chunk_count_bound.
      replace (quest_chunk_count contents - k)%nat with (S (quest_chunk_count contents - S k)) by lia.
      cbn [seq fmap list_fmap LobbySend.for_each].
      assert (Hchunk :
        take (if (0x400 <? length contents - k * 0x400)%nat then 0x400%nat
              else (length contents - k * 0x400)%nat) (drop (k * 0x400) contents) =
        quest_chunk contents k).
      { unfold quest_chunk.
        destruct (Nat.ltb_spec 0x400 (length contents - k * 0x400)) as [Hbig|Hsmall];
          [done|].
        rewrite !take_ge by (rewrite length_drop; lia). done. }
      rewrite Hchunk.
      assert (Hindex : (k * 0x400 / 0x400 = k)%nat) by (apply Nat.div_mul; lia).
      rewrite Hindex.
      assert (Hsize : (0x400 <? length (quest_chunk contents k))%nat = false).
      { apply Nat.ltb_ge. unfold quest_chunk. rewrite length_take. lia. }
      unfold send_quest_file_chunk at 1. rewrite Hsize.
      unfold bind.
      change (send_args (write_command basename contents is_download_quest k) c)
        with (send_command_c (if is_download_quest then 0xA7 else 0x13) (Z.of_nat k)
                (write_file_cmd ptext_assign uninitialized_write S_WriteFile_13_A7 basename
                   (quest_chunk contents k)) c).
      destruct (send_command_c _ _ _ c) as [[[]|e] c']; [|done].
      replace (k * 0x400 + 0x400)%nat with (S k * 0x400)%nat by lia.
      apply IH. lia.
    + assert (Hk : ~ (k < quest_chunk_count contents)%nat)
        by (rewrite <- chunk_count_bound; lia).
      replace (quest_chunk_count contents - k)%nat with 0%nat by lia. reflexivity.
Qed.

(** The chunks put together are the file. *)
Lemma chunks_concat contents : forall n k,
  (length contents <= (k + n) * 0x400)%nat ->
  concat (quest_chunk contents <$> seq k n) = drop (k * 0x400) contents.
Proof.
  induction n as [|n IH]; intros k Hlen.
  - cbn. rewrite drop_ge by lia. done.
  - cbn [seq fmap list_fmap concat]. rewrite IH by lia.
    unfold quest_chunk.
    replace (S k * 0x400)%nat with (k * 0x400 + 0x400)%nat by lia.
    rewrite <- drop_drop. apply take_drop.
Qed.

Lemma length_quest_chunk contents k :
  length (quest_chunk contents k) = Nat.min 0x400 (length contents - k * 0x400).
Proof. unfold quest_chunk. by rewrite length_take, length_drop. Qed.

(** X18.  [send_quest_file] sends a PC, GC or BB client the open command
    (44, or A6 for a download quest, flag 0) with the record of the client's
    version, and then one write command (13, or A7) for each [0x400] bytes of
    the file or part of them, in order, with the chunk's number in the flag.
    No chunk is empty, all but the last are full, and the chunks put together
    are the file; an empty file gets the open command alone.  For any other
    version it throws [invalid_argument] and sends nothing. *)
Theorem send_quest_file_commands (basename contents : bytes)
    (is_download_quest is_ep3_quest : bool) (c : Client) :
  let n := quest_chunk_count contents in
  let open_command (L : OpenFileLayout) : Z * Z * bytes :=
    (if is_download_quest then 0xA6 else 0x44, 0,
     open_file_cmd ptext_assign uninitialized_open L basename
       (Z.of_nat (length contents)) is_ep3_quest) in
  let write_commands := write_command basename contents is_download_quest <$> seq 0 n in
  let r := send_quest_file ptext_assign uninitialized_open uninitialized_write
             S_OpenFile_PC_GC_44_A6 S_OpenFile_BB_44_A6 S_WriteFile_13_A7
             basename contents is_download_quest is_ep3_quest c in
  (version c = PC \/ version c = GC ->
     r = LobbySend.for_each (open_command S_OpenFile_PC_GC_44_A6 :: write_commands)
           send_args c) /\
  (version c = BB ->
     r = LobbySend.for_each (open_command S_OpenFile_BB_44_A6 :: write_commands)
           send_args c) /\
  (version c = DC \/ version c = PATCH \/ version c = XB ->
     r = (Throw (invalid_argument "cannot send quest files to this version of client"), c)) /\
  concat (quest_chunk contents <$> seq 0 n) = contents /\
  (forall k, (k < n)%nat ->
     (0 < length (quest_chunk contents k) <= 0x400)%nat /\
     ((S k < n)%nat -> length (quest_chunk contents k) = 0x400%nat)) /\
  (contents = [] -> write_commands = []).
Proof.
  intros n open_command write_commands r.
  assert (Hloop : forall c',
    send_quest_file_chunks ptext_assign uninitialized_write (length contents)
      S_WriteFile_13_A7 basename contents is_download_quest 0 c' =
    LobbySend.for_each write_commands send_args c').
  { intros c'. subst write_commands n.
    rewrite <- (Nat.sub_0_r (quest_chunk_count contents)).
    apply (send_quest_file_chunks_from basename contents is_download_quest
             (length contents) 0 c'). lia. }
  assert (Hopen : forall L,
    (send_quest_open_file_t ptext_assign uninitialized_open L basename
       (Z.of_nat (length contents)) is_download_quest is_ep3_quest ;;
     send_quest_file_chunks ptext_assign uninitialized_write (length contents)
       S_WriteFile_13_A7 basename contents is_download_quest 0) c =
    LobbySend.for_each (open_command L :: write_commands) send_args c).
  { intros L. cbn [LobbySend.for_each]. unfold bind.
    change (send_args (open_command L) c)
      with (send_quest_open_file_t ptext_assign uninitialized_open L basename
              (Z.of_nat (length contents)) is_download_quest is_ep3_quest c).
    destruct (send_quest_open_file_t _ _ _ _ _ _ _ c) as [[[]|e] c']; [apply Hloop|done]. }
  split; [|split; [|split; [|split; [|split]]]].
  - intros Hv. subst r. unfold send_quest_file. unfold bind at 1, get at 1.
    destruct Hv as [-> | ->]; apply Hopen.
  - intros Hv. subst r. unfold send_quest_file. unfold bind at 1, get at 1.
    rewrite Hv. apply Hopen.
  - intros Hv. subst r. unfold send_quest_file. unfold bind at 1, get at 1.
    destruct Hv as [-> | [-> | ->]]; reflexivity.
  - subst n. rewrite chunks_concat; [done|].
    unfold quest_chunk_count.
    pose proof (Nat.div_mod_eq (length contents + 0x3FF) 0x400) as E.
    pose proof (Nat.mod_upper_bound (length contents + 0x3FF) 0x400 ltac:(lia)) as B.
    lia.
  - intros k Hk. rewrite length_quest_chunk.
    pose proof (proj2 (chunk_count_bound contents k) Hk) as Hin.
    split; [lia|]. intros Hnext.
    pose proof (proj2 (chunk_count_bound contents (S k)) Hnext). lia.
  - intros ->. reflexivity.
Qed.

End FileSendFacts.

(** * Saving files in the proxy *)

(** ** Copies into a buffer *)



Lemma lookup_memcpy_at_inside off (src buf : list Z) p :
  (off + length src <= length buf)%nat -> (off <= p < off + length src)%nat ->
  (SendCommands.memcpy_at off src buf : list Z) !! p = src !! (p - off)%nat.
Proof.
  intros Hlen Hp. unfold SendCommands.memcpy_at.
  rewrite lookup_app_r by (rewrite length_take; lia).
  rewrite length_take, lookup_app_l by lia.
  f_equal. lia.
Qed.





(** ** File names *)

Lemma sanitize_filename_safe name :
  name <> [] ->
  safe_filename (sanitize_filename name) /\
  length (sanitize_filename name) = length name.
Proof.
  intros Hne. unfold sanitize_filename.
  set (replace := fun ch => if (ch <? 0x20) || (0x7E <? ch) || (ch =? 0x2F) then 0x5F else ch).
  assert (Hall : Forall (fun ch => 0x20 <= ch <= 0x7E /\ ch <> 0x2F) (replace <$> name)).
  { apply Forall_fmap, Forall_forall. intros ch _. unfold replace. cbn.
    destruct (Z.ltb_spec ch 0x20); cbn; [lia|].
    destruct (Z.ltb_spec 0x7E ch); cbn; [lia|].
    destruct (Z.eqb_spec ch 0x2F); lia. }
  destruct name as [|ch name]; [done|]. cbn [fmap list_fmap] in *.
  inversion Hall as [|? ? Hhead Hrest]; subst.
  destruct (Z.eqb_spec (replace ch) 0x2E) as [E|E].
  - split; [|by rewrite !length_cons, length_fmap].
    split; [|split; [done|cbn; intros [=]]].
    constructor; [lia|done].
  - split; [|by rewrite !length_cons, length_fmap].
    split; [done|]. split; [done|]. cbn. intros [= ?]. done.
Qed.

(** ** The handlers *)

Section SavingFacts.

Import FileSend.

Variable now : Z.
Variable decimal : Z -> bytes.
Variable S_OpenFile_PC_V3_44_A6 : OpenFileLayout.
Variable S_WriteFile_13_A7 : WriteFileLayout.

Ltac run_saving :=
  unfold bind, ret, throw, get, modify, when, on_session, saving_files_emplace,
    saving_files_update, saving_files_erase, save_file, set_payload,
    write_log, modify_session, set_data, get_data, get_session; cbn.

Lemma on_session_check_size_t_ok min_size max_size st :
  min_size <= Z.of_nat (length (hs_data (sv_state st))) <= max_size ->
  on_session (check_size_t min_size max_size) st = (Ret tt, st).
Proof.
  intros H. unfold on_session. rewrite check_size_t_ok by done. by destruct st.
Qed.

Lemma on_session_check_size_t_bad min_size max_size st :
  ~ (min_size <= Z.of_nat (length (hs_data (sv_state st))) <= max_size) ->
  exists e, on_session (check_size_t min_size max_size) st = (Throw e, st).
Proof.
  intros H. unfold on_session.
  destruct (Z.lt_ge_cases (Z.of_nat (length (hs_data (sv_state st)))) min_size) as [Hs|Hl].
  - rewrite check_size_t_small by done. eexists. by destruct st.
  - rewrite check_size_t_large by lia. eexists. by destruct st.
Qed.

(** What [process_server_44_A6] does with an open record. *)
Lemma process_server_44_A6_run s command flag ss (d : list Z) files closed saved :
  let L := S_OpenFile_PC_V3_44_A6 in
  let filename := c_str (field_bytes (offsetof_filename L) (sizeof_filename L) d) in
  let sf := {| basename := filename;
               output_filename :=
                 sanitize_filename
                   (filename ++ ascii_bytes "." ++
                    ascii_bytes (if command =? 0xA6 then "download" else "online") ++
                    ascii_bytes "." ++ decimal now);
               remaining_bytes := get_u32l (offsetof_file_size L) d;
               f := [] |} in
  length d = sizeof_S_OpenFile L ->
  exists ss',
    process_server_44_A6 now decimal L s command flag
      {| sv_state := {| hs_session := ss; hs_data := d |}; save_files := true;
         saving_files := files; closed_files := closed; saved_files := saved |} =
    (Ret (HandlerResult.of_type FORWARD),
     {| sv_state := {| hs_session := ss'; hs_data := d |}; save_files := true;
        saving_files := match files !! filename with
                        | None => <[filename := sf]> files
                        | Some _ => files
                        end;
        closed_files := match files !! filename with
                        | None => closed
                        | Some _ => closed ++ [sf]
                        end;
        saved_files := saved |}).
Proof.
  intros L filename sf Hlen.
  assert (H1 : (Z.of_nat (length d) <? Z.of_nat (sizeof_S_OpenFile L)) = false)
    by (apply Z.ltb_ge; lia).
  assert (H2 : (Z.of_nat (sizeof_S_OpenFile L) <? Z.of_nat (length d)) = false)
    by (apply Z.ltb_ge; lia).
  unfold process_server_44_A6, check_size_t. run_saving. fold L.
  rewrite H1, H2. cbn. fold L filename. fold sf.
  destruct (files !! filename); eexists; reflexivity.
Qed.

(** X19.  [process_server_44_A6] forwards every command.  With [save_files]
    off it does nothing else.  With [save_files] on it accepts exactly the
    payloads of the size of [S_OpenFile_PC_V3_44_A6], whichever record the
    table entry names, and rejects any other with nothing changed.  For a
    name that is not being saved it opens a file that expects [file_size]
    bytes; for a name that is being saved it leaves the open file as it is,
    with the bytes it still expects and the bytes written to it, and the new
    file is closed empty.  The name of the file it creates consists of
    printable ASCII characters other than [/] and does not start with a
    dot, whatever name the command carries. *)
Theorem process_server_44_A6_opens s command flag st :
  let L := S_OpenFile_PC_V3_44_A6 in
  let d := hs_data (sv_state st) in
  let filename := c_str (field_bytes (offsetof_filename L) (sizeof_filename L) d) in
  let sf := {| basename := filename;
               output_filename :=
                 sanitize_filename
                   (filename ++ ascii_bytes "." ++
                    ascii_bytes (if command =? 0xA6 then "download" else "online") ++
                    ascii_bytes "." ++ decimal now);
               remaining_bytes := get_u32l (offsetof_file_size L) d;
               f := [] |} in
  let r := process_server_44_A6 now decimal L s command flag st in
  (save_files st = false -> r = (Ret (HandlerResult.of_type FORWARD), st)) /\
  (save_files st = true -> length d <> sizeof_S_OpenFile L ->
     exists e, r = (Throw e, st)) /\
  (save_files st = true -> length d = sizeof_S_OpenFile L ->
     r.1 = Ret (HandlerResult.of_type FORWARD) /\
     save_files r.2 = true /\
     saved_files r.2 = saved_files st /\
     hs_data (sv_state r.2) = d /\
     safe_filename (output_filename sf) /\
     (saving_files st !! filename = None ->
        saving_files r.2 = <[filename := sf]> (saving_files st) /\
        closed_files r.2 = closed_files st) /\
     (forall open, saving_files st !! filename = Some open ->
        saving_files r.2 = saving_files st /\
        closed_files r.2 = closed_files st ++ [sf])).
Proof.
  destruct st as [[ss d] sv files closed saved].
  cbv zeta. cbn [sv_state hs_data save_files saving_files closed_files saved_files].
  set (L := S_OpenFile_PC_V3_44_A6).
  set (filename := c_str (field_bytes (offsetof_filename L) (sizeof_filename L) d)).
  split; [|split].
  - intros ->. reflexivity.
  - intros -> Hlen. unfold process_server_44_A6. unfold bind at 1, get at 1. cbv beta.
    cbn [save_files when].
    destruct (on_session_check_size_t_bad (Z.of_nat (sizeof_S_OpenFile L))
                (Z.of_nat (sizeof_S_OpenFile L))
                {| sv_state := {| hs_session := ss; hs_data := d |}; save_files := true;
                   saving_files := files; closed_files := closed; saved_files := saved |}
                ltac:(cbn; lia)) as [e He].
    exists e. fold L. unfold bind at 1.
    by rewrite (bind_throw_eq _ _ _ _ _ He).
  - intros -> Hlen.
    destruct (process_server_44_A6_run s command flag ss d files closed saved Hlen)
      as (ss' & Hrun).
    cbv zeta in Hrun. fold L filename in Hrun. rewrite Hrun.
    cbn [fst snd save_files saved_files sv_state hs_data saving_files closed_files
         output_filename].
    split; [done|]. split; [done|]. split; [done|]. split; [done|]. split.
    { apply sanitize_filename_safe. intros E. apply app_eq_nil in E as [_ E].
      discriminate E. }
    split.
    + intros ->. done.
    + intros open ->. done.
Qed.

(** What [process_server_13_A7] does with a write record for an open file. *)
Lemma process_server_13_A7_run s command flag ss (d : list Z) files closed saved sf :
  let L := S_WriteFile_13_A7 in
  let filename :=
    c_str (field_bytes (offsetof_write_filename L) (sizeof_write_filename L) d) in
  let size := get_u32l (offsetof_data_size L) d in
  let n := if 0x400 <? size then 0x400 else size in
  let remaining := if remaining_bytes sf <? n then 0 else remaining_bytes sf - n in
  let sf' := {| basename := basename sf; output_filename := output_filename sf;
                remaining_bytes := remaining;
                f := f sf ++ take (Z.to_nat n) (field_bytes (offsetof_data L) 0x400 d) |} in
  length d = sizeof_S_WriteFile_13_A7 L ->
  files !! filename = Some sf ->
  exists ss',
    process_server_13_A7 L s command flag
      {| sv_state := {| hs_session := ss; hs_data := d |}; save_files := true;
         saving_files := files; closed_files := closed; saved_files := saved |} =
    (Ret (HandlerResult.of_type FORWARD),
     {| sv_state := {| hs_session := ss'; hs_data := d |}; save_files := true;
        saving_files := if remaining =? 0 then delete filename (<[filename := sf']> files)
                        else <[filename := sf']> files;
        closed_files := if remaining =? 0 then closed ++ [sf'] else closed;
        saved_files := saved |}).
Proof.
  intros L filename size n remaining sf' Hlen Hfile.
  assert (H1 : (Z.of_nat (length d) <? Z.of_nat (sizeof_S_WriteFile_13_A7 L)) = false)
    by (apply Z.ltb_ge; lia).
  assert (H2 : (Z.of_nat (sizeof_S_WriteFile_13_A7 L) <? Z.of_nat (length d)) = false)
    by (apply Z.ltb_ge; lia).
  unfold process_server_13_A7, check_size_t. run_saving. fold L.
  rewrite H1, H2. cbn. fold L filename. rewrite Hfile. fold size.
  subst sf' remaining n.
  destruct (0x400 <? size); cbn;
    destruct (remaining_bytes sf <? _); cbn;
    try destruct (remaining_bytes sf - _ =? 0); cbn;
    rewrite ?lookup_insert_eq; eexists; reflexivity.
Qed.

(** X20.  [process_server_13_A7] forwards every command.  With [save_files]
    off it does nothing else, whatever the payload.  With [save_files] on it
    rejects a payload that is not a write record (nothing changes); data for
    a file that is not open changes no file; and data for an open file
    appends at most [0x400] bytes to that file's stream, whatever size the
    record claims, takes them off the bytes the file still expects without
    going below zero, and closes the file exactly when nothing more is
    expected.  No other open file and no saved file is touched. *)
Theorem process_server_13_A7_chunk s command flag st :
  let L := S_WriteFile_13_A7 in
  let d := hs_data (sv_state st) in
  let filename :=
    c_str (field_bytes (offsetof_write_filename L) (sizeof_write_filename L) d) in
  let r := process_server_13_A7 L s command flag st in
  (save_files st = false -> r = (Ret (HandlerResult.of_type FORWARD), st)) /\
  (save_files st = true -> length d <> sizeof_S_WriteFile_13_A7 L ->
     (exists e, r = (Throw e, st))) /\
  (save_files st = true -> length d = sizeof_S_WriteFile_13_A7 L ->
     r.1 = Ret (HandlerResult.of_type FORWARD) /\
     save_files r.2 = true /\
     saved_files r.2 = saved_files st /\
     hs_data (sv_state r.2) = d /\
     (forall other, other <> filename ->
        saving_files r.2 !! other = saving_files st !! other) /\
     match saving_files st !! filename with
     | None => saving_files r.2 = saving_files st /\ closed_files r.2 = closed_files st
     | Some sf =>
         let n := Z.min 0x400 (get_u32l (offsetof_data_size L) d) in
         let sf' := {| basename := basename sf; output_filename := output_filename sf;
                       remaining_bytes := Z.max 0 (remaining_bytes sf - n);
                       f := f sf ++ take (Z.to_nat n)
                                     (field_bytes (offsetof_data L) 0x400 d) |} in
         (length (f sf') <= length (f sf) + 0x400)%nat /\
         if remaining_bytes sf' =? 0
         then saving_files r.2 !! filename = None /\
              closed_files r.2 = closed_files st ++ [sf']
         else saving_files r.2 !! filename = Some sf' /\
              closed_files r.2 = closed_files st
     end).
Proof.
  destruct st as [[ss d] sv files closed saved].
  cbv zeta. cbn [sv_state hs_data save_files saving_files closed_files saved_files].
  set (L := S_WriteFile_13_A7).
  set (filename := c_str (field_bytes (offsetof_write_filename L)
                            (sizeof_write_filename L) d)).
  split; [|split].
  - intros ->. reflexivity.
  - intros -> Hlen. unfold process_server_13_A7. unfold bind at 1, get at 1. cbv beta.
    cbn [save_files].
    destruct (on_session_check_size_t_bad (Z.of_nat (sizeof_S_WriteFile_13_A7 L))
                (Z.of_nat (sizeof_S_WriteFile_13_A7 L))
                {| sv_state := {| hs_session := ss; hs_data := d |}; save_files := true;
                   saving_files := files; closed_files := closed; saved_files := saved |}
                ltac:(cbn; lia)) as [e He].
    exists e. fold L. by rewrite (bind_throw_eq _ _ _ _ _ He).
  - intros -> Hlen.
    destruct (files !! filename) as [sf|] eqn:Hfile.
    + destruct (process_server_13_A7_run s command flag ss d files closed saved sf
                  Hlen Hfile) as (ss' & Hrun).
      cbv zeta in Hrun. fold L filename in Hrun.
      set (size := get_u32l (offsetof_data_size L) d) in *.
      assert (Hn : (if 0x400 <? size then 0x400 else size) = Z.min 0x400 size)
        by (destruct (Z.ltb_spec 0x400 size); lia).
      rewrite Hn in Hrun.
      assert (Hrem : (if remaining_bytes sf <? Z.min 0x400 size then 0
                      else remaining_bytes sf - Z.min 0x400 size) =
                     Z.max 0 (remaining_bytes sf - Z.min 0x400 size))
        by (destruct (Z.ltb_spec (remaining_bytes sf) (Z.min 0x400 size)); lia).
      rewrite Hrem in Hrun. rewrite Hrun.
      cbn [fst snd save_files saved_files sv_state hs_data saving_files closed_files
           remaining_bytes f].
      split; [done|]. split; [done|]. split; [done|]. split; [done|]. split.
      { intros other Hother.
        destruct (_ =? 0); [rewrite lookup_delete_ne by done|];
          by rewrite lookup_insert_ne. }
      split.
      { rewrite length_app, length_take. unfold field_bytes. rewrite length_take. lia. }
      destruct (_ =? 0).
      * by rewrite lookup_delete_eq.
      * by rewrite lookup_insert_eq.
    + assert (H1 : (Z.of_nat (length d) <? Z.of_nat (sizeof_S_WriteFile_13_A7 L)) = false)
        by (apply Z.ltb_ge; lia).
      assert (H2 : (Z.of_nat (sizeof_S_WriteFile_13_A7 L) <? Z.of_nat (length d)) = false)
        by (apply Z.ltb_ge; lia).
      assert (Hrun : exists ss',
        process_server_13_A7 L s command flag
          {| sv_state := {| hs_session := ss; hs_data := d |}; save_files := true;
             saving_files := files; closed_files := closed; saved_files := saved |} =
        (Ret (HandlerResult.of_type FORWARD),
         {| sv_state := {| hs_session := ss'; hs_data := d |}; save_files := true;
            saving_files := files; closed_files := closed; saved_files := saved |})).
      { unfold process_server_13_A7, check_size_t. run_saving. fold L.
        rewrite H1, H2. cbn. fold L filename. rewrite Hfile. cbn. eexists; reflexivity. }
      destruct Hrun as (ss' & ->). cbn. done.
Qed.

(** ** A quest file from a server through the proxy *)

Variable ptext_assign : nat -> bytes -> bytes.
Variable uninitialized_open : OpenFileLayout -> bytes.
Variable uninitialized_write : bytes.











(** ** The card list (command B8) *)

(** X22.  [process_server_gc_B8] forwards every command, and saves a file
    only when [save_files] is set, the payload has its four bytes of size
    and at least as many bytes after them as the size says: the file then
    holds exactly that many bytes, and surplus bytes at the end are ignored.
    So what [send_ep3_card_list_update] sends (the length of the card file,
    then the file) is saved by a proxy as the card file itself, padding or
    not; and [send_ep3_card_list_update] sends nothing when the card file
    cannot be opened. *)
Theorem card_list_round_trip (file_cache : gmap bytes bytes) (file_data extra : bytes)
    s command flag c st :
  let path := ascii_bytes "system/ep3/cardupdate.mnr" in
  let w := le_encode 4 (Z.of_nat (length file_data)) ++ file_data in
  let d := hs_data (sv_state st) in
  let r := process_server_gc_B8 now decimal s command flag st in
  let output_filename := ascii_bytes "cardupdate." ++ decimal now ++ ascii_bytes ".mnr" in
  (file_cache !! path = Some file_data ->
     send_ep3_card_list_update file_cache c = SendCommands.send_command_c 0xB8 0x00 w c) /\
  (file_cache !! path = None ->
     send_ep3_card_list_update file_cache c = (Throw (runtime_error "cannot open file"), c)) /\
  r.1 = Ret (HandlerResult.of_type FORWARD) /\
  save_files r.2 = save_files st /\
  saving_files r.2 = saving_files st /\
  closed_files r.2 = closed_files st /\
  hs_data (sv_state r.2) = d /\
  (save_files st = false \/ (length d < 4)%nat \/
   Z.of_nat (length d - 4) < get_u32l 0 d ->
     saved_files r.2 = saved_files st) /\
  (save_files st = true -> (4 <= length d)%nat ->
   get_u32l 0 d <= Z.of_nat (length d - 4) ->
     saved_files r.2 =
       saved_files st ++ [(output_filename, take (Z.to_nat (get_u32l 0 d)) (drop 4 d))]) /\
  (save_files st = true -> d = w ++ extra -> Z.of_nat (length file_data) < 2 ^ 32 ->
     saved_files r.2 = saved_files st ++ [(output_filename, file_data)]).
Proof.
  intros path w d r output_filename.
  assert (Hgeneral :
    r.1 = Ret (HandlerResult.of_type FORWARD) /\
    save_files r.2 = save_files st /\
    saving_files r.2 = saving_files st /\
    closed_files r.2 = closed_files st /\
    hs_data (sv_state r.2) = d /\
    (save_files st = false \/ (length d < 4)%nat \/
     Z.of_nat (length d - 4) < get_u32l 0 d ->
       saved_files r.2 = saved_files st) /\
    (save_files st = true -> (4 <= length d)%nat ->
     get_u32l 0 d <= Z.of_nat (length d - 4) ->
       saved_files r.2 =
         saved_files st ++ [(output_filename, take (Z.to_nat (get_u32l 0 d)) (drop 4 d))])).
  { subst r d output_filename. destruct st as [[ss d] sv files closed saved].
    cbn [save_files sv_state hs_data saving_files closed_files saved_files].
    assert (Hrun : exists ss',
      process_server_gc_B8 now decimal s command flag
        {| sv_state := {| hs_session := ss; hs_data := d |}; save_files := sv;
           saving_files := files; closed_files := closed; saved_files := saved |} =
      (Ret (HandlerResult.of_type FORWARD),
       {| sv_state := {| hs_session := ss'; hs_data := d |}; save_files := sv;
          saving_files := files; closed_files := closed;
          saved_files :=
            if sv && negb (length d <? 4)%nat &&
               negb (Z.of_nat (length d - 4) <? get_u32l 0 d)
            then saved ++ [(ascii_bytes "cardupdate." ++ decimal now ++ ascii_bytes ".mnr",
                            take (Z.to_nat (get_u32l 0 d)) (drop 4 d))]
            else saved |})).
    { unfold process_server_gc_B8, bind, ret, get, modify, on_session, save_file, write_log,
        modify_session, get_data.
      cbn [save_files].
      destruct sv; [|eexists; reflexivity].
      cbn [sv_state hs_data fst snd].
      destruct (length d <? 4)%nat; [eexists; reflexivity|].
      destruct (Z.of_nat (length d - 4) <? get_u32l 0 d); eexists; reflexivity. }
    destruct Hrun as (ss' & ->).
    cbn [fst snd save_files sv_state hs_data saving_files closed_files saved_files].
    split; [done|]. split; [done|]. split; [done|]. split; [done|]. split; [done|].
    destruct sv; cbn [andb]; [|split; [done|intros [=]]].
    destruct (Nat.ltb_spec (length d) 4) as [Hshort|Hlong]; cbn [andb negb];
      [split; [done|intros; lia]|].
    destruct (Z.ltb_spec (Z.of_nat (length d - 4)) (get_u32l 0 d)) as [Hover|Hfits];
      cbn [negb]; [split; [done|intros; lia]|].
    split; [|done]. intros [?|[?|?]]; [done|lia|lia]. }
  destruct Hgeneral as (Hret & Hsave & Hfiles & Hclosed & Hdata & Hnone & Hsaved).
  split; [|split].
  - intros Hfile. subst path.
    unfold send_ep3_card_list_update, SendCommands.file_cache_get.
    rewrite Hfile. reflexivity.
  - intros Hfile. subst path.
    unfold send_ep3_card_list_update, SendCommands.file_cache_get.
    rewrite Hfile. reflexivity.
  - split; [done|]. split; [done|]. split; [done|]. split; [done|]. split; [done|].
    split; [done|]. split; [done|].
    intros Hon Hd Hsize.
    assert (Hlen : length d = (4 + length file_data + length extra)%nat).
    { rewrite Hd. subst w. rewrite !length_app, length_le_encode. lia. }
    assert (Hget : get_u32l 0 d = Z.of_nat (length file_data)).
    { rewrite Hd. subst w. unfold get_u32l. rewrite <- app_assoc.
      rewrite load_app_l by (rewrite length_le_encode; lia).
      unfold load. rewrite drop_0, take_ge by (rewrite length_le_encode; lia).
      rewrite le_decode_encode. apply Z.mod_small.
      change (256 ^ Z.of_nat 4) with 4294967296. lia. }
    rewrite Hsaved by (done || lia). rewrite Hget, Nat2Z.id. do 3 f_equal.
    rewrite Hd. subst w. rewrite <- app_assoc.
    rewrite drop_app_length' by (by rewrite length_le_encode).
    by rewrite take_app_length.
Qed.

End SavingFacts.

(** * Handlers that can leave defined behaviour *)

Lemma bindU_defined {St A B} (m : M St A) (k : A -> MU St B) st a st' :
  m st = (Ret a, st') -> bindU (defined m) k st = k a st'.
Proof. intros E. unfold bindU, defined. by rewrite E. Qed.

Lemma bindU_ret_eq {St A B} (m : MU St A) (k : A -> MU St B) st a st' :
  m st = Some (Ret a, st') -> bindU m k st = k a st'.
Proof. intros E. unfold bindU. by rewrite E. Qed.

Lemma bindU_throw_eq {St A B} (m : MU St A) (k : A -> MU St B) st e st' :
  m st = Some (Throw e, st') -> bindU m k st = Some (Throw e, st').
Proof. intros E. unfold bindU. by rewrite E. Qed.

Lemma bindU_undefined_eq {St A B} (m : MU St A) (k : A -> MU St B) st :
  m st = None -> bindU m k st = None.
Proof. intros E. unfold bindU. by rewrite E. Qed.

(** With a license, the unchecked step is the step of the other inbound
    rewritings. *)
Lemma rewrite_guild_card_unchecked_licensed lic off modified ss (d : list Z) :
  license ss = Some lic ->
  rewrite_guild_card_unchecked off modified {| hs_session := ss; hs_data := d |} =
    Some (rewrite_guild_card lic off modified {| hs_session := ss; hs_data := d |}).
Proof.
  intros Hlic. rewrite rewrite_guild_card_run.
  unfold rewrite_guild_card_unchecked, bindU, defined, license_serial_number,
    get_session, get_data, set_data, modify, ret.
  cbn [hs_session hs_data]. destruct (_ =? _); cbv beta; cbn [hs_session hs_data];
    by rewrite ?Hlic.
Qed.

(** Without one, it is defined only where the member does not hold the
    remote number. *)
Lemma rewrite_guild_card_unchecked_unlicensed off modified ss (d : list Z) :
  license ss = None ->
  rewrite_guild_card_unchecked off modified {| hs_session := ss; hs_data := d |} =
    if get_u32l off d =? remote_guild_card_number ss then None
    else Some (Ret modified, {| hs_session := ss; hs_data := d |}).
Proof.
  intros Hlic.
  unfold rewrite_guild_card_unchecked, bindU, defined, license_serial_number,
    get_session, get_data, set_data, modify, ret.
  cbn [hs_session hs_data]. destruct (_ =? _); cbv beta; cbn [hs_session hs_data];
    by rewrite ?Hlic.
Qed.

(** A loop whose body is defined in every state that an invariant
    describes is the loop of the defined bodies. *)
Lemma for_loopU_defined {St A} (I : St -> Prop) (body : nat -> A -> MU St A)
    (body' : nat -> A -> M St A) n :
  forall start acc st,
  I st ->
  (forall x a s, (start <= x < start + n)%nat -> I s ->
     body x a s = Some (body' x a s) /\ I (body' x a s).2) ->
  for_loopU n start body acc st = Some (for_loop n start body' acc st).
Proof.
  induction n as [|n IH]; intros start acc st HI Hbody; [done|].
  cbn [for_loopU for_loop]. unfold bindU, bind.
  destruct (Hbody start acc st ltac:(lia) HI) as [-> HI'].
  destruct (body' start acc st) as [[a|e] st']; [|done].
  apply IH; [exact HI'|]. intros x a0 s Hx. apply Hbody. lia.
Qed.

(** The loop over members at the offsets [field x], for members that lie
    inside the payload and do not overlap: every member goes through
    [rewrite_inbound], no other byte changes, and the flag returned says
    whether some member held the remote number. *)
Lemma rewrite_fields_loop (field : nat -> nat) lic ss (d : list Z) n :
  let serial := serial_number lic in
  let remote := remote_guild_card_number ss in
  is_u32 serial ->
  (forall x, (x < n)%nat -> (field x + 4 <= length d)%nat) ->
  (forall x y, (x < y < n)%nat ->
     (field x + 4 <= field y)%nat \/ (field y + 4 <= field x)%nat) ->
  exists d' : list Z,
    for_loop n 0 (fun x => rewrite_guild_card lic (field x)) false
      {| hs_session := ss; hs_data := d |} =
      (Ret (existsb (fun x => get_u32l (field x) d =? remote) (seq 0 n)),
       {| hs_session := ss; hs_data := d' |}) /\
    length d' = length d /\
    (forall x, (x < n)%nat ->
       get_u32l (field x) d' = rewrite_inbound serial remote (get_u32l (field x) d)) /\
    (forall p, (forall x, (x < n)%nat -> ~ (field x <= p < field x + 4)%nat) ->
       d' !! p = d !! p).
Proof.
  intros serial remote Hserial Hin Hdisjoint.
  assert (Hapart : forall x y, (x < n)%nat -> (y < n)%nat -> x <> y ->
            (field x + 4 <= field y)%nat \/ (field y + 4 <= field x)%nat).
  { intros x y Hx Hy Hxy. destruct (Nat.lt_ge_cases x y) as [Hlt|Hge].
    - apply Hdisjoint. lia.
    - destruct (Hdisjoint y x ltac:(lia)); auto. }
  set (P := fun (k : nat) (acc : bool) (st : HState) =>
    hs_session st = ss /\
    length (hs_data st) = length d /\
    acc = existsb (fun x => get_u32l (field x) d =? remote) (seq 0 k) /\
    (forall x, (x < k)%nat ->
       get_u32l (field x) (hs_data st) = rewrite_inbound serial remote (get_u32l (field x) d)) /\
    (forall p, (forall x, (x < k)%nat -> ~ (field x <= p < field x + 4)%nat) ->
       (hs_data st : list Z) !! p = d !! p)).
  destruct (for_loop_ind P (fun x => rewrite_guild_card lic (field x)) n 0%nat false
              {| hs_session := ss; hs_data := d |}) as (a' & s' & Hrun & HP).
  { unfold P. cbn. repeat split; try done. intros x Hx. lia. }
  { intros k a [ss0 dk] Hk (Hss & Hl & Ha & Hdone & Hrest). cbn [hs_session hs_data] in *.
    subst ss0. cbn [Nat.add] in Hk.
    assert (Hbound : (field k + 4 <= length d)%nat) by (apply Hin; lia).
    assert (Hk_orig : get_u32l (field k) dk = get_u32l (field k) d).
    { unfold get_u32l. apply load_ext. intros p Hp. apply Hrest.
      intros x Hx. destruct (Hapart x k ltac:(lia) ltac:(lia) ltac:(lia)); lia. }
    rewrite rewrite_guild_card_run. fold remote. rewrite Hk_orig.
    assert (Hseq : existsb (fun x => get_u32l (field x) d =? remote) (seq 0 (S k)) =
                   existsb (fun x => get_u32l (field x) d =? remote) (seq 0 k)
                   || (get_u32l (field k) d =? remote)).
    { rewrite seq_S, existsb_app. cbn. by rewrite orb_false_r. }
    destruct (Z.eqb_spec (get_u32l (field k) d) remote) as [E|E].
    - eexists _, _. split; [reflexivity|]. unfold P. cbn [hs_session hs_data].
      split; [done|]. split; [unfold put_u32l; rewrite length_store; lia|].
      split; [by rewrite Hseq, orb_true_r|]. split.
      + intros x Hx. destruct (Nat.eq_dec x k) as [->|Hne].
        * rewrite get_put_u32l by (done || lia).
          unfold rewrite_inbound. by rewrite E, Z.eqb_refl.
        * rewrite <- (Hdone x) by lia. unfold get_u32l, put_u32l.
          apply load_ext. intros p Hp.
          apply lookup_store_other; [lia|].
          destruct (Hapart x k ltac:(lia) ltac:(lia) Hne); lia.
      + intros p Hp. unfold put_u32l. rewrite lookup_store_other.
        * apply Hrest. intros x Hx. apply Hp. lia.
        * lia.
        * apply Hp. lia.
    - eexists _, _. split; [reflexivity|]. unfold P. cbn [hs_session hs_data].
      split; [done|]. split; [done|].
      split; [by rewrite Hseq, Ha, orb_false_r|]. split.
      + intros x Hx. destruct (Nat.eq_dec x k) as [->|Hne].
        * rewrite Hk_orig. unfold rewrite_inbound.
          by destruct (Z.eqb_spec (get_u32l (field k) d) remote).
        * apply Hdone. lia.
      + intros p Hp. apply Hrest. intros x Hx. apply Hp. lia. }
  destruct s' as [ss' d']. destruct HP as (Hss & Hl & Ha & Hdone & Hrest).
  cbn [hs_session hs_data Nat.add] in *. subst ss' a'.
  exists d'. by repeat split.
Qed.

(** The unchecked loop in a session without a license. *)
Lemma unchecked_loop_unlicensed (field : nat -> nat) ss (d : list Z) n :
  license ss = None ->
  forall start acc,
  for_loopU n start (fun x => rewrite_guild_card_unchecked (field x)) acc
    {| hs_session := ss; hs_data := d |} =
  if existsb (fun x => get_u32l (field x) d =? remote_guild_card_number ss) (seq start n)
  then None
  else Some (Ret acc, {| hs_session := ss; hs_data := d |}).
Proof.
  intros Hlic. induction n as [|n IH]; intros start acc; [done|].
  cbn [for_loopU seq existsb]. unfold bindU.
  rewrite rewrite_guild_card_unchecked_unlicensed by done.
  destruct (get_u32l (field start) d =? remote_guild_card_number ss); [done|].
  cbn [orb]. apply IH.
Qed.

(** X23.  [process_server_gc_E4] takes the serial number from the license
    without testing whether the session has one.  In a licensed session it
    rewrites the guild card number of each of the four entries from the
    remote number to the serial number and changes nothing else.  In a
    session without a license it forwards a command none of whose entries
    holds the remote number, and has no defined behaviour for one that does:
    it dereferences the null license. *)
Theorem process_server_gc_E4_unchecked (L : CardLobbyGameLayout) s command flag ss
    (d : list Z) :
  let field x := (offsetof_E4_entries L + x * sizeof_E4_entry L +
                  offsetof_E4_guild_card_number L)%nat in
  let remote := remote_guild_card_number ss in
  let st := {| hs_session := ss; hs_data := d |} in
  let r := process_server_gc_E4 L s command flag st in
  let named := existsb (fun x => get_u32l (field x) d =? remote) (seq 0 4) in
  (offsetof_E4_guild_card_number L + 4 <= sizeof_E4_entry L)%nat ->
  (offsetof_E4_entries L + 4 * sizeof_E4_entry L <= sizeof_S_CardLobbyGame_GC_Ep3_E4 L)%nat ->
  (length d <> sizeof_S_CardLobbyGame_GC_Ep3_E4 L -> exists e, r = Some (Throw e, st)) /\
  (length d = sizeof_S_CardLobbyGame_GC_Ep3_E4 L ->
     (license ss = None -> named = false ->
        r = Some (Ret (HandlerResult.of_type FORWARD), st)) /\
     (license ss = None -> named = true -> r = None) /\
     (forall lic, license ss = Some lic -> is_u32 (serial_number lic) ->
        exists d' : list Z,
          r = Some (Ret (HandlerResult.of_type (if named then MODIFIED else FORWARD)),
                    {| hs_session := ss; hs_data := d' |}) /\
          length d' = length d /\
          (forall x, (x < 4)%nat ->
             get_u32l (field x) d' =
               rewrite_inbound (serial_number lic) remote (get_u32l (field x) d)) /\
          (forall p, (forall x, (x < 4)%nat -> ~ (field x <= p < field x + 4)%nat) ->
             d' !! p = d !! p))).
Proof.
  intros field remote st r named Hentry Hentries. subst r. unfold process_server_gc_E4.
  fold field. split.
  - intros Hlen.
    assert (Hthrow : exists e,
      check_size_t (Z.of_nat (sizeof_S_CardLobbyGame_GC_Ep3_E4 L))
        (Z.of_nat (sizeof_S_CardLobbyGame_GC_Ep3_E4 L)) st = (Throw e, st)).
    { destruct (Nat.lt_ge_cases (length d) (sizeof_S_CardLobbyGame_GC_Ep3_E4 L)).
      - rewrite check_size_t_small by (cbn; lia). eauto.
      - rewrite check_size_t_large by (cbn; lia). eauto. }
    destruct Hthrow as (e & He). exists e.
    unfold bindU at 1, defined at 1. by rewrite He.
  - intros Hlen.
    rewrite (bindU_defined _ _ _ _ _
               (check_size_t_ok (Z.of_nat (sizeof_S_CardLobbyGame_GC_Ep3_E4 L))
                  (Z.of_nat (sizeof_S_CardLobbyGame_GC_Ep3_E4 L)) st ltac:(cbn; lia))).
    subst st.
    split; [|split]; unfold bindU at 1;
      change (for_loopU 4 0 _ false {| hs_session := ss; hs_data := d |})
        with (for_loopU 4 0 (fun x => rewrite_guild_card_unchecked (field x)) false
                {| hs_session := ss; hs_data := d |}).
    + intros Hlic Hnamed.
      rewrite (unchecked_loop_unlicensed field ss d 4 Hlic 0%nat false).
      fold remote named. rewrite Hnamed. reflexivity.
    + intros Hlic Hnamed.
      rewrite (unchecked_loop_unlicensed field ss d 4 Hlic 0%nat false).
      fold remote named. rewrite Hnamed. reflexivity.
    + intros lic Hlic Hserial.
      destruct (rewrite_fields_loop field lic ss d 4 Hserial) as (d' & Hrun & Hrest).
      { intros x Hx. subst field. cbn beta. nia. }
      { intros x y Hxy. subst field. cbn beta. left. nia. }
      exists d'. split; [|exact Hrest].
      rewrite (for_loopU_defined (fun s0 => hs_session s0 = ss) _
                 (fun x => rewrite_guild_card lic (field x))).
      * rewrite Hrun. fold remote named. reflexivity.
      * reflexivity.
      * intros x a [ss0 d0] _ Hss. cbn [hs_session] in Hss. subst ss0.
        split; [by apply rewrite_guild_card_unchecked_licensed|].
        rewrite rewrite_guild_card_run. by destruct (_ =? _).
Qed.

(** * The client config command (04) *)

Section MoreSessionFacts.

Variable decode_sjis : bytes -> list Z.
Variable send_text_message : Channel -> list Z -> Channel.
Variable decimal : Z -> bytes.
Variable random_object : Z.
Variable beyond : bytes.






End MoreSessionFacts.

(** * Joining a game (64) *)

(** A loop all of whose steps are defined and return. *)
Lemma for_loopU_ind {St A} (body : nat -> A -> MU St A) n :
  forall (P : nat -> A -> St -> Prop) start acc st,
  P 0%nat acc st ->
  (forall k a s, (k < n)%nat -> P k a s ->
     exists a' s', body (start + k)%nat a s = Some (Ret a', s') /\ P (S k) a' s') ->
  exists a' s', for_loopU n start body acc st = Some (Ret a', s') /\ P n a' s'.
Proof.
  induction n as [|n IH]; intros P start acc st H0 Hstep.
  - exists acc, st. by split.
  - destruct (Hstep 0%nat acc st ltac:(lia) H0) as (a1 & s1 & Hrun & H1).
    rewrite Nat.add_0_r in Hrun.
    destruct (IH (fun k => P (S k)) (S start) a1 s1 H1) as (a' & s' & Hloop & Hn).
    { intros k a s Hk HP. destruct (Hstep (S k) a s ltac:(lia) HP) as (a2 & s2 & E & HP2).
      exists a2, s2. split; [|done]. by replace (S start + k)%nat with (start + S k)%nat by lia. }
    exists a', s'. split; [|done].
    cbn [for_loopU]. by rewrite (bindU_ret_eq _ _ _ _ _ Hrun).
Qed.

(** A loop none of whose steps throws, one of which is never defined. *)
Lemma for_loopU_some_undefined {St A} (P : St -> Prop) (body : nat -> A -> MU St A) x n :
  forall start acc st,
  P st ->
  (forall k a s, P s ->
     body k a s = None \/ exists a' s', body k a s = Some (Ret a', s') /\ P s') ->
  (start <= x < start + n)%nat ->
  (forall a s, P s -> body x a s = None) ->
  for_loopU n start body acc st = None.
Proof.
  induction n as [|n IH]; intros start acc st HP Hstep Hx Hundefined; [lia|].
  cbn [for_loopU].
  destruct (Hstep start acc st HP) as [E|(a' & s' & E & HP')].
  - by rewrite (bindU_undefined_eq _ _ _ E).
  - rewrite (bindU_ret_eq _ _ _ _ _ E).
    destruct (Nat.eq_dec x start) as [->|Hne].
    + rewrite Hundefined in E; done.
    + apply IH; [done|done|lia|done].
Qed.

Section JoinGameFacts.

Variable send_text_message : Channel -> list Z -> Channel.
Variable L : JoinGameLayout.
Variable E : JoinGameEp3Layout.

Lemma join_game_entry_step cmd_ep3 x modified ss (d : bytes) :
  let off := JoinGame_guild_card L x in
  let hit := get_u32l off d =? remote_guild_card_number ss in
  join_game_entry L cmd_ep3 x modified {| hs_session := ss; hs_data := d |} =
    if (length (lobby_players ss) <=? x)%nat then None
    else
      match license ss with
      | Some lic =>
          let d' := if hit then put_u32l off (serial_number lic) d else d in
          Some (Ret (if hit then true else modified),
                {| hs_session :=
                     join_game_entered x {| guild_card_number := get_u32l off d';
                                  name := join_game_player_name cmd_ep3 x d' |} ss;
                   hs_data := d' |})
      | None =>
          if hit then None
          else Some (Ret modified,
                     {| hs_session :=
                          join_game_entered x {| guild_card_number := get_u32l off d;
                                       name := join_game_player_name cmd_ep3 x d |} ss;
                        hs_data := d |})
      end.
Proof.
  intros off hit. unfold join_game_entry.
  unfold bindU at 1, defined at 1, get_session at 1. cbn [hs_session].
  destruct (length (lobby_players ss) <=? x)%nat; [done|].
  unfold bindU at 1. fold off.
  destruct (license ss) as [lic|] eqn:Hlic.
  - rewrite (rewrite_guild_card_unchecked_licensed lic) by done.
    rewrite rewrite_guild_card_run. fold hit.
    destruct hit; reflexivity.
  - rewrite rewrite_guild_card_unchecked_unlicensed by done. fold hit.
    destruct hit; reflexivity.
Qed.

Lemma update_leader_id_keeps leader_id ss (d : bytes) :
  exists ss',
    update_leader_id send_text_message leader_id {| hs_session := ss; hs_data := d |} =
      (Ret tt, {| hs_session := ss'; hs_data := d |}) /\
    lobby_players ss' = lobby_players ss /\
    lobby_client_id ss' = lobby_client_id ss /\
    license ss' = license ss /\
    remote_guild_card_number ss' = remote_guild_card_number ss /\
    override_lobby_event ss' = override_lobby_event ss.
Proof.
  unfold update_leader_id. run_monad.
  destruct (Z.eqb_spec (leader_client_id ss) leader_id) as [Hsame|Hsame]; cbn.
  - exists ss. repeat split; auto.
  - destruct (leader_id =? lobby_client_id ss); cbn;
      eexists; (split; [reflexivity|]); repeat split; auto.
Qed.

Lemma join_game_overrides_run modified st :
  exists d' : bytes,
    join_game_overrides L modified st =
      (Ret (HandlerResult.of_type
              (if modified || (0 <=? override_section_id st)
                  || (0 <=? override_lobby_event (hs_session (ms_state st)))
                  || (0 <=? override_random_seed st)
               then MODIFIED else FORWARD)),
       {| ms_state := {| hs_session := hs_session (ms_state st); hs_data := d' |};
          sub_version := sub_version st;
          remote_client_config_data := remote_client_config_data st;
          override_section_id := override_section_id st;
          override_random_seed := override_random_seed st |}).
Proof.
  destruct st as [[ss d] sub config section seed].
  unfold join_game_overrides, bind, ret, get, on_state, get_session, get_data, set_data,
    modify.
  cbn [ms_state hs_session hs_data sub_version remote_client_config_data
       override_section_id override_random_seed].
  destruct modified, (0 <=? section);
    cbn [ms_state hs_session hs_data sub_version remote_client_config_data
         override_section_id override_random_seed orb];
    destruct (0 <=? override_lobby_event ss);
    cbn [ms_state hs_session hs_data sub_version remote_client_config_data
         override_section_id override_random_seed orb];
    destruct (0 <=? seed);
    cbn [ms_state hs_session hs_data sub_version remote_client_config_data
         override_section_id override_random_seed orb];
    eexists; reflexivity.
Qed.

Lemma process_server_64_start s command flag ss (d : bytes) sub config section seed :
  let more h := {| ms_state := h; sub_version := sub; remote_client_config_data := config;
                   override_section_id := section; override_random_seed := seed |} in
  let is_ep3 := 0x40 <=? sub in
  let size := if is_ep3 then sizeof_S_JoinGame_GC_Ep3_64 E else sizeof_S_JoinGame L in
  let old := resize_lobby_players 4 (lobby_players ss) in
  let r := process_server_64 send_text_message L E s command flag
             (more {| hs_session := ss; hs_data := d |}) in
  (length d <> size ->
   exists e ss', r = Some (Throw e, more {| hs_session := ss'; hs_data := d |}) /\
     lobby_players ss' = old) /\
  (length d = size ->
   exists ss2,
     r = bindU (for_loopU (Z.to_nat flag) 0
                  (fun x modified =>
                     on_stateU (join_game_entry L (if is_ep3 then Some E else None) x modified))
                  false)
           (fun modified => defined (join_game_overrides L modified))
           (more {| hs_session := ss2; hs_data := d |}) /\
     lobby_players ss2 = old /\
     lobby_client_id ss2 = get_u8 (offsetof_JoinGame_client_id L) d /\
     license ss2 = license ss /\
     remote_guild_card_number ss2 = remote_guild_card_number ss /\
     override_lobby_event ss2 = override_lobby_event ss).
Proof.
  intros more is_ep3 size old r. subst r. unfold process_server_64.
  unfold more at 1 3.
  erewrite bindU_defined by reflexivity.
  erewrite bindU_defined by reflexivity.
  erewrite bindU_defined by reflexivity.
  cbn [ms_state hs_session hs_data sub_version remote_client_config_data
       override_section_id override_random_seed].
  fold is_ep3.
  set (ss1 := set_session_log _ _).
  assert (Hold : lobby_players ss1 = old) by reflexivity.
  assert (Hlicense : license ss1 = license ss) by reflexivity.
  assert (Hremote : remote_guild_card_number ss1 = remote_guild_card_number ss)
    by reflexivity.
  assert (Hevent : override_lobby_event ss1 = override_lobby_event ss) by reflexivity.
  clearbody ss1.
  set (check := if is_ep3 then _ else _).
  assert (Hcheck : (length d = size ->
                    check {| hs_session := ss1; hs_data := d |} =
                      (Ret tt, {| hs_session := ss1; hs_data := d |})) /\
                   (length d <> size ->
                    exists e, check {| hs_session := ss1; hs_data := d |} =
                      (Throw e, {| hs_session := ss1; hs_data := d |}))).
  { subst check size. destruct is_ep3; split; intros Hlen.
    - unfold bind. rewrite !check_size_t_ok by (cbn [hs_data]; lia). reflexivity.
    - unfold bind.
      destruct (Nat.lt_ge_cases (length d) (sizeof_S_JoinGame_GC_Ep3_64 E)).
      + rewrite check_size_t_small by (cbn [hs_data]; lia). eauto.
      + rewrite check_size_t_large by (cbn [hs_data]; lia). eauto.
    - rewrite check_size_t_ok by (cbn [hs_data]; lia). reflexivity.
    - destruct (Nat.lt_ge_cases (length d) (sizeof_S_JoinGame L)).
      + rewrite check_size_t_small by (cbn [hs_data]; lia). eauto.
      + rewrite check_size_t_large by (cbn [hs_data]; lia). eauto. }
  clearbody check. destruct Hcheck as [Hgood Hbad]. split; intros Hlen.
  - destruct (Hbad Hlen) as [e He]. exists e, ss1. split; [|done].
    unfold bindU at 1, defined at 1, on_state at 1.
    cbn [ms_state hs_session hs_data sub_version remote_client_config_data
         override_section_id override_random_seed].
    by rewrite He.
  - specialize (Hgood Hlen).
    unfold bindU at 1, defined at 1, on_state at 1.
    cbn [ms_state hs_session hs_data sub_version remote_client_config_data
         override_section_id override_random_seed].
    rewrite Hgood.
    erewrite bindU_defined by reflexivity.
    erewrite bindU_defined by reflexivity.
    cbn [ms_state hs_session hs_data sub_version remote_client_config_data
         override_section_id override_random_seed].
    destruct (update_leader_id_keeps
                (get_u8 (offsetof_JoinGame_leader_id L) d)
                (set_lobby_client_id (get_u8 (offsetof_JoinGame_client_id L) d) ss1) d)
      as (ss2 & Hrun & Hplayers & Hid & Hlic & Hrem & Hev).
    exists ss2.
    unfold bindU at 1, defined at 1, on_state at 1.
    cbn [ms_state hs_session hs_data sub_version remote_client_config_data
         override_section_id override_random_seed].
    rewrite Hrun. split; [reflexivity|].
    rewrite Hplayers, Hid, Hlic, Hrem, Hev. by repeat split.
Qed.

Lemma on_stateU_run {A} (m : MU HState A) sub config section seed h :
  on_stateU m {| ms_state := h; sub_version := sub; remote_client_config_data := config;
                 override_section_id := section; override_random_seed := seed |} =
    match m h with
    | Some (r, h') =>
        Some (r, {| ms_state := h'; sub_version := sub; remote_client_config_data := config;
                    override_section_id := section; override_random_seed := seed |})
    | None => None
    end.
Proof. reflexivity. Qed.

(** The loop of [process_server_64] where every step is defined: the
    session has a license, or no entry holds the remote number. *)
Lemma join_game_loop cmd_ep3 sub config section seed ss2 (d : bytes) n :
  let more h := {| ms_state := h; sub_version := sub; remote_client_config_data := config;
                   override_section_id := section; override_random_seed := seed |} in
  let field := JoinGame_guild_card L in
  let remote := remote_guild_card_number ss2 in
  let shown v := match license ss2 with
                 | Some lic => rewrite_inbound (serial_number lic) remote v
                 | None => v
                 end in
  (n <= length (lobby_players ss2))%nat ->
  (forall lic, license ss2 = Some lic -> is_u32 (serial_number lic)) ->
  (license ss2 = None -> forall x, (x < n)%nat -> get_u32l (field x) d <> remote) ->
  (forall x, (x < n)%nat -> (field x + 4 <= length d)%nat) ->
  (forall x y, (x < y < n)%nat -> (field x + 4 <= field y)%nat) ->
  (forall (d' : bytes) x,
     (forall p, (forall y, (y < n)%nat -> ~ (field y <= p < field y + 4)%nat) ->
        d' !! p = d !! p) ->
     (x < n)%nat -> join_game_player_name cmd_ep3 x d' = join_game_player_name cmd_ep3 x d) ->
  exists a' ss' (d' : bytes),
    for_loopU n 0 (fun x modified => on_stateU (join_game_entry L cmd_ep3 x modified)) false
      (more {| hs_session := ss2; hs_data := d |}) =
      Some (Ret a', more {| hs_session := ss'; hs_data := d' |}) /\
    a' = existsb (fun x => get_u32l (field x) d =? remote) (seq 0 n) /\
    length (lobby_players ss') = length (lobby_players ss2) /\
    lobby_client_id ss' = lobby_client_id ss2 /\
    override_lobby_event ss' = override_lobby_event ss2 /\
    (forall x, (x < n)%nat ->
       lobby_players ss' !! x =
         Some {| guild_card_number := shown (get_u32l (field x) d);
                 name := join_game_player_name cmd_ep3 x d |}) /\
    (forall x, (n <= x)%nat -> lobby_players ss' !! x = lobby_players ss2 !! x).
Proof.
  intros more field remote shown Hn Hserial Hnone Hin Hmono Hnames.
  set (P := fun (k : nat) (acc : bool) (s : MoreState) =>
    exists ssk (dk : bytes),
      s = more {| hs_session := ssk; hs_data := dk |} /\
      license ssk = license ss2 /\
      remote_guild_card_number ssk = remote /\
      lobby_client_id ssk = lobby_client_id ss2 /\
      override_lobby_event ssk = override_lobby_event ss2 /\
      length (lobby_players ssk) = length (lobby_players ss2) /\
      length dk = length d /\
      (forall p, (forall y, (y < k)%nat -> ~ (field y <= p < field y + 4)%nat) ->
         dk !! p = d !! p) /\
      acc = existsb (fun x => get_u32l (field x) d =? remote) (seq 0 k) /\
      (forall x, (x < k)%nat ->
         lobby_players ssk !! x =
           Some {| guild_card_number := shown (get_u32l (field x) d);
                   name := join_game_player_name cmd_ep3 x d |}) /\
      (forall x, (k <= x)%nat -> lobby_players ssk !! x = lobby_players ss2 !! x)).
  destruct (for_loopU_ind
              (fun x modified => on_stateU (join_game_entry L cmd_ep3 x modified)) n P
              0%nat false (more {| hs_session := ss2; hs_data := d |}))
    as (a' & s' & Hrun & HP).
  { exists ss2, d. repeat split; try done. intros x Hx. lia. }
  { intros k a s Hk (ssk & dk & -> & Hlic & Hrem & Hid & Hevent & Hlen & Hdlen & Hrest &
                     Ha & Hdone & Hkeep).
    cbn [Nat.add]. unfold more at 1. rewrite on_stateU_run, join_game_entry_step.
    rewrite Hlen. destruct (Nat.leb_spec (length (lobby_players ss2)) k) as [?|_]; [lia|].
    assert (Hbound : (field k + 4 <= length d)%nat) by (apply Hin; lia).
    assert (Horig : get_u32l (field k) dk = get_u32l (field k) d).
    { unfold get_u32l. apply load_ext. intros p Hp. apply Hrest.
      intros y Hy. specialize (Hmono y k ltac:(lia)). lia. }
    fold field. rewrite Hlic, Hrem, Horig.
    assert (Hseq : existsb (fun x => get_u32l (field x) d =? remote) (seq 0 (S k)) =
                   existsb (fun x => get_u32l (field x) d =? remote) (seq 0 k)
                   || (get_u32l (field k) d =? remote)).
    { rewrite seq_S, existsb_app. cbn. by rewrite orb_false_r. }
    assert (Hinsert : forall (d' : bytes) v,
      (forall p, (forall y, (y < S k)%nat -> ~ (field y <= p < field y + 4)%nat) ->
         d' !! p = d !! p) ->
      v = shown (get_u32l (field k) d) ->
      let ssk' := join_game_entered k
                    {| guild_card_number := v;
                       name := join_game_player_name cmd_ep3 k d' |} ssk in
      license ssk' = license ss2 /\
      remote_guild_card_number ssk' = remote /\
      lobby_client_id ssk' = lobby_client_id ss2 /\
      override_lobby_event ssk' = override_lobby_event ss2 /\
      length (lobby_players ssk') = length (lobby_players ss2) /\
      (forall x, (x < S k)%nat ->
         lobby_players ssk' !! x =
           Some {| guild_card_number := shown (get_u32l (field x) d);
                   name := join_game_player_name cmd_ep3 x d |}) /\
      (forall x, (S k <= x)%nat -> lobby_players ssk' !! x = lobby_players ss2 !! x)).
    { intros d' v Hd' ->. cbn. repeat split; try done.
      - by rewrite length_insert.
      - intros x Hx. destruct (Nat.eq_dec x k) as [->|Hne].
        + rewrite list_lookup_insert_eq by lia. f_equal. f_equal.
          apply Hnames; [|lia]. intros p Hp. apply Hd'. intros y Hy. apply Hp. lia.
        + rewrite list_lookup_insert_ne by done. apply Hdone. lia.
      - intros x Hx. rewrite list_lookup_insert_ne by lia. apply Hkeep. lia. }
    destruct (license ss2) as [lic|] eqn:Hlicense.
    - destruct (Z.eqb_spec (get_u32l (field k) d) remote) as [Hhit|Hmiss].
      + eexists _, _. split; [reflexivity|].
        assert (Hd' : forall p,
                  (forall y, (y < S k)%nat -> ~ (field y <= p < field y + 4)%nat) ->
                  (put_u32l (field k) (serial_number lic) dk : bytes) !! p = d !! p).
        { intros p Hp. unfold put_u32l. rewrite lookup_store_other.
          - apply Hrest. intros y Hy. apply Hp. lia.
          - lia.
          - apply Hp. lia. }
        destruct (Hinsert (put_u32l (field k) (serial_number lic) dk)
                    (get_u32l (field k) (put_u32l (field k) (serial_number lic) dk)) Hd')
          as (? & ? & ? & ? & ? & ? & ?).
        { rewrite get_put_u32l by (eauto || lia). unfold shown, rewrite_inbound.
          by rewrite Hhit, Z.eqb_refl. }
        exists (join_game_entered k
                  {| guild_card_number :=
                       get_u32l (field k) (put_u32l (field k) (serial_number lic) dk);
                     name := join_game_player_name cmd_ep3 k
                               (put_u32l (field k) (serial_number lic) dk) |} ssk),
               (put_u32l (field k) (serial_number lic) dk).
        repeat split; try done.
        * unfold put_u32l. rewrite length_store; lia.
        * by rewrite Hseq, orb_true_r.
      + eexists _, _. split; [reflexivity|].
        assert (Hd' : forall p,
                  (forall y, (y < S k)%nat -> ~ (field y <= p < field y + 4)%nat) ->
                  dk !! p = d !! p).
        { intros p Hp. apply Hrest. intros y Hy. apply Hp. lia. }
        destruct (Hinsert dk (get_u32l (field k) dk) Hd') as (? & ? & ? & ? & ? & ? & ?).
        { rewrite Horig. unfold shown, rewrite_inbound.
          by destruct (Z.eqb_spec (get_u32l (field k) d) remote). }
        exists (join_game_entered k {| guild_card_number := get_u32l (field k) dk;
                             name := join_game_player_name cmd_ep3 k dk |} ssk), dk.
        repeat split; try done.
        by rewrite Hseq, Ha, orb_false_r.
    - destruct (Z.eqb_spec (get_u32l (field k) d) remote) as [Hhit|Hmiss].
      { by destruct (Hnone eq_refl k Hk). }
      eexists _, _. split; [reflexivity|].
      assert (Hd' : forall p,
                (forall y, (y < S k)%nat -> ~ (field y <= p < field y + 4)%nat) ->
                dk !! p = d !! p).
      { intros p Hp. apply Hrest. intros y Hy. apply Hp. lia. }
      destruct (Hinsert dk (get_u32l (field k) dk) Hd') as (? & ? & ? & ? & ? & ? & ?).
      { by rewrite Horig. }
      exists (join_game_entered k {| guild_card_number := get_u32l (field k) dk;
                           name := join_game_player_name cmd_ep3 k dk |} ssk), dk.
      repeat split; try done.
      + by rewrite Horig.
      + by rewrite Hseq, Ha, orb_false_r. }
  destruct HP as (ss' & d' & -> & Hlic & Hrem & Hid & Hevent & Hlen & Hdlen & Hrest &
                  Ha & Hdone & Hkeep).
  exists a', ss', d'. by repeat split.
Qed.

(** The loop of [process_server_64] with a step that is not defined: an
    index past the end of the mirror, or the remote number in a session
    without a license. *)
Lemma join_game_loop_undefined cmd_ep3 sub config section seed ss2 (d : bytes) n x :
  let more h := {| ms_state := h; sub_version := sub; remote_client_config_data := config;
                   override_section_id := section; override_random_seed := seed |} in
  (x < n)%nat ->
  (length (lobby_players ss2) <= x)%nat \/
  (license ss2 = None /\
   get_u32l (JoinGame_guild_card L x) d = remote_guild_card_number ss2) ->
  for_loopU n 0 (fun x modified => on_stateU (join_game_entry L cmd_ep3 x modified)) false
    (more {| hs_session := ss2; hs_data := d |}) = None.
Proof.
  intros more Hx Hwhy.
  set (P := fun (s : MoreState) =>
    exists ssk (dk : bytes),
      s = more {| hs_session := ssk; hs_data := dk |} /\
      length (lobby_players ssk) = length (lobby_players ss2) /\
      license ssk = license ss2 /\
      remote_guild_card_number ssk = remote_guild_card_number ss2 /\
      (license ss2 = None -> dk = d)).
  apply (for_loopU_some_undefined P _ x).
  - exists ss2, d. by repeat split.
  - intros k a s (ssk & dk & -> & Hlen & Hlic & Hrem & Hd).
    unfold more. rewrite !on_stateU_run, !join_game_entry_step.
    destruct (length (lobby_players ssk) <=? k)%nat; [by left|].
    destruct (license ssk) as [lic|] eqn:Hlicense.
    + right. eexists _, _. split; [reflexivity|].
      eexists _, _. split; [reflexivity|]. cbn. rewrite length_insert.
      repeat split; try done; try congruence.
    + destruct (_ =? _); [by left|].
      right. eexists _, _. split; [reflexivity|].
      eexists _, _. split; [reflexivity|]. cbn. rewrite length_insert.
      repeat split; try done; try congruence.
  - lia.
  - intros a s (ssk & dk & -> & Hlen & Hlic & Hrem & Hd).
    unfold more at 1. rewrite on_stateU_run, join_game_entry_step.
    destruct Hwhy as [Hout|[Hnone Hhit]].
    + rewrite Hlen. by destruct (Nat.leb_spec (length (lobby_players ss2)) x); [|lia].
    + destruct (length (lobby_players ssk) <=? x)%nat; [done|].
      rewrite Hlic, Hnone, Hrem, (Hd Hnone), Hhit, Z.eqb_refl. done.
Qed.

Lemma length_resize_lobby_players n players : length (resize_lobby_players n players) = n.
Proof.
  unfold resize_lobby_players. rewrite length_app, length_take, length_replicate. lia.
Qed.

(** X25.  [process_server_64] resizes the mirror to four slots before it
    checks the size of the command, so a command of the wrong size is
    rejected with the mirror already resized.  For a well-sized command that
    announces at most four players, in a session with a license or with no
    announced player holding the remote number, slot [x] below the flag holds
    the Guild Card number of entry [x] as the client is shown it, with the
    Episode 3 name or none; the slots from the flag on keep what the mirror
    held before, so not all four are overwritten.  The command is modified
    exactly when an entry held the remote number or an override is set. *)
Theorem process_server_64_mirror s command flag st :
  let ss := hs_session (ms_state st) in
  let d : bytes := hs_data (ms_state st) in
  let is_ep3 := 0x40 <=? sub_version st in
  let size := if is_ep3 then sizeof_S_JoinGame_GC_Ep3_64 E else sizeof_S_JoinGame L in
  let n := Z.to_nat flag in
  let remote := remote_guild_card_number ss in
  let inbound x := get_u32l (JoinGame_guild_card L x) d in
  let shown x := match license ss with
                 | Some lic => rewrite_inbound (serial_number lic) remote (inbound x)
                 | None => inbound x
                 end in
  let player_name x := join_game_player_name (if is_ep3 then Some E else None) x d in
  let old := resize_lobby_players 4 (lobby_players ss) in
  let named := existsb (fun x => inbound x =? remote) (seq 0 n) in
  let r := process_server_64 send_text_message L E s command flag st in
  (offsetof_JoinGame_guild_card L + 4 <= sizeof_JoinGame_lobby_data L)%nat ->
  (offsetof_JoinGame_lobby_data L + 4 * sizeof_JoinGame_lobby_data L
     <= sizeof_S_JoinGame L)%nat ->
  (offsetof_JoinGame_lobby_data L + 4 * sizeof_JoinGame_lobby_data L
     <= offsetof_players_ep3 E)%nat ->
  (offsetof_players_ep3 E + 4 * sizeof_players_ep3 E <= sizeof_S_JoinGame_GC_Ep3_64 E)%nat ->
  (n <= 4)%nat ->
  (forall lic, license ss = Some lic -> is_u32 (serial_number lic)) ->
  (license ss = None -> forall x, (x < n)%nat -> inbound x <> remote) ->
  (length d <> size ->
   exists e st', r = Some (Throw e, st') /\
     lobby_players (hs_session (ms_state st')) = old /\
     hs_data (ms_state st') = d) /\
  (length d = size ->
   exists o st', r = Some (Ret o, st') /\
     let ss' := hs_session (ms_state st') in
     o = HandlerResult.of_type
           (if named || (0 <=? override_section_id st) || (0 <=? override_lobby_event ss)
               || (0 <=? override_random_seed st)
            then MODIFIED else FORWARD) /\
     lobby_client_id ss' = get_u8 (offsetof_JoinGame_client_id L) d /\
     length (lobby_players ss') = 4%nat /\
     (forall x, (x < n)%nat ->
        lobby_players ss' !! x =
          Some {| guild_card_number := shown x; name := player_name x |}) /\
     (forall x, (n <= x)%nat -> lobby_players ss' !! x = old !! x)).
Proof.
  intros ss d is_ep3 size n remote inbound shown player_name old named r
    Hcard Hdata Hbefore Hep3 Hn Hserial Hnone.
  destruct st as [[ss0 d0] sub config section seed].
  cbn [ms_state hs_session hs_data sub_version override_section_id override_random_seed]
    in *.
  subst ss d r. rename ss0 into ss, d0 into d.
  destruct (process_server_64_start s command flag ss d sub config section seed)
    as [Hbad Hgood].
  fold is_ep3 size old in Hbad, Hgood. split; intros Hlen.
  - destruct (Hbad Hlen) as (e & ss' & -> & Hold). by eexists e, _.
  - destruct (Hgood Hlen) as (ss2 & -> & Hold & Hid & Hlic & Hrem & Hevent).
    assert (Hsize : (offsetof_JoinGame_lobby_data L + 4 * sizeof_JoinGame_lobby_data L
                       <= length d)%nat).
    { rewrite Hlen. subst size. destruct is_ep3; lia. }
    destruct (join_game_loop (if is_ep3 then Some E else None) sub config section seed
                ss2 d n) as (a' & ss' & d' & Hloop & Ha & Hlen' & Hid' & Hevent' &
                             Hdone & Hkeep).
    { rewrite Hold. unfold old. rewrite length_resize_lobby_players. exact Hn. }
    { intros lic. rewrite Hlic. apply Hserial. }
    { rewrite Hlic, Hrem. exact Hnone. }
    { intros x Hx. unfold JoinGame_guild_card. nia. }
    { intros x y Hxy. unfold JoinGame_guild_card. nia. }
    { intros d1 x Hsame Hx. unfold join_game_player_name.
      destruct is_ep3; [|done]. f_equal.
      unfold field_bytes. apply list_eq. intros i.
      destruct (Nat.lt_ge_cases i (sizeof_players_ep3 E)) as [Hi|Hi].
      - rewrite !lookup_take_lt, !lookup_drop by done. apply Hsame.
        intros y Hy. unfold JoinGame_guild_card. nia.
      - by rewrite !lookup_take_ge. }
    rewrite (bindU_ret_eq _ _ _ _ _ Hloop).
    destruct (join_game_overrides_run a'
                {| ms_state := {| hs_session := ss'; hs_data := d' |};
                   sub_version := sub; remote_client_config_data := config;
                   override_section_id := section; override_random_seed := seed |})
      as (d'' & Hover).
    unfold defined. rewrite Hover.
    cbn [ms_state hs_session hs_data sub_version override_section_id override_random_seed].
    eexists _, _. split; [reflexivity|].
    cbn [ms_state hs_session hs_data].
    rewrite Hevent', Hevent, Hlen', Hid', Hid, Hold, Ha, Hrem.
    unfold old at 1. rewrite length_resize_lobby_players.
    repeat split; try done.
    + intros x Hx. rewrite (Hdone x Hx), Hlic, Hrem. done.
    + intros x Hx. rewrite (Hkeep x Hx), Hold. done.
Qed.

(** X26.  [process_server_64] has no defined behaviour for a well-sized command
    whose flag is above four, since the loop then indexes the four-slot
    mirror past its end, nor in a session without a license for a command one
    of whose announced entries holds the remote number, since it takes the
    serial number from the null license. *)
Theorem process_server_64_undefined s command flag st :
  let ss := hs_session (ms_state st) in
  let d : bytes := hs_data (ms_state st) in
  let size := if 0x40 <=? sub_version st
              then sizeof_S_JoinGame_GC_Ep3_64 E else sizeof_S_JoinGame L in
  let n := Z.to_nat flag in
  length d = size ->
  (4 < n)%nat \/
  (license ss = None /\
   exists x, (x < n)%nat /\
     get_u32l (JoinGame_guild_card L x) d = remote_guild_card_number ss) ->
  process_server_64 send_text_message L E s command flag st = None.
Proof.
  intros ss d size n Hlen Hwhy.
  destruct st as [[ss0 d0] sub config section seed].
  cbn [ms_state hs_session hs_data sub_version override_section_id override_random_seed]
    in *.
  subst ss d. rename ss0 into ss, d0 into d.
  destruct (process_server_64_start s command flag ss d sub config section seed)
    as [_ Hgood].
  destruct (Hgood Hlen) as (ss2 & -> & Hold & Hid & Hlic & Hrem & Hevent).
  apply bindU_undefined_eq.
  destruct Hwhy as [Hmany|(Hnone & x & Hx & Hhit)].
  - apply (join_game_loop_undefined _ sub config section seed ss2 d _ 4%nat); [done|].
    left. by rewrite Hold, length_resize_lobby_players.
  - apply (join_game_loop_undefined _ sub config section seed ss2 d _ x); [done|].
    right. by rewrite Hlic, Hrem.
Qed.

End JoinGameFacts.

(** * Subcommands from the client *)

Section SubcommandFacts.

Variable subcommand_is_implemented : Z -> bool.
Variable ADD_HP : Z.
Variable ADD_TP : Z.

(** [check_implemented_subcommand] only writes to the log. *)
Lemma check_implemented_subcommand_run ss (d : bytes) :
  exists log,
    check_implemented_subcommand subcommand_is_implemented
      {| hs_session := ss; hs_data := d |} =
      (Ret tt, {| hs_session := set_session_log log ss; hs_data := d |}).
Proof.
  unfold check_implemented_subcommand, bind, get_data. cbn [hs_data].
  destruct (length d <? 4)%nat.
  - eexists. reflexivity.
  - unfold when. destruct (negb _).
    + eexists. reflexivity.
    + exists (session_log ss). unfold ret. by destruct ss.
Qed.

Lemma on_subcommand_check_size_t_ok min_size max_size st :
  min_size <= Z.of_nat (length (hs_data (sc_state st))) <= max_size ->
  on_subcommand (check_size_t min_size max_size) st = (Ret tt, st).
Proof.
  intros H. unfold on_subcommand. rewrite check_size_t_ok by done. by destruct st.
Qed.

Lemma on_subcommand_check_size_t_bad min_size max_size st :
  ~ (min_size <= Z.of_nat (length (hs_data (sc_state st))) <= max_size) ->
  exists e, on_subcommand (check_size_t min_size max_size) st = (Throw e, st).
Proof.
  intros H. unfold on_subcommand.
  destruct (Z.lt_ge_cases (Z.of_nat (length (hs_data (sc_state st)))) min_size) as [Hs|Hl].
  - rewrite check_size_t_small by done. eexists. by destruct st.
  - rewrite check_size_t_large by lia. eexists. by destruct st.
Qed.

(** The [void] handler where it does not look at a switch. *)
Lemma process_client_void_skips W s command flag ss (d : bytes) hp tp assist last :
  negb (length d =? 0)%nat && (get_u8 0 d =? 0x05) && assist = false ->
  exists log,
    process_client_60_62_6C_6D_C9_CB_void subcommand_is_implemented W s command flag
      {| sc_state := {| hs_session := ss; hs_data := d |};
         infinite_hp := hp; infinite_tp := tp; switch_assist := assist;
         last_switch_enabled_command := last |} =
      (Ret (HandlerResult.of_type FORWARD),
       {| sc_state := {| hs_session := set_session_log log ss; hs_data := d |};
          infinite_hp := hp; infinite_tp := tp; switch_assist := assist;
          last_switch_enabled_command := last |}).
Proof.
  intros Hskip.
  destruct (check_implemented_subcommand_run ss d) as [log Hlog]. exists log.
  unfold process_client_60_62_6C_6D_C9_CB_void.
  unfold bind at 1, on_subcommand at 1. cbn [sc_state]. rewrite Hlog.
  unfold bind, get, on_subcommand, get_data, ret.
  cbn [sc_state hs_data hs_session infinite_hp infinite_tp switch_assist
       last_switch_enabled_command].
  by rewrite Hskip.
Qed.

(** X27.  [process_client_60_62_6C_6D_C9_CB] hides the client's serial number
    in a guild card it sends (subcommand 06): in a licensed session a
    command of the size of the guild card record has the serial number in its
    [guild_card_number] replaced by the remote number, and one of another
    size is rejected; in a session without a license the command is neither
    checked nor changed.  The handler returns FORWARD also where it rewrote
    the command, and it sends nothing itself. *)
Theorem process_client_6x06_guild_card G W s command flag st :
  let ss := hs_session (sc_state st) in
  let d : bytes := hs_data (sc_state st) in
  let off := offsetof_6x06_guild_card_number G in
  let r := process_client_60_62_6C_6D_C9_CB subcommand_is_implemented ADD_HP ADD_TP G W
             s command flag st in
  let ss' := hs_session (sc_state r.2) in
  let d' : bytes := hs_data (sc_state r.2) in
  (1 <= off)%nat ->
  (off + 4 <= sizeof_G_SendGuildCard G)%nat ->
  (0 < length d)%nat ->
  get_u8 0 d = 0x06 ->
  (license ss = None -> r.1 = Ret (HandlerResult.of_type FORWARD) /\ d' = d) /\
  (forall lic, license ss = Some lic ->
     (length d <> sizeof_G_SendGuildCard G -> exists e, r = (Throw e, st)) /\
     (length d = sizeof_G_SendGuildCard G ->
        r.1 = Ret (HandlerResult.of_type FORWARD) /\
        d' = if get_u32l off d =? serial_number lic
             then put_u32l off (remote_guild_card_number ss) d else d)) /\
  (forall result, r.1 = Ret result ->
     client_channel ss' = client_channel ss /\
     server_channel ss' = server_channel ss /\
     last_switch_enabled_command r.2 = last_switch_enabled_command st).
Proof.
  intros ss d off r ss' d' Hoff Hfield Hlen H06.
  destruct st as [[ss0 d0] hp tp assist last].
  cbn [sc_state hs_session hs_data last_switch_enabled_command] in *.
  subst ss d. rename ss0 into ss, d0 into d.
  assert (Hfirst : forall d1 : bytes,
            (0 < length d1)%nat -> get_u8 0 d1 = 0x06 ->
            negb (length d1 =? 0)%nat && (get_u8 0 d1 =? 5) && assist = false).
  { intros d1 _ ->. by rewrite andb_false_r. }
  assert (Htail : forall d1 : bytes,
            (0 < length d1)%nat -> get_u8 0 d1 = 0x06 ->
            exists log,
              (st <- get ;;
               d <- on_subcommand get_data ;;
               (if negb (length d =? 0)%nat then
                  if (get_u8 0 d =? 0x2F) || (get_u8 0 d =? 0x4C) then
                    when (infinite_hp st)
                      (on_subcommand (client_send 0x60 0x00
                         (LobbySend.stats_change_subs 1020 (lobby_client_id ss mod 256)
                            ADD_HP 1020 [])))
                  else if get_u8 0 d =? 0x48 then
                    when (infinite_tp st)
                      (on_subcommand (client_send 0x60 0x00
                         ([0x9A; 0x02; lobby_client_id ss mod 256; 0x00] ++
                          [0x00; 0x00; ADD_TP mod 256; 0xFF])))
                  else ret tt
                else ret tt) ;;
               process_client_60_62_6C_6D_C9_CB_void subcommand_is_implemented W
                 s command flag)
                {| sc_state := {| hs_session := ss; hs_data := d1 |};
                   infinite_hp := hp; infinite_tp := tp; switch_assist := assist;
                   last_switch_enabled_command := last |} =
              (Ret (HandlerResult.of_type FORWARD),
               {| sc_state := {| hs_session := set_session_log log ss; hs_data := d1 |};
                  infinite_hp := hp; infinite_tp := tp; switch_assist := assist;
                  last_switch_enabled_command := last |})).
  { intros d1 Hlen1 H1.
    destruct (process_client_void_skips W s command flag ss d1 hp tp assist last
                (Hfirst d1 Hlen1 H1)) as [log Hvoid].
    exists log. rewrite <- Hvoid.
    unfold bind at 1, get at 1. unfold bind at 1, on_subcommand at 1, get_data at 1.
    cbn [sc_state hs_data]. rewrite H1.
    destruct (Nat.eqb_spec (length d1) 0) as [?|_]; [lia|].
    reflexivity. }
  subst r ss' d'.
  destruct (process_client_60_62_6C_6D_C9_CB _ _ _ G W s command flag _) as [o st'] eqn:Hr.
  cbn [fst snd].
  unfold process_client_60_62_6C_6D_C9_CB in Hr.
  unfold bind at 1, on_subcommand at 1, get_session at 1 in Hr.
  unfold bind at 1, on_subcommand at 1, get_data at 1 in Hr.
  cbn [sc_state hs_session hs_data infinite_hp infinite_tp switch_assist
       last_switch_enabled_command] in Hr.
  destruct (license ss) as [lic|] eqn:Hlic.
  - rewrite H06 in Hr. destruct (Nat.eqb_spec (length d) 0) as [?|_]; [lia|].
    cbn [negb andb Z.eqb Pos.eqb] in Hr.
    unfold bind at 1 in Hr. unfold bind at 1 in Hr.
    destruct (Nat.eq_dec (length d) (sizeof_G_SendGuildCard G)) as [Hsize|Hsize].
    + rewrite on_subcommand_check_size_t_ok in Hr by (cbn [sc_state hs_data]; lia).
      unfold on_subcommand at 1 in Hr. cbn [sc_state] in Hr.
      rewrite rewrite_serial_number_run in Hr.
      cbn [sc_state hs_session hs_data infinite_hp infinite_tp switch_assist
           last_switch_enabled_command] in Hr.
      fold off in Hr.
      destruct (Htail (if get_u32l off d =? serial_number lic
                       then put_u32l off (remote_guild_card_number ss) d else d))
        as [log Hlog].
      { destruct (_ =? _); [|done]. unfold put_u32l. rewrite length_store; lia. }
      { destruct (_ =? _); [|done]. unfold get_u8, put_u32l.
        rewrite load_store_before by lia. exact H06. }
      rewrite Hlog in Hr. injection Hr as <- <-.
      cbn [sc_state hs_session hs_data last_switch_enabled_command].
      split; [done|]. split; [|done].
      intros lic0 [= <-]. split; [done|]. done.
    + destruct (on_subcommand_check_size_t_bad (Z.of_nat (sizeof_G_SendGuildCard G))
                  (Z.of_nat (sizeof_G_SendGuildCard G))
                  {| sc_state := {| hs_session := ss; hs_data := d |};
                     infinite_hp := hp; infinite_tp := tp; switch_assist := assist;
                     last_switch_enabled_command := last |}) as [e He].
      { cbn [sc_state hs_data]. lia. }
      rewrite He in Hr. injection Hr as <- <-.
      cbn [sc_state hs_session hs_data last_switch_enabled_command].
      split; [done|]. split.
      * intros lic0 [= <-]. split; [by exists e|done].
      * intros result [=].
  - unfold bind at 1, ret at 1 in Hr.
    destruct (Htail d Hlen H06) as [log Hlog]. rewrite Hlog in Hr.
    injection Hr as <- <-.
    cbn [sc_state hs_session hs_data last_switch_enabled_command].
    split; [done|]. split; [done|]. done.
Qed.

(** X28.  The cheats of [process_client_60_62_6C_6D_C9_CB]: when the client
    reports a hit (subcommand 2F or 4C) in a session with infinite HP, it is
    sent one command 60 of four pairs of subcommands that add 255 HP each,
    1020 in all; when it reports a technique (subcommand 48) in a session
    with infinite TP, it is sent one pair that adds 255 TP; with the cheat off
    it is sent nothing.  The command itself is forwarded unchanged, and
    nothing is sent to the server. *)
Theorem process_client_cheat_subcommands G W s command flag st :
  let ss := hs_session (sc_state st) in
  let d : bytes := hs_data (sc_state st) in
  let b := get_u8 0 d in
  let pair stat := [0x9A; 0x02; lobby_client_id ss mod 256; 0x00;
                    0x00; 0x00; stat mod 256; 0xFF] in
  let sent := if b =? 0x48
              then (if infinite_tp st then [pair ADD_TP] else [])
              else (if infinite_hp st then [concat (replicate 4 (pair ADD_HP))] else []) in
  let r := process_client_60_62_6C_6D_C9_CB subcommand_is_implemented ADD_HP ADD_TP G W
             s command flag st in
  let ss' := hs_session (sc_state r.2) in
  (0 < length d)%nat ->
  b = 0x2F \/ b = 0x4C \/ b = 0x48 ->
  r.1 = Ret (HandlerResult.of_type FORWARD) /\
  hs_data (sc_state r.2) = d /\
  server_channel ss' = server_channel ss /\
  last_switch_enabled_command r.2 = last_switch_enabled_command st /\
  outbox (client_channel ss') =
    outbox (client_channel ss) ++
    map (fun payload => {| sent_command := 0x60; sent_flag := 0x00; sent_data := payload;
                           sent_crypt := crypt_out (client_channel ss) |}) sent.
Proof.
  intros ss d b pair sent r ss' Hlen Hb.
  destruct st as [[ss0 d0] hp tp assist last].
  cbn [sc_state hs_session hs_data last_switch_enabled_command infinite_hp infinite_tp] in *.
  subst ss d. rename ss0 into ss, d0 into d.
  subst r ss'.
  destruct (process_client_60_62_6C_6D_C9_CB _ _ _ G W s command flag _) as [o st'] eqn:Hr.
  cbn [fst snd].
  unfold process_client_60_62_6C_6D_C9_CB in Hr.
  unfold bind at 1, on_subcommand at 1, get_session at 1 in Hr.
  unfold bind at 1, on_subcommand at 1, get_data at 1 in Hr.
  cbn [sc_state hs_session hs_data infinite_hp infinite_tp switch_assist
       last_switch_enabled_command] in Hr.
  fold b in Hr.
  assert (Hlicense : forall k : unit -> M SubcommandState HandlerResult.t,
            bind match license ss with
                 | Some lic =>
                     if negb (length d =? 0)%nat && (b =? 6)
                     then
                       on_subcommand
                         (check_size_t (Z.of_nat (sizeof_G_SendGuildCard G))
                            (Z.of_nat (sizeof_G_SendGuildCard G))) ;;
                       on_subcommand
                         (rewrite_serial_number lic (offsetof_6x06_guild_card_number G))
                     else ret tt
                 | None => ret tt
                 end k = k tt).
  { intros k. destruct (license ss); [|done].
    destruct Hb as [Hb | [Hb | Hb]]; rewrite Hb; by rewrite andb_false_r. }
  rewrite Hlicense in Hr.
  unfold bind at 1, get at 1 in Hr. unfold bind at 1, on_subcommand at 1, get_data at 1 in Hr.
  cbn [sc_state hs_session hs_data infinite_hp infinite_tp switch_assist
       last_switch_enabled_command] in Hr.
  fold b in Hr.
  destruct (Nat.eqb_spec (length d) 0) as [?|_]; [lia|]. cbn [negb] in Hr.
  assert (Hhp : LobbySend.stats_change_subs 1020 (lobby_client_id ss mod 256) ADD_HP 1020 []
                = concat (replicate 4 (pair ADD_HP))) by reflexivity.
  rewrite Hhp in Hr. clear Hhp.
  change ([154; 2; lobby_client_id ss mod 256; 0] ++ [0; 0; ADD_TP mod 256; 255])
    with (pair ADD_TP) in Hr.
  assert (Hvoid : forall ss1,
            exists log,
              process_client_60_62_6C_6D_C9_CB_void subcommand_is_implemented W s command flag
                {| sc_state := {| hs_session := ss1; hs_data := d |};
                   infinite_hp := hp; infinite_tp := tp; switch_assist := assist;
                   last_switch_enabled_command := last |} =
              (Ret (HandlerResult.of_type FORWARD),
               {| sc_state := {| hs_session := set_session_log log ss1; hs_data := d |};
                  infinite_hp := hp; infinite_tp := tp; switch_assist := assist;
                  last_switch_enabled_command := last |})).
  { intros ss1. apply process_client_void_skips. fold b.
    destruct Hb as [Hb | [Hb | Hb]]; rewrite Hb; by rewrite andb_false_r. }
  assert (Hsend : forall payload,
            exists log,
              (on_subcommand (client_send 0x60 0x00 payload) ;;
               process_client_60_62_6C_6D_C9_CB_void subcommand_is_implemented W s command flag)
                {| sc_state := {| hs_session := ss; hs_data := d |};
                   infinite_hp := hp; infinite_tp := tp; switch_assist := assist;
                   last_switch_enabled_command := last |} =
              (Ret (HandlerResult.of_type FORWARD),
               {| sc_state :=
                    {| hs_session :=
                         set_session_log log
                           (client_enqueue
                              [{| sent_command := 0x60; sent_flag := 0x00;
                                  sent_data := payload;
                                  sent_crypt := crypt_out (client_channel ss) |}] ss);
                       hs_data := d |};
                  infinite_hp := hp; infinite_tp := tp; switch_assist := assist;
                  last_switch_enabled_command := last |})).
  { intros payload. unfold bind at 1, on_subcommand at 1. cbn [sc_state].
    rewrite client_send_run.
    cbn [sc_state hs_session hs_data infinite_hp infinite_tp switch_assist
         last_switch_enabled_command].
    apply Hvoid. }
  subst sent.
  assert (Hcases : (b =? 0x48) = false /\ (b =? 47) || (b =? 76) = true \/
                   (b =? 0x48) = true /\ (b =? 47) || (b =? 76) = false).
  { destruct Hb as [Hb | [Hb | Hb]]; rewrite Hb; auto. }
  destruct Hcases as [[H48 Hhit] | [H48 Hhit]]; rewrite H48; rewrite Hhit in Hr;
    rewrite ?H48 in Hr; unfold when in Hr.
  - destruct hp.
    + destruct (Hsend (concat (replicate 4 (pair ADD_HP)))) as [log Hlog].
      rewrite Hlog in Hr. injection Hr as <- <-.
      cbn [sc_state hs_session hs_data last_switch_enabled_command map].
      repeat split; done.
    + unfold bind at 1, ret at 1 in Hr. destruct (Hvoid ss) as [log Hlog].
      rewrite Hlog in Hr. injection Hr as <- <-.
      cbn [sc_state hs_session hs_data last_switch_enabled_command map].
      rewrite app_nil_r. repeat split; done.
  - destruct tp.
    + destruct (Hsend (pair ADD_TP)) as [log Hlog].
      rewrite Hlog in Hr. injection Hr as <- <-.
      cbn [sc_state hs_session hs_data last_switch_enabled_command map].
      repeat split; done.
    + unfold bind at 1, ret at 1 in Hr. destruct (Hvoid ss) as [log Hlog].
      rewrite Hlog in Hr. injection Hr as <- <-.
      cbn [sc_state hs_session hs_data last_switch_enabled_command map].
      rewrite app_nil_r. repeat split; done.
Qed.

(** The [void] handler on an enabled switch, with switch assist on. *)
Lemma process_client_void_switch W s command flag ss (d : bytes) hp tp last :
  let replay := load 1 (offsetof_6x05_subcommand W) last =? 0x05 in
  let frame ch := {| sent_command := 0x60; sent_flag := 0x00; sent_data := last;
                     sent_crypt := crypt_out ch |} in
  length d = sizeof_G_SwitchStateChanged_6x05 W ->
  get_u8 0 d = 0x05 ->
  load (sizeof_6x05_enabled W) (offsetof_6x05_enabled W) d <> 0 ->
  load (sizeof_6x05_switch_id W) (offsetof_6x05_switch_id W) d <> 0xFFFF ->
  exists ss',
    process_client_60_62_6C_6D_C9_CB_void subcommand_is_implemented W s command flag
      {| sc_state := {| hs_session := ss; hs_data := d |};
         infinite_hp := hp; infinite_tp := tp; switch_assist := true;
         last_switch_enabled_command := last |} =
      (Ret (HandlerResult.of_type FORWARD),
       {| sc_state := {| hs_session := ss'; hs_data := d |};
          infinite_hp := hp; infinite_tp := tp; switch_assist := true;
          last_switch_enabled_command := d |}) /\
    outbox (server_channel ss') =
      outbox (server_channel ss) ++ (if replay then [frame (server_channel ss)] else []) /\
    outbox (client_channel ss') =
      outbox (client_channel ss) ++ (if replay then [frame (client_channel ss)] else []).
Proof.
  intros replay frame Hlen H05 Henabled Hid.
  assert (Hnonempty : (length d =? 0)%nat = false).
  { destruct d; [done|]. done. }
  destruct (check_implemented_subcommand_run ss d) as [log Hlog].
  unfold process_client_60_62_6C_6D_C9_CB_void.
  unfold bind at 1, on_subcommand at 1. cbn [sc_state]. rewrite Hlog.
  unfold bind at 1, get at 1. unfold bind at 1, on_subcommand at 1, get_data at 1.
  cbn [sc_state hs_session hs_data infinite_hp infinite_tp switch_assist
       last_switch_enabled_command].
  rewrite Hnonempty, H05. cbn [negb andb Z.eqb Pos.eqb].
  unfold bind at 1. unfold bind at 1.
  rewrite on_subcommand_check_size_t_ok by (cbn [sc_state hs_data]; lia).
  destruct (Z.eqb_spec (load (sizeof_6x05_enabled W) (offsetof_6x05_enabled W) d) 0)
    as [?|_]; [done|].
  destruct (Z.eqb_spec (load (sizeof_6x05_switch_id W) (offsetof_6x05_switch_id W) d) 0xFFFF)
    as [?|_]; [done|].
  cbn [negb andb]. unfold when at 1. fold replay.
  destruct replay.
  - eexists. split; [reflexivity|].
    done.
  - eexists. split; [reflexivity|]. cbn. by rewrite !app_nil_r.
Qed.

(** X29.  Switch assist: while it is on, the [void] handler remembers the
    last switch command (subcommand 05) that enabled a switch other than
    [0xFFFF], and when the client enables another switch it first sends the
    remembered command again, to the server and to the client.  So of two
    such commands in a row, the second makes the handler send the first to
    both ends, and leaves the second remembered; both are forwarded. *)
Theorem switch_assist_replays W s command1 flag1 command2 flag2 st (d2 : bytes) :
  let d1 : bytes := hs_data (sc_state st) in
  let enabled (d : bytes) := load (sizeof_6x05_enabled W) (offsetof_6x05_enabled W) d in
  let switch_id (d : bytes) :=
    load (sizeof_6x05_switch_id W) (offsetof_6x05_switch_id W) d in
  let r1 := process_client_60_62_6C_6D_C9_CB_void subcommand_is_implemented W
              s command1 flag1 st in
  let ss1 := hs_session (sc_state r1.2) in
  let r2 := process_client_60_62_6C_6D_C9_CB_void subcommand_is_implemented W
              s command2 flag2
              {| sc_state := {| hs_session := ss1; hs_data := d2 |};
                 infinite_hp := infinite_hp r1.2; infinite_tp := infinite_tp r1.2;
                 switch_assist := switch_assist r1.2;
                 last_switch_enabled_command := last_switch_enabled_command r1.2 |} in
  let ss2 := hs_session (sc_state r2.2) in
  let replayed ch := {| sent_command := 0x60; sent_flag := 0x00; sent_data := d1;
                        sent_crypt := crypt_out ch |} in
  switch_assist st = true ->
  offsetof_6x05_subcommand W = 0%nat ->
  length d1 = sizeof_G_SwitchStateChanged_6x05 W ->
  length d2 = sizeof_G_SwitchStateChanged_6x05 W ->
  get_u8 0 d1 = 0x05 ->
  get_u8 0 d2 = 0x05 ->
  enabled d1 <> 0 -> switch_id d1 <> 0xFFFF ->
  enabled d2 <> 0 -> switch_id d2 <> 0xFFFF ->
  r1.1 = Ret (HandlerResult.of_type FORWARD) /\
  r2.1 = Ret (HandlerResult.of_type FORWARD) /\
  outbox (server_channel ss2) =
    outbox (server_channel ss1) ++ [replayed (server_channel ss1)] /\
  outbox (client_channel ss2) =
    outbox (client_channel ss1) ++ [replayed (client_channel ss1)] /\
  last_switch_enabled_command r2.2 = d2.
Proof.
  intros d1 enabled switch_id r1 ss1 r2 ss2 replayed Hassist Hsub Hlen1 Hlen2 H1 H2
    He1 Hs1 He2 Hs2.
  destruct st as [[ss d] hp tp assist last].
  cbn [sc_state hs_session hs_data switch_assist] in *. subst assist d1.
  destruct (process_client_void_switch W s command1 flag1 ss d hp tp last Hlen1 H1 He1 Hs1)
    as (ss1' & Hrun1 & _ & _).
  subst r2 ss2 ss1. subst r1. rewrite Hrun1.
  cbn [fst snd sc_state hs_session hs_data infinite_hp infinite_tp switch_assist
       last_switch_enabled_command].
  destruct (process_client_void_switch W s command2 flag2 ss1' d2 hp tp d Hlen2 H2 He2 Hs2)
    as (ss2' & Hrun2 & Hserver & Hclient).
  rewrite Hrun2.
  cbn [fst snd sc_state hs_session hs_data last_switch_enabled_command].
  rewrite Hsub in Hserver, Hclient.
  change (load 1 0 d) with (get_u8 0 d) in Hserver, Hclient.
  rewrite H1 in Hserver, Hclient.
  by repeat split.
Qed.

End SubcommandFacts.

(** ** The further handlers on the sample values *)

Lemma process_server_97_forwarded_witness :
  let r := sample_more_proxy sample_state true 0x97 0
             {| hs_session := sample_session; hs_data := [] |} in
  flags (newserv_client_config (hs_session r.2)) = 0x01 /\
  outbox (client_channel (hs_session r.2)) =
    [{| sent_command := 0x97; sent_flag := 1; sent_data := [];
        sent_crypt := Some (PSOV3Encryption 2) |}] /\
  outbox (server_channel (hs_session r.2)) = [].
Proof.
  intros r.
  destruct (process_server_97_forwarded sample_encode_sjis sample_decode_sjis
              sample_send_text_message 0x01 0x10 0x20 0x04
              sample_login sample_login sample_verify_license sample_login_extended 12
              sample_server_init_layout sample_search_layout sample_search_layout
              sample_search_layout sample_mail_layout sample_arrow_layout sample_arrow_layout
              sample_layout_of sample_other_handler
              sample_state 0x97 0 sample_session []
              ltac:(discriminate) ltac:(discriminate) eq_refl) as (_ & _ & Hcfg & Hs & Hc).
  split; [exact (f_equal flags Hcfg)|]. split; [exact Hc|exact Hs].
Defined.

Lemma leave_then_return_home_witness :
  let st1 := (process_server_66_69 sample_send_text_message sample_state 0x69 0
                {| hs_session := sample_session; hs_data := sample_69 |}).2 in
  let r := process_client_dc_pc_v3_A0_A1 sample_encode_sjis sample_decode_sjis
             sample_state 0xA0 0 {| hs_session := hs_session st1; hs_data := [] |} in
  exists tail,
    sent_flag <$> outbox (client_channel (hs_session r.2)) = [0; 3] ++ (sent_flag <$> tail) /\
    Forall (fun f => sent_command f <> 0x69) tail.
Proof.
  intros st1 r.
  destruct (leave_then_return_home sample_encode_sjis sample_decode_sjis
              sample_send_text_message sample_state 0x69 0 0xA0 0
              sample_session sample_license sample_69 []
              eq_refl eq_refl ltac:(vm_compute; lia) ltac:(vm_compute; lia))
    as (tail & Hout & Htail).
  exists tail. split; [|exact Htail].
  exact (f_equal (fmap sent_flag) Hout).
Defined.

Lemma join_then_message_box_witness :
  let st1 := (process_server_65_67_68 sample_send_text_message 0x10 0x20 sample_join_layout
                sample_state 0x67 2
                {| hs_session := sample_session_after_join_flag; hs_data := sample_67 |}).2 in
  let r := process_server_v3_1A_D5 0x10 sample_state 0x1A 0
             {| hs_session := hs_session st1; hs_data := [0x41; 0] |} in
  r.1 = Ret (HandlerResult.of_type FORWARD) /\
  outbox (server_channel (hs_session r.2)) =
    [{| sent_command := 0xD6; sent_flag := 0; sent_data := [];
        sent_crypt := Some (PSOV3Encryption 2) |}].
Proof.
  intros st1 r.
  destruct (join_then_message_box sample_send_text_message 0x10 0x20 sample_join_layout
              sample_state 2 sample_session_after_join_flag sample_67 0x1A 0 [0x41; 0]
              ltac:(left; reflexivity) ltac:(vm_compute; discriminate)
              ltac:(discriminate)) as (Hret & _ & Hout & _).
  split; [exact Hret|exact Hout].
Defined.

Lemma process_server_88_C4_entries_witness :
  let r := process_server_88 sample_arrow_layout sample_state 0x88 2
             {| hs_session := sample_session; hs_data := sample_88 |} in
  r.1 = Ret (HandlerResult.of_type MODIFIED) /\
  get_u32l 4 (hs_data r.2) = 2000 /\
  get_u32l 16 (hs_data r.2) = 31337.
Proof.
  intros r.
  destruct (process_server_88_C4_entries sample_arrow_layout sample_state 0x88 2
              sample_session sample_license sample_88
              eq_refl ltac:(vm_compute; split; [discriminate|reflexivity])
              ltac:(vm_compute; lia) ltac:(lia)) as (_ & H88 & _).
  destruct (H88 eq_refl) as (_ & _ & Hentries & _ & Hret).
  split; [exact Hret|]. split.
  - exact (Hentries 0%nat ltac:(vm_compute; lia)).
  - exact (Hentries 1%nat ltac:(vm_compute; lia)).
Defined.

Lemma process_server_41_rewrites_witness :
  let r := process_server_41 sample_search_layout sample_state 0x41 0
             {| hs_session := sample_session; hs_data := sample_41 |} in
  r.1 = Ret (HandlerResult.of_type MODIFIED) /\
  get_u32l 4 (hs_data r.2) = 2000 /\
  get_u32l 8 (hs_data r.2) = 31337.
Proof.
  intros r.
  destruct (process_server_41_rewrites sample_search_layout sample_state 0x41 0
              sample_session sample_41
              ltac:(vm_compute; lia) ltac:(vm_compute; lia)
              ltac:(left; vm_compute; lia)) as [_ Hlinked].
  destruct (Hlinked sample_license eq_refl
              ltac:(vm_compute; split; [discriminate|reflexivity])) as [_ Hsize].
  destruct (Hsize eq_refl) as (Hret & _ & _ & Hsearcher & Hresult & _).
  split; [exact Hret|]. split; [exact Hsearcher|exact Hresult].
Defined.

Lemma sample_mail_layout_ok : mail_layout_ok sample_mail_layout.
Proof. vm_compute. lia. Qed.

Lemma sample_mail_same : same_mail sample_mail_layout (sample_mail 0xCC) (sample_mail 0xDD).
Proof.
  split; [reflexivity|]. split; [|reflexivity].
  intros p Hp. cbn [offsetof_text sizeof_text sample_mail_layout] in Hp.
  destruct (decide (p < 28)%nat) as [Hlt|Hge].
  - unfold sample_mail. rewrite !lookup_app_l; [done|exact Hlt|exact Hlt].
  - rewrite !(proj2 (lookup_ge_None _ _)); [done| |];
      (change (44 <= p)%nat; lia).
Qed.

Lemma process_client_81_clears_text_witness :
  let r1 := process_client_81 sample_mail_layout sample_state 0x81 0
              {| hs_session := sample_session; hs_data := sample_mail 0xCC |} in
  let r2 := process_client_81 sample_mail_layout sample_state 0x81 0
              {| hs_session := sample_session; hs_data := sample_mail 0xDD |} in
  r1 = r2 /\
  field_bytes 28 16 (hs_data r1.2) = ascii_bytes "hi" ++ replicate 14 0.
Proof.
  intros r1 r2.
  destruct (process_client_81_clears_text sample_mail_layout sample_state 0x81 0
              sample_session (sample_mail 0xCC) (sample_mail 0xDD)
              sample_mail_layout_ok eq_refl sample_mail_same) as (Hsame & _ & _ & Htext).
  split; [exact Hsame|exact Htext].
Defined.

Lemma mail_round_trip_witness :
  let out := hs_data (process_client_81 sample_mail_layout sample_state 0x81 0
                        {| hs_session := sample_session; hs_data := sample_mail 0xCC |}).2 in
  let back := hs_data (process_server_81 sample_mail_layout sample_state 0x81 0
                         {| hs_session := sample_session; hs_data := out |}).2 in
  get_u32l 4 out = 55555 /\ get_u32l 24 out = 31337 /\
  get_u32l 4 back = 2000 /\ get_u32l 24 back = 31337 /\
  mail_text sample_mail_layout back = ascii_bytes "hi".
Proof.
  intros out back.
  destruct (mail_round_trip sample_mail_layout sample_state 0x81 0
              sample_session sample_license (sample_mail 0xCC)
              sample_mail_layout_ok eq_refl
              ltac:(vm_compute; split; [discriminate|reflexivity])
              ltac:(vm_compute; split; [discriminate|reflexivity])
              eq_refl) as (Hfrom & Hto & _ & Hfrom' & Hto' & Htext & _ & Hserial & _).
  split; [exact Hfrom|]. split; [exact Hto|].
  split; [exact (Hserial eq_refl)|]. split; [|exact Htext].
  etrans; [exact Hto'|]. by rewrite Hto.
Defined.

Lemma server_init_unlinked_witness :
  let p := sample_more_proxy sample_state true 0x02 0
             {| hs_session := sample_unlicensed_session; hs_data := sample_server_init |} in
  let ss' := hs_session p.2 in
  p.1 = Ret tt /\
  outbox (client_channel ss') =
    [{| sent_command := 0x02; sent_flag := 0; sent_data := sample_server_init;
        sent_crypt := Some (PSOV3Encryption 2) |}] /\
  outbox (server_channel ss') = [].
Proof.
  intros p ss'.
  destruct (server_init_unlinked sample_encode_sjis sample_decode_sjis
              sample_send_text_message 0x01 0x10 0x20 0x04
              sample_login sample_login sample_verify_license sample_login_extended 12
              sample_server_init_layout sample_search_layout sample_search_layout
              sample_search_layout sample_mail_layout sample_arrow_layout sample_arrow_layout
              sample_layout_of sample_other_handler
              sample_server_init_layout sample_state 0x02 0 sample_unlicensed_session
              sample_server_init
              eq_refl ltac:(intros [? _]; discriminate) ltac:(vm_compute; split; discriminate))
    as (_ & _ & _ & _ & _ & _ & _ & _ & Hproxy).
  exact (Hproxy eq_refl ltac:(discriminate) ltac:(left; reflexivity)).
Defined.

Lemma server_init_linked_witness :
  let r := process_server_dc_pc_v3_patch_02_17 0x04 sample_login sample_login
             sample_verify_license sample_login_extended 12 sample_server_init_layout
             sample_state 0x02 0
             {| hs_session := sample_session; hs_data := sample_server_init |} in
  let ss' := hs_session r.2 in
  client_channel ss' = sample_channel /\
  crypt_in (server_channel ss') = Some (PSOV3Encryption 0x11111111) /\
  crypt_out (server_channel ss') = Some (PSOV3Encryption 0x22222222) /\
  exists login,
    outbox (server_channel ss') = [login] /\
    sent_crypt login = Some (PSOV3Encryption 0x22222222) /\
    sent_command login = 0x9E.
Proof.
  intros r ss'.
  destruct (server_init_linked 0x04 sample_login sample_login sample_verify_license
              sample_login_extended 12 sample_server_init_layout sample_state 0x02 0
              sample_session sample_license sample_server_init
              eq_refl ltac:(intros [? _]; discriminate) ltac:(vm_compute; split; discriminate))
    as (Hclient & _ & _ & Hcrypts & _ & Hlogin).
  destruct (Hcrypts ltac:(discriminate)) as [Hin Hout].
  destruct (Hlogin ltac:(discriminate) ltac:(discriminate))
    as (_ & login & Hbox & Hcrypt & Hcommand & _).
  split; [exact Hclient|]. split; [exact Hin|]. split; [exact Hout|].
  exists login. split; [exact Hbox|]. split; [exact Hcrypt|exact Hcommand].
Defined.

Lemma server_init_failure_witness :
  let p := sample_more_proxy sample_state true 0x02 0
             {| hs_session := sample_session; hs_data := sample_short_server_init |} in
  p.1 = Ret tt /\
  connected (client_channel (hs_session p.2)) = false /\
  connected (server_channel (hs_session p.2)) = false /\
  outbox (client_channel (hs_session p.2)) = [] /\
  outbox (server_channel (hs_session p.2)) = [].
Proof.
  exact (server_init_failure sample_encode_sjis sample_decode_sjis
           sample_send_text_message 0x01 0x10 0x20 0x04
           sample_login sample_login sample_verify_license sample_login_extended 12
           sample_server_init_layout sample_search_layout sample_search_layout
           sample_search_layout sample_mail_layout sample_arrow_layout sample_arrow_layout
           sample_layout_of sample_other_handler
           sample_state 0x02 0 sample_session sample_short_server_init
           ltac:(discriminate) ltac:(left; reflexivity) ltac:(left; vm_compute; reflexivity)).
Defined.

Lemma patch_17_is_forwarded_witness :
  let st := {| hs_session := sample_patch_session; hs_data := sample_server_init |} in
  let p := sample_more_proxy sample_state true 0x17 0 st in
  p.1 = Ret tt /\
  server_channel (hs_session p.2) = sample_patch_channel /\
  crypt_out (client_channel (hs_session p.2)) = Some (PSOV2Encryption 8) /\
  outbox (client_channel (hs_session p.2)) =
    [{| sent_command := 0x17; sent_flag := 0; sent_data := sample_server_init;
        sent_crypt := Some (PSOV2Encryption 8) |}].
Proof.
  intros st p.
  destruct (patch_17_is_forwarded sample_encode_sjis sample_decode_sjis
              sample_send_text_message 0x01 0x10 0x20 0x04
              sample_login sample_login sample_verify_license sample_login_extended 12
              sample_server_init_layout sample_search_layout sample_search_layout
              sample_search_layout sample_mail_layout sample_arrow_layout sample_arrow_layout
              sample_layout_of sample_other_handler
              sample_server_init_layout sample_state 0x17 0 sample_patch_session
              sample_server_init eq_refl eq_refl)
    as (_ & Hret & _ & Hserver & _ & Hcrypt & _ & Hout).
  split; [exact Hret|]. split; [exact Hserver|]. split; [exact Hcrypt|exact Hout].
Defined.

(** ** The senders and the file handlers on the sample values *)

Lemma sample_lobby_sendable p o :
  Some p ∈ LobbySend.clients sample_lobby -> Some p <> Some 0%nat ->
  sample_clients !! p = Some o -> ~ unsendable o.
Proof.
  intros Hin Hne Hp [_ Hv]. cbn in Hin.
  apply elem_of_cons in Hin as [[= ->]|Hin]; [done|].
  apply elem_of_cons in Hin as [[=]|Hin].
  apply elem_of_cons in Hin as [[= ->]|Hin]; [|by apply elem_of_nil in Hin].
  vm_compute in Hp. injection Hp as <-. discriminate Hv.
Qed.

Lemma send_command_excluding_client_delivers_witness :
  let r := LobbySend.send_command_excluding_client sample_lobby (Some 0%nat) 0x60 0x00
             [1; 2; 3; 4] sample_clients in
  r.1 = Ret tt /\
  r.2 !! 0%nat = Some (sample_lobby_client GC 0) /\
  r.2 !! 1%nat = Some (deliver 1 0x60 0x00 [1; 2; 3; 4] (sample_lobby_client BB 2)) /\
  r.2 !! 2%nat = Some (sample_lobby_client XB 1).
Proof.
  destruct (send_command_excluding_client_delivers sample_lobby (Some 0%nat) 0x60 0x00
              [1; 2; 3; 4] sample_clients sample_lobby_sendable)
    as (Hret & Hget & Hsame & _).
  split; [exact Hret|]. split; [exact (Hsame 0%nat (or_introl eq_refl))|].
  split; [exact (Hget 1%nat)|].
  apply (Hsame 2%nat). right. cbn. intros Hin.
  apply elem_of_cons in Hin as [[=]|Hin].
  apply elem_of_cons in Hin as [[=]|Hin].
  apply elem_of_cons in Hin as [[=]|Hin]. by apply elem_of_nil in Hin.
Defined.

Lemma send_command_excluding_client_stops_witness :
  let r := LobbySend.send_command_excluding_client sample_lobby_xb None 0x60 0x00
             [1; 2; 3; 4] sample_clients in
  r.1 = Throw (logic_error "unimplemented game version in send_command") /\
  r.2 !! 0%nat = Some (deliver 1 0x60 0x00 [1; 2; 3; 4] (sample_lobby_client GC 0)) /\
  r.2 !! 1%nat = Some (sample_lobby_client BB 2).
Proof.
  assert (Hbefore : forall p o',
            Some p ∈ take 1 (LobbySend.clients sample_lobby_xb) -> Some p <> None ->
            sample_clients !! p = Some o' -> ~ unsendable o').
  { intros p o' Hin _ Hp [_ Hv]. cbn in Hin.
    apply elem_of_cons in Hin as [[= ->]|Hin]; [|by apply elem_of_nil in Hin].
    vm_compute in Hp. injection Hp as <-. discriminate Hv. }
  destruct (send_command_excluding_client_stops sample_lobby_xb None 0x60 0x00
              [1; 2; 3; 4] sample_clients 1%nat 2%nat (sample_lobby_client XB 1)
              eq_refl ltac:(discriminate) eq_refl ltac:(split; [discriminate|reflexivity])
              Hbefore) as (Hret & Hget & Hsame).
  split; [exact Hret|]. split; [exact (Hget 0%nat)|].
  apply (Hsame 1%nat). cbn. intros Hin.
  apply elem_of_cons in Hin as [[=]|Hin]. by apply elem_of_nil in Hin.
Defined.

Lemma send_command_s_delivers_witness :
  let r := LobbySend.send_command_s [sample_lobby; sample_lobby] 0xDA 0x03 []
             sample_clients in
  r.1 = Ret tt /\
  r.2 !! 1%nat = Some (deliver 2 0xDA 0x03 [] (sample_lobby_client BB 2)) /\
  r.2 !! 2%nat = Some (sample_lobby_client XB 1).
Proof.
  assert (Hok : forall l p o,
            l ∈ [sample_lobby; sample_lobby] -> Some p ∈ LobbySend.clients l ->
            sample_clients !! p = Some o -> ~ unsendable o).
  { intros l p o Hl Hin Hp [_ Hv].
    assert (l = sample_lobby) as ->.
    { apply elem_of_cons in Hl as [->|Hl]; [done|].
      apply elem_of_cons in Hl as [->|Hl]; [done|]. by apply elem_of_nil in Hl. }
    cbn in Hin.
    apply elem_of_cons in Hin as [[= ->]|Hin];
      [vm_compute in Hp; injection Hp as <-; discriminate Hv|].
    apply elem_of_cons in Hin as [[=]|Hin].
    apply elem_of_cons in Hin as [[= ->]|Hin]; [|by apply elem_of_nil in Hin].
    vm_compute in Hp. injection Hp as <-. discriminate Hv. }
  destruct (send_command_s_delivers [sample_lobby; sample_lobby] 0xDA 0x03 []
              sample_clients Hok) as (Hret & Hget & Hsame).
  split; [exact Hret|]. split; [exact (Hget 1%nat)|].
  apply (Hsame 2%nat). intros l Hl.
  assert (l = sample_lobby) as ->.
  { apply elem_of_cons in Hl as [->|Hl]; [done|].
    apply elem_of_cons in Hl as [->|Hl]; [done|]. by apply elem_of_nil in Hl. }
  cbn. intros Hin.
  apply elem_of_cons in Hin as [[=]|Hin].
  apply elem_of_cons in Hin as [[=]|Hin].
  apply elem_of_cons in Hin as [[=]|Hin]. by apply elem_of_nil in Hin.
Defined.

Lemma send_player_leave_notification_mirrored_witness :
  let r := process_server_66_69 sample_send_text_message sample_state 0x69 2
             {| hs_session := sample_session;
                hs_data := encode_S_LeaveLobby_66_69_Ep3_E9 2 0 0 |} in
  r.1 = Ret (HandlerResult.of_type FORWARD) /\
  lobby_players (hs_session r.2) !! 2%nat = Some empty_LobbyPlayer /\
  leader_client_id (hs_session r.2) = 0.
Proof.
  destruct (send_player_leave_notification_mirrored sample_send_text_message sample_lobby 2
              sample_state 0x69 2 sample_session sample_clients ltac:(lia))
    as (_ & _ & Hret & _ & Hmirror & Hleader).
  split; [exact Hret|]. split; [|exact Hleader].
  exact (f_equal (fun players => players !! 2%nat) Hmirror).
Defined.



Lemma process_server_gc_E4_unchecked_witness :
  process_server_gc_E4 sample_card_lobby_layout sample_state 0xE4 0
    {| hs_session := sample_unlicensed_session; hs_data := sample_E4 |} = None.
Proof.
  destruct (process_server_gc_E4_unchecked sample_card_lobby_layout sample_state 0xE4 0
              sample_unlicensed_session sample_E4
              ltac:(vm_compute; lia) ltac:(vm_compute; lia)) as (_ & HE4).
  destruct (HE4 eq_refl) as (_ & Hnone & _).
  exact (Hnone eq_refl eq_refl).
Defined.

Lemma process_server_64_mirror_witness :
  exists o st',
    process_server_64 sample_send_text_message sample_join_game_layout
      sample_join_game_ep3_layout sample_state 0x64 2
      (sample_more_state sample_session sample_64) = Some (Ret o, st') /\
    o = HandlerResult.of_type MODIFIED /\
    lobby_players (hs_session (ms_state st')) !! 0%nat =
      Some {| guild_card_number := 2000; name := [] |} /\
    lobby_players (hs_session (ms_state st')) !! 1%nat =
      Some {| guild_card_number := 777; name := [] |} /\
    lobby_players (hs_session (ms_state st')) !! 3%nat =
      Some {| guild_card_number := 4242; name := ascii_bytes "Carol" |}.
Proof.
  destruct (process_server_64_mirror sample_send_text_message sample_join_game_layout
              sample_join_game_ep3_layout sample_state 0x64 2
              (sample_more_state sample_session sample_64)
              ltac:(vm_compute; lia) ltac:(vm_compute; lia) ltac:(vm_compute; lia)
              ltac:(vm_compute; lia) ltac:(vm_compute; lia)
              ltac:(intros lic [= <-]; vm_compute; split; [discriminate|reflexivity])
              ltac:(discriminate)) as (_ & H64).
  destruct (H64 eq_refl) as (o & st' & Hrun & Ho & _ & _ & Hdone & Hkeep).
  exists o, st'. split; [exact Hrun|]. split; [exact Ho|]. split; [|split].
  - exact (Hdone 0%nat ltac:(vm_compute; lia)).
  - exact (Hdone 1%nat ltac:(vm_compute; lia)).
  - exact (Hkeep 3%nat ltac:(vm_compute; lia)).
Defined.

Lemma process_server_64_undefined_witness :
  process_server_64 sample_send_text_message sample_join_game_layout
    sample_join_game_ep3_layout sample_state 0x64 5
    (sample_more_state sample_session sample_64) = None.
Proof.
  apply (process_server_64_undefined sample_send_text_message sample_join_game_layout
           sample_join_game_ep3_layout sample_state 0x64 5
           (sample_more_state sample_session sample_64) eq_refl).
  left. vm_compute. lia.
Defined.

Lemma process_client_6x06_guild_card_witness :
  let r := process_client_60_62_6C_6D_C9_CB sample_subcommand_is_implemented 3 4
             sample_send_guild_card_layout sample_switch_layout sample_state 0x62 0
             (sample_subcommand_state sample_6x06) in
  r.1 = Ret (HandlerResult.of_type FORWARD) /\
  hs_data (sc_state r.2) = put_u32l 8 55555 sample_6x06.
Proof.
  intros r.
  destruct (process_client_6x06_guild_card sample_subcommand_is_implemented 3 4
              sample_send_guild_card_layout sample_switch_layout sample_state 0x62 0
              (sample_subcommand_state sample_6x06)
              ltac:(vm_compute; lia) ltac:(vm_compute; lia) ltac:(vm_compute; lia) eq_refl)
    as (_ & Hlicensed & _).
  destruct (Hlicensed sample_license eq_refl) as (_ & Hsized).
  destruct (Hsized eq_refl) as (Hret & Hdata).
  split; [exact Hret|exact Hdata].
Defined.

Lemma process_client_cheat_subcommands_witness :
  let r := process_client_60_62_6C_6D_C9_CB sample_subcommand_is_implemented 3 4
             sample_send_guild_card_layout sample_switch_layout sample_state 0x60 0
             (sample_subcommand_state sample_6x2F) in
  r.1 = Ret (HandlerResult.of_type FORWARD) /\
  outbox (client_channel (hs_session (sc_state r.2))) =
    [{| sent_command := 0x60; sent_flag := 0x00;
        sent_data := concat (replicate 4 [0x9A; 0x02; 0; 0; 0; 0; 3; 0xFF]);
        sent_crypt := Some (PSOV3Encryption 2) |}].
Proof.
  intros r.
  destruct (process_client_cheat_subcommands sample_subcommand_is_implemented 3 4
              sample_send_guild_card_layout sample_switch_layout sample_state 0x60 0
              (sample_subcommand_state sample_6x2F)
              ltac:(vm_compute; lia) ltac:(left; reflexivity))
    as (Hret & _ & _ & _ & Hout).
  split; [exact Hret|exact Hout].
Defined.

Lemma switch_assist_replays_witness :
  let r1 := process_client_60_62_6C_6D_C9_CB_void sample_subcommand_is_implemented
              sample_switch_layout sample_state 0x60 0
              (sample_subcommand_state (sample_6x05 3)) in
  let r2 := process_client_60_62_6C_6D_C9_CB_void sample_subcommand_is_implemented
              sample_switch_layout sample_state 0x60 0
              {| sc_state := {| hs_session := hs_session (sc_state r1.2);
                                hs_data := sample_6x05 4 |};
                 infinite_hp := infinite_hp r1.2; infinite_tp := infinite_tp r1.2;
                 switch_assist := switch_assist r1.2;
                 last_switch_enabled_command := last_switch_enabled_command r1.2 |} in
  outbox (server_channel (hs_session (sc_state r2.2))) =
    outbox (server_channel (hs_session (sc_state r1.2))) ++
    [{| sent_command := 0x60; sent_flag := 0x00; sent_data := sample_6x05 3;
        sent_crypt := crypt_out (server_channel (hs_session (sc_state r1.2))) |}] /\
  last_switch_enabled_command r2.2 = sample_6x05 4.
Proof.
  intros r1 r2.
  destruct (switch_assist_replays sample_subcommand_is_implemented sample_switch_layout
              sample_state 0x60 0 0x60 0 (sample_subcommand_state (sample_6x05 3))
              (sample_6x05 4)
              eq_refl eq_refl eq_refl eq_refl eq_refl eq_refl
              ltac:(vm_compute; discriminate) ltac:(vm_compute; discriminate)
              ltac:(vm_compute; discriminate) ltac:(vm_compute; discriminate))
    as (_ & _ & Hserver & _ & Hlast).
  split; [exact Hserver|exact Hlast].
Defined.
